(** * rncanopy-registry: the registry assembly pipeline

    A shallow embedding of [scripts/build-registry.js] and
    [scripts/validate-registry.js] together with the properties of the
    registry specification that are checked against them.

    Conventions of the embedding.
    - A JavaScript string is a [string]: a sequence of code units, here
      restricted to U+0000..U+00FF (one [ascii] per code unit).
    - A [Set] is a duplicate-free list in insertion order, which is also
      the order in which [Array.from] and spread enumerate it.
    - A thrown exception is the [Throw] constructor of [result].
    - The console and the written files are explicit state. *)

From Stdlib Require Import String Ascii List ZArith Lia Bool Arith DecimalString.
From Stdlib Require Import Sorting.Sorted Sorting.Permutation Sorting.Mergesort Orders.
Import ListNotations.
Open Scope string_scope.
Open Scope list_scope.
Open Scope nat_scope.

Set Implicit Arguments.

(** ** Exceptions *)

Inductive js_error : Type :=
| TypeError (what : string)
| SyntaxError (what : string)
| ENOENT (path : string).

Inductive result (A : Type) : Type :=
| Ok (a : A)
| Throw (e : js_error).

Arguments Ok {A} a.
Arguments Throw {A} e.

Definition bind {A B : Type} (m : result A) (f : A -> result B) : result B :=
  match m with
  | Ok a => f a
  | Throw e => Throw e
  end.

Notation "x <- m ;; k" := (bind m (fun x => k))
  (at level 61, m at next level, right associativity).

(** [forEach] over an array with a callback that may throw: the first
    exception leaves the loop. *)
Fixpoint forEachM {A S : Type} (f : S -> A -> result S) (l : list A) (s : S)
  : result S :=
  match l with
  | [] => Ok s
  | x :: l' => s' <- f s x ;; forEachM f l' s'
  end.

(** ** Strings *)

Module JsString.

(** The double quote character, U+0022. *)
Definition dquote : ascii := ascii_of_nat 34.
Definition squote : ascii := "'"%char.

Definition code (c : ascii) : nat := nat_of_ascii c.

Definition startsWith (s p : string) : bool := String.prefix p s.

(** [s.includes(p)]. *)
Fixpoint includes (s p : string) : bool :=
  String.prefix p s ||
  match s with
  | EmptyString => false
  | String _ s' => includes s' p
  end.

Fixpoint rev_acc (s acc : string) : string :=
  match s with
  | EmptyString => acc
  | String c s' => rev_acc s' (String c acc)
  end.

Definition endsWith (s p : string) : bool :=
  String.prefix (rev_acc p "") (rev_acc s "").

(** [strip p s] is the rest of [s] after its prefix [p]. *)
Fixpoint strip (p s : string) : option string :=
  match p with
  | EmptyString => Some s
  | String a p' =>
      match s with
      | EmptyString => None
      | String b s' => if Ascii.eqb a b then strip p' s' else None
      end
  end.

(** [s.replace(p, r)] with a string pattern: only the first occurrence
    of [p] is replaced. *)
Fixpoint replaceFirst (s p r : string) : string :=
  match strip p s with
  | Some rest => (r ++ rest)%string
  | None =>
      match s with
      | EmptyString => EmptyString
      | String c s' => String c (replaceFirst s' p r)
      end
  end.

(** [s.replace(re, '')] for a [g] regex [re] of one character class
    [p]: every character of the class is removed. *)
Fixpoint removeAll (p : ascii -> bool) (s : string) : string :=
  match s with
  | EmptyString => EmptyString
  | String c s' => if p c then removeAll p s' else String c (removeAll p s')
  end.

Definition lowerChar (c : ascii) : ascii :=
  let n := code c in
  if ((65 <=? n) && (n <=? 90))
     || ((192 <=? n) && (n <=? 222) && negb (n =? 215))
  then ascii_of_nat (n + 32) else c.

(** [s.toLowerCase()] on U+0000..U+00FF. *)
Fixpoint toLowerCase (s : string) : string :=
  match s with
  | EmptyString => EmptyString
  | String c s' => String (lowerChar c) (toLowerCase s')
  end.

Fixpoint take (n : nat) (s : string) : string :=
  match n, s with
  | S n', String c s' => String c (take n' s')
  | _, _ => EmptyString
  end.

End JsString.

(** ** Sets in insertion order *)

Module JsSet.
Section WithEq.
Variable A : Type.
Variable eqb : A -> A -> bool.

Definition has (x : A) (l : list A) : bool := existsb (eqb x) l.

(** [set.add(x)]. *)
Definition add (l : list A) (x : A) : list A :=
  if has x l then l else l ++ [x].

(** [new Set(array)]. *)
Definition ofList (l : list A) : list A := fold_left add l [].
End WithEq.
End JsSet.

Definition addStr : list string -> string -> list string :=
  JsSet.add String.eqb.

Definition setOfStrings : list string -> list string :=
  JsSet.ofList String.eqb.

(** ** Regular expressions

    A backtracking matcher with the priorities of the ECMAScript
    semantics: alternatives left to right, quantifiers greedy, an
    iteration of a star that consumes nothing is refused. *)

Module Regex.
Import JsString.

Inductive regex : Type :=
| Eps
| Chr (p : ascii -> bool)
| Lit (s : string)
| Seq (r1 r2 : regex)
| Alt (r1 r2 : regex)
| Star (r : regex)
| Group (i : nat) (r : regex).

Definition Plus (r : regex) : regex := Seq r (Star r).
Definition Opt (r : regex) : regex := Alt r Eps.

Fixpoint seqs (l : list regex) : regex :=
  match l with
  | [] => Eps
  | [r] => r
  | r :: l' => Seq r (seqs l')
  end.

Fixpoint alts (r : regex) (l : list regex) : regex :=
  match l with
  | [] => r
  | r' :: l' => Alt r (alts r' l')
  end.

(** Captures: the most recent binding of a group comes first. *)
Definition caps : Type := list (nat * string).

Fixpoint cap (i : nat) (c : caps) : option string :=
  match c with
  | [] => None
  | (j, s) :: c' => if Nat.eqb i j then Some s else cap i c'
  end.

(** What was consumed between the input [s] and its suffix [s']. *)
Definition consumed (s s' : string) : string :=
  take (String.length s - String.length s') s.

(** The iterations of a greedy star over the matcher [m] of its body:
    one more iteration is tried first, and it must consume something;
    failing that, the rest of the pattern goes on.  Each iteration
    shortens the input, so a fuel of the length of the input is never
    used up ([star_fuel] below). *)
Fixpoint starLoop {A : Type}
         (m : string -> caps -> (string -> caps -> option A) -> option A)
         (k : string -> caps -> option A)
         (n : nat) (s : string) (c : caps) {struct n} : option A :=
  match n with
  | O => k s c
  | S n' =>
      match m s c (fun s' c' =>
                     if String.length s' <? String.length s
                     then starLoop m k n' s' c' else None) with
      | Some x => Some x
      | None => k s c
      end
  end.

Fixpoint rmatch {A : Type} (r : regex) (s : string) (c : caps)
         (k : string -> caps -> option A) {struct r} : option A :=
  match r with
  | Eps => k s c
  | Chr p =>
      match s with
      | String a s' => if p a then k s' c else None
      | EmptyString => None
      end
  | Lit l =>
      match strip l s with
      | Some s' => k s' c
      | None => None
      end
  | Seq r1 r2 => rmatch r1 s c (fun s' c' => rmatch r2 s' c' k)
  | Alt r1 r2 =>
      match rmatch r1 s c k with
      | Some x => Some x
      | None => rmatch r2 s c k
      end
  | Star r1 =>
      starLoop (fun s c k => rmatch r1 s c k) k (String.length s) s c
  | Group i r1 =>
      rmatch r1 s c (fun s' c' => k s' ((i, consumed s s') :: c'))
  end.

(** One attempt at the current position. *)
Definition matchHere (r : regex) (s : string) : option (string * caps) :=
  rmatch r s [] (fun s' c => Some (s', c)).

(** [s.match(r)] for a regex without the [g] flag: the leftmost match,
    as the matched text and the captures; [None] is [null]. *)
Fixpoint search (r : regex) (s : string) : option (string * caps) :=
  match matchHere r s with
  | Some (s', c) => Some (consumed s s', c)
  | None =>
      match s with
      | EmptyString => None
      | String _ t => search r t
      end
  end.

(** The successive matches of a [g] regex.  [skip] counts the characters
    of the previous match that are still to be passed; after an empty
    match the scan moves one character on. *)
Fixpoint scan (r : regex) (s : string) (skip : nat) {struct s} : list string :=
  match skip with
  | S k =>
      match s with
      | EmptyString => []
      | String _ t => scan r t k
      end
  | O =>
      match matchHere r s with
      | Some (s', _) =>
          let m := consumed s s' in
          m :: match s with
               | EmptyString => []
               | String _ t => scan r t (Nat.pred (String.length m))
               end
      | None =>
          match s with
          | EmptyString => []
          | String _ t => scan r t 0
          end
      end
  end.

(** [s.match(r)] for a regex with the [g] flag: the array of matched
    texts, or [null] when there is none. *)
Definition matchAll (r : regex) (s : string) : option (list string) :=
  match scan r s 0 with
  | [] => None
  | l => Some l
  end.

(** [x || []]. *)
Definition orEmpty (x : option (list string)) : list string :=
  match x with
  | Some l => l
  | None => []
  end.

(** Character classes. *)
Definition isDot (c : ascii) : bool :=
  negb (code c =? 10) && negb (code c =? 13).

Definition isSpace (c : ascii) : bool :=
  let n := code c in
  ((9 <=? n) && (n <=? 13)) || (n =? 32) || (n =? 160).

Definition isWord (c : ascii) : bool :=
  let n := code c in
  ((65 <=? n) && (n <=? 90)) || ((97 <=? n) && (n <=? 122))
  || ((48 <=? n) && (n <=? 57)) || (n =? 95).

Definition isQuote (c : ascii) : bool :=
  Ascii.eqb c squote || Ascii.eqb c dquote.

Definition notQuote (c : ascii) : bool := negb (isQuote c).

Definition isChar (a c : ascii) : bool := Ascii.eqb a c.

End Regex.

(** ** Content Hasher: MD5 (RFC 1321) over the UTF-8 bytes of the text *)

Module MD5.
Local Open Scope Z_scope.

Definition mask32 : Z := 0xffffffff.
Definition wrap (x : Z) : Z := Z.land x mask32.
Definition add32 (x y : Z) : Z := wrap (x + y).
Definition not32 (x : Z) : Z := Z.lxor x mask32.
Definition rotl32 (x n : Z) : Z :=
  wrap (Z.lor (Z.shiftl x n) (Z.shiftr x (32 - n))).

Definition K : list Z :=
  [0xd76aa478; 0xe8c7b756; 0x242070db; 0xc1bdceee;
   0xf57c0faf; 0x4787c62a; 0xa8304613; 0xfd469501;
   0x698098d8; 0x8b44f7af; 0xffff5bb1; 0x895cd7be;
   0x6b901122; 0xfd987193; 0xa679438e; 0x49b40821;
   0xf61e2562; 0xc040b340; 0x265e5a51; 0xe9b6c7aa;
   0xd62f105d; 0x02441453; 0xd8a1e681; 0xe7d3fbc8;
   0x21e1cde6; 0xc33707d6; 0xf4d50d87; 0x455a14ed;
   0xa9e3e905; 0xfcefa3f8; 0x676f02d9; 0x8d2a4c8a;
   0xfffa3942; 0x8771f681; 0x6d9d6122; 0xfde5380c;
   0xa4beea44; 0x4bdecfa9; 0xf6bb4b60; 0xbebfbc70;
   0x289b7ec6; 0xeaa127fa; 0xd4ef3085; 0x04881d05;
   0xd9d4d039; 0xe6db99e5; 0x1fa27cf8; 0xc4ac5665;
   0xf4292244; 0x432aff97; 0xab9423a7; 0xfc93a039;
   0x655b59c3; 0x8f0ccc92; 0xffeff47d; 0x85845dd1;
   0x6fa87e4f; 0xfe2ce6e0; 0xa3014314; 0x4e0811a1;
   0xf7537e82; 0xbd3af235; 0x2ad7d2bb; 0xeb86d391].

Definition shifts : list Z :=
  [7; 12; 17; 22; 7; 12; 17; 22; 7; 12; 17; 22; 7; 12; 17; 22;
   5; 9; 14; 20; 5; 9; 14; 20; 5; 9; 14; 20; 5; 9; 14; 20;
   4; 11; 16; 23; 4; 11; 16; 23; 4; 11; 16; 23; 4; 11; 16; 23;
   6; 10; 15; 21; 6; 10; 15; 21; 6; 10; 15; 21; 6; 10; 15; 21].

Definition state : Type := (Z * Z * Z * Z)%type.

Definition init : state := (0x67452301, 0xefcdab89, 0x98badcfe, 0x10325476).

(** Step [i] of the 64 of one block [M] of sixteen words. *)
Definition step (M : list Z) (st : state) (i : nat) : state :=
  let '(a, b, c, d) := st in
  let iz := Z.of_nat i in
  let '(f, g) :=
    if (i <? 16)%nat then
      (Z.lor (Z.land b c) (Z.land (not32 b) d), iz)
    else if (i <? 32)%nat then
      (Z.lor (Z.land d b) (Z.land (not32 d) c), (5 * iz + 1) mod 16)
    else if (i <? 48)%nat then
      (Z.lxor (Z.lxor b c) d, (3 * iz + 5) mod 16)
    else
      (Z.lxor c (Z.lor b (not32 d)), (7 * iz) mod 16) in
  let f' := add32 (add32 (add32 f a) (nth i K 0)) (nth (Z.to_nat g) M 0) in
  (d, add32 b (rotl32 f' (nth i shifts 0)), b, c).

Definition block (st : state) (M : list Z) : state :=
  let '(a0, b0, c0, d0) := st in
  let '(a, b, c, d) := fold_left (step M) (seq 0 64) st in
  (add32 a0 a, add32 b0 b, add32 c0 c, add32 d0 d).

(** [n] bytes of [x], least significant first. *)
Fixpoint bytesLE (n : nat) (x : Z) : list Z :=
  match n with
  | O => []
  | S n' => (x mod 256) :: bytesLE n' (x / 256)
  end.

Definition pad (msg : list Z) : list Z :=
  let len := Z.of_nat (List.length msg) in
  msg ++ [0x80] ++ repeat 0 (Z.to_nat ((55 - len) mod 64))
      ++ bytesLE 8 (8 * len).

Definition wordLE (b0 b1 b2 b3 : Z) : Z :=
  b0 + 256 * (b1 + 256 * (b2 + 256 * b3)).

(** The words of the padded message, four bytes each. *)
Fixpoint words (bs : list Z) : list Z :=
  match bs with
  | b0 :: b1 :: b2 :: b3 :: rest => wordLE b0 b1 b2 b3 :: words rest
  | _ => []
  end.

(** Blocks of sixteen words; [n] bounds the number of blocks. *)
Fixpoint blocks (n : nat) (ws : list Z) : list (list Z) :=
  match n, ws with
  | S n', _ :: _ => firstn 16 ws :: blocks n' (skipn 16 ws)
  | _, _ => []
  end.

Definition digest (msg : list Z) : state :=
  let ws := words (pad msg) in
  fold_left block (blocks (List.length ws) ws) init.

Definition hexDigit (n : Z) : ascii :=
  match n mod 16 with
  | 0 => "0" | 1 => "1" | 2 => "2" | 3 => "3" | 4 => "4" | 5 => "5"
  | 6 => "6" | 7 => "7" | 8 => "8" | 9 => "9" | 10 => "a" | 11 => "b"
  | 12 => "c" | 13 => "d" | 14 => "e" | _ => "f"
  end%char.

Definition hexByte (b : Z) (rest : string) : string :=
  String (hexDigit (b / 16)) (String (hexDigit b) rest).

Definition hexWord (w : Z) (rest : string) : string :=
  hexByte w (hexByte (w / 256) (hexByte (w / 65536)
    (hexByte (w / 16777216) rest))).

(** [digest('hex')]. *)
Definition hexOfState (st : state) : string :=
  let '(a, b, c, d) := st in
  hexWord a (hexWord b (hexWord c (hexWord d ""))).

(** The UTF-8 bytes of a text of code units below U+0100. *)
Fixpoint utf8 (s : string) : list Z :=
  match s with
  | EmptyString => []
  | String c s' =>
      let n := Z.of_nat (nat_of_ascii c) in
      if n <? 128 then n :: utf8 s'
      else (192 + n / 64) :: (128 + n mod 64) :: utf8 s'
  end.

(** [crypto.createHash('md5').update(text).digest('hex')]. *)
Definition md5hex (text : string) : string := hexOfState (digest (utf8 text)).

End MD5.

(** ** Source Analyzer ([analyzeComponentFile]) *)

Module Analyzer.
Import JsString Regex.

Definition quoted (g : nat) : list regex :=
  [Chr isQuote; Group g (Plus (Chr notQuote)); Chr isQuote].

(** import, any run without line break, from, spaces, a quoted module
    path (group 1), an optional semicolon; flag g. *)
Definition importRe : regex :=
  seqs ([Lit "import"; Star (Chr isDot); Lit "from"; Plus (Chr isSpace)]
        ++ quoted 1 ++ [Opt (Lit ";")]).

(** from, spaces, a quoted module path (group 1). *)
Definition fromRe : regex :=
  seqs ([Lit "from"; Plus (Chr isSpace)] ++ quoted 1).

Definition declKind : regex :=
  alts (Lit "interface") [Lit "type"; Lit "function"; Lit "const"].

(** export, spaces, a declaration keyword (group 1), spaces, the declared
    name (group 2); flag g. *)
Definition exportRe : regex :=
  seqs [Lit "export"; Plus (Chr isSpace); Group 1 declKind;
        Plus (Chr isSpace); Group 2 (Plus (Chr isWord))].

(** The same with the keyword in a non-capturing group: the name is
    group 1. *)
Definition exportNameRe : regex :=
  seqs [Lit "export"; Plus (Chr isSpace); declKind;
        Plus (Chr isSpace); Group 1 (Plus (Chr isWord))].

Definition literalRe : list regex :=
  [Chr isQuote; Plus (Chr notQuote); Chr isQuote].

(** type, spaces, a name ending in [suffix], an equal sign, a quoted
    literal, then any number of further literals each after a bar;
    flag g. *)
Definition aliasRe (suffix : string) : regex :=
  seqs ([Lit "type"; Plus (Chr isSpace); Star (Chr isWord); Lit suffix;
         Star (Chr isSpace); Lit "="; Star (Chr isSpace)]
        ++ literalRe
        ++ [Star (seqs ([Star (Chr isSpace); Lit "|"; Star (Chr isSpace)]
                        ++ literalRe))]).

Definition variantRe : regex := aliasRe "Variant".
Definition sizeRe : regex := aliasRe "Size".

(** A quoted literal (group 1); flag g. *)
Definition quotedRe : regex := seqs (quoted 1).

Definition tokenRoot : regex :=
  alts (Lit "colors")
       [Lit "spacing"; Lit "radii"; Lit "borders"; Lit "typography";
        Lit "iconSizes"; Lit "opacity"; Lit "shadows"; Lit "haptics"].

Definition isPathChar (c : ascii) : bool :=
  isWord c || isChar "." c || isChar "[" c || isChar "]" c.

(** A token root, a dot, a run of word characters, dots and brackets;
    flag g. *)
Definition tokenRe : regex :=
  seqs [tokenRoot; Lit "."; Plus (Chr isPathChar)].

Definition optEqb (a b : option string) : bool :=
  match a, b with
  | Some x, Some y => String.eqb x y
  | None, None => true
  | _, _ => false
  end.

(** The value returned by [analyzeComponentFile].  An element [None] of
    [exports] is [undefined]. *)
Record analysis : Type := mkAnalysis {
  dependencies : list string;
  exports : list (option string);
  variants : list string;
  sizes : list string;
  hasHaptics : bool;
  hasProvider : bool;
  tokenUsage : list string;
  checksum : string
}.

Definition isRelative (pkg : string) : bool := startsWith pkg ".".

Definition isHostPackage (pkg : string) : bool :=
  startsWith pkg "react-native/"
  || String.eqb pkg "react" || String.eqb pkg "react-native".

(** The callback of [importMatches.forEach]. *)
Definition addImport (deps : list string) (m : string)
  : result (list string) :=
  match search fromRe m with
  | Some (_, c) =>
      match cap 1 c with
      | Some pkg =>
          if negb (startsWith pkg ".")
             && negb (startsWith pkg "react-native/")
          then
            if negb (String.eqb pkg "react")
               && negb (String.eqb pkg "react-native")
            then Ok (addStr deps pkg)
            else Ok deps
          else Ok deps
      | None => Throw (TypeError "pkg.startsWith")
      end
  | None => Ok deps
  end.

(** The callback of [exportMatches.forEach]. *)
Definition addExport (exps : list (option string)) (m : string)
  : list (option string) :=
  match search exportNameRe m with
  | Some (_, c) => JsSet.add optEqb exps (cap 1 c)
  | None => exps
  end.

(** The callback of [variantTypes.forEach] and [sizeTypes.forEach]. *)
Definition addLiterals (acc : list string) (m : string) : list string :=
  fold_left (fun a v => addStr a (removeAll isQuote v))
            (orEmpty (matchAll quotedRe m)) acc.

Definition analyzeText (content : string) : result analysis :=
  let importMatches := orEmpty (matchAll importRe content) in
  deps <- forEachM addImport importMatches [] ;;
  let exportMatches := orEmpty (matchAll exportRe content) in
  let exps := fold_left addExport exportMatches [] in
  let variantTypes := orEmpty (matchAll variantRe content) in
  let vars := fold_left addLiterals variantTypes [] in
  let sizeTypes := orEmpty (matchAll sizeRe content) in
  let szs := fold_left addLiterals sizeTypes [] in
  let haptics :=
    includes content "useHaptics" || includes content "triggerHaptic" in
  let provider :=
    includes content "useTheme" || includes content "useHaptics" in
  let tokenMatches := orEmpty (matchAll tokenRe content) in
  let toks := fold_left addStr tokenMatches [] in
  Ok {| dependencies := deps;
        exports := exps;
        variants := vars;
        sizes := szs;
        hasHaptics := haptics;
        hasProvider := provider;
        tokenUsage := toks;
        checksum := MD5.md5hex content |}.

(** [fs] gives the text of the files that exist; reading a missing
    file throws. *)
Definition readFileSync (fs : string -> option string) (path : string)
  : result string :=
  match fs path with
  | Some content => Ok content
  | None => Throw (ENOENT path)
  end.

Definition analyzeComponentFile (fs : string -> option string)
           (filePath componentName : string) : result analysis :=
  content <- readFileSync fs filePath ;;
  analyzeText content.

End Analyzer.

(** ** Registry configuration ([REGISTRY_CONFIG]) *)

Module Config.
Record config : Type := mk {
  baseUrl : string;
  version : string;
  lastUpdated : string
}.
End Config.

Definition config : Type := Config.config.

(** ** Metadata Synthesizer ([createComponentMetadata]) *)

Module Synthesizer.
Import JsString.
Local Open Scope string_scope.

(** What a lookup in one of the two tables yields when it is truthy.
    The tables are object literals, so besides their own string entries
    the two lower-case keys they inherit answer as well: [constructor]
    (the function [Object]) and [__proto__] (the object
    [Object.prototype]). *)
Inductive entry : Type :=
| Text (s : string)
| ObjectFunction
| ObjectPrototype.

Definition entryEqb (a b : entry) : bool :=
  match a, b with
  | Text x, Text y => String.eqb x y
  | ObjectFunction, ObjectFunction => true
  | ObjectPrototype, ObjectPrototype => true
  | _, _ => false
  end.

Definition inherited (key : string) : option entry :=
  if String.eqb key "constructor" then Some ObjectFunction
  else if String.eqb key "__proto__" then Some ObjectPrototype
  else None.

Fixpoint ownEntry (table : list (string * string)) (key : string)
  : option entry :=
  match table with
  | [] => None
  | (k, v) :: t => if String.eqb key k then Some (Text v) else ownEntry t key
  end.

(** [table[key] || fallback]; no entry of the tables is an empty
    string, so an own entry is always truthy. *)
Definition lookupOr (table : list (string * string)) (key : string)
           (fallback : string) : entry :=
  match ownEntry table key with
  | Some e => e
  | None =>
      match inherited key with
      | Some e => e
      | None => Text fallback
      end
  end.

Definition baseCategories : list (string * string) :=
  [("button", "forms"); ("gradientbutton", "forms"); ("input", "forms");
   ("switch", "forms"); ("slider", "forms"); ("toggle", "forms");
   ("alert", "feedback"); ("toast", "feedback"); ("badge", "feedback");
   ("card", "layout"); ("spinner", "loading")].

Definition baseDescriptions : list (string * string) :=
  [("button", "Customizable button component with multiple variants, sizes, and loading states");
   ("gradientbutton", "Button component with gradient backgrounds and advanced styling");
   ("input", "Text input component with validation states and helper text");
   ("switch", "Toggle control with smooth animations and haptic feedback");
   ("slider", "Range input control with customizable styling");
   ("toggle", "Button-like toggle component with pressed states");
   ("alert", "Inline feedback messages with multiple variants");
   ("toast", "Overlay notifications with positioning and animations");
   ("badge", "Status indicators and labels with multiple variants");
   ("card", "Container component with elevation and customizable styling");
   ("spinner", "Loading indicators with multiple styles and sizes")].

(** [c.toUpperCase()] for one code unit below U+0100.  The sharp s
    becomes two letters; the micro sign and the y with diaeresis have
    their capitals above U+00FF and are kept as they are here. *)
Definition upperChar (c : ascii) : string :=
  let n := code c in
  if (((97 <=? n) && (n <=? 122))
      || ((224 <=? n) && (n <=? 254) && negb (n =? 247)))%nat
  then String (ascii_of_nat (n - 32)) ""
  else if (n =? 223)%nat then "SS"
  else String c "".

(** [s.charAt(0).toUpperCase() + s.slice(1)]. *)
Definition capitalize (s : string) : string :=
  match s with
  | EmptyString => ""
  | String c s' => upperChar c ++ s'
  end.

Record component : Type := mkComponent {
  name : string;
  displayName : string;
  description : entry;
  category : entry;
  dependencies : list string;
  requiredProviders : list string;
  files : list string;
  exports : list (option string);
  variants : list string;
  sizes : list string;
  tokenUsage : list string;
  hasHaptics : bool;
  version : string;
  checksum : string;
  downloadUrl : string;
  metadataUrl : string
}.

Definition createComponentMetadata (cfg : config) (componentName : string)
           (a : Analyzer.analysis) : component :=
  let normalizedName := toLowerCase componentName in
  let displayName := capitalize componentName in
  let requiredProviders := [] in
  let requiredProviders :=
    if Analyzer.hasHaptics a
    then (requiredProviders ++ ["HapticsProvider"])%list else requiredProviders in
  let requiredProviders :=
    if Analyzer.hasProvider a
    then (requiredProviders ++ ["ThemeProvider"])%list else requiredProviders in
  {| name := normalizedName;
     displayName :=
       if String.eqb normalizedName "gradientbutton"
       then "Gradient Button" else displayName;
     description :=
       lookupOr baseDescriptions normalizedName (displayName ++ " component");
     category := lookupOr baseCategories normalizedName "forms";
     dependencies := Analyzer.dependencies a;
     requiredProviders := requiredProviders;
     files := ["component.tsx.template"];
     exports := Analyzer.exports a;
     variants := Analyzer.variants a;
     sizes := Analyzer.sizes a;
     tokenUsage := Analyzer.tokenUsage a;
     hasHaptics := Analyzer.hasHaptics a;
     version := Config.version cfg;
     checksum := Analyzer.checksum a;
     downloadUrl :=
       Config.baseUrl cfg ++ "/components/" ++ normalizedName
               ++ "/component.tsx.template";
     metadataUrl :=
       Config.baseUrl cfg ++ "/components/" ++ normalizedName ++ "/component.json"
  |}.

(** The record synthesized for the component [componentName] whose
    source text is [content]. *)
Definition synthesize (cfg : config) (componentName content : string)
  : result component :=
  a <- Analyzer.analyzeText content ;;
  Ok (createComponentMetadata cfg componentName a).

End Synthesizer.

(** ** The builders of components, providers and tokens

    A source directory is the list of its files, name and text, in the
    order of [readdirSync].  It holds readable files only, one per
    artifact, as the input tree of the specification has them: an
    entry that is a sub-directory or cannot be read, on which
    [readFileSync] would throw, is outside this model.  Only the
    returned record lists are modelled here; the copies written next
    to them do not enter any record. *)

Module Builder.
Import JsString.
Local Open Scope string_scope.

Definition directory : Type := list (string * string).

Fixpoint lookupFile (dir : directory) (file : string) : option string :=
  match dir with
  | [] => None
  | (n, text) :: d => if String.eqb file n then Some text else lookupFile d file
  end.

Definition readdirSync (dir : directory) : list string := map fst dir.

Definition isSource (ext file : string) : bool :=
  endsWith file ext && negb (includes file "index").

(** The body of [componentFiles.forEach] in [buildComponentRegistry]. *)
Definition componentStep (cfg : config) (dir : directory)
           (components : list Synthesizer.component) (componentName : string)
  : result (list Synthesizer.component) :=
  let sourceFile := componentName ++ ".tsx" in
  match lookupFile dir sourceFile with
  | Some _ =>
      analysis <- Analyzer.analyzeComponentFile (lookupFile dir)
                    sourceFile componentName ;;
      let metadata := Synthesizer.createComponentMetadata cfg componentName
                        analysis in
      Ok (components ++ [metadata])%list
  | None => Ok components
  end.

Definition buildComponentRegistry (cfg : config) (dir : directory)
  : result (list Synthesizer.component) :=
  let componentFiles :=
    map (fun file => replaceFirst file ".tsx" "")
        (filter (isSource ".tsx") (readdirSync dir)) in
  forEachM (componentStep cfg dir) componentFiles [].

Record provider : Type := mkProvider {
  p_name : string;
  p_displayName : string;
  p_description : string;
  p_dependencies : list string;
  p_exports : list (option string);
  p_version : string;
  p_checksum : string;
  p_downloadUrl : string
}.

(** The body of [providerFiles.forEach] in [buildProviderRegistry]. *)
Definition providerStep (cfg : config) (dir : directory)
           (providers : list provider) (file : string)
  : result (list provider) :=
  let providerName := replaceFirst file ".tsx" "" in
  match lookupFile dir file with
  | Some _ =>
      analysis <- Analyzer.analyzeComponentFile (lookupFile dir)
                    file providerName ;;
      let providerMetadata :=
        {| p_name := toLowerCase providerName;
           p_displayName := providerName;
           p_description := providerName ++ " context provider";
           p_dependencies := Analyzer.dependencies analysis;
           p_exports := Analyzer.exports analysis;
           p_version := Config.version cfg;
           p_checksum := Analyzer.checksum analysis;
           p_downloadUrl :=
             Config.baseUrl cfg ++ "/providers/" ++ providerName ++ ".tsx.template"
        |} in
      Ok (providers ++ [providerMetadata])%list
  | None => Ok providers
  end.

Definition buildProviderRegistry (cfg : config) (dir : directory)
  : result (list provider) :=
  let providerFiles := filter (isSource ".tsx") (readdirSync dir) in
  forEachM (providerStep cfg dir) providerFiles [].

Record token : Type := mkToken {
  t_name : string;
  t_description : string;
  t_version : string;
  t_checksum : string;
  t_downloadUrl : string
}.

(** The body of [tokenFiles.forEach] in [buildTokenRegistry]. *)
Definition tokenStep (cfg : config) (dir : directory)
           (tokens : list token) (file : string) : list token :=
  let tokenName := replaceFirst file ".ts" "" in
  match lookupFile dir file with
  | Some content =>
      let tokenMetadata :=
        {| t_name := tokenName;
           t_description := tokenName ++ " design tokens";
           t_version := Config.version cfg;
           t_checksum := MD5.md5hex content;
           t_downloadUrl :=
             Config.baseUrl cfg ++ "/tokens/" ++ tokenName ++ ".ts.template"
        |} in
      (tokens ++ [tokenMetadata])%list
  | None => tokens
  end.

Definition buildTokenRegistry (cfg : config) (dir : directory)
  : list token :=
  let tokenFiles := filter (isSource ".ts") (readdirSync dir) in
  fold_left (tokenStep cfg dir) tokenFiles [].

End Builder.

(** ** JSON values and [JSON.stringify] *)

Module Json.
Import JsString.
Local Open Scope string_scope.

(** A value as [JSON.parse] returns it.  A number is kept as the text
    that [String(n)] gives for it ([0] also for minus zero).  An object
    is the list of its own properties in enumeration order, with
    distinct keys. *)
#[warnings="-register-all"]
Inductive json : Type :=
| JNull
| JBool (b : bool)
| JNum (text : string)
| JStr (s : string)
| JArr (items : list json)
| JObj (members : list (string * json)).

(** A value or [undefined]. *)
Definition value : Type := option json.

Fixpoint assoc (members : list (string * json)) (key : string) : value :=
  match members with
  | [] => None
  | (k, v) :: m => if String.eqb key k then Some v else assoc m key
  end.

(** [v[key]] for the property names this pipeline reads, none of which
    is inherited from a prototype or is an index or [length]: only an
    object can have them, and reading from [null] or [undefined]
    throws. *)
Definition get (v : value) (key : string) : result value :=
  match v with
  | None => Throw (TypeError key)
  | Some JNull => Throw (TypeError key)
  | Some (JObj m) => Ok (assoc m key)
  | Some _ => Ok None
  end.

Definition truthy (v : value) : bool :=
  match v with
  | None => false
  | Some JNull => false
  | Some (JBool b) => b
  | Some (JNum t) => negb (String.eqb t "0") && negb (String.eqb t "NaN")
  | Some (JStr s) => negb (String.eqb s "")
  | Some (JArr _) => true
  | Some (JObj _) => true
  end.

Definition decimal (n : nat) : string :=
  NilEmpty.string_of_uint (Nat.to_uint n).

(** [Object.keys(v)]. *)
Definition objectKeys (v : json) : list string :=
  match v with
  | JObj m => map fst m
  | JArr l => map decimal (seq 0 (List.length l))
  | JStr s => map decimal (seq 0 (String.length s))
  | _ => []
  end.

Definition hasOwnProperty (v : json) (key : string) : bool :=
  match v with
  | JObj m => existsb (String.eqb key) (map fst m)
  | _ => false
  end.

Definition hexDigit (n : nat) : ascii := MD5.hexDigit (Z.of_nat n).

(** One code unit inside a quoted JSON string. *)
Definition quoteChar (c : ascii) : string :=
  let n := code c in
  let bs := String "\" "" in
  if (n =? 34)%nat then bs ++ String dquote ""
  else if (n =? 92)%nat then bs ++ bs
  else if (n =? 8)%nat then bs ++ "b"
  else if (n =? 9)%nat then bs ++ "t"
  else if (n =? 10)%nat then bs ++ "n"
  else if (n =? 12)%nat then bs ++ "f"
  else if (n =? 13)%nat then bs ++ "r"
  else if (n <? 32)%nat
  then bs ++ "u00" ++ String (hexDigit (n / 16)) (String (hexDigit n) "")
  else String c "".

Fixpoint quoteBody (s : string) : string :=
  match s with
  | EmptyString => ""
  | String c s' => quoteChar c ++ quoteBody s'
  end.

Definition quote (s : string) : string :=
  String dquote (quoteBody s ++ String dquote "").

Definition join (sep : string) (parts : list string) : string :=
  String.concat sep parts.

Definition newline : string := String (ascii_of_nat 10) "".

(** The text of an array or object from the texts of its parts. *)
Definition enclose (opening closing gap stepback indent : string)
           (parts : list string) : string :=
  match parts with
  | [] => opening ++ closing
  | _ =>
      if String.eqb gap ""
      then opening ++ join "," parts ++ closing
      else opening ++ newline ++ indent
           ++ join ("," ++ newline ++ indent) parts
           ++ newline ++ stepback ++ closing
  end.

Definition nonFinite (t : string) : bool :=
  String.eqb t "Infinity" || String.eqb t "-Infinity" || String.eqb t "NaN".

(** The serialization of a value with the gap [gap] at the current
    indentation [stepback]. *)
Fixpoint serialize (gap stepback : string) (v : json) {struct v} : string :=
  let indent := stepback ++ gap in
  match v with
  | JNull => "null"
  | JBool true => "true"
  | JBool false => "false"
  | JNum t => if nonFinite t then "null" else t
  | JStr s => quote s
  | JArr l =>
      enclose "[" "]" gap stepback indent (map (serialize gap indent) l)
  | JObj m =>
      enclose "{" "}" gap stepback indent
        (map (fun kv : string * json =>
                let (k, x) := kv in
                quote k ++ ":" ++ (if String.eqb gap "" then "" else " ")
                      ++ serialize gap indent x) m)
  end.

(** [JSON.stringify(v)]; of [undefined] it is [undefined]. *)
Definition stringify (v : value) : option string :=
  option_map (serialize "" "") v.

(** [JSON.stringify(v, null, 2)]. *)
Definition stringify2 (v : value) : option string :=
  option_map (serialize "  " "") v.

(** An object literal: the properties whose value is [undefined] are
    left out by [JSON.stringify]. *)
Fixpoint object (fields : list (string * value)) : list (string * json) :=
  match fields with
  | [] => []
  | (k, Some v) :: f => (k, v) :: object f
  | (_, None) :: f => object f
  end.

(** [array.map] with a callback that may throw. *)
Fixpoint mapM {A B : Type} (f : A -> result B) (l : list A)
  : result (list B) :=
  match l with
  | [] => Ok []
  | x :: l' => y <- f x ;; ys <- mapM f l' ;; Ok (y :: ys)
  end.

End Json.

(** ** Conversion to a string

    [String(v)] as a template literal, [Array.prototype.join] and the
    default order of [Array.prototype.sort] compute it.  An object
    parsed from JSON answers with the inherited [toString], unless it
    has an own property of that name: that one is no function, and
    neither is what [valueOf] then gives a primitive, so the conversion
    throws. *)

Module JsConvert.
Import Json.
Local Open Scope string_scope.

Fixpoint toText (v : json) {struct v} : result string :=
  match v with
  | JNull => Ok "null"
  | JBool true => Ok "true"
  | JBool false => Ok "false"
  | JNum t => Ok t
  | JStr s => Ok s
  | JArr l =>
      parts <-
        (fix elements (l : list json) : result (list string) :=
           match l with
           | [] => Ok []
           | x :: l' =>
               p <- match x with
                    | JNull => Ok ""
                    | _ => toText x
                    end ;;
               ps <- elements l' ;;
               Ok (p :: ps)
           end) l ;;
      Ok (join "," parts)
  | JObj m =>
      if hasOwnProperty v "toString"
      then Throw (TypeError "Cannot convert object to primitive value")
      else Ok "[object Object]"
  end.

(** The text of one element in [array.join]. *)
Definition elementText (x : json) : result string :=
  match x with
  | JNull => Ok ""
  | _ => toText x
  end.

(** [array.join(sep)]. *)
Definition joinWith (sep : string) (l : list json) : result string :=
  parts <- mapM elementText l ;;
  Ok (join sep parts).

Definition toString (v : value) : result string :=
  match v with
  | None => Ok "undefined"
  | Some x => toText x
  end.

(** [SameValueZero] on values parsed from JSON: two objects or two
    arrays are never the same value. *)
Definition sameValueZero (a b : value) : bool :=
  match a, b with
  | None, None => true
  | Some JNull, Some JNull => true
  | Some (JBool x), Some (JBool y) => Bool.eqb x y
  | Some (JNum x), Some (JNum y) => String.eqb x y
  | Some (JStr x), Some (JStr y) => String.eqb x y
  | _, _ => false
  end.

End JsConvert.

(** ** Template Processor ([buildTemplateRegistry])

    The templates directory is given by its sub-directories that hold a
    [template.json], each with what [JSON.parse] makes of that file: a
    value or a thrown [SyntaxError].  A path is the list of the segments
    that the code joins below [REGISTRY_PATH].  The file system is one
    that accepts every write of a file placed directly in a directory
    that exists; the name of a token group is taken as the name of such
    a file, which it is when it holds no path separator
    ([TemplateRunSpec.plainGroups]). *)

Module Templates.
Import JsString Json.
Local Open Scope string_scope.

Inductive event : Type :=
| LogBuilding
| LogProcessing (templateName : string)
| WarnMissingColors (templateName : string)
| LogDone (displayName : value) (generatedFiles : list string)
| ErrorProcessing (templateName : string) (e : js_error)
| LogCreatedDirectory
| LogGenerated (count : nat).

Record world : Type := mkWorld {
  console : list event;
  disk : list (list string * string)
}.

Definition emit (e : event) (w : world) : world :=
  {| console := console w ++ [e]; disk := disk w |}.

(** [fs.writeFileSync(path, text)]; [text] must not be [undefined]. *)
Definition writeFileSync (path : list string) (text : option string) (w : world)
  : world * result unit :=
  match text with
  | Some t => ({| console := console w; disk := disk w ++ [(path, t)] |}, Ok tt)
  | None => (w, Throw (TypeError "data"))
  end.

(** [hash.update(text)]; [text] must not be [undefined]. *)
Definition md5 (text : option string) : result string :=
  match text with
  | Some t => Ok (MD5.md5hex t)
  | None => Throw (TypeError "data")
  end.

Record tokenFile : Type := mkTokenFile {
  tf_type : string;
  tf_url : string;
  tf_checksum : string
}.

Record template : Type := mkTemplate {
  name : value;
  displayName : value;
  description : value;
  author : value;
  version : value;
  lastUpdated : string;
  personality : value;
  preview : value;
  tokenFiles : list tokenFile;
  templateUrl : string;
  metadataUrl : string;
  checksum : string
}.

Definition tokenFileJson (tf : tokenFile) : json :=
  JObj [("type", JStr (tf_type tf)); ("url", JStr (tf_url tf));
        ("checksum", JStr (tf_checksum tf))].

Definition templateJson (t : template) : json :=
  JObj (object
    [("name", name t); ("displayName", displayName t);
     ("description", description t); ("author", author t);
     ("version", version t); ("lastUpdated", Some (JStr (lastUpdated t)));
     ("personality", personality t); ("preview", preview t);
     ("tokenFiles", Some (JArr (map tokenFileJson (tokenFiles t))));
     ("templateUrl", Some (JStr (templateUrl t)));
     ("metadataUrl", Some (JStr (metadataUrl t)));
     ("checksum", Some (JStr (checksum t)))]).

Definition templateDir (templateName : string) : list string :=
  ["templates"; templateName].

(** The [tokenTypes.forEach] loop: one file per token group. *)
Fixpoint writeTokenFiles (templateName : string) (tokens : value)
         (tokenTypes : list string) (generatedFiles : list string)
         (w : world) : world * result (list string) :=
  match tokenTypes with
  | [] => (w, Ok generatedFiles)
  | tokenType :: rest =>
      match get tokens tokenType with
      | Throw e => (w, Throw e)
      | Ok tokenData =>
          let tokenFile := tokenType ++ ".json" in
          let tokenPath := (templateDir templateName ++ [tokenFile])%list in
          match writeFileSync tokenPath (stringify2 tokenData) w with
          | (w', Throw e) => (w', Throw e)
          | (w', Ok _) =>
              writeTokenFiles templateName tokens rest
                (generatedFiles ++ [tokenFile])%list w'
          end
      end
  end.

(** The callback of [generatedFiles.map]. *)
Definition tokenFileEntry (cfg : config) (templateName : string)
           (tokens : value) (file : string) : result tokenFile :=
  let type := replaceFirst file ".json" "" in
  tokenData <- get tokens type ;;
  sum <- md5 (stringify tokenData) ;;
  Ok {| tf_type := type;
        tf_url := Config.baseUrl cfg ++ "/templates/" ++ templateName ++ "/" ++ file;
        tf_checksum := sum |}.

(** The body of the [try] block.  [Ok None] is the early [return]. *)
Definition tryBlock (cfg : config) (templateName : string)
           (parsed : result json) (w : world)
  : world * result (option template) :=
  let w := emit (LogProcessing templateName) w in
  match parsed with
  | Throw e => (w, Throw e)
  | Ok doc =>
      let template := Some doc in
      match get template "tokens" with
      | Throw e => (w, Throw e)
      | Ok tokens =>
          let colors :=
            if truthy tokens then get tokens "colors" else Ok None in
          match colors with
          | Throw e => (w, Throw e)
          | Ok colors =>
              if negb (truthy tokens) || negb (truthy colors)
              then (emit (WarnMissingColors templateName) w, Ok None)
              else
                let tokenTypes :=
                  match tokens with
                  | Some t => objectKeys t
                  | None => []
                  end in
                match writeTokenFiles templateName tokens tokenTypes [] w with
                | (w, Throw e) => (w, Throw e)
                | (w, Ok generatedFiles) =>
                    let fields :=
                      entries <- mapM (tokenFileEntry cfg templateName tokens)
                                      generatedFiles ;;
                      n <- get template "name" ;;
                      dn <- get template "displayName" ;;
                      de <- get template "description" ;;
                      au <- get template "author" ;;
                      ve <- get template "version" ;;
                      pe <- get template "personality" ;;
                      pr <- get template "preview" ;;
                      sum <- md5 (stringify template) ;;
                      Ok {| name := n; displayName := dn; description := de;
                            author := au; version := ve;
                            lastUpdated := Config.lastUpdated cfg;
                            personality := pe; preview := pr;
                            tokenFiles := entries;
                            templateUrl :=
                              Config.baseUrl cfg ++ "/templates/" ++ templateName
                                      ++ "/template.json";
                            metadataUrl :=
                              Config.baseUrl cfg ++ "/templates/" ++ templateName
                                      ++ "/metadata.json";
                            checksum := sum |} in
                    match fields with
                    | Throw e => (w, Throw e)
                    | Ok templateMetadata =>
                        match writeFileSync
                                (templateDir templateName ++ ["metadata.json"])%list
                                (stringify2 (Some (templateJson templateMetadata)))
                                w with
                        | (w, Throw e) => (w, Throw e)
                        | (w, Ok _) =>
                            (* The record is pushed before the line
                               is printed: when the display name does
                               not convert to a string, the [catch]
                               prints its error and the record stays. *)
                            match JsConvert.toString
                                    (displayName templateMetadata) with
                            | Ok _ =>
                                (emit (LogDone (displayName templateMetadata)
                                               generatedFiles) w,
                                 Ok (Some templateMetadata))
                            | Throw e =>
                                (emit (ErrorProcessing templateName e) w,
                                 Ok (Some templateMetadata))
                            end
                        end
                    end
                end
          end
      end
  end.

(** The callback of [templateDirs.forEach]: the [try] block and its
    [catch]. *)
Definition processTemplate (cfg : config)
           (st : world * list template) (dir : string * result json)
  : world * list template :=
  let (w, templates) := st in
  let (templateName, parsed) := dir in
  match tryBlock cfg templateName parsed w with
  | (w', Ok (Some metadata)) => (w', (templates ++ [metadata])%list)
  | (w', Ok None) => (w', templates)
  | (w', Throw e) => (emit (ErrorProcessing templateName e) w', templates)
  end.

Record stats : Type := mkStats {
  totalTemplates : nat;
  availableThemes : list value;
  tokenTypes : list string;
  personalities : list string
}.

Record api : Type := mkApi {
  api_version : string;
  api_lastUpdated : string;
  api_baseUrl : string;
  api_templates : list template;
  api_stats : stats
}.

(** The callback of the [personalities] map: a template literal, which
    reads and converts the three members in turn. *)
Definition personalityOf (t : template) : result string :=
  mood <- get (personality t) "mood" ;;
  mood <- JsConvert.toString mood ;;
  spacing <- get (personality t) "spacing" ;;
  spacing <- JsConvert.toString spacing ;;
  roundness <- get (personality t) "roundness" ;;
  roundness <- JsConvert.toString roundness ;;
  Ok (mood ++ "-" ++ spacing ++ "-" ++ roundness).

Definition undefinedAsNull (v : value) : json :=
  match v with Some x => x | None => JNull end.

Definition apiJson (a : api) : json :=
  JObj [("version", JStr (api_version a));
        ("lastUpdated", JStr (api_lastUpdated a));
        ("baseUrl", JStr (api_baseUrl a));
        ("templates", JArr (map templateJson (api_templates a)));
        ("stats",
          JObj [("totalTemplates", JNum (decimal (totalTemplates (api_stats a))));
                ("availableThemes",
                  JArr (map undefinedAsNull (availableThemes (api_stats a))));
                ("tokenTypes", JArr (map JStr (tokenTypes (api_stats a))));
                ("personalities",
                  JArr (map JStr (personalities (api_stats a))))])].

(** The comprehensive templates API built after the loop. *)
Definition buildApi (cfg : config) (templates : list template) : result api :=
  ps <- mapM personalityOf templates ;;
  Ok {| api_version := Config.version cfg;
        api_lastUpdated := Config.lastUpdated cfg;
        api_baseUrl := Config.baseUrl cfg;
        api_templates := templates;
        api_stats :=
          {| totalTemplates := List.length templates;
             availableThemes := map name templates;
             tokenTypes :=
               match templates with
               | t0 :: _ => map tf_type (tokenFiles t0)
               | [] => []
               end;
             personalities := setOfStrings ps |} |}.

(** [buildTemplateRegistry]; [None] for [templateDirs] stands for a
    missing templates directory.  The result holds the final console
    and disk, and either the returned [templates] with the published
    API or the exception that left the function. *)
Definition buildTemplateRegistry (cfg : config)
           (templateDirs : option (list (string * result json))) (w : world)
  : world * result (list template * option api) :=
  let w := emit LogBuilding w in
  match templateDirs with
  | None => (emit LogCreatedDirectory w, Ok ([], None))
  | Some dirs =>
      let (w, templates) := fold_left (processTemplate cfg) dirs (w, []) in
      match buildApi cfg templates with
      | Throw e => (w, Throw e)
      | Ok a =>
          match writeFileSync ["api"; "templates.json"]
                  (stringify2 (Some (apiJson a))) w with
          | (w, Throw e) => (w, Throw e)
          | (w, Ok _) =>
              (emit (LogGenerated (List.length templates)) w,
               Ok (templates, Some a))
          end
      end
  end.

End Templates.

(** ** Registry Assembler ([buildRegistryIndex]) *)

Module StringOrder <: TotalLeBool.
Definition t : Type := string.
Definition leb : t -> t -> bool := String.leb.
Lemma leb_total : forall x y : t, leb x y = true \/ leb y x = true.
Proof. exact String.leb_total. Qed.
End StringOrder.

Module StringSort := Sort StringOrder.

Module Index.
Local Open Scope string_scope.

Record stats : Type := mkStats {
  components : nat;
  templates : nat;
  providers : nat;
  tokens : nat;
  totalDependencies : nat
}.

Record endpoints : Type := mkEndpoints {
  e_components : string;
  e_templates : string;
  e_providers : string;
  e_tokens : string
}.

Record index : Type := mkIndex {
  version : string;
  lastUpdated : string;
  baseUrl : string;
  i_stats : stats;
  i_endpoints : endpoints;
  categories : list Synthesizer.entry;
  dependencies : list string
}.

(** [array.sort()] on strings: ascending in the order of the code
    units. *)
Definition sort (l : list string) : list string := StringSort.sort l.

(** [[...new Set(components.flatMap(c => c.dependencies))]]. *)
Definition allDependencies (comps : list Synthesizer.component)
  : list string :=
  setOfStrings (flat_map Synthesizer.dependencies comps).

Definition buildRegistryIndex (cfg : config)
           (comps : list Synthesizer.component)
           (temps : list Templates.template)
           (provs : list Builder.provider)
           (toks : list Builder.token) : index :=
  {| version := Config.version cfg;
     lastUpdated := Config.lastUpdated cfg;
     baseUrl := Config.baseUrl cfg;
     i_stats :=
       {| components := List.length comps;
          templates := List.length temps;
          providers := List.length provs;
          tokens := List.length toks;
          totalDependencies := List.length (allDependencies comps) |};
     i_endpoints :=
       {| e_components := Config.baseUrl cfg ++ "/api/components.json";
          e_templates := Config.baseUrl cfg ++ "/api/templates.json";
          e_providers := Config.baseUrl cfg ++ "/api/providers.json";
          e_tokens := Config.baseUrl cfg ++ "/api/tokens.json" |};
     categories :=
       JsSet.ofList Synthesizer.entryEqb (map Synthesizer.category comps);
     dependencies := sort (allDependencies comps) |}.

End Index.

(** ** Integrity Validator ([validateComponents])

    The file system is what [fs.existsSync] answers for the path joined
    from [REGISTRY_PATH] and a list of segments. *)

Module Validator.
Import Json.
Local Open Scope string_scope.

Inductive event : Type :=
| LogValidating
| ErrorApiMissing
| ErrorNotArray
| ErrorMissingField (name field : string)
| ErrorDirectoryMissing (name : string)
| ErrorTemplateMissing (name : string)
| ErrorMetadataMissing (name : string)
| LogValid (name : string)
| LogTotal (count : nat)
| ErrorValidating (e : js_error).

(** The lines printed with [console.error]. *)
Definition isDefect (e : event) : bool :=
  match e with
  | LogValidating | LogValid _ | LogTotal _ => false
  | _ => true
  end.

Definition requiredFields : list string :=
  ["name"; "displayName"; "description"; "category"; "dependencies";
   "exports"; "version"].

(** The loop state: [isValid] and the console. *)
Definition state : Type := (bool * list event)%type.

Definition report (e : event) (st : state) : state :=
  (false, (snd st ++ [e])%list).

(** [component.name || 'unknown'] inside a template literal. *)
Definition nameOrUnknown (component : json) : result string :=
  match component with
  | JObj m =>
      let n := assoc m "name" in
      if truthy n then JsConvert.toString n else Ok "unknown"
  | _ => Ok "unknown"
  end.

(** The callback of [requiredFields.forEach].  Calling
    [component.hasOwnProperty] throws on [null] and when the record has
    an own property of that name, which is never a function. *)
Definition checkField (component : json) (st : state) (field : string)
  : result state :=
  match component with
  | JNull => Throw (TypeError "hasOwnProperty")
  | _ =>
      if hasOwnProperty component "hasOwnProperty"
      then Throw (TypeError "component.hasOwnProperty is not a function")
      else if hasOwnProperty component field then Ok st
      else
        name <- nameOrUnknown component ;;
        Ok (report (ErrorMissingField name field) st)
  end.

(** A loop whose callback may throw: what was printed before the
    exception stays printed. *)
Fixpoint forEachState {A : Type} (f : state -> A -> state * result unit)
         (l : list A) (st : state) : state * result unit :=
  match l with
  | [] => (st, Ok tt)
  | x :: l' =>
      match f st x with
      | (st', Ok _) => forEachState f l' st'
      | (st', Throw e) => (st', Throw e)
      end
  end.

Definition checkFields (component : json) (st : state)
  : state * result unit :=
  forEachState
    (fun st field =>
       match checkField component st field with
       | Ok st' => (st', Ok tt)
       | Throw e => (st, Throw e)
       end)
    requiredFields st.

(** The callback of [components.forEach].  [path.join] throws unless
    [component.name] is a string. *)
Definition checkComponent (existsSync : list string -> bool)
           (st : state) (component : json) : state * result unit :=
  match checkFields component st with
  | (st, Throw e) => (st, Throw e)
  | (st, Ok _) =>
      match component with
      | JObj m =>
          match assoc m "name" with
          | Some (JStr name) =>
              let componentDir := ["components"; name] in
              let st :=
                if negb (existsSync componentDir)
                then report (ErrorDirectoryMissing name) st
                else
                  let templateFile :=
                    (componentDir ++ ["component.tsx.template"])%list in
                  let metadataFile :=
                    (componentDir ++ ["component.json"])%list in
                  let st :=
                    if negb (existsSync templateFile)
                    then report (ErrorTemplateMissing name) st else st in
                  if negb (existsSync metadataFile)
                  then report (ErrorMetadataMissing name) st else st in
              let st :=
                if fst st then (fst st, (snd st ++ [LogValid name])%list)
                else st in
              (st, Ok tt)
          | _ => (st, Throw (TypeError "path"))
          end
      | _ => (st, Throw (TypeError "path"))
      end
  end.

(** [validateComponents]: the verdict and the console.  [apiFile] is
    [None] when [api/components.json] does not exist, and otherwise
    what [JSON.parse] makes of it. *)
Definition validateComponents (existsSync : list string -> bool)
           (apiFile : option (result json)) : bool * list event :=
  let console := [LogValidating] in
  match apiFile with
  | None => (false, (console ++ [ErrorApiMissing])%list)
  | Some (Throw e) => (false, (console ++ [ErrorValidating e])%list)
  | Some (Ok componentsData) =>
      match get (Some componentsData) "components" with
      | Throw e => (false, (console ++ [ErrorValidating e])%list)
      | Ok field =>
          let components :=
            if truthy field then field else Some componentsData in
          match components with
          | Some (JArr items) =>
              match forEachState (checkComponent existsSync) items
                      (true, console) with
              | (st, Ok _) =>
                  (fst st, (snd st ++ [LogTotal (List.length items)])%list)
              | (st, Throw e) => (false, (snd st ++ [ErrorValidating e])%list)
              end
          | _ => (false, (console ++ [ErrorNotArray])%list)
          end
      end
  end.

Definition defects (run : bool * list event) : list event :=
  filter isDefect (snd run).

End Validator.

(** ** The validation script as a whole

    The registry tree as the validation script sees it: what
    [fs.existsSync] answers for the path joined from [REGISTRY_PATH] and
    a list of segments, and what [JSON.parse(fs.readFileSync(path))]
    returns or throws for it. *)

Module Registry.

Record files : Type := mkFiles {
  existsSync : list string -> bool;
  readJson : list string -> result Json.json
}.

(** The argument of the existing [validateComponents]. *)
Definition componentsFile (fs : files) : option (result Json.json) :=
  if existsSync fs ["api"; "components.json"]
  then Some (readJson fs ["api"; "components.json"]) else None.

End Registry.

(** *** [validateRegistryStructure] *)

Module StructureValidator.
Import Registry.
Local Open Scope string_scope.

Inductive event : Type :=
| LogValidating
| ErrorMissingDirectory (dir : string)
| LogDirectoryExists (dir : string)
| ErrorMissingFile (file : list string)
| LogValidJson (file : list string)
| ErrorInvalidJson (file : list string) (e : js_error).

Definition isDefect (e : event) : bool :=
  match e with
  | ErrorMissingDirectory _ | ErrorMissingFile _ | ErrorInvalidJson _ _ => true
  | _ => false
  end.

Definition requiredDirs : list string :=
  ["api"; "components"; "templates"; "providers"; "tokens"].

Definition requiredFiles : list (list string) :=
  [["api"; "index.json"]; ["api"; "components.json"];
   ["api"; "templates.json"]; ["api"; "providers.json"];
   ["api"; "tokens.json"]].

(** The loop state: [isValid] and the console. *)
Definition state : Type := (bool * list event)%type.

(** The callback of [requiredDirs.forEach]. *)
Definition checkDir (fs : files) (st : state) (dir : string) : state :=
  if negb (existsSync fs [dir])
  then (false, (snd st ++ [ErrorMissingDirectory dir])%list)
  else (fst st, (snd st ++ [LogDirectoryExists dir])%list).

(** The callback of [requiredFiles.forEach]. *)
Definition checkFile (fs : files) (st : state) (file : list string) : state :=
  if negb (existsSync fs file)
  then (false, (snd st ++ [ErrorMissingFile file])%list)
  else
    match readJson fs file with
    | Ok _ => (fst st, (snd st ++ [LogValidJson file])%list)
    | Throw e => (false, (snd st ++ [ErrorInvalidJson file e])%list)
    end.

Definition validateRegistryStructure (fs : files) : bool * list event :=
  let st := (true, [LogValidating]) in
  let st := fold_left (checkDir fs) requiredDirs st in
  fold_left (checkFile fs) requiredFiles st.

End StructureValidator.

(** *** [validateTemplates] *)

Module TemplateValidator.
Import Json Registry JsConvert.
Local Open Scope string_scope.

Inductive event : Type :=
| LogValidating
| ErrorApiMissing
| ErrorNotArray
| ErrorMissingField (name field : string)
| ErrorDirectoryMissing (name : string)
| ErrorColorsMissing (name : string)
| ErrorInvalidColors (name : string)
| ErrorMetadataMissing (name : string)
| LogValid (name : string)
| LogTotal (count : nat)
| ErrorValidating (e : js_error).

(** The lines printed with [console.error]. *)
Definition isDefect (e : event) : bool :=
  match e with
  | LogValidating | LogValid _ | LogTotal _ => false
  | _ => true
  end.

Definition requiredFields : list string :=
  ["name"; "displayName"; "description"; "version"].

Definition state : Type := (bool * list event)%type.

Definition report (e : event) (st : state) : state :=
  (false, (snd st ++ [e])%list).

(** [template.name || 'unknown'] inside a template literal. *)
Definition nameOrUnknown (template : json) : result string :=
  match template with
  | JObj m =>
      let n := assoc m "name" in
      if truthy n then toString n else Ok "unknown"
  | _ => Ok "unknown"
  end.

(** The callback of [requiredFields.forEach]; [template.hasOwnProperty]
    throws on [null] and when the record has an own property of that
    name. *)
Definition checkField (template : json) (st : state) (field : string)
  : result state :=
  match template with
  | JNull => Throw (TypeError "hasOwnProperty")
  | _ =>
      if hasOwnProperty template "hasOwnProperty"
      then Throw (TypeError "template.hasOwnProperty is not a function")
      else if hasOwnProperty template field then Ok st
      else
        name <- nameOrUnknown template ;;
        Ok (report (ErrorMissingField name field) st)
  end.

Fixpoint checkFields (template : json) (fields : list string) (st : state)
  : state * result unit :=
  match fields with
  | [] => (st, Ok tt)
  | field :: rest =>
      match checkField template st field with
      | Ok st' => checkFields template rest st'
      | Throw e => (st, Throw e)
      end
  end.

(** The callback of [templates.forEach].  [path.join] throws unless
    [template.name] is a string. *)
Definition checkTemplate (fs : files) (st : state) (template : json)
  : state * result unit :=
  match checkFields template requiredFields st with
  | (st, Throw e) => (st, Throw e)
  | (st, Ok _) =>
      match template with
      | JObj m =>
          match assoc m "name" with
          | Some (JStr name) =>
              let templateDir := ["templates"; name] in
              let st :=
                if negb (existsSync fs templateDir)
                then report (ErrorDirectoryMissing name) st
                else
                  let colorsFile := (templateDir ++ ["colors.json"])%list in
                  let metadataFile :=
                    (templateDir ++ ["metadata.json"])%list in
                  let st :=
                    if negb (existsSync fs colorsFile)
                    then report (ErrorColorsMissing name) st
                    else
                      match readJson fs colorsFile with
                      | Ok _ => st
                      | Throw _ => report (ErrorInvalidColors name) st
                      end in
                  if negb (existsSync fs metadataFile)
                  then report (ErrorMetadataMissing name) st else st in
              let st :=
                if fst st then (fst st, (snd st ++ [LogValid name])%list)
                else st in
              (st, Ok tt)
          | _ => (st, Throw (TypeError "path"))
          end
      | _ => (st, Throw (TypeError "path"))
      end
  end.

Fixpoint forEach (fs : files) (templates : list json) (st : state)
  : state * result unit :=
  match templates with
  | [] => (st, Ok tt)
  | template :: rest =>
      match checkTemplate fs st template with
      | (st', Ok _) => forEach fs rest st'
      | (st', Throw e) => (st', Throw e)
      end
  end.

Definition validateTemplates (fs : files) : bool * list event :=
  let console := [LogValidating] in
  if negb (existsSync fs ["api"; "templates.json"])
  then (false, (console ++ [ErrorApiMissing])%list)
  else
    match readJson fs ["api"; "templates.json"] with
    | Throw e => (false, (console ++ [ErrorValidating e])%list)
    | Ok templatesData =>
        match get (Some templatesData) "templates" with
        | Throw e => (false, (console ++ [ErrorValidating e])%list)
        | Ok field =>
            let templates :=
              if truthy field then field else Some templatesData in
            match templates with
            | Some (JArr items) =>
                match forEach fs items (true, console) with
                | (st, Ok _) =>
                    (fst st, (snd st ++ [LogTotal (List.length items)])%list)
                | (st, Throw e) =>
                    (false, (snd st ++ [ErrorValidating e])%list)
                end
            | _ => (false, (console ++ [ErrorNotArray])%list)
            end
        end
    end.

End TemplateValidator.

(** *** [validateDependencies] *)

Module DependencyValidator.
Import Json Registry JsConvert.
Local Open Scope string_scope.

Inductive event : Type :=
| LogValidating
| LogUnique (size : nat)
| LogProviderComponents (size : nat)
| LogDependency (dep : string)
| ErrorValidating (e : js_error).

(** The two collections of the loop: [allDependencies], a [Set], and
    the keys of [dependencyGraph], a [Map], both in insertion order. *)
Record collections : Type := mkCollections {
  allDependencies : list value;
  graphKeys : list value
}.

(** [set.add(v)] and the insertion of a new key into a map. *)
Definition add (l : list value) (v : value) : list value :=
  if existsb (sameValueZero v) l then l else (l ++ [v])%list.

(** [x.forEach] where [x] was read from a record: only an array has
    it. *)
Definition elements (x : value) : result (list json) :=
  match x with
  | Some (JArr l) => Ok l
  | _ => Throw (TypeError "forEach is not a function")
  end.

(** The callback of [components.forEach]. *)
Definition visit (st : collections) (component : json) : result collections :=
  dependencies <- get (Some component) "dependencies" ;;
  deps <- elements dependencies ;;
  let all := fold_left add (map Some deps) (allDependencies st) in
  requiredProviders <- get (Some component) "requiredProviders" ;;
  if truthy requiredProviders
  then
    providers <- elements requiredProviders ;;
    name <- get (Some component) "name" ;;
    Ok {| allDependencies := all;
          graphKeys :=
            match providers with
            | [] => graphKeys st
            | _ => add (graphKeys st) name
            end |}
  else Ok {| allDependencies := all; graphKeys := graphKeys st |}.

(** The body of the [try] block after the document was parsed. *)
Definition tryBlock (componentsData : json) (console : list event)
  : list event * result unit :=
  match get (Some componentsData) "components" with
  | Throw e => (console, Throw e)
  | Ok field =>
      let components := if truthy field then field else Some componentsData in
      match elements components with
      | Throw e => (console, Throw e)
      | Ok items =>
          match forEachM visit items
                  {| allDependencies := []; graphKeys := [] |} with
          | Throw e => (console, Throw e)
          | Ok st =>
              let console :=
                (console
                   ++ [LogUnique (List.length (allDependencies st));
                       LogProviderComponents (List.length (graphKeys st))])%list in
              match Json.mapM toString (allDependencies st) with
              | Throw e => (console, Throw e)
              | Ok texts =>
                  ((console ++ map LogDependency (Index.sort texts))%list,
                   Ok tt)
              end
          end
      end
  end.

Definition validateDependencies (fs : files) : bool * list event :=
  let console := [LogValidating] in
  if negb (existsSync fs ["api"; "components.json"])
  then (false, console)
  else
    match readJson fs ["api"; "components.json"] with
    | Throw e => (false, (console ++ [ErrorValidating e])%list)
    | Ok componentsData =>
        match tryBlock componentsData console with
        | (console, Ok _) => (true, console)
        | (console, Throw e) => (false, (console ++ [ErrorValidating e])%list)
        end
    end.

End DependencyValidator.

(** *** [generateRegistryReport] *)

Module Reporter.
Import Json Registry JsConvert.
Local Open Scope string_scope.

Inductive event : Type :=
| LogGenerating
| LogReport
| LogVersion (text : string)
| LogComponents (text : string)
| LogTemplates (text : string)
| LogProviders (text : string)
| LogTokens (text : string)
| LogDependencies (text : string)
| LogCategories (text : string)
| ErrorGenerating (e : js_error).

Record structure : Type := mkStructure {
  hasComponents : bool;
  hasTemplates : bool;
  hasProviders : bool;
  hasTokens : bool
}.

Record report : Type := mkReport {
  timestamp : string;
  version : value;
  stats : value;
  categories : value;
  dependencies : value;
  structure_ : structure
}.

(** [v.length]. *)
Definition lengthOf (v : value) : result value :=
  match v with
  | None | Some JNull => Throw (TypeError "length")
  | Some (JArr l) => Ok (Some (JNum (decimal (List.length l))))
  | Some (JStr s) => Ok (Some (JNum (decimal (String.length s))))
  | Some (JObj m) => Ok (assoc m "length")
  | Some _ => Ok None
  end.

(** The object literal of the report. *)
Definition makeReport (fs : files) (now : string) (index : json)
  : result report :=
  version <- get (Some index) "version" ;;
  stats <- get (Some index) "stats" ;;
  categories <- get (Some index) "categories" ;;
  deps <- get (Some index) "dependencies" ;;
  count <- lengthOf deps ;;
  Ok {| timestamp := now;
        version := version;
        stats := stats;
        categories := categories;
        dependencies := count;
        structure_ :=
          {| hasComponents := existsSync fs ["components"];
             hasTemplates := existsSync fs ["templates"];
             hasProviders := existsSync fs ["providers"];
             hasTokens := existsSync fs ["tokens"] |} |}.

(** [report.categories.join(', ')]: only an array has [join]. *)
Definition joinCategories (categories : value) : result string :=
  match categories with
  | Some (JArr l) => joinWith ", " l
  | _ => Throw (TypeError "join is not a function")
  end.

(** One line whose text may throw while it is computed: what was
    printed before stays printed. *)
Definition line (mk : string -> event) (text : result string)
           (rest : list event -> list event * result unit)
           (console : list event) : list event * result unit :=
  match text with
  | Ok t => rest (console ++ [mk t])%list
  | Throw e => (console, Throw e)
  end.

(** [`${report.stats.<key>}`]. *)
Definition stat (r : report) (key : string) : result string :=
  v <- get (stats r) key ;; toString v.

(** The lines of the report. *)
Definition printReport (r : report) (console : list event)
  : list event * result unit :=
  line LogVersion (toString (version r))
    (line LogComponents (stat r "components")
      (line LogTemplates (stat r "templates")
        (line LogProviders (stat r "providers")
          (line LogTokens (stat r "tokens")
            (line LogDependencies (toString (dependencies r))
              (line LogCategories (joinCategories (categories r))
                (fun console => (console, Ok tt))))))))
    (console ++ [LogReport])%list.

(** [generateRegistryReport]: the console and the report, [None] for
    [null]. *)
Definition generateRegistryReport (fs : files) (now : string)
  : list event * option report :=
  let console := [LogGenerating] in
  match readJson fs ["api"; "index.json"] with
  | Throw e => ((console ++ [ErrorGenerating e])%list, None)
  | Ok index =>
      match makeReport fs now index with
      | Throw e => ((console ++ [ErrorGenerating e])%list, None)
      | Ok r =>
          match printReport r console with
          | (console, Ok _) => (console, Some r)
          | (console, Throw e) =>
              ((console ++ [ErrorGenerating e])%list, None)
          end
      end
  end.

End Reporter.

(** *** [main] of the validation script *)

Module ValidationMain.
Import Registry.

Inductive line : Type :=
| Banner
| Structure (e : StructureValidator.event)
| Components (e : Validator.event)
| Templates (e : TemplateValidator.event)
| Dependencies (e : DependencyValidator.event)
| Report (e : Reporter.event)
| Passed
| Failed.

(** [isValid &= verdict], with [1] for [true]. *)
Definition andAssign (isValid : nat) (verdict : bool) : nat :=
  if verdict then Nat.land isValid 1 else 0.

(** The console and the exit code. *)
Definition main (fs : files) (now : string) : list line * nat :=
  let console := [Banner] in
  let isValid := 1 in
  let (v1, c1) := StructureValidator.validateRegistryStructure fs in
  let isValid := andAssign isValid v1 in
  let console := (console ++ map Structure c1)%list in
  let (v2, c2) :=
    Validator.validateComponents (existsSync fs) (componentsFile fs) in
  let isValid := andAssign isValid v2 in
  let console := (console ++ map Components c2)%list in
  let (v3, c3) := TemplateValidator.validateTemplates fs in
  let isValid := andAssign isValid v3 in
  let console := (console ++ map Templates c3)%list in
  let (v4, c4) := DependencyValidator.validateDependencies fs in
  let isValid := andAssign isValid v4 in
  let console := (console ++ map Dependencies c4)%list in
  let (c5, report) := Reporter.generateRegistryReport fs now in
  let console := (console ++ map Report c5)%list in
  if Nat.eqb isValid 0
  then ((console ++ [Failed])%list, 1)
  else ((console ++ [Passed])%list, 0).

End ValidationMain.

(** *** The index document as the build writes it

    What [JSON.parse] returns for the text that
    [JSON.stringify(index, null, 2)] gave: in the array of categories
    the function [Object] has become [null] and the object
    [Object.prototype], which has no enumerable property, an empty
    object. *)

Module IndexDocument.
Import Json Index.
Local Open Scope string_scope.

Definition entryJson (e : Synthesizer.entry) : json :=
  match e with
  | Synthesizer.Text s => JStr s
  | Synthesizer.ObjectFunction => JNull
  | Synthesizer.ObjectPrototype => JObj []
  end.

Definition count (n : nat) : json := JNum (decimal n).

Definition indexJson (i : index) : json :=
  JObj [("version", JStr (version i));
        ("lastUpdated", JStr (lastUpdated i));
        ("baseUrl", JStr (baseUrl i));
        ("stats",
          JObj [("components", count (components (i_stats i)));
                ("templates", count (templates (i_stats i)));
                ("providers", count (providers (i_stats i)));
                ("tokens", count (tokens (i_stats i)));
                ("totalDependencies",
                  count (totalDependencies (i_stats i)))]);
        ("endpoints",
          JObj [("components", JStr (e_components (i_endpoints i)));
                ("templates", JStr (e_templates (i_endpoints i)));
                ("providers", JStr (e_providers (i_endpoints i)));
                ("tokens", JStr (e_tokens (i_endpoints i)))]);
        ("categories", JArr (map entryJson (categories i)));
        ("dependencies", JArr (map JStr (dependencies i)))].

End IndexDocument.

(** ** The conversion of a source text to a template

    [s.replace(r, rep)] for a [g] regex [r] and a replacement text
    [rep] without dollar patterns: the matches are found from left to
    right, each search starting where the previous match ended, and each
    is replaced by [rep].  [skip] counts the characters of the current
    match that are still to be passed; after an empty match one
    character is copied. *)

Module Replace.
Import JsString Regex.
Local Open Scope string_scope.

Fixpoint replaceAll (r : regex) (rep : string) (s : string) (skip : nat)
         {struct s} : string :=
  match skip with
  | S k =>
      match s with
      | EmptyString => ""
      | String _ t => replaceAll r rep t k
      end
  | O =>
      match matchHere r s with
      | Some (s', _) =>
          rep ++ match s with
                 | EmptyString => ""
                 | String c t =>
                     match String.length (consumed s s') with
                     | O => String c (replaceAll r rep t 0)
                     | S k => replaceAll r rep t k
                     end
                 end
      | None =>
          match s with
          | EmptyString => ""
          | String c t => String c (replaceAll r rep t 0)
          end
      end
  end.

(** The four replacements of [buildComponentRegistry]. *)
Definition componentTemplate (content : string) : string :=
  let s := replaceAll (Lit "from '../") "from '../" content 0 in
  let s := replaceAll (Lit "from './'") "from './" s 0 in
  let s := replaceAll (Lit "../../constants/ui") "./constants/ui" s 0 in
  replaceAll (Lit "../../providers") "./providers" s 0.

(** The two replacements of [buildProviderRegistry]. *)
Definition providerTemplate (content : string) : string :=
  let s := replaceAll (Lit "from '../") "from '../" content 0 in
  replaceAll (Lit "../constants/ui") "./constants/ui" s 0.

End Replace.

(** ** The build script as a whole

    The registry tree that a build leaves behind: the directories it
    made sure of and the files it wrote, in order.  A later write to
    the same path replaces an earlier one.  A path is the list of the
    segments that the code joins below [REGISTRY_PATH], each taken as
    a name: what [path.join] makes of an empty segment, of [.] and of
    [..] is outside this model. *)

Module Build.
Import JsString Json Builder.
Local Open Scope string_scope.

Inductive event : Type :=
| LogMain
| LogBlank
| LogBuildingComponents
| LogComponent (componentName : string) (exports dependencies : nat)
| LogGeneratedComponents (count : nat)
| TemplateLine (e : Templates.event)
| LogBuildingProviders
| LogProvider (providerName : string) (exports : nat)
| LogGeneratedProviders (count : nat)
| LogBuildingTokens
| LogToken (tokenName : string)
| LogGeneratedTokens (count : nat)
| LogBuildingIndex
| LogIndexCreated
| LogFinished
| LogRegistryPath
| LogBaseUrl (url : string)
| LogStats (components templates providers tokens : nat).

Record world : Type := mkWorld {
  console : list event;
  made : list (list string);
  disk : list (list string * string)
}.

Definition emit (e : event) (w : world) : world :=
  {| console := (console w ++ [e])%list; made := made w; disk := disk w |}.

(** [if (!fs.existsSync(dir)) fs.mkdirSync(dir, { recursive: true })]:
    afterwards the directory exists. *)
Definition ensureDir (dir : list string) (w : world) : world :=
  {| console := console w; made := (made w ++ [dir])%list; disk := disk w |}.

Definition writeFileSync (path : list string) (text : string) (w : world)
  : world :=
  {| console := console w; made := made w;
     disk := (disk w ++ [(path, text)])%list |}.

(** [JSON.stringify(v, null, 2)] of a value that is not [undefined]. *)
Definition pretty (v : json) : string := serialize "  " "" v.

Definition count (n : nat) : json := JNum (decimal n).

Definition strings (l : list string) : json := JArr (map JStr l).

(** An array of names; [undefined] is written as [null]. *)
Definition names (l : list (option string)) : json :=
  JArr (map (fun e => match e with
                      | Some s => JStr s
                      | None => JNull
                      end) l).

(** A value of the two tables as a property: the function [Object] is
    left out by [JSON.stringify], the object [Object.prototype] has no
    enumerable property. *)
Definition entryValue (e : Synthesizer.entry) : value :=
  match e with
  | Synthesizer.Text s => Some (JStr s)
  | Synthesizer.ObjectFunction => None
  | Synthesizer.ObjectPrototype => Some (JObj [])
  end.

(** The record of a component as [JSON.stringify] writes it and
    [JSON.parse] reads it back. *)
Definition componentJson (c : Synthesizer.component) : json :=
  JObj (object
    [("name", Some (JStr (Synthesizer.name c)));
     ("displayName", Some (JStr (Synthesizer.displayName c)));
     ("description", entryValue (Synthesizer.description c));
     ("category", entryValue (Synthesizer.category c));
     ("dependencies", Some (strings (Synthesizer.dependencies c)));
     ("requiredProviders", Some (strings (Synthesizer.requiredProviders c)));
     ("files", Some (strings (Synthesizer.files c)));
     ("exports", Some (names (Synthesizer.exports c)));
     ("variants", Some (strings (Synthesizer.variants c)));
     ("sizes", Some (strings (Synthesizer.sizes c)));
     ("tokenUsage", Some (strings (Synthesizer.tokenUsage c)));
     ("hasHaptics", Some (JBool (Synthesizer.hasHaptics c)));
     ("version", Some (JStr (Synthesizer.version c)));
     ("checksum", Some (JStr (Synthesizer.checksum c)));
     ("downloadUrl", Some (JStr (Synthesizer.downloadUrl c)));
     ("metadataUrl", Some (JStr (Synthesizer.metadataUrl c)))]).

Definition componentsApi (cfg : config) (components : list Synthesizer.component)
  : json :=
  JObj [("version", JStr (Config.version cfg));
        ("lastUpdated", JStr (Config.lastUpdated cfg));
        ("baseUrl", JStr (Config.baseUrl cfg));
        ("components", JArr (map componentJson components));
        ("stats",
          JObj [("totalComponents", count (List.length components));
                ("categories",
                  JArr (map IndexDocument.entryJson
                            (JsSet.ofList Synthesizer.entryEqb
                               (map Synthesizer.category components))));
                ("totalDependencies",
                  count (List.length
                           (setOfStrings
                              (flat_map Synthesizer.dependencies
                                        components))))])].

(** A loop whose callback may throw: what was done before the
    exception stays done. *)
Fixpoint forEach {A R : Type}
         (f : world * list R -> A -> world * result (list R))
         (l : list A) (st : world * list R) : world * result (list R) :=
  match l with
  | [] => (fst st, Ok (snd st))
  | x :: l' =>
      match f st x with
      | (w, Ok rs) => forEach f l' (w, rs)
      | (w, Throw e) => (w, Throw e)
      end
  end.

(** The callback of [componentFiles.forEach]. *)
Definition componentStep (cfg : config) (dir : directory)
           (st : world * list Synthesizer.component) (componentName : string)
  : world * result (list Synthesizer.component) :=
  let (w, components) := st in
  let componentDir := ["components"; componentName] in
  let w := ensureDir componentDir w in
  let sourceFile := componentName ++ ".tsx" in
  let targetFile := (componentDir ++ ["component.tsx.template"])%list in
  match lookupFile dir sourceFile with
  | Some content =>
      let templateContent := Replace.componentTemplate content in
      let w := writeFileSync targetFile templateContent w in
      match Analyzer.analyzeComponentFile (lookupFile dir) sourceFile
              componentName with
      | Throw e => (w, Throw e)
      | Ok analysis =>
          let metadata :=
            Synthesizer.createComponentMetadata cfg componentName analysis in
          let w :=
            writeFileSync (componentDir ++ ["component.json"])%list
                          (pretty (componentJson metadata)) w in
          (emit (LogComponent componentName
                   (List.length (Analyzer.exports analysis))
                   (List.length (Analyzer.dependencies analysis))) w,
           Ok (components ++ [metadata])%list)
      end
  | None => (w, Ok components)
  end.

(** [buildComponentRegistry]; [None] for [dir] stands for a missing
    source directory, on which [readdirSync] throws. *)
Definition buildComponentRegistry (cfg : config) (dir : option directory)
           (w : world) : world * result (list Synthesizer.component) :=
  let w := emit LogBuildingComponents w in
  let w := ensureDir ["components"] w in
  match dir with
  | None => (w, Throw (ENOENT "components/ui"))
  | Some dir =>
      let componentFiles :=
        map (fun file => replaceFirst file ".tsx" "")
            (filter (isSource ".tsx") (readdirSync dir)) in
      match forEach (componentStep cfg dir) componentFiles (w, []) with
      | (w, Throw e) => (w, Throw e)
      | (w, Ok components) =>
          let w :=
            writeFileSync ["api"; "components.json"]
                          (pretty (componentsApi cfg components)) w in
          (emit (LogGeneratedComponents (List.length components)) w,
           Ok components)
      end
  end.

Definition providerJson (p : provider) : json :=
  JObj [("name", JStr (p_name p));
        ("displayName", JStr (p_displayName p));
        ("description", JStr (p_description p));
        ("dependencies", strings (p_dependencies p));
        ("exports", names (p_exports p));
        ("version", JStr (p_version p));
        ("checksum", JStr (p_checksum p));
        ("downloadUrl", JStr (p_downloadUrl p))].

Definition providersApi (cfg : config) (providers : list provider) : json :=
  JObj [("version", JStr (Config.version cfg));
        ("lastUpdated", JStr (Config.lastUpdated cfg));
        ("baseUrl", JStr (Config.baseUrl cfg));
        ("providers", JArr (map providerJson providers));
        ("stats",
          JObj [("totalProviders", count (List.length providers))])].

(** The callback of [providerFiles.forEach]. *)
Definition providerStep (cfg : config) (dir : directory)
           (st : world * list provider) (file : string)
  : world * result (list provider) :=
  let (w, providers) := st in
  let providerName := replaceFirst file ".tsx" "" in
  let targetPath := ["providers"; providerName ++ ".tsx.template"] in
  match lookupFile dir file with
  | Some content =>
      let templateContent := Replace.providerTemplate content in
      let w := writeFileSync targetPath templateContent w in
      match Analyzer.analyzeComponentFile (lookupFile dir) file
              providerName with
      | Throw e => (w, Throw e)
      | Ok analysis =>
          let providerMetadata :=
            {| p_name := toLowerCase providerName;
               p_displayName := providerName;
               p_description := providerName ++ " context provider";
               p_dependencies := Analyzer.dependencies analysis;
               p_exports := Analyzer.exports analysis;
               p_version := Config.version cfg;
               p_checksum := Analyzer.checksum analysis;
               p_downloadUrl :=
                 Config.baseUrl cfg ++ "/providers/" ++ providerName
                         ++ ".tsx.template" |} in
          let w :=
            writeFileSync ["providers"; providerName ++ ".json"]
                          (pretty (providerJson providerMetadata)) w in
          (emit (LogProvider providerName
                   (List.length (Analyzer.exports analysis))) w,
           Ok (providers ++ [providerMetadata])%list)
      end
  | None => (w, Ok providers)
  end.

Definition buildProviderRegistry (cfg : config) (dir : option directory)
           (w : world) : world * result (list provider) :=
  let w := emit LogBuildingProviders w in
  let w := ensureDir ["providers"] w in
  match dir with
  | None => (w, Throw (ENOENT "providers"))
  | Some dir =>
      let providerFiles := filter (isSource ".tsx") (readdirSync dir) in
      match forEach (providerStep cfg dir) providerFiles (w, []) with
      | (w, Throw e) => (w, Throw e)
      | (w, Ok providers) =>
          let w :=
            writeFileSync ["api"; "providers.json"]
                          (pretty (providersApi cfg providers)) w in
          (emit (LogGeneratedProviders (List.length providers)) w,
           Ok providers)
      end
  end.

Definition tokenJson (t : token) : json :=
  JObj [("name", JStr (t_name t));
        ("description", JStr (t_description t));
        ("version", JStr (t_version t));
        ("checksum", JStr (t_checksum t));
        ("downloadUrl", JStr (t_downloadUrl t))].

Definition tokensApi (cfg : config) (tokens : list token) : json :=
  JObj [("version", JStr (Config.version cfg));
        ("lastUpdated", JStr (Config.lastUpdated cfg));
        ("baseUrl", JStr (Config.baseUrl cfg));
        ("tokens", JArr (map tokenJson tokens));
        ("stats", JObj [("totalTokens", count (List.length tokens))])].

(** The callback of [tokenFiles.forEach]. *)
Definition tokenStep (cfg : config) (dir : directory)
           (st : world * list token) (file : string) : world * list token :=
  let (w, tokens) := st in
  let tokenName := replaceFirst file ".ts" "" in
  let targetPath := ["tokens"; tokenName ++ ".ts.template"] in
  match lookupFile dir file with
  | Some content =>
      let w := writeFileSync targetPath content w in
      let tokenMetadata :=
        {| t_name := tokenName;
           t_description := tokenName ++ " design tokens";
           t_version := Config.version cfg;
           t_checksum := MD5.md5hex content;
           t_downloadUrl :=
             Config.baseUrl cfg ++ "/tokens/" ++ tokenName ++ ".ts.template"
        |} in
      (emit (LogToken tokenName) w, (tokens ++ [tokenMetadata])%list)
  | None => (w, tokens)
  end.

Definition buildTokenRegistry (cfg : config) (dir : option directory)
           (w : world) : world * result (list token) :=
  let w := emit LogBuildingTokens w in
  let w := ensureDir ["tokens"] w in
  match dir with
  | None => (w, Throw (ENOENT "constants/ui"))
  | Some dir =>
      let tokenFiles := filter (isSource ".ts") (readdirSync dir) in
      let (w, tokens) := fold_left (tokenStep cfg dir) tokenFiles (w, []) in
      let w :=
        writeFileSync ["api"; "tokens.json"] (pretty (tokensApi cfg tokens)) w in
      (emit (LogGeneratedTokens (List.length tokens)) w, Ok tokens)
  end.

(** [buildTemplateRegistry] in this world: its lines and its files are
    appended; a missing templates directory is created. *)
Definition buildTemplateRegistry (cfg : config)
           (templateDirs : option (list (string * result json))) (w : world)
  : world * result (list Templates.template) :=
  let (tw, r) :=
    Templates.buildTemplateRegistry cfg templateDirs
      {| Templates.console := []; Templates.disk := [] |} in
  let w :=
    {| console := (console w ++ map TemplateLine (Templates.console tw))%list;
       made := match templateDirs with
               | None => (made w ++ [["templates"]])%list
               | Some _ => made w
               end;
       disk := (disk w ++ Templates.disk tw)%list |} in
  match r with
  | Ok (templates, _) => (w, Ok templates)
  | Throw e => (w, Throw e)
  end.

Definition buildRegistryIndex (cfg : config)
           (components : list Synthesizer.component)
           (templates : list Templates.template)
           (providers : list provider) (tokens : list token) (w : world)
  : world * Index.index :=
  let w := emit LogBuildingIndex w in
  let index :=
    Index.buildRegistryIndex cfg components templates providers tokens in
  let w :=
    writeFileSync ["api"; "index.json"]
                  (pretty (IndexDocument.indexJson index)) w in
  (emit LogIndexCreated w, index).

(** The source trees of a build: the three source directories, when
    they exist, and the template directories of the registry with their
    parsed definitions, when the templates directory exists. *)
Record sources : Type := mkSources {
  componentsDir : option directory;
  templateDirs : option (list (string * result json));
  providersDir : option directory;
  constantsDir : option directory
}.

(** [main]: the world at the end, and the index or the exception that
    left the function. *)
Definition main (cfg : config) (src : sources) : world * result Index.index :=
  let w := {| console := [LogMain]; made := []; disk := [] |} in
  let w := ensureDir ["api"] w in
  match buildComponentRegistry cfg (componentsDir src) w with
  | (w, Throw e) => (w, Throw e)
  | (w, Ok components) =>
      let w := emit LogBlank w in
      match buildTemplateRegistry cfg (templateDirs src) w with
      | (w, Throw e) => (w, Throw e)
      | (w, Ok templates) =>
          let w := emit LogBlank w in
          match buildProviderRegistry cfg (providersDir src) w with
          | (w, Throw e) => (w, Throw e)
          | (w, Ok providers) =>
              let w := emit LogBlank w in
              match buildTokenRegistry cfg (constantsDir src) w with
              | (w, Throw e) => (w, Throw e)
              | (w, Ok tokens) =>
                  let w := emit LogBlank w in
                  let (w, index) :=
                    buildRegistryIndex cfg components templates providers
                                       tokens w in
                  let w := emit LogFinished w in
                  let w := emit LogRegistryPath w in
                  let w := emit (LogBaseUrl (Config.baseUrl cfg)) w in
                  let w :=
                    emit (LogStats
                            (Index.components (Index.i_stats index))
                            (Index.templates (Index.i_stats index))
                            (Index.providers (Index.i_stats index))
                            (Index.tokens (Index.i_stats index))) w in
                  (w, Ok index)
              end
          end
      end
  end.

End Build.

(** * Vocabulary of the properties

    The notions in which the properties below are stated, and the inputs
    on which they are evaluated. *)

(** ** Captures of the matcher *)

Module RegexSpec.
Import Regex.

(** The group [i] has a value in the captures [c]. *)
Definition bound (i : nat) (c : caps) : Prop := cap i c <> None.

(** The groups that every match of [r] goes through. *)
Fixpoint binds (i : nat) (r : regex) : bool :=
  match r with
  | Seq r1 r2 => binds i r1 || binds i r2
  | Alt r1 r2 => binds i r1 && binds i r2
  | Group j r1 => Nat.eqb i j || binds i r1
  | _ => false
  end.

(** The captures [c'] after a match of [r] started with the captures
    [c]. *)
Definition extends (r : regex) (c c' : caps) : Prop :=
  (forall i, bound i c -> bound i c')
  /\ (forall i, binds i r = true -> bound i c').

End RegexSpec.

(** ** Source Analyzer *)

Module AnalyzerSpec.
Import JsString Regex Analyzer.

(** The module path that the loop reads off one match of the import
    pattern: group 1 of the first from clause in it. *)
Definition matchedPath (m : string) : option string :=
  match search fromRe m with
  | Some (_, c) => cap 1 c
  | None => None
  end.

(** The matches of the import pattern that the scan of a text finds,
    from left to right and without overlap. *)
Definition importMatches (content : string) : list string :=
  orEmpty (matchAll importRe content).

(** The module paths read off the matches of the import pattern. *)
Definition matchedPaths (content : string) : list string :=
  flat_map (fun m => match matchedPath m with
                     | Some pkg => [pkg]
                     | None => []
                     end) (importMatches content).

(** The module path read off a match when it is kept. *)
Definition kept (m : string) : option string :=
  match matchedPath m with
  | Some pkg =>
      if negb (isRelative pkg) && negb (isHostPackage pkg)
      then Some pkg else None
  | None => None
  end.

(** The set built by the loop over the matches. *)
Definition dependenciesOf (content : string) : list string :=
  fold_left (fun a m => match kept m with
                        | Some pkg => addStr a pkg
                        | None => a
                        end) (importMatches content) [].

End AnalyzerSpec.

(** The text of the scenario: a component that imports the host
    framework, an icon package and a relative module, and declares a
    variant alias. *)
Definition scenarioSource : string :=
  let lf := String (ascii_of_nat 10) "" in
  let dq := String JsString.dquote "" in
  ("import React from 'react';" ++ lf ++
   "import { Pressable } from 'react-native';" ++ lf ++
   "import { Check } from " ++ dq ++ "lucide-react-native" ++ dq ++ ";" ++ lf ++
   "import { colors } from '../../constants/ui';" ++ lf ++
   "type ButtonVariant = 'solid' | 'outline';" ++ lf)%string.

(** ** Content Hasher *)

Module HasherSpec.
Import MD5.

(** A lower-case hexadecimal digit. *)
Definition isHex (c : ascii) : bool :=
  let n := nat_of_ascii c in
  ((48 <=? n) && (n <=? 57)) || ((97 <=? n) && (n <=? 102)).

Fixpoint allHex (s : string) : bool :=
  match s with
  | EmptyString => true
  | String c s' => isHex c && allHex s'
  end.

End HasherSpec.

(** ** The builders *)

(** The image of what was returned; an exception stays. *)
Definition resultMap {A B : Type} (f : A -> B) (r : result A) : result B :=
  match r with
  | Ok a => Ok (f a)
  | Throw e => Throw e
  end.

Module BuilderSpec.
Import JsString Builder.
Local Open Scope string_scope.

(** What identifies an artifact and its content in a record. *)
Definition componentKey (c : Synthesizer.component) : string * string :=
  (Synthesizer.name c, Synthesizer.checksum c).
Definition providerKey (p : provider) : string * string :=
  (p_name p, p_checksum p).
Definition tokenKey (t : token) : string * string :=
  (t_name t, t_checksum t).

(** The URLs of a record written out from the base URL, the kind and a
    name found in the record. *)
Definition componentUrls (cfg : config) (c : Synthesizer.component) : Prop :=
  Synthesizer.downloadUrl c
  = Config.baseUrl cfg ++ "/components/" ++ Synthesizer.name c
      ++ "/component.tsx.template"
  /\ Synthesizer.metadataUrl c
     = Config.baseUrl cfg ++ "/components/" ++ Synthesizer.name c
         ++ "/component.json".

Definition providerUrl (cfg : config) (p : provider) : Prop :=
  p_downloadUrl p
  = Config.baseUrl cfg ++ "/providers/" ++ p_displayName p ++ ".tsx.template"
  /\ p_name p = toLowerCase (p_displayName p).

Definition tokenUrl (cfg : config) (t : token) : Prop :=
  t_downloadUrl t
  = Config.baseUrl cfg ++ "/tokens/" ++ t_name t ++ ".ts.template".

End BuilderSpec.

(** ** Template Processor *)

Module TemplateSpec.
Import JsString Json Templates.
Local Open Scope string_scope.

(** Nothing printed and nothing written. *)
Definition empty : world := {| console := []; disk := [] |}.

(** [plus w d]: the world [w] after the prints and writes of [d]. *)
Definition plus (w d : world) : world :=
  {| console := (console w ++ console d)%list;
     disk := (disk w ++ disk d)%list |}.

(** What processing one directory prints, writes and returns. *)
Definition step (cfg : config) (dir : string * result json)
  : world * list template :=
  processTemplate cfg (empty, []) dir.

(** What [buildTemplateRegistry] does after the loop. *)
Definition finish (cfg : config) (st : world * list template)
  : world * result (list template * option api) :=
  let (w, templates) := st in
  match buildApi cfg templates with
  | Throw e => (w, Throw e)
  | Ok a =>
      match writeFileSync ["api"; "templates.json"]
              (stringify2 (Some (apiJson a))) w with
      | (w, Throw e) => (w, Throw e)
      | (w, Ok _) =>
          (emit (LogGenerated (List.length templates)) w,
           Ok (templates, Some a))
      end
  end.

(** The [tokens.colors] entry of a template definition, when there is
    one. *)
Definition colorsEntry (doc : json) : value :=
  match doc with
  | JObj m =>
      match assoc m "tokens" with
      | Some (JObj t) => assoc t "colors"
      | _ => None
      end
  | _ => None
  end.

(** The definition is the JSON value [null]. *)
Definition isNull (doc : json) : bool :=
  match doc with JNull => true | _ => false end.

(** What identifies a token file and its content in a record, and a
    template and its content. *)
Definition fileKey (tf : tokenFile) : string * string :=
  (tf_type tf, tf_checksum tf).

Definition templateKey (t : template)
  : value * value * string * list (string * string) :=
  (name t, personality t, checksum t, map fileKey (tokenFiles t)).

(** The value of a property of an object that has it. *)
Definition valueOf (m : list (string * json)) (k : string) : json :=
  match assoc m k with
  | Some v => v
  | None => JNull
  end.

(** The files that the loop over the token groups writes. *)
Definition groupFile (n : string) (m : list (string * json)) (k : string)
  : list string * string :=
  (["templates"; n; k ++ ".json"], serialize "  " "" (valueOf m k)).

(** The entry that the record gets for the file of the group [k]. *)
Definition entryOf (cfg : config) (n : string) (m : list (string * json))
           (k : string) (tf : tokenFile) : Prop :=
  let type := replaceFirst (k ++ ".json") ".json" "" in
  tf_type tf = type
  /\ tf_url tf = Config.baseUrl cfg ++ "/templates/" ++ n ++ "/" ++ k ++ ".json"
  /\ exists v, assoc m type = Some v
               /\ tf_checksum tf = MD5.md5hex (serialize "" "" v).

End TemplateSpec.

(** A template definition with colors, and further token groups
    [extra]. *)
Definition paletteTemplate (themeName : string) (extra : list (string * Json.json))
  : Json.json :=
  Json.JObj
    [("name", Json.JStr themeName);
     ("displayName", Json.JStr themeName);
     ("description", Json.JStr "A palette");
     ("author", Json.JStr "rncanopy");
     ("version", Json.JStr "1.0.0");
     ("personality",
       Json.JObj [("mood", Json.JStr "calm"); ("spacing", Json.JStr "cozy");
                  ("roundness", Json.JStr "soft")]);
     ("preview", Json.JObj [("primary", Json.JStr "#10b981")]);
     ("tokens",
       Json.JObj (("colors", Json.JObj [("primary", Json.JStr "#10b981")])
                  :: extra))].

(** A template definition without [tokens.colors]. *)
Definition colorlessTemplate : Json.json :=
  Json.JObj
    [("name", Json.JStr "broken");
     ("displayName", Json.JStr "Broken");
     ("personality",
       Json.JObj [("mood", Json.JStr "calm"); ("spacing", Json.JStr "cozy");
                  ("roundness", Json.JStr "soft")]);
     ("tokens", Json.JObj [("spacing", Json.JObj [("md", Json.JNum "16")])])].

(** The configuration of the repository at some build time. *)
Definition sampleConfig : config :=
  Config.mk "https://raw.githubusercontent.com/rncanopy/rncanopy-registry/main"
            "1.0.0" "2024-05-01T10:00:00.000Z".

(** A token group whose file name gives back its own name when the first
    [.json] is taken out of it. *)
Definition plainGroup (k : string) : Prop :=
  JsString.replaceFirst (k ++ ".json") ".json" "" = k.

(** The template definition on which C9 fails: a token group whose name
    holds [.json] before its end, next to the group that its file name is
    mistaken for. *)
Definition oddGroups : Json.json :=
  paletteTemplate "odd"
    [(".jsonx", Json.JObj [("a", Json.JNum "1")]);
     ("x.json", Json.JObj [("b", Json.JNum "2")])].

(** ** Integrity Validator *)

Module ValidatorSpec.
Import Json Validator.
Local Open Scope string_scope.

Definition pathEqb (p q : list string) : bool :=
  if list_eq_dec string_dec p q then true else false.

(** The file system after the file at [p] has been deleted. *)
Definition removeFile (existsSync : list string -> bool) (p : list string)
  : list string -> bool :=
  fun q => if pathEqb q p then false else existsSync q.

(** [api/components.json] with the given records. *)
Definition apiFile (items : list json) : option (result json) :=
  Some (Ok (JObj [("version", JStr "1.0.0"); ("components", JArr items)])).

(** The template file of the component [name]. *)
Definition templateOf (name : string) : list string :=
  ["components"; name; "component.tsx.template"].

(** A record as the build leaves it: an object with a string name and
    all the required fields, without an own property [hasOwnProperty]
    (which would shadow the method that the check calls), whose
    directory and two files exist. *)
Definition intact (existsSync : list string -> bool) (c : json) : bool :=
  match c with
  | JObj m =>
      match assoc m "name" with
      | Some (JStr name) =>
          negb (hasOwnProperty c "hasOwnProperty")
          && forallb (hasOwnProperty c) requiredFields
          && existsSync ["components"; name]
          && existsSync (templateOf name)
          && existsSync ["components"; name; "component.json"]
      | _ => false
      end
  | _ => false
  end.

(** The record carries the name [n]. *)
Definition named (n : string) (c : json) : bool :=
  match c with
  | JObj m =>
      match assoc m "name" with
      | Some (JStr name) => String.eqb name n
      | _ => false
      end
  | _ => false
  end.

End ValidatorSpec.

(** A record with all the required fields. *)
Definition componentRecord (n : string) : Json.json :=
  Json.JObj
    [("name", Json.JStr n); ("displayName", Json.JStr n);
     ("description", Json.JStr (n ++ " component"));
     ("category", Json.JStr "forms"); ("dependencies", Json.JArr []);
     ("requiredProviders", Json.JArr []);
     ("exports", Json.JArr []); ("version", Json.JStr "1.0.0")].

(** A record that lacks [name]. *)
Definition namelessRecord : Json.json :=
  Json.JObj
    [("displayName", Json.JStr "Alert");
     ("description", Json.JStr "Alert component");
     ("category", Json.JStr "feedback"); ("dependencies", Json.JArr []);
     ("exports", Json.JArr []); ("version", Json.JStr "1.0.0")].

(** A registry tree in which everything exists but the template file of
    [card]. *)
Definition cardTemplateDeleted : list string -> bool :=
  ValidatorSpec.removeFile (fun _ => true) (ValidatorSpec.templateOf "card").

(** ** The language of a regular expression *)

Module RegexLanguage.
Import Regex.

(** The text [v] occurs in the text [s]. *)
Definition occursIn (v s : string) : Prop :=
  exists a b, s = (a ++ v ++ b)%string.

(** [parses r u c c']: the expression [r] matches exactly the text [u],
    and the captures [c] before the match are the captures [c'] after
    it. *)
Inductive parses : regex -> string -> caps -> caps -> Prop :=
| PEps (c : caps) : parses Eps "" c c
| PChr (p : ascii -> bool) (a : ascii) (c : caps) :
    p a = true -> parses (Chr p) (String a "") c c
| PLit (l : string) (c : caps) : parses (Lit l) l c c
| PSeq (r1 r2 : regex) (u v : string) (c c1 c2 : caps) :
    parses r1 u c c1 -> parses r2 v c1 c2 ->
    parses (Seq r1 r2) (u ++ v) c c2
| PAltL (r1 r2 : regex) (u : string) (c c1 : caps) :
    parses r1 u c c1 -> parses (Alt r1 r2) u c c1
| PAltR (r1 r2 : regex) (u : string) (c c1 : caps) :
    parses r2 u c c1 -> parses (Alt r1 r2) u c c1
| PStarNil (r : regex) (c : caps) : parses (Star r) "" c c
| PStarCons (r : regex) (u v : string) (c c1 c2 : caps) :
    parses r u c c1 -> parses (Star r) v c1 c2 ->
    parses (Star r) (u ++ v) c c2
| PGroup (i : nat) (r : regex) (u : string) (c c1 : caps) :
    parses r u c c1 -> parses (Group i r) u c ((i, u) :: c1).

(** The texts that a regular expression matches. *)
Definition inLanguage (r : regex) (u : string) : Prop :=
  exists c, parses r u [] c.

(** Some part of the text [s] is matched by [r]. *)
Definition hasMatch (r : regex) (s : string) : Prop :=
  exists m, occursIn m s /\ inLanguage r m.

(** Every character of the text satisfies [p]. *)
Fixpoint allChars (p : ascii -> bool) (s : string) : bool :=
  match s with
  | EmptyString => true
  | String a s' => p a && allChars p s'
  end.

(** The expression without its groups. *)
Fixpoint erase (r : regex) : regex :=
  match r with
  | Seq r1 r2 => Seq (erase r1) (erase r2)
  | Alt r1 r2 => Alt (erase r1) (erase r2)
  | Star r1 => Star (erase r1)
  | Group _ r1 => erase r1
  | _ => r
  end.

End RegexLanguage.

(** ** Import statements, in the words of the specification *)

Module ImportSpec.
Import JsString.
Local Open Scope string_scope.

(** An import-style statement that refers to the module [path]: the
    keyword [import], what is imported, the keyword [from] and the
    path between two quotes.  What is imported may run over several
    lines; it holds no semicolon, which would end the statement. *)
Definition importStatement (statement path : string) : Prop :=
  exists clause quote,
    statement = "import" ++ clause ++ "from " ++ quote ++ path ++ quote
    /\ (quote = String squote "" \/ quote = String dquote "")
    /\ path <> ""
    /\ includes path (String squote "") = false
    /\ includes path (String dquote "") = false
    /\ includes clause ";" = false.

(** The module paths that the import statements of a text refer to. *)
Definition imported (content path : string) : Prop :=
  exists statement,
    RegexLanguage.occursIn statement content
    /\ importStatement statement path.

(** Two import statements on one line. *)
Definition twoImports : string :=
  "import a from 'alpha'; import b from 'beta';".

(** An import statement broken over lines, as a formatter leaves it. *)
Definition brokenImport : string :=
  let lf := String (ascii_of_nat 10) "" in
  "import {" ++ lf ++ "  Star," ++ lf ++ "  Check" ++ lf
    ++ "} from 'lucide-react-native';".

End ImportSpec.

(** ** What the analyzer reads in a text *)

Module AnalyzerLanguage.
Import JsString Regex Analyzer RegexLanguage.
Local Open Scope string_scope.

(** A non-empty run of white space. *)
Definition spaces (ws : string) : Prop :=
  ws <> "" /\ allChars isSpace ws = true.

(** The text [t] is [v] between two quote characters, and [v] is not
    empty and holds no quote character. *)
Definition quotedLiteral (v t : string) : Prop :=
  exists q1 q2,
    t = String q1 (v ++ String q2 "")
    /\ isQuote q1 = true /\ isQuote q2 = true
    /\ v <> "" /\ allChars notQuote v = true.

(** The text [t] is a from clause that names the module path [d]. *)
Definition fromClause (d t : string) : Prop :=
  exists ws q, t = "from" ++ ws ++ q /\ spaces ws /\ quotedLiteral d q.

(** The text has an import statement with a from clause for [d]. *)
Definition importOf (content d : string) : Prop :=
  exists m t,
    occursIn m content /\ inLanguage importRe m
    /\ occursIn t m /\ fromClause d t.

Definition declKinds : list string :=
  ["interface"; "type"; "function"; "const"].

(** The text [t] is an export declaration of the name [n]. *)
Definition exportClause (n t : string) : Prop :=
  exists ws1 kind ws2,
    t = "export" ++ ws1 ++ kind ++ ws2 ++ n
    /\ spaces ws1 /\ In kind declKinds /\ spaces ws2
    /\ n <> "" /\ allChars isWord n = true.

(** The text has an export declaration of the name [n]. *)
Definition exportOf (content n : string) : Prop :=
  exists t, occursIn t content /\ exportClause n t.

(** The text has a declaration matched by [r] with the literal [v]
    between quotes in it. *)
Definition literalOf (r : regex) (content v : string) : Prop :=
  exists m t,
    occursIn m content /\ inLanguage r m
    /\ occursIn t m /\ quotedLiteral v t.

Definition tokenRoots : list string :=
  ["colors"; "spacing"; "radii"; "borders"; "typography"; "iconSizes";
   "opacity"; "shadows"; "haptics"].

(** The text [t] is a token root, a dot and a path. *)
Definition tokenPath (t : string) : Prop :=
  exists root path,
    t = root ++ "." ++ path
    /\ In root tokenRoots
    /\ path <> "" /\ allChars isPathChar path = true.

End AnalyzerLanguage.

(** ** Integrity of a registry tree *)

Module RegistrySpec.
Import Json Registry JsConvert.
Local Open Scope string_scope.

(** A required directory that is missing. *)
Definition dirMissing (fs : files) (dir : string) : bool :=
  negb (existsSync fs [dir]).

(** A required document that is missing or does not parse. *)
Definition fileBad (fs : files) (file : list string) : bool :=
  negb (existsSync fs file)
  || match readJson fs file with
     | Ok _ => false
     | Throw _ => true
     end.

(** The records of an API document [doc]: the array under [key], or
    the document itself when it is the array. *)
Definition recordsOf (key : string) (doc : json) : option (list json) :=
  match get (Some doc) key with
  | Ok field =>
      match (if truthy field then field else Some doc) with
      | Some (JArr items) => Some items
      | _ => None
      end
  | Throw _ => None
  end.

(** The records of the document at [path], when it exists and
    parses. *)
Definition recordsAt (fs : files) (key : string) (path : list string)
  : option (list json) :=
  if existsSync fs path
  then match readJson fs path with
       | Ok doc => recordsOf key doc
       | Throw _ => None
       end
  else None.

(** A template record with a string name and all the required fields,
    without an own property [hasOwnProperty] (which would shadow the
    method that the check calls), whose directory, colors and metadata
    exist, the colors being well-formed. *)
Definition intactTemplate (fs : files) (t : json) : bool :=
  match t with
  | JObj m =>
      match assoc m "name" with
      | Some (JStr name) =>
          negb (hasOwnProperty t "hasOwnProperty")
          && forallb (hasOwnProperty t) TemplateValidator.requiredFields
          && existsSync fs ["templates"; name]
          && negb (fileBad fs ["templates"; name; "colors.json"])
          && existsSync fs ["templates"; name; "metadata.json"]
      | _ => false
      end
  | _ => false
  end.

(** A value that can be listed: its conversion to a string returns. *)
Definition printable (v : json) : bool :=
  match toText v with
  | Ok _ => true
  | Throw _ => false
  end.

(** A record whose dependencies are an array of printable values and
    whose required providers, when given, are an array. *)
Definition listable (c : json) : bool :=
  match c with
  | JObj m =>
      match assoc m "dependencies" with
      | Some (JArr deps) =>
          forallb printable deps
          && match assoc m "requiredProviders" with
             | Some (JArr _) => true
             | v => negb (truthy v)
             end
      | _ => false
      end
  | _ => false
  end.

(** What the validation script asks of a registry tree. *)
Definition registryIntact (fs : files) : Prop :=
  (forall dir, In dir StructureValidator.requiredDirs ->
               dirMissing fs dir = false)
  /\ (forall file, In file StructureValidator.requiredFiles ->
                   fileBad fs file = false)
  /\ (exists items,
        recordsAt fs "components" ["api"; "components.json"] = Some items
        /\ forallb (ValidatorSpec.intact (existsSync fs)) items = true
        /\ forallb listable items = true)
  /\ (exists items,
        recordsAt fs "templates" ["api"; "templates.json"] = Some items
        /\ forallb (intactTemplate fs) items = true).

End RegistrySpec.

Module ConsoleSpec.

(** In the console [l], no line of the kind [ok] comes after a line of
    the kind [bad]. *)
Definition noneAfter (A : Type) (bad ok : A -> bool) (l : list A) : Prop :=
  forall l1 e l2 x,
    l = (l1 ++ e :: l2)%list -> bad e = true -> In x l2 -> ok x = false.

End ConsoleSpec.

Module ValidatorLines.
Import Validator.

(** The lines that report a record as valid. *)
Definition isValidLine (e : event) : bool :=
  match e with
  | LogValid _ => true
  | _ => false
  end.

(** No line of the list is a defect. *)
Definition clean (added : list event) : bool :=
  forallb (fun e => negb (isDefect e)) added.

End ValidatorLines.

Module TemplateLines.
Import TemplateValidator.

(** No line of the list is a defect. *)
Definition clean (added : list event) : bool :=
  forallb (fun e => negb (isDefect e)) added.

End TemplateLines.

Module DependencySpec.
Import Json DependencyValidator.
Local Open Scope string_scope.

(** The dependencies that the console lists. *)
Definition listed (console : list event) : list string :=
  flat_map (fun e => match e with
                     | LogDependency d => [d]
                     | _ => []
                     end) console.

(** The dependencies of a record. *)
Definition dependenciesOfRecord (c : json) : list json :=
  match c with
  | JObj m =>
      match assoc m "dependencies" with
      | Some (JArr l) => l
      | _ => []
      end
  | _ => []
  end.

(** A record whose dependencies are an array and whose required
    providers, when given, are an array. *)
Definition visitable (c : json) : bool :=
  match c with
  | JObj m =>
      match assoc m "dependencies" with
      | Some (JArr _) =>
          match assoc m "requiredProviders" with
          | Some (JArr _) => true
          | v => negb (truthy v)
          end
      | _ => false
      end
  | _ => false
  end.

End DependencySpec.

Module ReportSpec.
Import Json.
Local Open Scope string_scope.

(** The text of a category in the report. *)
Definition entryText (e : Synthesizer.entry) : string :=
  match e with
  | Synthesizer.Text s => s
  | Synthesizer.ObjectFunction => ""
  | Synthesizer.ObjectPrototype => "[object Object]"
  end.

(** A tree whose index document is the one written for [i]. *)
Definition holdsIndex (fs : Registry.files) (i : Index.index) : Prop :=
  Registry.readJson fs ["api"; "index.json"] = Ok (IndexDocument.indexJson i).

(** A tree that holds nothing but the index document of [i]. *)
Definition onlyIndex (i : Index.index) : Registry.files :=
  {| Registry.existsSync := fun _ => false;
     Registry.readJson := fun _ => Ok (IndexDocument.indexJson i) |}.

End ReportSpec.

Module TemplateRunSpec.
Import Json Templates TemplateSpec.

(** [undefined] or [null]. *)
Definition nullish (v : value) : bool :=
  match v with
  | None | Some JNull => true
  | _ => false
  end.

(** A member that a template literal can print. *)
Definition printableMember (v : value) : bool :=
  match JsConvert.toString v with
  | Ok _ => true
  | Throw _ => false
  end.

(** A personality of which the API cannot print the mood, the spacing
    and the roundness: [undefined] or [null], or an object of which one
    of the three does not convert to a string. *)
Definition undescribed (v : value) : bool :=
  nullish v
  || match v with
     | Some (JObj m) =>
         negb (printableMember (assoc m "mood")
               && printableMember (assoc m "spacing")
               && printableMember (assoc m "roundness"))
     | _ => false
     end.

(** A group name that names a file of the template's directory: it
    holds no path separator and no NUL character. *)
Definition fileName (k : string) : bool :=
  negb (JsString.includes k "/")
  && negb (JsString.includes k (String "\" ""))
  && negb (JsString.includes k (String (ascii_of_nat 0) "")).

(** The token groups of a definition whose groups are written. *)
Definition groupNames (parsed : result json) : list string :=
  match parsed with
  | Ok (JObj m) =>
      match assoc m "tokens" with
      | Some (JObj groups) => map fst groups
      | _ => []
      end
  | _ => []
  end.

(** Every token group of every definition names a file. *)
Definition plainGroups (dirs : list (string * result json)) : bool :=
  forallb (fun dir => forallb fileName (groupNames (snd dir))) dirs.



(** The files that the loop over the directories writes. *)
Definition loopFiles (cfg : config) (dirs : list (string * result json))
  : list (list string * string) :=
  flat_map (fun dir => disk (fst (step cfg dir))) dirs.

(** The records that the loop over the directories collects. *)
Definition loopRecords (cfg : config) (dirs : list (string * result json))
  : list template :=
  flat_map (fun dir => snd (step cfg dir)) dirs.

End TemplateRunSpec.

Module PublishedSpec.
Import Json Templates TemplateSpec Registry.
Local Open Scope string_scope.

(** The tree [fs] holds what a template build wrote and published: the
    files of [written] exist and parse, the directories of the
    processed templates exist, and [api/templates.json] reads back as
    the document of [a]. *)
Definition holdsBuild (fs : files) (names : list string)
           (written : list (list string * string)) (a : api) : Prop :=
  (forall path text,
      In (path, text) written ->
      existsSync fs path = true /\ exists doc, readJson fs path = Ok doc)
  /\ (forall n, In n names -> existsSync fs ["templates"; n] = true)
  /\ readJson fs ["api"; "templates.json"] = Ok (apiJson a).

(** The record carries the name of its directory and the four fields
    that the validation asks for. *)
Definition selfNamed (n : string) (t : template) : Prop :=
  name t = Some (JStr n)
  /\ displayName t <> None /\ description t <> None /\ version t <> None.

(** One template directory with a palette. *)
Definition duskDirs : list (string * result json) :=
  [("dusk", Ok (paletteTemplate "dusk" []))].

(** The tree after the build of [duskDirs]. *)
Definition duskTree : files :=
  let run := buildTemplateRegistry sampleConfig (Some duskDirs) empty in
  {| existsSync :=
       fun p =>
         existsb (fun f => ValidatorSpec.pathEqb p (fst f)) (disk (fst run))
         || ValidatorSpec.pathEqb p ["templates"; "dusk"];
     readJson :=
       fun p =>
         match snd run with
         | Ok ([t], Some a) =>
             if ValidatorSpec.pathEqb p ["api"; "templates.json"]
             then Ok (apiJson a)
             else if ValidatorSpec.pathEqb p ["templates"; "dusk"; "colors.json"]
             then Ok (JObj [("primary", JStr "#10b981")])
             else if ValidatorSpec.pathEqb p
                       ["templates"; "dusk"; "metadata.json"]
             then Ok (templateJson t)
             else Throw (ENOENT "no such file")
         | _ => Throw (ENOENT "no such file")
         end |}.

End PublishedSpec.

Module ReplaceSpec.

(** The text after its first [n] characters. *)
Fixpoint drop (n : nat) (s : string) : string :=
  match n, s with
  | S k, String _ t => drop k t
  | _, _ => s
  end.

End ReplaceSpec.

(** ** A tree that holds a build *)

Module BuildSpec.
Import JsString Json Builder Build Registry.
Local Open Scope string_scope.

(** The names of the components that [buildComponentRegistry] goes
    through: the source files without their first [.tsx]. *)
Definition stems (dir : directory) : list string :=
  map (fun file => replaceFirst file ".tsx" "")
      (filter (isSource ".tsx") (readdirSync dir)).

(** A name under which the build and the validation look at the same
    directory, and for which the two tables give a text. *)
Definition plainName (n : string) : Prop :=
  toLowerCase n = n /\ n <> "constructor".

(** The tree [fs] holds what the world [w] records: the directories
    made sure of and the files written exist. *)
Definition holds (fs : files) (w : world) : Prop :=
  (forall d, In d (made w) -> existsSync fs d = true)
  /\ (forall path text,
         In (path, text) (Build.disk w) -> existsSync fs path = true).

(** The tree reads the components document back as it was written. *)
Definition readsComponents (fs : files) (cfg : config)
           (components : list Synthesizer.component) : Prop :=
  readJson fs ["api"; "components.json"] = Ok (componentsApi cfg components).

(** The world before a build. *)
Definition start : world := {| console := []; made := []; disk := [] |}.

(** The tree that holds exactly what the world [w] records, on a file
    system that tells names apart by their case, and that reads [doc]
    at [api/components.json]. *)
Definition exactTree (w : world) (doc : json) : files :=
  {| existsSync :=
       fun p =>
         existsb (ValidatorSpec.pathEqb p) (made w)
         || existsb (fun f => ValidatorSpec.pathEqb p (fst f)) (Build.disk w);
     readJson :=
       fun p =>
         if ValidatorSpec.pathEqb p ["api"; "components.json"]
         then Ok doc else Throw (SyntaxError "not a document") |}.

(** A source directory with one component. *)
Definition cardDir : directory :=
  [("card.tsx", "import { View } from 'react-native';")].

(** A source directory whose component has a capital in its name. *)
Definition capitalDir : directory :=
  [("Card.tsx", "import { View } from 'react-native';")].

End BuildSpec.

(** ** A tree that keeps a complete build *)

Module PipelineSpec.
Import JsString Json Builder Build Registry BuildSpec.
Local Open Scope string_scope.

(** The record [c] of a build has its directory and its two files in
    the world [w]. *)
Definition placed (cfg : config) (names : list string) (w : world)
           (c : Synthesizer.component) : Prop :=
  exists n a,
    In n names
    /\ c = Synthesizer.createComponentMetadata cfg n a
    /\ In ["components"; n] (made w)
    /\ (exists text,
          In (["components"; n; "component.tsx.template"], text)
             (Build.disk w))
    /\ In (["components"; n; "component.json"], pretty (componentJson c))
          (Build.disk w).

(** The template build of the sources, on its own. *)
Definition templateRun (cfg : config) (src : sources)
  : Templates.world * result (list Templates.template * option Templates.api) :=
  Templates.buildTemplateRegistry cfg (templateDirs src) TemplateSpec.empty.

(** The tree [fs] keeps the build of [src]: what the build made and
    wrote exists, the template directories it read exist, the five
    documents and the colors of the templates parse where the build
    wrote them, and the two documents that the validation inspects read
    back as they were written. *)
Definition keeps (fs : files) (cfg : config) (src : sources) : Prop :=
  let w := fst (main cfg src) in
  holds fs w
  /\ (forall tdirs,
         templateDirs src = Some tdirs ->
         existsSync fs ["templates"] = true
         /\ forall n, In n (map fst tdirs) ->
                      existsSync fs ["templates"; n] = true)
  /\ (forall file text,
         In file StructureValidator.requiredFiles ->
         In (file, text) (Build.disk w) ->
         exists doc, readJson fs file = Ok doc)
  /\ (forall n text,
         In (["templates"; n; "colors.json"], text) (Build.disk w) ->
         exists doc, readJson fs ["templates"; n; "colors.json"] = Ok doc)
  /\ (forall cdir comps,
         componentsDir src = Some cdir ->
         Builder.buildComponentRegistry cfg cdir = Ok comps ->
         readJson fs ["api"; "components.json"] = Ok (componentsApi cfg comps))
  /\ (forall ts a,
         snd (templateRun cfg src) = Ok (ts, Some a) ->
         readJson fs ["api"; "templates.json"] = Ok (Templates.apiJson a)).

(** The sources of a small registry: one component, one template, one
    provider and one set of tokens. *)
Definition smallSources : sources :=
  {| componentsDir := Some cardDir;
     templateDirs := Some PublishedSpec.duskDirs;
     providersDir :=
       Some [("ThemeProvider.tsx", "export const ThemeContext = null;")];
     constantsDir := Some [("colors.ts", "export const colors = {};")] |}.

(** The tree after the build of [smallSources], on a file system that
    reads every document back as it was written. *)
Definition smallTree : files :=
  let run := main sampleConfig smallSources in
  {| existsSync :=
       fun p =>
         existsb (ValidatorSpec.pathEqb p) (made (fst run))
         || existsb (fun f => ValidatorSpec.pathEqb p (fst f))
                    (Build.disk (fst run))
         || ValidatorSpec.pathEqb p ["templates"]
         || ValidatorSpec.pathEqb p ["templates"; "dusk"];
     readJson :=
       fun p =>
         if ValidatorSpec.pathEqb p ["api"; "components.json"]
         then match Builder.buildComponentRegistry sampleConfig cardDir with
              | Ok comps => Ok (componentsApi sampleConfig comps)
              | Throw e => Throw e
              end
         else if ValidatorSpec.pathEqb p ["api"; "templates.json"]
         then match snd (templateRun sampleConfig smallSources) with
              | Ok (_, Some a) => Ok (Templates.apiJson a)
              | _ => Throw (SyntaxError "not a document")
              end
         else if ValidatorSpec.pathEqb p ["api"; "index.json"]
         then match snd run with
              | Ok index => Ok (IndexDocument.indexJson index)
              | Throw e => Throw e
              end
         else if ValidatorSpec.pathEqb p ["api"; "providers.json"]
         then match Builder.buildProviderRegistry sampleConfig
                      [("ThemeProvider.tsx",
                        "export const ThemeContext = null;")] with
              | Ok provs => Ok (providersApi sampleConfig provs)
              | Throw e => Throw e
              end
         else if ValidatorSpec.pathEqb p ["api"; "tokens.json"]
         then Ok (tokensApi sampleConfig
                    (Builder.buildTokenRegistry sampleConfig
                       [("colors.ts", "export const colors = {};")]))
         else if ValidatorSpec.pathEqb p ["templates"; "dusk"; "colors.json"]
         then Ok (JObj [("primary", JStr "#10b981")])
         else Throw (SyntaxError "not a document") |}.

End PipelineSpec.

(** ** A build without templates *)

Module OutcomeSpec.
Import JsString Json Builder Build Registry.
Local Open Scope string_scope.

(** No file of the world is the templates document. *)
Definition unpublished (w : world) : Prop :=
  forall f, In f (Build.disk w) -> fst f <> ["api"; "templates.json"].

(** The sources of a small registry that has no templates directory. *)
Definition bareSources : sources :=
  {| componentsDir := Some BuildSpec.cardDir;
     templateDirs := None;
     providersDir :=
       Some [("ThemeProvider.tsx", "export const ThemeContext = null;")];
     constantsDir := Some [("colors.ts", "export const colors = {};")] |}.

(** The tree that holds exactly what the build of [bareSources] made
    and wrote, and that reads every document it has as an empty
    object. *)
Definition bareTree : files :=
  let w := fst (main sampleConfig bareSources) in
  {| existsSync :=
       fun p =>
         existsb (ValidatorSpec.pathEqb p) (made w)
         || existsb (fun f => ValidatorSpec.pathEqb p (fst f)) (Build.disk w);
     readJson := fun _ => Ok (JObj []) |}.

End OutcomeSpec.

(** ** The files that a build leaves *)

Module WrittenSpec.
Import JsString Json Builder Build Registry.
Local Open Scope string_scope.

(** The text of the last write to [path] in a list of writes. *)
Fixpoint lastWrite (path : list string) (l : list (list string * string))
  : option string :=
  match l with
  | [] => None
  | f :: l' =>
      match lastWrite path l' with
      | Some text => Some text
      | None =>
          if ValidatorSpec.pathEqb path (fst f) then Some (snd f) else None
      end
  end.

(** The file at [path] after the writes of the world [w]. *)
Definition fileAt (w : world) (path : list string) : option string :=
  lastWrite path (Build.disk w).

(** The names of the tokens that [buildTokenRegistry] goes through: the
    source files without their first [.ts]. *)
Definition tokenNames (dir : directory) : list string :=
  map (fun file => replaceFirst file ".ts" "")
      (filter (isSource ".ts") (readdirSync dir)).

(** A directory of two token files. *)
Definition tokenDir : directory :=
  [("colors.ts", "export const colors = {};");
   ("spacing.ts", "export const spacing = { md: 16 };")].

End WrittenSpec.

(** ** The names of the records *)

Module NamesSpec.
Import JsString Builder.
Local Open Scope string_scope.

(** The component [n] has its source file [n.tsx] in the directory. *)
Definition hasSource (dir : directory) (n : string) : bool :=
  match lookupFile dir (n ++ ".tsx") with
  | Some _ => true
  | None => false
  end.

(** The names of the providers: the source files without their first
    [.tsx]. *)
Definition providerNames (dir : directory) : list string :=
  map (fun file => replaceFirst file ".tsx" "")
      (filter (isSource ".tsx") (readdirSync dir)).

End NamesSpec.

(** ** The index document of a build *)

Module IndexSpec.
Import JsString Json Builder Build Registry.
Local Open Scope string_scope.




End IndexSpec.

(** ** A small build for the report *)

Module ReportSample.
Import Json Builder.
Local Open Scope string_scope.

(** Three components, two of which depend on a package. *)
Definition componentDir : directory :=
  [("button.tsx", "import { Star } from 'lucide-react-native';");
   ("card.tsx", "import { View } from 'react-native';");
   ("toast.tsx", "import Animated from 'react-native-reanimated';")].

Definition records {A : Type} (r : result (list A)) : list A :=
  match r with
  | Ok l => l
  | Throw _ => []
  end.

Definition components : list Synthesizer.component :=
  records (buildComponentRegistry sampleConfig componentDir).

Definition templates : list Templates.template :=
  TemplateRunSpec.loopRecords sampleConfig PublishedSpec.duskDirs.

Definition providers : list provider :=
  records (buildProviderRegistry sampleConfig
             [("ThemeProvider.tsx", "export const ThemeContext = null;")]).

Definition tokens : list token :=
  buildTokenRegistry sampleConfig WrittenSpec.tokenDir.

(** The index of that build. *)
Definition index : Index.index :=
  Index.buildRegistryIndex sampleConfig components templates providers tokens.

End ReportSample.

(** * Properties *)

(** ** Sets *)

Section SetFacts.
Variable A : Type.
Variable eqb : A -> A -> bool.
Hypothesis eqb_eq : forall x y, eqb x y = true <-> x = y.

Lemma has_In (x : A) (l : list A) : JsSet.has eqb x l = true <-> In x l.
Proof.
  unfold JsSet.has. rewrite existsb_exists. split.
  - intros [y [Hy He]]. apply eqb_eq in He. now subst.
  - intros H. exists x. split; [assumption | now apply eqb_eq].
Qed.

Lemma add_In (l : list A) (x y : A) :
  In y (JsSet.add eqb l x) <-> In y l \/ y = x.
Proof.
  unfold JsSet.add. destruct (JsSet.has eqb x l) eqn:E.
  - apply has_In in E. split; [now left | intros [H | ->]; assumption].
  - rewrite in_app_iff. simpl. intuition congruence.
Qed.

Lemma add_NoDup (l : list A) (x : A) :
  NoDup l -> NoDup (JsSet.add eqb l x).
Proof.
  intros H. unfold JsSet.add. destruct (JsSet.has eqb x l) eqn:E; [assumption|].
  assert (~ In x l) as N.
  { intros I. apply has_In in I. congruence. }
  clear E. induction H as [| a l Ha Hl IH]; simpl.
  - constructor; [easy | constructor].
  - constructor.
    + rewrite in_app_iff. simpl. intros [I | [I | []]].
      * contradiction.
      * subst. apply N. now left.
    + apply IH. intros I. apply N. now right.
Qed.

(** A loop that adds to a set an image of some of the elements it visits. *)
Lemma fold_add_In (B : Type) (f : B -> option A) (xs : list B) :
  forall (acc : list A) (y : A),
    In y (fold_left (fun a b => match f b with
                                | Some v => JsSet.add eqb a v
                                | None => a
                                end) xs acc)
    <-> In y acc \/ exists b, In b xs /\ f b = Some y.
Proof.
  induction xs as [| b xs IH]; intros acc y; simpl.
  - split; [now left | intros [H | [b [[] _]]]; assumption].
  - rewrite IH. destruct (f b) as [v |] eqn:E.
    + rewrite add_In. split.
      * intros [[H | ->] | [b' [Hb Hf]]].
        -- now left.
        -- right. exists b. split; [now left | assumption].
        -- right. exists b'. split; [now right | assumption].
      * intros [H | [b' [[-> | Hb] Hf]]].
        -- left. now left.
        -- left. right. congruence.
        -- right. exists b'. split; assumption.
    + split.
      * intros [H | [b' [Hb Hf]]]; [now left |].
        right. exists b'. split; [now right | assumption].
      * intros [H | [b' [[-> | Hb] Hf]]]; [now left | congruence |].
        right. exists b'. split; assumption.
Qed.

Lemma fold_add_NoDup (B : Type) (f : B -> option A) (xs : list B) :
  forall acc : list A,
    NoDup acc ->
    NoDup (fold_left (fun a b => match f b with
                                 | Some v => JsSet.add eqb a v
                                 | None => a
                                 end) xs acc).
Proof.
  induction xs as [| b xs IH]; intros acc H; simpl; [assumption|].
  apply IH. destruct (f b); [now apply add_NoDup | assumption].
Qed.

Lemma ofList_In (l : list A) (y : A) : In y (JsSet.ofList eqb l) <-> In y l.
Proof.
  unfold JsSet.ofList.
  pose proof (fold_add_In (fun b => Some b) l [] y) as H. simpl in H.
  rewrite H. split.
  - intros [[] | [b [Hb E]]]. now inversion E; subst.
  - intros I. right. now exists y.
Qed.

Lemma ofList_NoDup (l : list A) : NoDup (JsSet.ofList eqb l).
Proof.
  unfold JsSet.ofList.
  apply (fold_add_NoDup (fun b => Some b) l). constructor.
Qed.
End SetFacts.

Lemma entryEqb_eq (a b : Synthesizer.entry) :
  Synthesizer.entryEqb a b = true <-> a = b.
Proof.
  destruct a, b; simpl; try (split; [discriminate | congruence]);
    try (split; reflexivity).
  rewrite String.eqb_eq. split; congruence.
Qed.

(** ** Captures of the matcher *)

Module RegexFacts.
Import Regex.
Import RegexSpec.

Lemma extends_refl (r : regex) (c : caps) :
  (forall i, binds i r = false) -> extends r c c.
Proof.
  intros H. split; [auto|]. intros i Hi. rewrite H in Hi. discriminate.
Qed.

Lemma rmatch_extends (r : regex) :
  forall (A : Type) (s : string) (c : caps)
         (k : string -> caps -> option A) (x : A),
    rmatch r s c k = Some x ->
    exists s' c', k s' c' = Some x /\ extends r c c'.
Proof.
  induction r as [| p | l | r1 IH1 r2 IH2 | r1 IH1 r2 IH2 | r1 IH1 | j r1 IH1];
    intros A s c k x H; simpl in H.
  - exists s, c. split; [assumption | now apply extends_refl].
  - destruct s as [| a s']; [discriminate|].
    destruct (p a); [| discriminate].
    exists s', c. split; [assumption | now apply extends_refl].
  - destruct (JsString.strip l s) as [s' |]; [| discriminate].
    exists s', c. split; [assumption | now apply extends_refl].
  - apply IH1 in H. destruct H as [s1 [c1 [H [M1 B1]]]].
    apply IH2 in H. destruct H as [s2 [c2 [H [M2 B2]]]].
    exists s2, c2. split; [assumption|]. split.
    + auto.
    + intros i Hi. simpl in Hi. apply orb_true_iff in Hi.
      destruct Hi as [Hi | Hi]; auto.
  - destruct (rmatch r1 s c k) as [y |] eqn:E.
    + inversion H; subst y. apply IH1 in E.
      destruct E as [s1 [c1 [E [M1 B1]]]].
      exists s1, c1. split; [assumption|]. split; [assumption|].
      intros i Hi. simpl in Hi. apply andb_true_iff in Hi. now apply B1.
    + apply IH2 in H. destruct H as [s2 [c2 [H [M2 B2]]]].
      exists s2, c2. split; [assumption|]. split; [assumption|].
      intros i Hi. simpl in Hi. apply andb_true_iff in Hi. now apply B2.
  - revert H. generalize (String.length s) as n. intros n. revert s c.
    induction n as [| n IHn]; intros s c H; cbn [starLoop] in H.
    + exists s, c. split; [assumption | now apply extends_refl].
    + destruct (rmatch r1 s c
                  (fun s' c' =>
                     if String.length s' <? String.length s
                     then starLoop (fun s0 c0 k0 => rmatch r1 s0 c0 k0)
                                   k n s' c'
                     else None)) as [y |] eqn:E.
      * inversion H; subst y. apply IH1 in E.
        destruct E as [s1 [c1 [E [M1 _]]]].
        destruct (String.length s1 <? String.length s); [| discriminate].
        apply IHn in E. destruct E as [s2 [c2 [E [M2 _]]]].
        exists s2, c2. split; [assumption|]. split; [auto|].
        intros i Hi. discriminate.
      * exists s, c. split; [assumption | now apply extends_refl].
  - apply IH1 in H. destruct H as [s1 [c1 [H [M1 B1]]]].
    exists s1, ((j, consumed s s1) :: c1). split; [assumption|]. split.
    + intros i Hi. unfold bound. simpl.
      destruct (Nat.eqb i j); [discriminate | now apply M1].
    + intros i Hi. unfold bound. simpl.
      destruct (Nat.eqb i j) eqn:Ej; [discriminate|].
      simpl in Hi. rewrite Ej in Hi. now apply B1.
Qed.

(** A group on every path of the regex is defined in every match. *)
Lemma search_bound (r : regex) (i : nat) :
  binds i r = true ->
  forall (s m : string) (c : caps),
    search r s = Some (m, c) -> exists v, cap i c = Some v.
Proof.
  intros B s. induction s as [| a s IH]; intros m c H; simpl in H.
  - destruct (matchHere r "") as [[s' c'] |] eqn:E; [| discriminate].
    inversion H; subst. apply rmatch_extends in E.
    destruct E as [s1 [c1 [E [_ Hb]]]]. inversion E; subst.
    specialize (Hb i B). unfold bound in Hb.
    destruct (cap i c); [eauto | contradiction].
  - destruct (matchHere r (String a s)) as [[s' c'] |] eqn:E.
    + inversion H; subst. apply rmatch_extends in E.
      destruct E as [s1 [c1 [E [_ Hb]]]]. inversion E; subst.
      specialize (Hb i B). unfold bound in Hb.
      destruct (cap i c); [eauto | contradiction].
    + eapply IH. eassumption.
Qed.

(** The matcher only looks at what the continuation returns. *)
Lemma rmatch_ext (r : regex) :
  forall (A : Type) (s : string) (c : caps)
         (k1 k2 : string -> caps -> option A),
    (forall s' c', k1 s' c' = k2 s' c') ->
    rmatch r s c k1 = rmatch r s c k2.
Proof.
  induction r as [| p | l | r1 IH1 r2 IH2 | r1 IH1 r2 IH2 | r1 IH1 | j r1 IH1];
    intros A s c k1 k2 H; simpl.
  - apply H.
  - destruct s as [| a s']; [reflexivity|]. destruct (p a); [apply H | reflexivity].
  - destruct (JsString.strip l s); [apply H | reflexivity].
  - apply IH1. intros s' c'. now apply IH2.
  - rewrite (IH1 A s c k1 k2 H), (IH2 A s c k1 k2 H). reflexivity.
  - generalize (String.length s) as n. intros n. revert s c.
    induction n as [| n IHn]; intros s c; cbn [starLoop]; [apply H|].
    rewrite (IH1 A s c _
               (fun s' c' =>
                  if String.length s' <? String.length s
                  then starLoop (fun s0 c0 k0 => rmatch r1 s0 c0 k0)
                                k2 n s' c'
                  else None)).
    + now rewrite H.
    + intros s' c'. destruct (String.length s' <? String.length s);
        [apply IHn | reflexivity].
  - apply IH1. intros s' c'. apply H.
Qed.

(** Any fuel of at least the length of the input gives the star the
    same result: the fuel that [rmatch] supplies is never used up. *)
Lemma star_fuel (r : regex) (A : Type) (k : string -> caps -> option A) :
  forall (n : nat) (s : string) (c : caps),
    String.length s <= n ->
    starLoop (fun s0 c0 k0 => rmatch r s0 c0 k0) k n s c
    = rmatch (Star r) s c k.
Proof.
  cbn [rmatch].
  induction n as [n IH] using lt_wf_ind. intros s c Hle.
  destruct n as [| n].
  - assert (String.length s = 0) as L by lia. now rewrite L.
  - destruct (String.length s) as [| l] eqn:L; cbn [starLoop].
    + destruct (rmatch r s c _) as [x |] eqn:E; [| reflexivity].
      apply rmatch_extends in E. destruct E as [s' [c' [E _]]].
      rewrite L in E. simpl in E. discriminate E.
    + rewrite (rmatch_ext r s c _
                 (fun s' c' =>
                    if String.length s' <? String.length s
                    then starLoop (fun s0 c0 k0 => rmatch r s0 c0 k0)
                                  k l s' c'
                    else None)); [reflexivity|].
      intros s' c'.
      destruct (String.length s' <? String.length s) eqn:Lt; [| reflexivity].
      apply Nat.ltb_lt in Lt.
      rewrite (IH n) by lia. rewrite (IH l) by lia. reflexivity.
Qed.

End RegexFacts.

(** ** Source Analyzer *)

Module AnalyzerFacts.
Import JsString Regex Analyzer.
Import AnalyzerSpec.

Lemma fromRe_binds : RegexSpec.binds 1 fromRe = true.
Proof. reflexivity. Qed.

Lemma exportNameRe_binds : RegexSpec.binds 1 exportNameRe = true.
Proof. reflexivity. Qed.

Lemma addImport_kept (deps : list string) (m : string) :
  addImport deps m
  = Ok (match kept m with
        | Some pkg => addStr deps pkg
        | None => deps
        end).
Proof.
  unfold addImport, kept, matchedPath, isRelative, isHostPackage.
  destruct (search fromRe m) as [[t c] |] eqn:E; [| reflexivity].
  destruct (RegexFacts.search_bound fromRe 1 fromRe_binds _ E) as [pkg Hc].
  rewrite Hc.
  destruct (startsWith pkg "."), (startsWith pkg "react-native/"),
    (String.eqb pkg "react"), (String.eqb pkg "react-native"); reflexivity.
Qed.

Lemma forEach_addImport (l : list string) :
  forall acc,
    forEachM addImport l acc
    = Ok (fold_left (fun a m => match kept m with
                                | Some pkg => addStr a pkg
                                | None => a
                                end) l acc).
Proof.
  induction l as [| m l IH]; intros acc; simpl; [reflexivity|].
  rewrite addImport_kept. simpl. apply IH.
Qed.

(** The analyzer returns on every text, with these fields. *)
Lemma analyzeText_returns (content : string) :
  analyzeText content
  = Ok {| dependencies := dependenciesOf content;
          exports :=
            fold_left addExport (orEmpty (matchAll exportRe content)) [];
          variants :=
            fold_left addLiterals (orEmpty (matchAll variantRe content)) [];
          sizes :=
            fold_left addLiterals (orEmpty (matchAll sizeRe content)) [];
          hasHaptics :=
            includes content "useHaptics" || includes content "triggerHaptic";
          hasProvider :=
            includes content "useTheme" || includes content "useHaptics";
          tokenUsage :=
            fold_left addStr (orEmpty (matchAll tokenRe content)) [];
          checksum := MD5.md5hex content |}.
Proof.
  unfold analyzeText. rewrite forEach_addImport. reflexivity.
Qed.

Lemma dependenciesOf_In (content pkg : string) :
  In pkg (dependenciesOf content)
  <-> In pkg (matchedPaths content)
      /\ isRelative pkg = false /\ isHostPackage pkg = false.
Proof.
  unfold dependenciesOf, addStr.
  rewrite (fold_add_In String.eqb String.eqb_eq kept).
  unfold matchedPaths. rewrite in_flat_map. split.
  - intros [[] | [m [Hm Hk]]]. unfold kept in Hk.
    destruct (matchedPath m) as [p |] eqn:E; [| discriminate].
    destruct (isRelative p) eqn:R, (isHostPackage p) eqn:H;
      simpl in Hk; try discriminate.
    inversion Hk; subst p. repeat split; try assumption.
    exists m. split; [assumption|]. rewrite E. now left.
  - intros [[m [Hm Hp]] [R H]]. right. exists m. split; [assumption|].
    unfold kept. destruct (matchedPath m) as [p |]; [| destruct Hp].
    destruct Hp as [-> | []]. now rewrite R, H.
Qed.

Lemma dependenciesOf_NoDup (content : string) :
  NoDup (dependenciesOf content).
Proof.
  unfold dependenciesOf, addStr.
  apply (fold_add_NoDup String.eqb String.eqb_eq kept). constructor.
Qed.

(** Every name put into [exports] is a defined string. *)
Lemma exports_defined (l : list string) :
  forall acc,
    Forall (fun e => e <> None) acc ->
    Forall (fun e => e <> None) (fold_left addExport l acc).
Proof.
  induction l as [| m l IH]; intros acc H; simpl; [assumption|].
  apply IH. unfold addExport.
  destruct (search exportNameRe m) as [[t c] |] eqn:E; [| assumption].
  destruct (RegexFacts.search_bound exportNameRe 1 exportNameRe_binds _ E)
    as [v Hv].
  rewrite Hv. unfold JsSet.add.
  destruct (JsSet.has optEqb (Some v) acc); [assumption|].
  apply Forall_app. split; [assumption|].
  constructor; [discriminate | constructor].
Qed.

Lemma synthesize_returns (cfg : config) (componentName content : string) :
  exists a,
    analyzeText content = Ok a
    /\ Synthesizer.synthesize cfg componentName content
       = Ok (Synthesizer.createComponentMetadata cfg componentName a).
Proof.
  eexists. split; [apply analyzeText_returns|].
  unfold Synthesizer.synthesize. rewrite analyzeText_returns. reflexivity.
Qed.

End AnalyzerFacts.

(** C1, as stated, fails: the record synthesized from a source whose only
    marker is [triggerHaptic] has [hasHaptics] set and does not require
    the theming provider. *)
Lemma C1_counterexample :
  ~ (forall (cfg : config) (componentName content : string)
            (r : Synthesizer.component),
        Synthesizer.synthesize cfg componentName content = Ok r ->
        (In "HapticsProvider" (Synthesizer.requiredProviders r)
         <-> Synthesizer.hasHaptics r = true)
        /\ (In "ThemeProvider" (Synthesizer.requiredProviders r)
            <-> Synthesizer.hasHaptics r = true
                \/ JsString.includes content "useTheme" = true)).
Proof.
  intros H.
  destruct (AnalyzerFacts.synthesize_returns
              (Config.mk "https://example.org" "1.0.0" "2024-01-01T00:00:00.000Z")
              "switch" "onPress={() => triggerHaptic('light')}")
    as [a [Ha Hs]].
  specialize (H _ _ _ _ Hs). destruct H as [_ [_ H]].
  rewrite AnalyzerFacts.analyzeText_returns in Ha. inversion Ha; subst a.
  vm_compute in H.
  destruct (H (or_introl eq_refl)) as [E | []]. discriminate E.
Qed.

(** C1 (amended): in every synthesized Component record,
    [requiredProviders] contains the haptics provider marker iff
    [hasHaptics] is true, that is iff the source contains [useHaptics] or
    [triggerHaptic], and contains the theming provider marker iff the
    source contains [useTheme] or [useHaptics]; the synthesis returns a
    record for every name and source. *)
Theorem C1_required_providers :
  forall (cfg : config) (componentName content : string),
  exists r : Synthesizer.component,
    Synthesizer.synthesize cfg componentName content = Ok r
    /\ (In "HapticsProvider" (Synthesizer.requiredProviders r)
        <-> Synthesizer.hasHaptics r = true)
    /\ (Synthesizer.hasHaptics r = true
        <-> JsString.includes content "useHaptics" = true
            \/ JsString.includes content "triggerHaptic" = true)
    /\ (In "ThemeProvider" (Synthesizer.requiredProviders r)
        <-> JsString.includes content "useTheme" = true
            \/ JsString.includes content "useHaptics" = true).
Proof.
  intros cfg componentName content.
  destruct (AnalyzerFacts.synthesize_returns cfg componentName content)
    as [a [Ha Hs]].
  eexists. split; [exact Hs|].
  rewrite AnalyzerFacts.analyzeText_returns in Ha. inversion Ha; subst a.
  clear Ha Hs. simpl.
  destruct (JsString.includes content "useHaptics"),
    (JsString.includes content "triggerHaptic"),
    (JsString.includes content "useTheme"); simpl;
    repeat split; intros; try tauto; try discriminate;
    repeat match goal with
           | H : _ \/ _ |- _ => destruct H
           | H : _ = _ |- _ => discriminate H
           | H : False |- _ => destruct H
           end; auto.
Qed.

(** The dependencies of the analysis are, without duplicates, exactly
    the module paths read off the matches of the import pattern that
    are neither relative nor a package of the host framework; and the
    record of the scenario source has the dependencies
    [lucide-react-native] and the variants [solid], [outline]. *)
Lemma dependencies_of_import_matches :
  (forall content : string,
    exists a : Analyzer.analysis,
      Analyzer.analyzeText content = Ok a
      /\ NoDup (Analyzer.dependencies a)
      /\ forall pkg : string,
           In pkg (Analyzer.dependencies a)
           <-> In pkg (AnalyzerSpec.matchedPaths content)
               /\ Analyzer.isRelative pkg = false
               /\ Analyzer.isHostPackage pkg = false)
  /\ (forall (cfg : config) (componentName : string),
       exists r : Synthesizer.component,
         Synthesizer.synthesize cfg componentName scenarioSource = Ok r
         /\ Synthesizer.dependencies r = ["lucide-react-native"]
         /\ Synthesizer.variants r = ["solid"; "outline"]).
Proof.
  split.
  - intros content. eexists. split; [apply AnalyzerFacts.analyzeText_returns|].
    simpl. split.
    + apply AnalyzerFacts.dependenciesOf_NoDup.
    + apply AnalyzerFacts.dependenciesOf_In.
  - intros cfg componentName.
    destruct (AnalyzerFacts.synthesize_returns cfg componentName scenarioSource)
      as [a [Ha Hs]].
    eexists. split; [exact Hs|].
    rewrite AnalyzerFacts.analyzeText_returns in Ha. inversion Ha; subst a.
    simpl. split; vm_compute; reflexivity.
Qed.

(** C2: the analyzer misses module paths that the import statements of
    a text refer to.  Of two import statements on one line it keeps
    the path of the first only, and of an import statement broken over
    lines it keeps nothing, although the paths missed are neither
    relative nor a package of the host framework. *)
Theorem C2_import_missed :
  (ImportSpec.imported ImportSpec.twoImports "beta"
   /\ Analyzer.isRelative "beta" = false
   /\ Analyzer.isHostPackage "beta" = false
   /\ exists a : Analyzer.analysis,
        Analyzer.analyzeText ImportSpec.twoImports = Ok a
        /\ Analyzer.dependencies a = ["alpha"])
  /\ (ImportSpec.imported ImportSpec.brokenImport "lucide-react-native"
      /\ Analyzer.isRelative "lucide-react-native" = false
      /\ Analyzer.isHostPackage "lucide-react-native" = false
      /\ exists a : Analyzer.analysis,
           Analyzer.analyzeText ImportSpec.brokenImport = Ok a
           /\ Analyzer.dependencies a = []).
Proof.
  split.
  - split; [| split; [reflexivity | split; [reflexivity|]]].
    + exists "import b from 'beta'". split.
      * exists "import a from 'alpha'; ", ";". reflexivity.
      * exists " b ", (String JsString.squote "").
        split; [reflexivity|]. split; [now left|].
        split; [discriminate|]. repeat split; reflexivity.
    + eexists. split; [apply AnalyzerFacts.analyzeText_returns|].
      vm_compute. reflexivity.
  - split; [| split; [reflexivity | split; [reflexivity|]]].
    + exists (JsString.take 53 ImportSpec.brokenImport). split.
      * exists "", ";". vm_compute. reflexivity.
      * pose (lf := String (ascii_of_nat 10) "").
        exists (" {" ++ lf ++ "  Star," ++ lf ++ "  Check" ++ lf ++ "} ")%string,
               (String JsString.squote "").
        split; [vm_compute; reflexivity|]. split; [now left|].
        split; [discriminate|]. repeat split; reflexivity.
    + eexists. split; [apply AnalyzerFacts.analyzeText_returns|].
      vm_compute. reflexivity.
Qed.

(** C8: the analyzer returns a fact sheet for the text of every file it
    can read, and in that fact sheet a field whose pattern has no match in
    the text is the empty set, a flag whose markers do not occur is
    false. *)
Theorem C8_analyzer_permissive :
  forall (fs : string -> option string) (filePath componentName content : string),
    fs filePath = Some content ->
    exists a : Analyzer.analysis,
      Analyzer.analyzeComponentFile fs filePath componentName = Ok a
      /\ Analyzer.analyzeText content = Ok a
      /\ (Regex.matchAll Analyzer.importRe content = None ->
          Analyzer.dependencies a = [])
      /\ (Regex.matchAll Analyzer.exportRe content = None ->
          Analyzer.exports a = [])
      /\ (Regex.matchAll Analyzer.variantRe content = None ->
          Analyzer.variants a = [])
      /\ (Regex.matchAll Analyzer.sizeRe content = None ->
          Analyzer.sizes a = [])
      /\ (Regex.matchAll Analyzer.tokenRe content = None ->
          Analyzer.tokenUsage a = [])
      /\ (JsString.includes content "useHaptics" = false ->
          JsString.includes content "triggerHaptic" = false ->
          Analyzer.hasHaptics a = false)
      /\ (JsString.includes content "useTheme" = false ->
          JsString.includes content "useHaptics" = false ->
          Analyzer.hasProvider a = false).
Proof.
  intros fs filePath componentName content Hfs.
  eexists. split; [| split; [apply AnalyzerFacts.analyzeText_returns|]].
  - unfold Analyzer.analyzeComponentFile, Analyzer.readFileSync.
    rewrite Hfs. simpl. apply AnalyzerFacts.analyzeText_returns.
  - simpl. unfold AnalyzerSpec.dependenciesOf, AnalyzerSpec.importMatches.
    repeat split; intros H; try (rewrite H; reflexivity).
    intros H'. rewrite H, H'. reflexivity.
    intros H'. rewrite H, H'. reflexivity.
Qed.

(** C8 at a file without any of the patterns: every field of its fact
    sheet is empty or false. *)
Lemma C8_analyzer_permissive_witness :
  exists a : Analyzer.analysis,
    Analyzer.analyzeComponentFile
      (fun path => if String.eqb path "components/ui/plain.tsx"
                   then Some "const answer = 42;" else None)
      "components/ui/plain.tsx" "plain" = Ok a
    /\ Analyzer.dependencies a = [] /\ Analyzer.exports a = []
    /\ Analyzer.variants a = [] /\ Analyzer.sizes a = []
    /\ Analyzer.tokenUsage a = []
    /\ Analyzer.hasHaptics a = false /\ Analyzer.hasProvider a = false.
Proof.
  destruct (@C8_analyzer_permissive
              (fun path => if String.eqb path "components/ui/plain.tsx"
                           then Some "const answer = 42;" else None)
              "components/ui/plain.tsx" "plain" "const answer = 42;" eq_refl)
    as [a [H0 [_ [H1 [H2 [H3 [H4 [H5 [H6 H7]]]]]]]]].
  exists a. split; [exact H0|].
  repeat split;
    [apply H1 | apply H2 | apply H3 | apply H4 | apply H5 | apply H6 | apply H7];
    reflexivity.
Defined.

(** ** Content Hasher *)

Module HasherFacts.
Import MD5.
Import HasherSpec.

Lemma hexDigit_isHex (n : Z) : isHex (hexDigit n) = true.
Proof.
  unfold hexDigit. destruct (n mod 16)%Z as [| p | p]; try reflexivity.
  do 4 (try destruct p as [p | p |]; try reflexivity).
Qed.

Lemma md5hex_length (text : string) : String.length (md5hex text) = 32.
Proof.
  unfold md5hex, hexOfState.
  destruct (digest (utf8 text)) as [[[a b] c] d]. reflexivity.
Qed.

Lemma md5hex_allHex (text : string) : allHex (md5hex text) = true.
Proof.
  unfold md5hex, hexOfState.
  destruct (digest (utf8 text)) as [[[a b] c] d].
  unfold hexWord, hexByte. simpl. rewrite !hexDigit_isHex. reflexivity.
Qed.

End HasherFacts.

(** ** The builders *)

Module BuilderFacts.
Import JsString Builder.
Import BuilderSpec.
Local Open Scope string_scope.

Lemma analyzeComponentFile_returns (dir : directory) (file n : string) :
  forall content,
    lookupFile dir file = Some content ->
    exists a,
      Analyzer.analyzeComponentFile (lookupFile dir) file n = Ok a
      /\ Analyzer.checksum a = MD5.md5hex content.
Proof.
  intros content H. eexists. split.
  - unfold Analyzer.analyzeComponentFile, Analyzer.readFileSync.
    rewrite H. simpl. apply AnalyzerFacts.analyzeText_returns.
  - reflexivity.
Qed.

Lemma components_invariant (cfg : config) (dir : directory)
      (P : Synthesizer.component -> Prop) :
  (forall n a, P (Synthesizer.createComponentMetadata cfg n a)) ->
  forall files acc,
    Forall P acc ->
    exists l, forEachM (componentStep cfg dir) files acc = Ok l /\ Forall P l.
Proof.
  intros HP files. induction files as [| n files IH]; intros acc Hacc; simpl.
  - exists acc. split; [reflexivity | assumption].
  - unfold componentStep at 1.
    destruct (lookupFile dir (n ++ ".tsx")) as [content |] eqn:E.
    + destruct (analyzeComponentFile_returns dir (n ++ ".tsx") n E)
        as [a [Ha _]].
      rewrite Ha. simpl. apply IH. apply Forall_app. split; [assumption|].
      constructor; [apply HP | constructor].
    + simpl. apply IH. assumption.
Qed.

Lemma providers_invariant (cfg : config) (dir : directory) :
  forall files acc,
    Forall (providerUrl cfg) acc ->
    exists l,
      forEachM (providerStep cfg dir) files acc = Ok l
      /\ Forall (providerUrl cfg) l.
Proof.
  intros files. induction files as [| f files IH]; intros acc Hacc; simpl.
  - exists acc. split; [reflexivity | assumption].
  - unfold providerStep at 1.
    destruct (lookupFile dir f) as [content |] eqn:E.
    + destruct (analyzeComponentFile_returns dir f
                  (replaceFirst f ".tsx" "") E) as [a [Ha _]].
      rewrite Ha. simpl. apply IH. apply Forall_app. split; [assumption|].
      constructor; [| constructor]. split; reflexivity.
    + simpl. apply IH. assumption.
Qed.

Lemma tokens_invariant (cfg : config) (dir : directory) :
  forall files acc,
    Forall (tokenUrl cfg) acc ->
    Forall (tokenUrl cfg) (fold_left (tokenStep cfg dir) files acc).
Proof.
  intros files. induction files as [| f files IH]; intros acc Hacc; simpl;
    [assumption|].
  apply IH. unfold tokenStep. destruct (lookupFile dir f); [| assumption].
  apply Forall_app. split; [assumption|].
  constructor; [reflexivity | constructor].
Qed.

(** The names and checksums do not depend on the configuration. *)
Lemma components_keys (cfg1 cfg2 : config) (dir : directory) :
  forall files acc1 acc2,
    map componentKey acc1 = map componentKey acc2 ->
    resultMap (map componentKey) (forEachM (componentStep cfg1 dir) files acc1)
    = resultMap (map componentKey)
        (forEachM (componentStep cfg2 dir) files acc2).
Proof.
  intros files. induction files as [| n files IH]; intros acc1 acc2 H; simpl.
  - now rewrite H.
  - unfold componentStep at 1 3.
    destruct (lookupFile dir (n ++ ".tsx")) as [content |]; simpl.
    + destruct (Analyzer.analyzeComponentFile (lookupFile dir) (n ++ ".tsx") n);
        simpl; [| reflexivity].
      apply IH. rewrite !map_app, H. reflexivity.
    + apply IH. assumption.
Qed.

Lemma providers_keys (cfg1 cfg2 : config) (dir : directory) :
  forall files acc1 acc2,
    map providerKey acc1 = map providerKey acc2 ->
    resultMap (map providerKey) (forEachM (providerStep cfg1 dir) files acc1)
    = resultMap (map providerKey)
        (forEachM (providerStep cfg2 dir) files acc2).
Proof.
  intros files. induction files as [| f files IH]; intros acc1 acc2 H; simpl.
  - now rewrite H.
  - unfold providerStep at 1 3.
    destruct (lookupFile dir f) as [content |]; simpl.
    + destruct (Analyzer.analyzeComponentFile (lookupFile dir) f
                  (replaceFirst f ".tsx" "")); simpl; [| reflexivity].
      apply IH. rewrite !map_app, H. reflexivity.
    + apply IH. assumption.
Qed.

Lemma tokens_keys (cfg1 cfg2 : config) (dir : directory) :
  forall files acc1 acc2,
    map tokenKey acc1 = map tokenKey acc2 ->
    map tokenKey (fold_left (tokenStep cfg1 dir) files acc1)
    = map tokenKey (fold_left (tokenStep cfg2 dir) files acc2).
Proof.
  intros files. induction files as [| f files IH]; intros acc1 acc2 H; simpl;
    [assumption|].
  apply IH. unfold tokenStep. destruct (lookupFile dir f); [| assumption].
  rewrite !map_app, H. reflexivity.
Qed.

End BuilderFacts.

(** ** Template Processor *)

Module TemplateFacts.
Import JsString Json Templates.
Import TemplateSpec.
Local Open Scope string_scope.

Lemma plus_empty (w : world) : plus w empty = w.
Proof. destruct w. unfold plus. simpl. now rewrite !app_nil_r. Qed.

Lemma plus_assoc (a b c : world) : plus (plus a b) c = plus a (plus b c).
Proof. unfold plus. simpl. now rewrite !app_assoc. Qed.

Lemma emit_plus (e : event) (w : world) : emit e w = plus w (emit e empty).
Proof. unfold emit, plus. simpl. now rewrite app_nil_r. Qed.

Lemma writeFileSync_frame (path : list string) (text : option string)
      (w : world) :
  writeFileSync path text w
  = (plus w (fst (writeFileSync path text empty)),
     snd (writeFileSync path text empty)).
Proof.
  destruct text; simpl.
  - unfold plus. simpl. now rewrite app_nil_r.
  - now rewrite plus_empty.
Qed.

Lemma writeTokenFiles_frame (n : string) (tokens : value) :
  forall types g w,
    writeTokenFiles n tokens types g w
    = (plus w (fst (writeTokenFiles n tokens types g empty)),
       snd (writeTokenFiles n tokens types g empty)).
Proof.
  intros types. induction types as [| t types IH]; intros g w; simpl.
  - now rewrite plus_empty.
  - destruct (get tokens t) as [v | e]; simpl; [| now rewrite plus_empty].
    destruct (stringify2 v) as [text |]; simpl; [| now rewrite plus_empty].
    rewrite IH.
    match goal with
    | |- context [writeTokenFiles n tokens types ?g' (mkWorld ?c ?d)] =>
        rewrite (IH g' (mkWorld c d))
    end.
    simpl. unfold plus. simpl. now rewrite <- !app_assoc.
Qed.

Ltac worlds :=
  repeat match goal with w : world |- _ => destruct w end;
  unfold plus, emit; simpl; rewrite ?app_nil_r, <- ?app_assoc; reflexivity.

(** The [try] block only appends to the console and to the disk, and
    what it appends and returns does not depend on what is there. *)
Lemma tryBlock_frame (cfg : config) (n : string) (parsed : result json)
      (w : world) :
  tryBlock cfg n parsed w
  = (plus w (fst (tryBlock cfg n parsed empty)),
     snd (tryBlock cfg n parsed empty)).
Proof.
  unfold tryBlock.
  destruct parsed as [doc | e]; [| worlds].
  destruct (get (Some doc) "tokens") as [tokens | e]; [| worlds].
  destruct (if truthy tokens then get tokens "colors" else Ok None)
    as [colors | e]; [| worlds].
  destruct (negb (truthy tokens) || negb (truthy colors)); [worlds|].
  rewrite (writeTokenFiles_frame _ _ _ _ (emit (LogProcessing n) w)).
  rewrite (writeTokenFiles_frame _ _ _ _ (emit (LogProcessing n) empty)).
  set (types := match tokens with Some t => objectKeys t | None => [] end).
  destruct (writeTokenFiles n tokens types [] empty) as [w1 [g | e]];
    [| worlds].
  cbn [fst snd].
  match goal with
  | |- context [match ?f with Ok _ => _ | Throw _ => _ end] =>
      destruct f as [t | e]; [| worlds]
  end.
  destruct (JsConvert.toString (displayName t)); worlds.
Qed.

Lemma processTemplate_frame (cfg : config) (w : world) (ts : list template)
      (dir : string * result json) :
  processTemplate cfg (w, ts) dir
  = (plus w (fst (step cfg dir)), (ts ++ snd (step cfg dir))%list).
Proof.
  unfold step, processTemplate. destruct dir as [n parsed].
  rewrite tryBlock_frame.
  destruct (tryBlock cfg n parsed empty) as [d [[t |] | e]]; worlds.
Qed.

Lemma fold_frame (cfg : config) (dirs : list (string * result json)) :
  forall w ts,
    fold_left (processTemplate cfg) dirs (w, ts)
    = (plus w (fst (fold_left (processTemplate cfg) dirs (empty, []))),
       (ts ++ snd (fold_left (processTemplate cfg) dirs (empty, [])))%list).
Proof.
  induction dirs as [| d dirs IH]; intros w ts; cbn [fold_left].
  - simpl. now rewrite plus_empty, app_nil_r.
  - rewrite processTemplate_frame, IH.
    rewrite (processTemplate_frame cfg empty [] d).
    rewrite (IH (plus empty _) _). worlds.
Qed.

Lemma build_finish (cfg : config) (dirs : list (string * result json))
      (w : world) :
  buildTemplateRegistry cfg (Some dirs) w
  = finish cfg (fold_left (processTemplate cfg) dirs
                          (emit LogBuilding w, [])).
Proof. reflexivity. Qed.

Lemma finish_frame (cfg : config) (w : world) (ts : list template) :
  finish cfg (w, ts)
  = (plus w (fst (finish cfg (empty, ts))), snd (finish cfg (empty, ts))).
Proof.
  unfold finish. destruct (buildApi cfg ts) as [a | e]; worlds.
Qed.

(** A definition without [tokens.colors] is reported and left out. *)
Lemma tryBlock_missing_colors (cfg : config) (n : string) (doc : json)
      (w : world) :
  isNull doc = false ->
  colorsEntry doc = None ->
  tryBlock cfg n (Ok doc) w
  = (emit (WarnMissingColors n) (emit (LogProcessing n) w), Ok None).
Proof.
  intros Hn Hc. unfold tryBlock.
  destruct doc as [| b | t | s | l | m]; try discriminate; simpl;
    try reflexivity.
  simpl in Hc.
  destruct (assoc m "tokens") as [[| b | t | s | l | m'] |]; simpl;
    try reflexivity.
  - destruct b; reflexivity.
  - destruct (negb (t =? "0") && negb (t =? "NaN")); reflexivity.
  - destruct (negb (s =? "")); reflexivity.
  - rewrite Hc. reflexivity.
Qed.

End TemplateFacts.

(** C3: a template definition in which [tokens.colors] is absent makes the
    Template Processor print one warning and nothing else: no file is
    written for it, it adds no record, and the run goes on as if the
    definition were not there, with the same records, the same published
    API (or the same failure of a later step), and the same files. *)
Theorem C3_missing_colors_skipped :
  forall (cfg : config) (before after : list (string * result Json.json))
         (templateName : string) (doc : Json.json) (w : Templates.world),
    TemplateSpec.isNull doc = false ->
    TemplateSpec.colorsEntry doc = None ->
    let run :=
      Templates.buildTemplateRegistry cfg
        (Some (before ++ (templateName, Ok doc) :: after)) w in
    let reference :=
      Templates.buildTemplateRegistry cfg (Some (before ++ after)) w in
    (forall (w' : Templates.world) (ts : list Templates.template),
        Templates.processTemplate cfg (w', ts) (templateName, Ok doc)
        = (Templates.emit (Templates.WarnMissingColors templateName)
             (Templates.emit (Templates.LogProcessing templateName) w'), ts))
    /\ snd run = snd reference
    /\ Templates.disk (fst run) = Templates.disk (fst reference)
    /\ exists c1 c2,
         Templates.console (fst reference) = c1 ++ c2
         /\ Templates.console (fst run)
            = c1 ++ [Templates.LogProcessing templateName;
                     Templates.WarnMissingColors templateName] ++ c2.
Proof.
  intros cfg before after n doc w Hn Hc run reference.
  assert (forall w' ts,
             Templates.processTemplate cfg (w', ts) (n, Ok doc)
             = (Templates.emit (Templates.WarnMissingColors n)
                  (Templates.emit (Templates.LogProcessing n) w'), ts)) as Hstep.
  { intros w' ts. unfold Templates.processTemplate.
    now rewrite TemplateFacts.tryBlock_missing_colors. }
  split; [exact Hstep|].
  subst run reference. rewrite !TemplateFacts.build_finish.
  rewrite !fold_left_app. cbn [fold_left].
  destruct (fold_left (Templates.processTemplate cfg) before
              (Templates.emit Templates.LogBuilding w, [])) as [wb tb].
  rewrite Hstep.
  rewrite (TemplateFacts.fold_frame cfg after _ tb).
  rewrite (TemplateFacts.fold_frame cfg after wb tb).
  destruct (fold_left (Templates.processTemplate cfg) after
              (TemplateSpec.empty, [])) as [wa ta].
  rewrite (TemplateFacts.finish_frame cfg _ (tb ++ snd (wa, ta))).
  rewrite (TemplateFacts.finish_frame cfg (TemplateSpec.plus wb _)).
  destruct (TemplateSpec.finish cfg (TemplateSpec.empty, tb ++ snd (wa, ta)))
    as [wf rf].
  simpl. split; [reflexivity|]. split; [reflexivity|].
  exists (Templates.console wb),
         (Templates.console wa ++ Templates.console wf).
  split; [now rewrite app_assoc|].
  now rewrite <- !app_assoc.
Qed.

(** C3 at three template directories of which the second has no colors:
    the run returns what the run over the other two returns. *)
Lemma C3_missing_colors_skipped_witness :
  snd (Templates.buildTemplateRegistry sampleConfig
         (Some ([("canopy", Ok (paletteTemplate "canopy" []))]
                ++ ("broken", Ok colorlessTemplate)
                   :: [("dusk", Ok (paletteTemplate "dusk" []))]))
         TemplateSpec.empty)
  = snd (Templates.buildTemplateRegistry sampleConfig
           (Some ([("canopy", Ok (paletteTemplate "canopy" []))]
                  ++ [("dusk", Ok (paletteTemplate "dusk" []))]))
           TemplateSpec.empty).
Proof.
  exact (proj1 (proj2 (@C3_missing_colors_skipped sampleConfig
                         [("canopy", Ok (paletteTemplate "canopy" []))]
                         [("dusk", Ok (paletteTemplate "dusk" []))]
                         "broken" colorlessTemplate TemplateSpec.empty
                         eq_refl eq_refl))).
Defined.

Module TemplateKeys.
Import JsString Json Templates.
Import TemplateSpec.
Local Open Scope string_scope.

Lemma writeTokenFiles_result (n : string) (tokens : value) :
  forall types g w1 w2,
    snd (writeTokenFiles n tokens types g w1)
    = snd (writeTokenFiles n tokens types g w2).
Proof.
  intros types g w1 w2.
  rewrite (TemplateFacts.writeTokenFiles_frame n tokens types g w1).
  rewrite (TemplateFacts.writeTokenFiles_frame n tokens types g w2).
  reflexivity.
Qed.

Lemma entries_keys (cfg1 cfg2 : config) (n : string) (tokens : value) :
  forall files,
    resultMap (map fileKey) (mapM (tokenFileEntry cfg1 n tokens) files)
    = resultMap (map fileKey) (mapM (tokenFileEntry cfg2 n tokens) files).
Proof.
  induction files as [| f files IH]; [reflexivity|].
  cbn [mapM]. unfold tokenFileEntry at 1 3.
  destruct (get tokens (replaceFirst f ".json" "")) as [v | e];
    [| reflexivity].
  cbn [bind]. destruct (md5 (stringify v)) as [sum | e]; [| reflexivity].
  cbn [bind].
  destruct (mapM (tokenFileEntry cfg1 n tokens) files) as [l1 | e1],
    (mapM (tokenFileEntry cfg2 n tokens) files) as [l2 | e2];
    simpl in IH |- *; try congruence.
  inversion IH. unfold fileKey at 1 3. simpl. congruence.
Qed.

(** Whether the [try] block returns, skips or throws, and the identity of
    what it returns, do not depend on the configuration nor on the
    world. *)
Lemma tryBlock_keys (cfg1 cfg2 : config) (n : string) (parsed : result json)
      (w1 w2 : world) :
  resultMap (option_map templateKey) (snd (tryBlock cfg1 n parsed w1))
  = resultMap (option_map templateKey) (snd (tryBlock cfg2 n parsed w2)).
Proof.
  rewrite (TemplateFacts.tryBlock_frame cfg1 n parsed w1).
  rewrite (TemplateFacts.tryBlock_frame cfg2 n parsed w2).
  cbn [snd]. unfold tryBlock.
  destruct parsed as [doc | e]; [| reflexivity].
  destruct (get (Some doc) "tokens") as [tokens | e] eqn:Etok; [| reflexivity].
  destruct (if truthy tokens then get tokens "colors" else Ok None)
    as [colors | e]; [| reflexivity].
  destruct (negb (truthy tokens) || negb (truthy colors)); [reflexivity|].
  set (types := match tokens with Some t => objectKeys t | None => [] end).
  destruct (writeTokenFiles n tokens types []
              (emit (LogProcessing n) TemplateSpec.empty))
    as [wa [g | e]]; [| reflexivity].
  pose proof (entries_keys cfg1 cfg2 n tokens g) as He.
  destruct (mapM (tokenFileEntry cfg1 n tokens) g) as [l1 | e1],
    (mapM (tokenFileEntry cfg2 n tokens) g) as [l2 | e2];
    simpl in He; try discriminate.
  - inversion He as [Hl]. cbn [bind].
    destruct doc as [| b | t | s | l | m]; try discriminate Etok;
      simpl; try destruct (JsConvert.toString _);
      unfold templateKey; simpl; rewrite Hl; reflexivity.
  - inversion He. reflexivity.
Qed.

Lemma fold_keys (cfg1 cfg2 : config) (dirs : list (string * result json)) :
  forall st1 st2,
    map templateKey (snd st1) = map templateKey (snd st2) ->
    map templateKey (snd (fold_left (processTemplate cfg1) dirs st1))
    = map templateKey (snd (fold_left (processTemplate cfg2) dirs st2)).
Proof.
  induction dirs as [| [n parsed] dirs IH]; intros [w1 ts1] [w2 ts2] H;
    cbn [fold_left]; [assumption|].
  apply IH. unfold processTemplate.
  pose proof (tryBlock_keys cfg1 cfg2 n parsed w1 w2) as Hk.
  destruct (tryBlock cfg1 n parsed w1) as [wa [[ta |] | ea]],
    (tryBlock cfg2 n parsed w2) as [wb [[tb |] | eb]];
    simpl in Hk |- *; try discriminate; try assumption.
  simpl in H. rewrite !map_app, H. simpl. congruence.
Qed.

Lemma personalities_keys (ts1 ts2 : list template) :
  map templateKey ts1 = map templateKey ts2 ->
  mapM personalityOf ts1 = mapM personalityOf ts2.
Proof.
  revert ts2. induction ts1 as [| t1 ts1 IH]; intros [| t2 ts2] H;
    try discriminate; [reflexivity|].
  simpl in H. inversion H as [[Hn Hp Hc Hf Hrest]].
  cbn [mapM]. unfold personalityOf at 1 3. rewrite Hp.
  now rewrite (IH _ Hrest).
Qed.

(** The identities of the returned templates, or the exception, are the
    same for two runs of [buildTemplateRegistry]. *)
Lemma build_keys (cfg1 cfg2 : config)
      (dirs : option (list (string * result json))) (w1 w2 : world) :
  resultMap (fun r => map templateKey (fst r))
            (snd (buildTemplateRegistry cfg1 dirs w1))
  = resultMap (fun r => map templateKey (fst r))
              (snd (buildTemplateRegistry cfg2 dirs w2)).
Proof.
  destruct dirs as [dirs |]; [| reflexivity].
  rewrite !TemplateFacts.build_finish.
  pose proof (fold_keys cfg1 cfg2 dirs (emit LogBuilding w1, [])
                (emit LogBuilding w2, []) eq_refl) as H.
  destruct (fold_left (processTemplate cfg1) dirs (emit LogBuilding w1, []))
    as [wa ta],
    (fold_left (processTemplate cfg2) dirs (emit LogBuilding w2, []))
    as [wb tb].
  simpl in H. unfold TemplateSpec.finish, buildApi.
  rewrite (personalities_keys _ _ H).
  destruct (mapM personalityOf tb) as [ps | e]; simpl; [| reflexivity].
  now rewrite H.
Qed.

End TemplateKeys.

Lemma lookupFile_In (dir : Builder.directory) (file content : string) :
  Builder.lookupFile dir file = Some content -> In content (map snd dir).
Proof.
  induction dir as [| [n text] dir IH]; simpl; [discriminate|].
  destruct (String.eqb file n).
  - intros H. inversion H. now left.
  - intros H. right. now apply IH.
Qed.

Lemma tokens_digest (cfg : config) (dir : Builder.directory) :
  forall files acc,
    Forall (fun t => exists content,
                In content (map snd dir)
                /\ Builder.t_checksum t = MD5.md5hex content) acc ->
    Forall (fun t => exists content,
                In content (map snd dir)
                /\ Builder.t_checksum t = MD5.md5hex content)
           (fold_left (Builder.tokenStep cfg dir) files acc).
Proof.
  intros files. induction files as [| f files IH]; intros acc H; simpl;
    [assumption|].
  apply IH. unfold Builder.tokenStep.
  destruct (Builder.lookupFile dir f) as [content |] eqn:E; [| assumption].
  apply Forall_app. split; [assumption|]. constructor; [| constructor].
  exists content. split; [now apply lookupFile_In in E | reflexivity].
Qed.

(** C5: the digest is a text of 32 hexadecimal digits computed from the
    text as it is (a change of line ending changes it); the checksum of
    an analysis and of a token record is the digest of the file's own
    text; and two builds over the same source tree, whatever their
    configuration and time stamp, give every component, provider, token
    and template, and every token file of a template, the same name and
    the same checksum. *)
Theorem C5_checksums_deterministic :
  (forall text : string,
      String.length (MD5.md5hex text) = 32
      /\ HasherSpec.allHex (MD5.md5hex text) = true)
  /\ (forall content : string,
        exists a, Analyzer.analyzeText content = Ok a
                  /\ Analyzer.checksum a = MD5.md5hex content)
  /\ (forall (cfg : config) (dir : Builder.directory),
        Forall (fun t => exists content,
                    In content (map snd dir)
                    /\ Builder.t_checksum t = MD5.md5hex content)
               (Builder.buildTokenRegistry cfg dir))
  /\ MD5.md5hex (String "a" (String (ascii_of_nat 10) ""))
     <> MD5.md5hex (String "a" (String (ascii_of_nat 13)
                                  (String (ascii_of_nat 10) "")))
  /\ (forall (cfg1 cfg2 : config) (dir : Builder.directory),
        resultMap (map BuilderSpec.componentKey)
                  (Builder.buildComponentRegistry cfg1 dir)
        = resultMap (map BuilderSpec.componentKey)
                    (Builder.buildComponentRegistry cfg2 dir))
  /\ (forall (cfg1 cfg2 : config) (dir : Builder.directory),
        resultMap (map BuilderSpec.providerKey)
                  (Builder.buildProviderRegistry cfg1 dir)
        = resultMap (map BuilderSpec.providerKey)
                    (Builder.buildProviderRegistry cfg2 dir))
  /\ (forall (cfg1 cfg2 : config) (dir : Builder.directory),
        map BuilderSpec.tokenKey (Builder.buildTokenRegistry cfg1 dir)
        = map BuilderSpec.tokenKey (Builder.buildTokenRegistry cfg2 dir))
  /\ (forall (cfg1 cfg2 : config)
             (dirs : option (list (string * result Json.json)))
             (w1 w2 : Templates.world),
        resultMap (fun r => map TemplateSpec.templateKey (fst r))
                  (snd (Templates.buildTemplateRegistry cfg1 dirs w1))
        = resultMap (fun r => map TemplateSpec.templateKey (fst r))
                    (snd (Templates.buildTemplateRegistry cfg2 dirs w2))).
Proof.
  repeat split.
  - apply HasherFacts.md5hex_length.
  - apply HasherFacts.md5hex_allHex.
  - intros content. eexists. split;
      [apply AnalyzerFacts.analyzeText_returns | reflexivity].
  - intros cfg dir. apply tokens_digest. constructor.
  - vm_compute. discriminate.
  - intros cfg1 cfg2 dir. now apply BuilderFacts.components_keys.
  - intros cfg1 cfg2 dir. now apply BuilderFacts.providers_keys.
  - intros cfg1 cfg2 dir. now apply BuilderFacts.tokens_keys.
  - intros. apply TemplateKeys.build_keys.
Qed.

Module TemplateRecords.
Import JsString Json Templates.
Import TemplateSpec.
Local Open Scope string_scope.

Lemma assoc_key (m : list (string * json)) (k : string) :
  In k (map fst m) -> assoc m k = Some (valueOf m k).
Proof.
  unfold valueOf. induction m as [| [k' v] m IH]; simpl; [intros []|].
  destruct (String.eqb k k') eqn:E; [reflexivity|].
  intros [H | H].
  - subst. now rewrite String.eqb_refl in E.
  - specialize (IH H). destruct (assoc m k); [reflexivity | discriminate].
Qed.

Lemma writeTokenFiles_object (n : string) (m : list (string * json)) :
  forall keys g w,
    incl keys (map fst m) ->
    writeTokenFiles n (Some (JObj m)) keys g w
    = ({| console := console w;
          disk := (disk w ++ map (groupFile n m) keys)%list |},
       Ok (g ++ map (fun k => (k ++ ".json")%string) keys)%list).
Proof.
  induction keys as [| k keys IH]; intros g w Hin; simpl.
  - rewrite !app_nil_r. now destruct w.
  - assert (In k (map fst m)) as Hk by (apply Hin; now left).
    rewrite (assoc_key m k Hk). simpl.
    rewrite IH by (intros x Hx; apply Hin; now right).
    simpl. unfold groupFile at 2. now rewrite <- !app_assoc.
Qed.

Lemma entries_object (cfg : config) (n : string) (m : list (string * json)) :
  forall keys entries,
    mapM (tokenFileEntry cfg n (Some (JObj m)))
         (map (fun k => k ++ ".json") keys) = Ok entries ->
    Forall2 (entryOf cfg n m) keys entries.
Proof.
  induction keys as [| k keys IH]; intros entries H; simpl in H.
  - inversion H. constructor.
  - unfold tokenFileEntry at 1 in H. simpl in H.
    destruct (assoc m (replaceFirst (k ++ ".json") ".json" ""))
      as [v |] eqn:E; simpl in H; [| discriminate].
    destruct (mapM (tokenFileEntry cfg n (Some (JObj m)))
                (map (fun k => k ++ ".json") keys)) as [rest | e];
      simpl in H; [| discriminate].
    inversion H; subst entries. constructor; [| now apply IH].
    unfold entryOf. simpl. repeat split. exists v. split; [assumption|].
    reflexivity.
Qed.

(** What a template that was processed to the end looks like: its
    definition has an object of token groups, one file was written per
    group and then [metadata.json], and the record lists one entry per
    group. *)
Lemma tryBlock_success (cfg : config) (n : string) (parsed : result json)
      (w w' : world) (t : template) :
  tryBlock cfg n parsed w = (w', Ok (Some t)) ->
  exists doc m,
    parsed = Ok doc
    /\ get (Some doc) "tokens" = Ok (Some (JObj m))
    /\ truthy (assoc m "colors") = true
    /\ disk w'
       = (disk w ++ map (groupFile n m) (map fst m)
          ++ [(["templates"; n; "metadata.json"],
               serialize "  " "" (templateJson t))])%list
    /\ Forall2 (entryOf cfg n m) (map fst m) (tokenFiles t)
    /\ templateUrl t
       = Config.baseUrl cfg ++ "/templates/" ++ n ++ "/template.json"
    /\ metadataUrl t
       = Config.baseUrl cfg ++ "/templates/" ++ n ++ "/metadata.json"
    /\ checksum t = MD5.md5hex (serialize "" "" doc)
    /\ get (Some doc) "name" = Ok (name t).
Proof.
  unfold tryBlock. intros H.
  destruct parsed as [doc | e]; [| discriminate].
  destruct (get (Some doc) "tokens") as [tokens | e] eqn:Etok;
    [| discriminate].
  destruct tokens as [[| b | x | s | l | m] |];
    try (match type of H with
         | context [if truthy ?v then _ else _] =>
             destruct (truthy v); cbn [get negb orb truthy] in H;
             discriminate H
         end).
  cbn [truthy] in H.
  change (get (Some (JObj m)) "colors") with (Ok (A:=value) (assoc m "colors")) in H.
  cbn [negb orb] in H.
  destruct (truthy (assoc m "colors")) eqn:Ecol; [| discriminate].
  cbn [negb] in H.
  rewrite writeTokenFiles_object in H by apply incl_refl.
  destruct (mapM (tokenFileEntry cfg n (Some (JObj m)))
              ([] ++ map (fun k => (k ++ ".json")%string)
                         (objectKeys (JObj m))))
    as [entries | e] eqn:Eent; [| discriminate].
  cbn [bind] in H.
  destruct doc as [| b | x | s | l | md]; try discriminate Etok.
  cbn [get bind md5 stringify option_map] in H.
  cbn [writeFileSync stringify2 option_map] in H.
  destruct (JsConvert.toString _) in H;
    (inversion H; subst w' t; clear H;
     exists (JObj md), m; cbn [disk emit tokenFiles templateUrl metadataUrl
                               checksum name];
     repeat split; try assumption; try reflexivity;
     [now rewrite <- app_assoc | apply entries_object; exact Eent]).
Qed.

End TemplateRecords.

(** C6, as stated, fails for providers and for templates: two provider
    files whose names differ in case only give two records with one
    [name] and two download URLs, and two template directories whose
    definitions carry one [name] give two records with one [name] and two
    template and metadata URLs. *)
Lemma C6_counterexample :
  ~ (forall (cfg : config) (dir : Builder.directory)
            (l : list Builder.provider) (p1 p2 : Builder.provider),
        Builder.buildProviderRegistry cfg dir = Ok l ->
        In p1 l -> In p2 l ->
        Builder.p_name p1 = Builder.p_name p2 ->
        Builder.p_downloadUrl p1 = Builder.p_downloadUrl p2)
  /\ ~ (forall (cfg : config) (dirs : list (string * result Json.json))
               (w : Templates.world) (ts : list Templates.template)
               (a : option Templates.api) (t1 t2 : Templates.template),
           snd (Templates.buildTemplateRegistry cfg (Some dirs) w) = Ok (ts, a) ->
           In t1 ts -> In t2 ts ->
           Templates.name t1 = Templates.name t2 ->
           Templates.templateUrl t1 = Templates.templateUrl t2
           /\ Templates.metadataUrl t1 = Templates.metadataUrl t2).
Proof.
  split.
  - intros H.
    eassert (Builder.buildProviderRegistry sampleConfig
               [("ThemeProvider.tsx", "export const ThemeContext = 1;");
                ("themeprovider.tsx", "export const ThemeContext = 2;")]
             = Ok [_; _]) as E by (vm_compute; reflexivity).
    specialize (H _ _ _ _ _ E (or_introl eq_refl)
                  (or_intror (or_introl eq_refl)) eq_refl).
    vm_compute in H. discriminate H.
  - intros H.
    eassert (snd (Templates.buildTemplateRegistry sampleConfig
                    (Some [("dusk", Ok (paletteTemplate "dusk" []));
                           ("dusk-copy", Ok (paletteTemplate "dusk" []))])
                    TemplateSpec.empty)
             = Ok ([_; _], _)) as E by (vm_compute; reflexivity).
    specialize (H _ _ _ _ _ _ _ E (or_introl eq_refl)
                  (or_intror (or_introl eq_refl)) eq_refl).
    vm_compute in H. destruct H as [H _]. discriminate H.
Qed.

(** C6 (amended): every URL of a generated record is a function of the
    base URL, the kind and one name: for a component and for a token
    the record's [name]; for a provider the record's [displayName],
    the file name without its [.tsx], of which [name] is the lower-case
    form; for a template the name of the template's directory,
    whatever the [name] field of the definition says.  Two component
    records or two token records of one build with the same [name]
    carry the same URLs. *)
Theorem C6_urls_determined :
  forall cfg : config,
    (forall dir : Builder.directory,
        exists l, Builder.buildComponentRegistry cfg dir = Ok l
                  /\ Forall (BuilderSpec.componentUrls cfg) l
                  /\ forall c1 c2,
                       In c1 l -> In c2 l ->
                       Synthesizer.name c1 = Synthesizer.name c2 ->
                       Synthesizer.downloadUrl c1 = Synthesizer.downloadUrl c2
                       /\ Synthesizer.metadataUrl c1
                          = Synthesizer.metadataUrl c2)
    /\ (forall dir : Builder.directory,
          Forall (BuilderSpec.tokenUrl cfg) (Builder.buildTokenRegistry cfg dir)
          /\ forall t1 t2,
               In t1 (Builder.buildTokenRegistry cfg dir) ->
               In t2 (Builder.buildTokenRegistry cfg dir) ->
               Builder.t_name t1 = Builder.t_name t2 ->
               Builder.t_downloadUrl t1 = Builder.t_downloadUrl t2)
    /\ (forall dir : Builder.directory,
          exists l, Builder.buildProviderRegistry cfg dir = Ok l
                    /\ Forall (BuilderSpec.providerUrl cfg) l)
    /\ (forall (templateName : string) (parsed : result Json.json)
               (w : Templates.world),
          match snd (Templates.tryBlock cfg templateName parsed w) with
          | Ok (Some t) =>
              Templates.templateUrl t
              = (Config.baseUrl cfg ++ "/templates/" ++ templateName
                   ++ "/template.json")%string
              /\ Templates.metadataUrl t
                 = (Config.baseUrl cfg ++ "/templates/" ++ templateName
                      ++ "/metadata.json")%string
          | _ => True
          end).
Proof.
  intros cfg. split; [| split; [| split]].
  - intros dir.
    destruct (@BuilderFacts.components_invariant cfg dir
                (BuilderSpec.componentUrls cfg)) with (files :=
                  map (fun file => JsString.replaceFirst file ".tsx" "")
                      (filter (Builder.isSource ".tsx")
                              (Builder.readdirSync dir)))
                (acc := @nil Synthesizer.component) as [l [Hl Hu]].
    + intros n a. split; reflexivity.
    + constructor.
    + exists l. split; [exact Hl|]. split; [exact Hu|].
      intros c1 c2 H1 H2 E. rewrite Forall_forall in Hu.
      destruct (Hu c1 H1) as [D1 M1]. destruct (Hu c2 H2) as [D2 M2].
      rewrite D1, D2, M1, M2, E. split; reflexivity.
  - intros dir.
    assert (Hu : Forall (BuilderSpec.tokenUrl cfg)
                        (Builder.buildTokenRegistry cfg dir))
      by (apply BuilderFacts.tokens_invariant; constructor).
    split; [exact Hu|].
    intros t1 t2 H1 H2 E. rewrite Forall_forall in Hu.
    rewrite (Hu t1 H1), (Hu t2 H2), E. reflexivity.
  - intros dir. apply BuilderFacts.providers_invariant. constructor.
  - intros n parsed w.
    destruct (Templates.tryBlock cfg n parsed w) as [w' [[t |] | e]] eqn:E;
      simpl; try exact I.
    apply TemplateRecords.tryBlock_success in E.
    destruct E as [doc [m [_ [_ [_ [_ [_ [H1 [H2 _]]]]]]]]]. now split.
Qed.

(** For a template that was processed to the end, one file per token
    group was written with the indented text of the group's value, and
    for a plain group the checksum of its entry is the digest of the
    compact text of that same value. *)
Lemma group_checksum_and_file (cfg : config) (n : string)
      (parsed : result Json.json) (w w' : Templates.world)
      (t : Templates.template) :
  Templates.tryBlock cfg n parsed w = (w', Ok (Some t)) ->
  exists m : list (string * Json.json),
    (forall k, In k (map fst m) ->
       In (["templates"; n; (k ++ ".json")%string],
           Json.serialize "  " "" (TemplateSpec.valueOf m k))
          (Templates.disk w'))
    /\ Forall2 (fun k tf =>
                  plainGroup k ->
                  Templates.tf_type tf = k
                  /\ Templates.tf_checksum tf
                     = MD5.md5hex
                         (Json.serialize "" "" (TemplateSpec.valueOf m k)))
               (map fst m) (Templates.tokenFiles t).
Proof.
  intros H. apply TemplateRecords.tryBlock_success in H.
  destruct H as [doc [m [_ [_ [_ [Hd [He _]]]]]]].
  exists m. split.
  - intros k Hk. rewrite Hd. apply in_or_app. right. apply in_or_app. left.
    apply in_map_iff. exists k. split; [reflexivity | assumption].
  - eapply Forall2_impl; [| exact He].
    intros k tf [Ht [_ [v [Hv Hs]]]] Hp. simpl in Ht, Hv.
    unfold plainGroup in Hp. rewrite Hp in Ht, Hv. split; [assumption|].
    unfold TemplateSpec.valueOf. now rewrite Hv.
Qed.

(** C9, on the failing input: the template is processed to the end, the
    file of the group [.jsonx] holds the indented text of that group's
    value, and the entry for that file carries the type [x.json] and the
    digest of the compact text of the value of the group [x.json], which
    is not the digest of the compact text of the group's own value. *)
Lemma C9_checksum_of_another_group :
  exists (w' : Templates.world) (t : Templates.template)
         (tf : Templates.tokenFile),
    Templates.tryBlock sampleConfig "odd" (Ok oddGroups) TemplateSpec.empty
    = (w', Ok (Some t))
    /\ In (["templates"; "odd"; ".jsonx.json"],
           Json.serialize "  " "" (Json.JObj [("a", Json.JNum "1")]))
          (Templates.disk w')
    /\ nth_error (Templates.tokenFiles t) 1 = Some tf
    /\ Templates.tf_url tf
       = (Config.baseUrl sampleConfig ++ "/templates/odd/.jsonx.json")%string
    /\ Templates.tf_type tf = "x.json"
    /\ Templates.tf_checksum tf
       = MD5.md5hex (Json.serialize "" "" (Json.JObj [("b", Json.JNum "2")]))
    /\ Templates.tf_checksum tf
       <> MD5.md5hex (Json.serialize "" "" (Json.JObj [("a", Json.JNum "1")])).
Proof.
  eexists. eexists. eexists.
  split; [vm_compute; reflexivity|].
  split; [vm_compute; tauto|].
  split; [vm_compute; reflexivity|].
  split; [vm_compute; reflexivity|].
  split; [vm_compute; reflexivity|].
  split; [vm_compute; reflexivity|].
  vm_compute. discriminate.
Qed.

(** The last write to a path is what the file holds. *)
Lemma lastWrite_last (path : list string) (text : string)
      (l : list (list string * string)) :
  WrittenSpec.lastWrite path (l ++ [(path, text)]) = Some text.
Proof.
  induction l as [| f l IH]; cbn [app WrittenSpec.lastWrite fst snd].
  - unfold ValidatorSpec.pathEqb.
    destruct (list_eq_dec string_dec path path) as [_ | H];
      [reflexivity | now destruct H].
  - now rewrite IH.
Qed.

(** ** Registry Assembler *)

Lemma string_leb_trans (a b c : string) :
  String.leb a b = true -> String.leb b c = true -> String.leb a c = true.
Proof.
  unfold String.leb. revert b c.
  induction a as [| x a IH]; intros [| y b] [| z c]; simpl; try easy.
  unfold Ascii.compare.
  destruct (N.compare_spec (N_of_ascii x) (N_of_ascii y)) as [E1 | L1 | G1],
    (N.compare_spec (N_of_ascii y) (N_of_ascii z)) as [E2 | L2 | G2],
    (N.compare_spec (N_of_ascii x) (N_of_ascii z)) as [E3 | L3 | G3];
    try easy; try lia.
  apply IH.
Qed.

Lemma sort_ascending (l : list string) :
  StronglySorted (fun a b => String.leb a b = true) (Index.sort l).
Proof.
  apply Sorted_StronglySorted.
  - intros a b c. apply string_leb_trans.
  - apply StringSort.Sorted_sort.
Qed.

Lemma sort_In (l : list string) (x : string) : In x (Index.sort l) <-> In x l.
Proof.
  split; apply Permutation_in;
    [apply Permutation_sym |]; apply StringSort.Permuted_sort.
Qed.

(** C7: for every list of component records, the [categories] of the
    index hold exactly the [category] values of the components, each
    once, and its [dependencies] hold exactly the members of the
    components' [dependencies], each once, in ascending order. *)
Theorem C7_index_unions :
  forall (cfg : config) (comps : list Synthesizer.component)
         (temps : list Templates.template) (provs : list Builder.provider)
         (toks : list Builder.token),
    let idx := Index.buildRegistryIndex cfg comps temps provs toks in
    (forall x, In x (Index.categories idx)
               <-> exists c, In c comps /\ Synthesizer.category c = x)
    /\ NoDup (Index.categories idx)
    /\ (forall d, In d (Index.dependencies idx)
                  <-> exists c, In c comps
                                /\ In d (Synthesizer.dependencies c))
    /\ NoDup (Index.dependencies idx)
    /\ StronglySorted (fun a b => String.leb a b = true)
                      (Index.dependencies idx).
Proof.
  intros cfg comps temps provs toks idx. subst idx. simpl.
  repeat split.
  - intros H. apply -> (ofList_In _ entryEqb_eq) in H.
    apply in_map_iff in H. destruct H as [c [Hc Hi]]. now exists c.
  - intros [c [Hi Hc]]. apply <- (ofList_In _ entryEqb_eq).
    apply in_map_iff. now exists c.
  - apply (ofList_NoDup _ entryEqb_eq).
  - intros H. apply -> sort_In in H. unfold Index.allDependencies in H.
    apply -> (ofList_In _ String.eqb_eq) in H. now apply in_flat_map in H.
  - intros H. apply <- sort_In. unfold Index.allDependencies.
    apply <- (ofList_In _ String.eqb_eq). now apply in_flat_map.
  - eapply Permutation_NoDup; [apply StringSort.Permuted_sort|].
    apply (ofList_NoDup _ String.eqb_eq).
  - apply sort_ascending.
Qed.

(** ** Integrity Validator *)

Module ValidatorFacts.
Import Json Validator.
Import ValidatorSpec.
Local Open Scope string_scope.

Lemma checkField_present (m : list (string * json)) (st : state)
      (field : string) :
  hasOwnProperty (JObj m) "hasOwnProperty" = false ->
  hasOwnProperty (JObj m) field = true ->
  checkField (JObj m) st field = Ok st.
Proof. intros Hs Hf. unfold checkField. now rewrite Hs, Hf. Qed.

Lemma checkFields_present (m : list (string * json)) (fields : list string) :
  hasOwnProperty (JObj m) "hasOwnProperty" = false ->
  forallb (hasOwnProperty (JObj m)) fields = true ->
  forall st,
    forEachState
      (fun st field =>
         match checkField (JObj m) st field with
         | Ok st' => (st', Ok tt)
         | Throw e => (st, Throw e)
         end) fields st = (st, Ok tt).
Proof.
  intros Hs. induction fields as [| f fields IH]; intros Hf st;
    [reflexivity|].
  cbn [forallb] in Hf. apply andb_true_iff in Hf. destruct Hf as [Hf Hrest].
  cbn [forEachState]. rewrite (checkField_present m st f Hs Hf).
  now apply IH.
Qed.

(** An intact record passes, and is reported valid if none failed
    before it. *)
Lemma checkComponent_intact (existsSync : list string -> bool) (c : json)
      (st : state) :
  intact existsSync c = true ->
  exists name,
    named name c = true
    /\ checkComponent existsSync st c
       = ((fst st, (snd st ++ if fst st then [LogValid name] else [])%list),
          Ok tt).
Proof.
  unfold intact, checkComponent.
  destruct c as [| b | x | s | l | m]; try discriminate.
  destruct (assoc m "name") as [[| b | x | name | l | m'] |] eqn:En;
    try discriminate.
  intros H. repeat (apply andb_true_iff in H; destruct H as [H ?]).
  apply negb_true_iff in H.
  exists name. split.
  - unfold named. now rewrite En, String.eqb_refl.
  - unfold checkFields. rewrite checkFields_present by assumption.
    unfold templateOf in *. cbn [app].
    repeat match goal with H : existsSync _ = true |- _ => rewrite H; clear H end.
    cbn [negb]. destruct st as [[|] log]; simpl; [reflexivity|].
    now rewrite app_nil_r.
Qed.

Lemma intact_named (existsSync : list string -> bool) (c : json) (n : string) :
  intact existsSync c = true ->
  named n c = false ->
  intact (removeFile existsSync (templateOf n)) c = true.
Proof.
  unfold intact, named.
  destruct c as [| b | x | s | l | m]; try discriminate.
  destruct (assoc m "name") as [[| b | x | name | l | m'] |];
    try discriminate.
  intros H Hn. apply String.eqb_neq in Hn.
  repeat (apply andb_true_iff in H; destruct H as [H ?]).
  rewrite H. unfold removeFile, pathEqb, templateOf in *.
  repeat match goal with
         | |- context [list_eq_dec string_dec ?p ?q] =>
             destruct (list_eq_dec string_dec p q) as [E | _];
             [inversion E; congruence |]
         end.
  repeat match goal with H : _ = true |- _ => rewrite H; clear H end.
  reflexivity.
Qed.

(** The record whose template file was deleted gets exactly one line. *)
Lemma checkComponent_deleted (existsSync : list string -> bool) (c : json)
      (n : string) (st : state) :
  intact existsSync c = true ->
  named n c = true ->
  checkComponent (removeFile existsSync (templateOf n)) st c
  = (report (ErrorTemplateMissing n) st, Ok tt).
Proof.
  unfold intact, named, checkComponent.
  destruct c as [| b | x | s | l | m]; try discriminate.
  destruct (assoc m "name") as [[| b | x | name | l | m'] |] eqn:En;
    try discriminate.
  intros H Hn. apply String.eqb_eq in Hn. subst name.
  repeat (apply andb_true_iff in H; destruct H as [H ?]).
  apply negb_true_iff in H.
  unfold checkFields. rewrite checkFields_present by assumption.
  unfold removeFile, pathEqb, templateOf. cbn [app].
  destruct (list_eq_dec string_dec ["components"; n]
              ["components"; n; "component.tsx.template"]) as [E | _];
    [discriminate E|].
  destruct (list_eq_dec string_dec
              ["components"; n; "component.tsx.template"]
              ["components"; n; "component.tsx.template"]) as [_ | N];
    [| now destruct N].
  destruct (list_eq_dec string_dec ["components"; n; "component.json"]
              ["components"; n; "component.tsx.template"]) as [E | _];
    [discriminate E|].
  unfold templateOf in *.
  repeat match goal with H : existsSync _ = true |- _ => rewrite H; clear H end.
  reflexivity.
Qed.

Lemma defects_app (a b : list event) :
  filter isDefect (a ++ b) = (filter isDefect a ++ filter isDefect b)%list.
Proof. apply filter_app. Qed.

(** The loop over intact records after the deletion: it reaches the end,
    prints one defect for each record of the name [n], and fails as soon
    as there is one. *)
Lemma loop_after_deletion (existsSync : list string -> bool) (n : string) :
  forall items st,
    forallb (intact existsSync) items = true ->
    exists st',
      forEachState (checkComponent (removeFile existsSync (templateOf n)))
                   items st = (st', Ok tt)
      /\ filter isDefect (snd st')
         = (filter isDefect (snd st)
            ++ map (fun _ => ErrorTemplateMissing n)
                   (filter (named n) items))%list
      /\ (fst st = false -> fst st' = false)
      /\ (filter (named n) items <> [] -> fst st' = false).
Proof.
  induction items as [| c items IH]; intros st H.
  - exists st. simpl. rewrite app_nil_r. repeat split; auto.
    intros N. now destruct N.
  - cbn [forallb] in H. apply andb_true_iff in H. destruct H as [Hc Hrest].
    cbn [forEachState filter].
    destruct (named n c) eqn:Hn.
    + rewrite (checkComponent_deleted _ _ _ st Hc Hn).
      destruct (IH (report (ErrorTemplateMissing n) st) Hrest)
        as [st' [Hrun [Hd [Hf _]]]].
      exists st'. split; [exact Hrun|]. split; [| split].
      * rewrite Hd. unfold report. cbn [snd]. rewrite defects_app. simpl.
        now rewrite <- app_assoc.
      * intros _. now apply Hf.
      * intros _. now apply Hf.
    + destruct (checkComponent_intact
                  (removeFile existsSync (templateOf n)) c st
                  (intact_named _ _ _ Hc Hn)) as [name [_ Hrun1]].
      rewrite Hrun1.
      match goal with
      | |- context [forEachState _ items ?s] =>
          destruct (IH s Hrest) as [st' [Hrun [Hd [Hf Hg]]]]
      end.
      exists st'. split; [exact Hrun|]. split; [| split].
      * rewrite Hd. cbn [snd fst]. rewrite defects_app.
        destruct (fst st); simpl; now rewrite ?app_nil_r.
      * intros Hst. apply Hf. exact Hst.
      * exact Hg.
Qed.

(** The deletion scenario on an intact registry: after the template file
    of the one record named [n] is deleted, the validator goes through
    all records, fails, and its only defect is the missing template of
    [n]. *)
Lemma deletion_reports_one_defect (existsSync : list string -> bool)
      (items : list json) (n : string) :
  forallb (intact existsSync) items = true ->
  List.length (filter (named n) items) = 1 ->
  let run := validateComponents (removeFile existsSync (templateOf n))
                                (apiFile items) in
  fst run = false
  /\ defects run = [ErrorTemplateMissing n]
  /\ In (LogTotal (List.length items)) (snd run).
Proof.
  intros Hi Hone run. subst run. unfold validateComponents, apiFile.
  cbn [get assoc String.eqb Ascii.eqb Bool.eqb truthy].
  destruct (loop_after_deletion existsSync n items (true, [LogValidating]) Hi)
    as [st' [Hrun [Hd [_ Hg]]]].
  rewrite Hrun. unfold defects. cbn [fst snd]. rewrite defects_app, Hd.
  destruct (filter (named n) items) as [| c [| c' rest]] eqn:Ef;
    try discriminate Hone.
  simpl. repeat split.
  - apply Hg. discriminate.
  - apply in_or_app. right. now left.
Qed.

End ValidatorFacts.

(** The deletion scenario at three intact records. *)
Lemma deletion_scenario_example :
  Validator.defects
    (Validator.validateComponents cardTemplateDeleted
       (ValidatorSpec.apiFile
          [componentRecord "button"; componentRecord "card";
           componentRecord "badge"]))
  = [Validator.ErrorTemplateMissing "card"].
Proof.
  exact (proj1 (proj2 (@ValidatorFacts.deletion_reports_one_defect
                         (fun _ => true)
                         [componentRecord "button"; componentRecord "card";
                          componentRecord "badge"]
                         "card" eq_refl eq_refl))).
Defined.

(** C4, on the failing input: with a record that lacks [name] in front,
    the validator prints the missing field and then stops on the
    exception of [path.join]; the records after it are not checked, so
    the missing template of [card], which a run without the nameless
    record reports, is not reported. *)
Theorem C4_stops_at_nameless_record :
  Validator.validateComponents cardTemplateDeleted
    (ValidatorSpec.apiFile
       [namelessRecord; componentRecord "card"; componentRecord "badge"])
  = (false,
     [Validator.LogValidating;
      Validator.ErrorMissingField "unknown" "name";
      Validator.ErrorValidating (TypeError "path")])
  /\ Validator.defects
       (Validator.validateComponents cardTemplateDeleted
          (ValidatorSpec.apiFile
             [componentRecord "card"; componentRecord "badge"]))
     = [Validator.ErrorTemplateMissing "card"]
  /\ ~ In (Validator.ErrorTemplateMissing "card")
          (snd (Validator.validateComponents cardTemplateDeleted
                  (ValidatorSpec.apiFile
                     [namelessRecord; componentRecord "card";
                      componentRecord "badge"]))).
Proof.
  split; [vm_compute; reflexivity|].
  split; [vm_compute; reflexivity|].
  vm_compute. intros [H | [H | [H | []]]]; discriminate H.
Qed.

(** ** The matcher and the language of an expression *)

Module StringFacts.

Lemma append_nil_r (s : string) : (s ++ "")%string = s.
Proof. induction s as [| a s IH]; simpl; [reflexivity | now rewrite IH]. Qed.

Lemma append_assoc (a b c : string) :
  ((a ++ b) ++ c)%string = (a ++ b ++ c)%string.
Proof. induction a as [| x a IH]; simpl; [reflexivity | now rewrite IH]. Qed.

Lemma length_append (a b : string) :
  String.length (a ++ b) = String.length a + String.length b.
Proof. induction a as [| x a IH]; simpl; [reflexivity | now rewrite IH]. Qed.

Lemma strip_append (p s rest : string) :
  JsString.strip p s = Some rest -> s = (p ++ rest)%string.
Proof.
  revert s. induction p as [| a p IH]; intros s H; simpl in H.
  - now inversion H.
  - destruct s as [| b s]; [discriminate|].
    destruct (Ascii.eqb a b) eqn:E; [| discriminate].
    apply Ascii.eqb_eq in E. subst b. simpl. f_equal. now apply IH.
Qed.

Lemma strip_of_append (p rest : string) :
  JsString.strip p (p ++ rest) = Some rest.
Proof.
  induction p as [| a p IH]; simpl; [reflexivity|].
  now rewrite Ascii.eqb_refl.
Qed.

Lemma take_append (u s : string) :
  JsString.take (String.length u) (u ++ s) = u.
Proof. induction u as [| a u IH]; simpl; [now destruct s | now rewrite IH]. Qed.

Lemma consumed_append (u s : string) : Regex.consumed (u ++ s) s = u.
Proof.
  unfold Regex.consumed. rewrite length_append.
  replace (String.length u + String.length s - String.length s)
    with (String.length u) by lia.
  apply take_append.
Qed.

Lemma prefix_append (p s : string) : String.prefix p (p ++ s) = true.
Proof.
  induction p as [| a p IH]; simpl; [now destruct s|].
  destruct (ascii_dec a a) as [_ | N]; [exact IH | now destruct N].
Qed.

Lemma prefix_split (p s : string) :
  String.prefix p s = true -> exists rest, s = (p ++ rest)%string.
Proof.
  revert s. induction p as [| a p IH]; intros s H.
  - exists s. reflexivity.
  - destruct s as [| b s]; [discriminate|]. simpl in H.
    destruct (ascii_dec a b) as [-> | _]; [| discriminate].
    destruct (IH s H) as [rest ->]. now exists rest.
Qed.

(** [s.includes(v)] says that [v] occurs in [s]. *)
Lemma includes_occurs (s v : string) :
  JsString.includes s v = true <-> RegexLanguage.occursIn v s.
Proof.
  unfold RegexLanguage.occursIn. split.
  - induction s as [| x s IH]; cbn [JsString.includes]; intros H.
    + rewrite orb_false_r in H. destruct (prefix_split _ _ H) as [rest E].
      exists "", rest. exact E.
    + apply orb_true_iff in H. destruct H as [H | H].
      * destruct (prefix_split _ _ H) as [rest E]. exists "", rest. exact E.
      * destruct (IH H) as [a [b E]]. exists (String x a), b. simpl. now rewrite E.
  - intros [a [b E]]. subst s. induction a as [| x a IH].
    + change ("" ++ v ++ b)%string with (v ++ b)%string.
      destruct (v ++ b)%string eqn:E; cbn [JsString.includes];
        rewrite <- E, prefix_append; reflexivity.
    + change (String x a ++ v ++ b)%string with (String x (a ++ v ++ b)).
      cbn [JsString.includes]. rewrite IH. apply orb_true_r.
Qed.

Lemma occursIn_refl (s : string) : RegexLanguage.occursIn s s.
Proof. exists "", "". simpl. now rewrite append_nil_r. Qed.

Lemma occursIn_trans (a b c : string) :
  RegexLanguage.occursIn a b -> RegexLanguage.occursIn b c ->
  RegexLanguage.occursIn a c.
Proof.
  intros [x [y ->]] [x' [y' ->]].
  exists (x' ++ x)%string, (y ++ y')%string.
  now rewrite !append_assoc.
Qed.

Lemma occursIn_left (v u w : string) :
  RegexLanguage.occursIn v u -> RegexLanguage.occursIn v (u ++ w).
Proof.
  intros [a [b ->]]. exists a, (b ++ w)%string. now rewrite !append_assoc.
Qed.

Lemma occursIn_right (v u w : string) :
  RegexLanguage.occursIn v w -> RegexLanguage.occursIn v (u ++ w).
Proof.
  intros [a [b ->]]. exists (u ++ a)%string, b. now rewrite !append_assoc.
Qed.

End StringFacts.

Module RegexSound.
Import Regex RegexLanguage StringFacts.

Lemma starLoop_sound (A : Type) (r : regex)
      (IH : forall s c (k : string -> caps -> option A) x,
          rmatch r s c k = Some x ->
          exists u s' c', s = (u ++ s')%string /\ parses r u c c'
                          /\ k s' c' = Some x)
      (k : string -> caps -> option A) (n : nat) :
  forall s c x,
    starLoop (fun s c k => rmatch r s c k) k n s c = Some x ->
    exists u s' c', s = (u ++ s')%string /\ parses (Star r) u c c'
                    /\ k s' c' = Some x.
Proof.
  assert (Hnil : forall s c x, k s c = Some x ->
            exists u s' c', s = (u ++ s')%string /\ parses (Star r) u c c'
                    /\ k s' c' = Some x).
  { intros s c x H. exists "", s, c. repeat split; [constructor | exact H]. }
  induction n as [| n IHn]; intros s c x H; cbn [starLoop] in H.
  - now apply Hnil.
  - destruct (rmatch r s c _) as [y |] eqn:E.
    + inversion H; subst y; clear H.
      apply IH in E. destruct E as [u1 [s1 [c1 [-> [M1 K1]]]]].
      destruct (String.length s1 <? String.length (u1 ++ s1)); [| discriminate].
      apply IHn in K1. destruct K1 as [u2 [s2 [c2 [-> [M2 K2]]]]].
      exists (u1 ++ u2)%string, s2, c2. repeat split.
      * now rewrite append_assoc.
      * econstructor; eassumption.
      * exact K2.
    + now apply Hnil.
Qed.

(** Whatever the matcher accepts is a parse of the expression over a
    prefix of the input, and the continuation ran on the rest. *)
Lemma rmatch_sound (A : Type) (r : regex) :
  forall s c (k : string -> caps -> option A) x,
    rmatch r s c k = Some x ->
    exists u s' c', s = (u ++ s')%string /\ parses r u c c'
                    /\ k s' c' = Some x.
Proof.
  induction r as [| p | l | r1 IH1 r2 IH2 | r1 IH1 r2 IH2 | r1 IH1 | j r1 IH1];
    intros s c k x H; cbn [rmatch] in H.
  - exists "", s, c. repeat split; [constructor | exact H].
  - destruct s as [| a s]; [discriminate|].
    destruct (p a) eqn:Ep; [| discriminate].
    exists (String a ""), s, c. repeat split; [now constructor | exact H].
  - destruct (JsString.strip l s) as [s' |] eqn:E; [| discriminate].
    exists l, s', c. repeat split;
      [now apply strip_append | constructor | exact H].
  - apply IH1 in H. destruct H as [u1 [s1 [c1 [-> [M1 K1]]]]].
    apply IH2 in K1. destruct K1 as [u2 [s2 [c2 [-> [M2 K2]]]]].
    exists (u1 ++ u2)%string, s2, c2. repeat split.
    + now rewrite append_assoc.
    + econstructor; eassumption.
    + exact K2.
  - destruct (rmatch r1 s c k) as [y |] eqn:E.
    + inversion H; subst y; clear H. apply IH1 in E.
      destruct E as [u [s' [c' [-> [M K]]]]].
      exists u, s', c'. repeat split; [now apply PAltL | exact K].
    + apply IH2 in H.
      destruct H as [u [s' [c' [-> [M K]]]]].
      exists u, s', c'. repeat split; [now apply PAltR | exact K].
  - eapply starLoop_sound; [| exact H]. exact IH1.
  - apply IH1 in H. destruct H as [u [s' [c' [-> [M K]]]]].
    rewrite consumed_append in K.
    exists u, s', ((j, u) :: c'). repeat split; [now constructor | exact K].
Qed.

Lemma matchHere_sound (r : regex) (s s' : string) (c : caps) :
  matchHere r s = Some (s', c) ->
  exists u, s = (u ++ s')%string /\ parses r u [] c.
Proof.
  unfold matchHere. intros H. apply rmatch_sound in H.
  destruct H as [u [s1 [c1 [-> [M K]]]]]. inversion K; subst. now exists u.
Qed.

(** [s.match(r)] without [g]: the text it returns is a part of [s]
    that [r] parses, with the captures of that parse. *)
Lemma search_sound (r : regex) (s m : string) (c : caps) :
  search r s = Some (m, c) -> occursIn m s /\ parses r m [] c.
Proof.
  induction s as [| a s IH]; cbn [search]; intros H.
  - destruct (matchHere r "") as [[s' c'] |] eqn:E; [| discriminate].
    inversion H; subst; clear H. apply matchHere_sound in E.
    destruct E as [u [E M]]. rewrite E, consumed_append. split; [| exact M].
    exists "", s'. reflexivity.
  - destruct (matchHere r (String a s)) as [[s' c'] |] eqn:E.
    + inversion H; subst; clear H. apply matchHere_sound in E.
      destruct E as [u [E M]]. rewrite E, consumed_append. split; [| exact M].
      exists "", s'. reflexivity.
    + destruct (IH H) as [[x [y ->]] M]. split; [| exact M].
      exists (String a x), y. reflexivity.
Qed.

(** [s.match(r)] with [g]: every text of the array is a part of [s]
    in the language of [r]. *)
Lemma scan_sound (r : regex) (s : string) :
  forall skip m, In m (scan r s skip) -> occursIn m s /\ inLanguage r m.
Proof.
  assert (Hcons : forall a t m, occursIn m t -> occursIn m (String a t)).
  { intros a t m [x [y ->]]. exists (String a x), y. reflexivity. }
  induction s as [| a s IH]; intros skip m H; cbn [scan] in H.
  - destruct skip; [| destruct H].
    destruct (matchHere r "") as [[s' c'] |] eqn:E; [| destruct H].
    destruct H as [<- | []]. apply matchHere_sound in E.
    destruct E as [u [E M]]. rewrite E, consumed_append. split.
    + exists "", s'. reflexivity.
    + now exists c'.
  - destruct skip as [| k].
    + destruct (matchHere r (String a s)) as [[s' c'] |] eqn:E.
      * destruct H as [<- | H].
        -- apply matchHere_sound in E.
           destruct E as [u [E M]]. rewrite E, consumed_append. split.
           ++ exists "", s'. reflexivity.
           ++ now exists c'.
        -- destruct (IH _ _ H) as [O L]. split; [now apply Hcons | exact L].
      * destruct (IH _ _ H) as [O L]. split; [now apply Hcons | exact L].
    + destruct (IH _ _ H) as [O L]. split; [now apply Hcons | exact L].
Qed.

Lemma matchAll_sound (r : regex) (s m : string) :
  In m (orEmpty (matchAll r s)) -> occursIn m s /\ inLanguage r m.
Proof.
  unfold matchAll. intros H. apply (scan_sound r s 0).
  destruct (scan r s 0); [destruct H | exact H].
Qed.

(** Reading a parse off an expression. *)
Lemma parses_Eps (u : string) (c c' : caps) :
  parses Eps u c c' -> u = "" /\ c' = c.
Proof. intros H. inversion H; subst. now split. Qed.

Lemma parses_Chr (p : ascii -> bool) (u : string) (c c' : caps) :
  parses (Chr p) u c c' -> exists a, u = String a "" /\ p a = true /\ c' = c.
Proof. intros H. inversion H; subst. now exists a. Qed.

Lemma parses_Lit (l u : string) (c c' : caps) :
  parses (Lit l) u c c' -> u = l /\ c' = c.
Proof. intros H. inversion H; subst. now split. Qed.

Lemma parses_Seq (r1 r2 : regex) (u : string) (c c' : caps) :
  parses (Seq r1 r2) u c c' ->
  exists u1 u2 c1,
    u = (u1 ++ u2)%string /\ parses r1 u1 c c1 /\ parses r2 u2 c1 c'.
Proof. intros H. inversion H; subst. now exists u0, v, c1. Qed.

Lemma parses_Alt (r1 r2 : regex) (u : string) (c c' : caps) :
  parses (Alt r1 r2) u c c' -> parses r1 u c c' \/ parses r2 u c c'.
Proof. intros H. inversion H; subst; [now left | now right]. Qed.

Lemma parses_Group (i : nat) (r : regex) (u : string) (c c' : caps) :
  parses (Group i r) u c c' -> exists c1, c' = (i, u) :: c1 /\ parses r u c c1.
Proof. intros H. inversion H; subst. now exists c1. Qed.

Lemma allChars_app (p : ascii -> bool) (u v : string) :
  allChars p (u ++ v) = allChars p u && allChars p v.
Proof.
  induction u as [| a u IH]; simpl; [reflexivity|].
  now rewrite IH, andb_assoc.
Qed.

Lemma parses_StarChr (p : ascii -> bool) (u : string) (c c' : caps) :
  parses (Star (Chr p)) u c c' -> allChars p u = true /\ c' = c.
Proof.
  intros H. remember (Star (Chr p)) as r eqn:Er.
  induction H; try discriminate; inversion Er; subst.
  - now split.
  - apply parses_Chr in H. destruct H as [a [-> [Pa ->]]].
    destruct (IHparses2 eq_refl) as [Hall ->]. split; [| reflexivity].
    simpl. now rewrite Pa, Hall.
Qed.

Lemma parses_PlusChr (p : ascii -> bool) (u : string) (c c' : caps) :
  parses (Plus (Chr p)) u c c' ->
  allChars p u = true /\ u <> "" /\ c' = c.
Proof.
  unfold Plus. intros H. apply parses_Seq in H.
  destruct H as [u1 [u2 [c1 [-> [H1 H2]]]]].
  apply parses_Chr in H1. destruct H1 as [a [-> [Pa ->]]].
  apply parses_StarChr in H2. destruct H2 as [Hall ->].
  repeat split; [simpl; now rewrite Pa, Hall | discriminate].
Qed.

End RegexSound.
Module RegexComplete.
Import Regex RegexLanguage StringFacts.

Lemma starLoop_fallback (A : Type)
      (m : string -> caps -> (string -> caps -> option A) -> option A)
      (k : string -> caps -> option A) (n : nat) (s : string) (c : caps) :
  k s c <> None -> starLoop m k n s c <> None.
Proof.
  intros H. destruct n as [| n]; cbn [starLoop]; [exact H|].
  destruct (m s c _); [discriminate | exact H].
Qed.

(** The matcher finds a match wherever the expression has a parse and
    the continuation accepts the rest. *)
Lemma rmatch_complete (r : regex) (u : string) (c c' : caps) :
  parses r u c c' ->
  forall (A : Type) (s' : string) (k : string -> caps -> option A),
    (forall c1, k s' c1 <> None) ->
    forall c0, rmatch r (u ++ s') c0 k <> None.
Proof.
  intros H. induction H; intros A s' k Hk c0; cbn [rmatch].
  - apply Hk.
  - simpl. rewrite H. apply Hk.
  - rewrite strip_of_append. apply Hk.
  - rewrite append_assoc. apply IHparses1. intros c3. now apply IHparses2.
  - destruct (rmatch r1 (u ++ s') c0 k) eqn:E; [discriminate|].
    exfalso. revert E. now apply IHparses.
  - destruct (rmatch r1 (u ++ s') c0 k); [discriminate|]. now apply IHparses.
  - apply starLoop_fallback. apply Hk.
  - destruct u as [| a u].
    + simpl. specialize (IHparses2 A s' k Hk c0). exact IHparses2.
    + rewrite append_assoc.
      change (String.length (String a u ++ v ++ s'))
        with (S (String.length (u ++ v ++ s'))).
      cbn [starLoop].
      match goal with
      | |- match ?x with _ => _ end <> None => destruct x eqn:E
      end; [discriminate|].
      exfalso. revert E. apply IHparses1. intros c3.
      assert (L : (String.length (v ++ s')
                   <? String.length (String a u ++ v ++ s')) = true).
      { apply Nat.ltb_lt. simpl. rewrite (length_append u). lia. }
      rewrite L. rewrite RegexFacts.star_fuel.
      * now apply IHparses2.
      * rewrite (length_append u). lia.
  - apply IHparses. intros c3. apply Hk.
Qed.

Lemma matchHere_complete (r : regex) (u s' : string) :
  inLanguage r u -> matchHere r (u ++ s') <> None.
Proof.
  intros [c H]. unfold matchHere.
  apply (rmatch_complete H). intros c1. discriminate.
Qed.

Lemma scan_complete (r : regex) (s : string) :
  hasMatch r s -> scan r s 0 <> [].
Proof.
  intros [m [[a [b ->]] L]]. induction a as [| x a IH].
  - change ("" ++ m ++ b)%string with (m ++ b)%string.
    pose proof (matchHere_complete b L) as H.
    destruct (m ++ b)%string; cbn [scan];
      (destruct (matchHere r _) as [[s' c'] |]; [discriminate | now destruct H]).
  - change (String x a ++ m ++ b)%string with (String x (a ++ m ++ b)).
    cbn [scan]. destruct (matchHere r _) as [[s' c'] |]; [discriminate|].
    exact IH.
Qed.

Lemma search_complete (r : regex) (s : string) :
  hasMatch r s -> search r s <> None.
Proof.
  intros [m [[a [b ->]] L]]. induction a as [| x a IH].
  - change ("" ++ m ++ b)%string with (m ++ b)%string.
    pose proof (matchHere_complete b L) as H.
    destruct (m ++ b)%string; cbn [search];
      (destruct (matchHere r _) as [[s' c'] |]; [discriminate | now destruct H]).
  - change (String x a ++ m ++ b)%string with (String x (a ++ m ++ b)).
    cbn [search]. destruct (matchHere r _) as [[s' c'] |]; [discriminate|].
    exact IH.
Qed.

(** The array of a global match is empty exactly when no part of the
    text is in the language of the expression. *)
Lemma matchAll_empty (r : regex) (s : string) :
  orEmpty (matchAll r s) = [] <-> ~ hasMatch r s.
Proof.
  unfold matchAll. split.
  - intros H M. apply scan_complete in M.
    destruct (scan r s 0); [now apply M | discriminate H].
  - intros H. destruct (scan r s 0) as [| m l] eqn:E; [reflexivity|].
    exfalso. apply H. exists m.
    apply (RegexSound.scan_sound r s 0). rewrite E. now left.
Qed.

End RegexComplete.

Module AnalyzerSound.
Import JsString Regex Analyzer RegexLanguage AnalyzerLanguage.
Import StringFacts RegexSound.
Local Open Scope string_scope.

Ltac parse_inv :=
  repeat match goal with
  | H : parses (Plus (Chr _)) _ _ _ |- _ =>
      apply parses_PlusChr in H; destruct H as (? & ? & ?); try subst
  | H : parses (Star (Chr _)) _ _ _ |- _ =>
      apply parses_StarChr in H; destruct H as (? & ?); try subst
  | H : parses (Seq _ _) _ _ _ |- _ =>
      apply parses_Seq in H; destruct H as (? & ? & ? & ? & ? & ?); try subst
  | H : parses (Lit _) _ _ _ |- _ =>
      apply parses_Lit in H; destruct H as (? & ?); try subst
  | H : parses (Chr _) _ _ _ |- _ =>
      apply parses_Chr in H; destruct H as (? & ? & ? & ?); try subst
  | H : parses (Group _ _) _ _ _ |- _ =>
      apply parses_Group in H; destruct H as (? & ? & ?); try subst
  | H : parses (Alt _ _) _ _ _ |- _ =>
      apply parses_Alt in H; destruct H as [H | H]
  | H : parses Eps _ _ _ |- _ =>
      apply parses_Eps in H; destruct H as (? & ?); try subst
  end.

Lemma fromRe_parse (t : string) (c : caps) :
  parses fromRe t [] c ->
  exists d, c = [(1, d)] /\ fromClause d t.
Proof.
  unfold fromRe, quoted. cbn [seqs app]. intros H. parse_inv.
  eexists. split; [reflexivity|].
  unfold fromClause, quotedLiteral, spaces.
  do 2 eexists. split; [reflexivity|]. 
  repeat split; try assumption.
  do 2 eexists. split; [reflexivity|]. repeat split; assumption.
Qed.


Lemma exportNameRe_parse (t : string) (c : caps) :
  parses exportNameRe t [] c ->
  exists n, c = [(1, n)] /\ exportClause n t.
Proof.
  unfold exportNameRe, declKind. cbn [seqs alts]. intros H. parse_inv;
    (eexists; split; [reflexivity|];
     unfold exportClause, spaces, declKinds;
     do 3 eexists; split; [reflexivity|];
     repeat split; try assumption; simpl; tauto).
Qed.

Lemma quotedRe_parse (t : string) :
  inLanguage quotedRe t -> exists v, quotedLiteral v t.
Proof.
  intros [c H]. revert H. unfold quotedRe, quoted. cbn [seqs]. intros H.
  parse_inv. eexists. unfold quotedLiteral.
  do 2 eexists. split; [reflexivity|]. repeat split; assumption.
Qed.

Lemma tokenRe_parse (t : string) : inLanguage tokenRe t -> tokenPath t.
Proof.
  intros [c H]. revert H. unfold tokenRe, tokenRoot. cbn [seqs alts].
  intros H. parse_inv;
    (unfold tokenPath, tokenRoots; do 2 eexists; split; [reflexivity|];
     repeat split; try assumption; simpl; tauto).
Qed.

Lemma removeAll_notQuote (v : string) :
  allChars notQuote v = true -> removeAll isQuote v = v.
Proof.
  induction v as [| a v IH]; simpl; [reflexivity|].
  unfold notQuote at 1. intros H. apply andb_true_iff in H.
  destruct H as [Ha Hv]. destruct (isQuote a); [discriminate|].
  now rewrite IH.
Qed.

Lemma removeAll_quoted (v t : string) :
  quotedLiteral v t -> removeAll isQuote t = v.
Proof.
  intros [q1 [q2 [-> [Q1 [Q2 [_ Hv]]]]]]. simpl. rewrite Q1. clear Q1.
  induction v as [| a v IH]; simpl.
  - now rewrite Q2.
  - simpl in Hv. apply andb_true_iff in Hv. destruct Hv as [Ha Hv].
    unfold notQuote in Ha. destruct (isQuote a); [discriminate|].
    now rewrite IH.
Qed.

(** The literals collected from the declarations [ms]. *)
Lemma addLiterals_In (ms : list string) :
  forall acc v,
    In v (fold_left addLiterals ms acc) ->
    In v acc
    \/ exists m t, In m ms /\ occursIn t m /\ quotedLiteral v t.
Proof.
  induction ms as [| m ms IH]; intros acc v H; cbn [fold_left] in H.
  - now left.
  - apply IH in H. destruct H as [H | [m' [t [Hm Ht]]]].
    + unfold addLiterals, addStr in H.
      apply (fold_add_In String.eqb String.eqb_eq
               (fun q => Some (removeAll isQuote q))) in H.
      destruct H as [H | [q [Hq Hv]]]; [now left | right].
      apply matchAll_sound in Hq. destruct Hq as [Oq Lq].
      apply quotedRe_parse in Lq. destruct Lq as [v' Lq].
      rewrite (removeAll_quoted Lq) in Hv. inversion Hv; subst v'.
      exists m, q. repeat split; [now left | exact Oq | exact Lq].
    + right. exists m', t. split; [now right | exact Ht].
Qed.

Lemma addLiterals_NoDup (ms : list string) :
  forall acc, NoDup acc -> NoDup (fold_left addLiterals ms acc).
Proof.
  induction ms as [| m ms IH]; intros acc H; cbn [fold_left]; [exact H|].
  apply IH. unfold addLiterals, addStr.
  apply (fold_add_NoDup String.eqb String.eqb_eq
           (fun q => Some (removeAll isQuote q))). exact H.
Qed.

Lemma literals_of (r : regex) (content v : string) :
  In v (fold_left addLiterals (orEmpty (matchAll r content)) []) ->
  literalOf r content v.
Proof.
  intros H. apply addLiterals_In in H.
  destruct H as [[] | [m [t [Hm [Ot Qt]]]]].
  apply matchAll_sound in Hm. destruct Hm as [Om Lm].
  now exists m, t.
Qed.

Lemma addExport_In (ms : list string) :
  forall acc e,
    In e (fold_left addExport ms acc) ->
    In e acc
    \/ exists m t n, In m ms /\ occursIn t m /\ exportClause n t /\ e = Some n.
Proof.
  induction ms as [| m ms IH]; intros acc e H; cbn [fold_left] in H.
  - now left.
  - apply IH in H. destruct H as [H | [m' [t [n [Hm Ht]]]]].
    + unfold addExport in H.
      destruct (search exportNameRe m) as [[t c] |] eqn:E; [| now left].
      apply search_sound in E. destruct E as [Ot Pt].
      apply exportNameRe_parse in Pt. destruct Pt as [n [-> Cn]].
      apply (add_In optEqb) in H.
      * destruct H as [H | ->]; [now left | right].
        exists m, t, n. repeat split; [now left | exact Ot | exact Cn].
      * intros [x |] [y |]; simpl; split; intros H'; try discriminate;
          try reflexivity.
        -- apply String.eqb_eq in H'. now subst.
        -- inversion H'. apply String.eqb_refl.
    + right. exists m', t, n. split; [now right | exact Ht].
Qed.

Lemma optEqb_eq (x y : option string) : optEqb x y = true <-> x = y.
Proof.
  destruct x as [x |], y as [y |]; simpl; split; intros H; try discriminate;
    try reflexivity.
  - apply String.eqb_eq in H. now subst.
  - inversion H. apply String.eqb_refl.
Qed.

Lemma addExport_NoDup (ms : list string) :
  forall acc, NoDup acc -> NoDup (fold_left addExport ms acc).
Proof.
  induction ms as [| m ms IH]; intros acc H; cbn [fold_left]; [exact H|].
  apply IH. unfold addExport.
  destruct (search exportNameRe m) as [[t c] |]; [| exact H].
  now apply (add_NoDup optEqb optEqb_eq).
Qed.

End AnalyzerSound.

(** X1: every dependency of the fact sheet is the module path of a from
    clause inside an import statement of the text. *)
Theorem dependencies_are_imported :
  forall content : string,
    exists a : Analyzer.analysis,
      Analyzer.analyzeText content = Ok a
      /\ forall d : string,
           In d (Analyzer.dependencies a) ->
           AnalyzerLanguage.importOf content d.
Proof.
  intros content. eexists. split; [apply AnalyzerFacts.analyzeText_returns|].
  cbn [Analyzer.dependencies]. intros d H.
  apply AnalyzerFacts.dependenciesOf_In in H. destruct H as [H _].
  unfold AnalyzerSpec.matchedPaths in H. apply in_flat_map in H.
  destruct H as [m [Hm Hd]].
  apply RegexSound.matchAll_sound in Hm. destruct Hm as [Om Lm].
  unfold AnalyzerSpec.matchedPath in Hd.
  destruct (Regex.search Analyzer.fromRe m) as [[t c] |] eqn:E; [| destruct Hd].
  apply RegexSound.search_sound in E. destruct E as [Ot Pt].
  apply AnalyzerSound.fromRe_parse in Pt. destruct Pt as [d' [-> Cd]].
  simpl in Hd. destruct Hd as [<- | []].
  now exists m, t.
Qed.

(** X2: the exports of the fact sheet are distinct defined names, each
    declared by an export declaration of the text. *)
Theorem exports_are_declared :
  forall content : string,
    exists a : Analyzer.analysis,
      Analyzer.analyzeText content = Ok a
      /\ NoDup (Analyzer.exports a)
      /\ forall e : option string,
           In e (Analyzer.exports a) ->
           exists n, e = Some n /\ AnalyzerLanguage.exportOf content n.
Proof.
  intros content. eexists. split; [apply AnalyzerFacts.analyzeText_returns|].
  cbn [Analyzer.exports]. split.
  - apply AnalyzerSound.addExport_NoDup. constructor.
  - intros e H. apply AnalyzerSound.addExport_In in H.
    destruct H as [[] | [m [t [n [Hm [Ot [Cn ->]]]]]]].
    exists n. split; [reflexivity|].
    apply RegexSound.matchAll_sound in Hm. destruct Hm as [Om _].
    exists t. split; [| exact Cn].
    eapply StringFacts.occursIn_trans; eassumption.
Qed.

(** X3: the variants and the sizes of the fact sheet are distinct
    literals, each found between quotes inside an alias declaration of
    the text. *)
Theorem variants_and_sizes_are_literals :
  forall content : string,
    exists a : Analyzer.analysis,
      Analyzer.analyzeText content = Ok a
      /\ NoDup (Analyzer.variants a) /\ NoDup (Analyzer.sizes a)
      /\ (forall v : string,
            In v (Analyzer.variants a) ->
            AnalyzerLanguage.literalOf Analyzer.variantRe content v)
      /\ (forall v : string,
            In v (Analyzer.sizes a) ->
            AnalyzerLanguage.literalOf Analyzer.sizeRe content v).
Proof.
  intros content. eexists. split; [apply AnalyzerFacts.analyzeText_returns|].
  cbn [Analyzer.variants Analyzer.sizes]. repeat split.
  - apply AnalyzerSound.addLiterals_NoDup. constructor.
  - apply AnalyzerSound.addLiterals_NoDup. constructor.
  - intros v. apply AnalyzerSound.literals_of.
  - intros v. apply AnalyzerSound.literals_of.
Qed.

(** X4: the token usage of the fact sheet holds distinct parts of the
    text, each a token root, a dot and a path. *)
Theorem token_usage_is_read :
  forall content : string,
    exists a : Analyzer.analysis,
      Analyzer.analyzeText content = Ok a
      /\ NoDup (Analyzer.tokenUsage a)
      /\ forall t : string,
           In t (Analyzer.tokenUsage a) ->
           RegexLanguage.occursIn t content /\ AnalyzerLanguage.tokenPath t.
Proof.
  intros content. eexists. split; [apply AnalyzerFacts.analyzeText_returns|].
  cbn [Analyzer.tokenUsage]. split.
  - apply (ofList_NoDup String.eqb String.eqb_eq).
  - intros t H. apply (proj1 (ofList_In String.eqb String.eqb_eq _ _)) in H.
    apply RegexSound.matchAll_sound in H. destruct H as [Ot Lt].
    split; [exact Ot | now apply AnalyzerSound.tokenRe_parse].
Qed.

Module AnalyzerComplete.
Import JsString Regex Analyzer RegexLanguage AnalyzerLanguage.
Import StringFacts RegexSound RegexComplete.
Local Open Scope string_scope.

(** The language of an expression does not depend on its groups. *)
Lemma parses_erase (r : regex) (u : string) (c c' : caps) :
  parses r u c c' -> forall c0, parses (erase r) u c0 c0.
Proof.
  intros H. induction H; intros c0; cbn [erase]; try (now constructor).
  - econstructor; [apply IHparses1 | apply IHparses2].
  - econstructor; [apply IHparses1 | apply IHparses2].
  - apply IHparses.
Qed.

Lemma erase_parses (r : regex) :
  forall u c c', parses (erase r) u c c' -> forall c0, exists c1, parses r u c0 c1.
Proof.
  induction r as [| p | l | r1 IH1 r2 IH2 | r1 IH1 r2 IH2 | r1 IH1 | j r1 IH1];
    cbn [erase]; intros u c c' H c0.
  - apply parses_Eps in H. destruct H as [-> _]. eexists. constructor.
  - apply parses_Chr in H. destruct H as [a [-> [Pa _]]].
    eexists. now constructor.
  - apply parses_Lit in H. destruct H as [-> _]. eexists. constructor.
  - apply parses_Seq in H. destruct H as [u1 [u2 [c2 [-> [H1 H2]]]]].
    destruct (IH1 _ _ _ H1 c0) as [c1 P1].
    destruct (IH2 _ _ _ H2 c1) as [c3 P2].
    exists c3. econstructor; eassumption.
  - apply parses_Alt in H. destruct H as [H | H].
    + destruct (IH1 _ _ _ H c0) as [c1 P1]. exists c1. now apply PAltL.
    + destruct (IH2 _ _ _ H c0) as [c1 P1]. exists c1. now apply PAltR.
  - revert c0. remember (Star (erase r1)) as r eqn:Er.
    induction H; try discriminate; inversion Er; subst; intros c0.
    + eexists. constructor.
    + destruct (IH1 _ _ _ H c0) as [c3 P1].
      destruct (IHparses2 eq_refl c3) as [c4 P2].
      exists c4. econstructor; eassumption.
  - destruct (IH1 _ _ _ H c0) as [c1 P1]. eexists. constructor. exact P1.
Qed.

Lemma same_language (r1 r2 : regex) (u : string) :
  erase r1 = erase r2 -> inLanguage r1 u -> inLanguage r2 u.
Proof.
  intros E [c H]. apply parses_erase with (c0 := []) in H.
  rewrite E in H. apply (erase_parses _ H).
Qed.

Lemma fold_nonempty (A B : Type) (f : list A -> B -> list A) (l : list B) :
  (forall acc x, acc <> [] -> f acc x <> []) ->
  forall acc, acc <> [] -> fold_left f l acc <> [].
Proof.
  intros Hf. induction l as [| x l IH]; intros acc H; cbn [fold_left];
    [exact H | apply IH, Hf, H].
Qed.

Lemma add_nonempty (A : Type) (eqb : A -> A -> bool) (l : list A) (x : A) :
  JsSet.add eqb l x <> [].
Proof.
  unfold JsSet.add. destruct (JsSet.has eqb x l) eqn:E.
  - destruct l; [discriminate E | discriminate].
  - destruct l; discriminate.
Qed.

Lemma matchAll_first (r : regex) (s : string) :
  hasMatch r s ->
  exists m ms, orEmpty (matchAll r s) = m :: ms /\ inLanguage r m.
Proof.
  intros H. destruct (orEmpty (matchAll r s)) as [| m ms] eqn:E.
  - apply matchAll_empty in E. now destruct E.
  - exists m, ms. split; [reflexivity|].
    apply (matchAll_sound r s). rewrite E. now left.
Qed.

Lemma addExport_nonempty (acc : list (option string)) (m : string) :
  acc <> [] -> addExport acc m <> [].
Proof.
  intros H. unfold addExport.
  destruct (search exportNameRe m) as [[t c] |]; [apply add_nonempty | exact H].
Qed.

Lemma addLiterals_grows (acc : list string) (m : string) :
  acc <> [] -> addLiterals acc m <> [].
Proof.
  unfold addLiterals. apply fold_nonempty. intros a x _. apply add_nonempty.
Qed.

Lemma parses_PlusChr_intro (p : ascii -> bool) (u : string) (c : caps) :
  allChars p u = true -> u <> "" -> parses (Plus (Chr p)) u c c.
Proof.
  intros H N. destruct u as [| a u]; [now destruct N|]. clear N.
  simpl in H. apply andb_true_iff in H. destruct H as [Ha Hu].
  unfold Plus. change (String a u) with (String a "" ++ u).
  econstructor; [now constructor|].
  clear Ha. induction u as [| b u IH]; [constructor|].
  simpl in Hu. apply andb_true_iff in Hu. destruct Hu as [Hb Hu].
  change (String b u) with (String b "" ++ u).
  econstructor; [now constructor | now apply IH].
Qed.

Lemma quotedRe_intro (v t : string) :
  quotedLiteral v t -> inLanguage quotedRe t.
Proof.
  intros [q1 [q2 [-> [Q1 [Q2 [N Hv]]]]]].
  exists [(1, v)]. unfold quotedRe, quoted. cbn [seqs].
  change (String q1 (v ++ String q2 ""))
    with (String q1 "" ++ (v ++ String q2 "")).
  econstructor; [now constructor|].
  econstructor; [| now constructor].
  constructor. now apply parses_PlusChr_intro.
Qed.

(** A declaration matched by the alias pattern holds a quoted
    literal. *)
Lemma aliasRe_literal (suffix m : string) :
  inLanguage (aliasRe suffix) m -> hasMatch quotedRe m.
Proof.
  intros [c H]. revert H. unfold aliasRe, literalRe. cbn [seqs app].
  intros H. AnalyzerSound.parse_inv.
  match goal with
  | |- hasMatch _ (?a1 ++ ?a2 ++ ?a3 ++ ?a4 ++ ?a5 ++ ?a6 ++ ?a7
                     ++ String ?q1 "" ++ ?v ++ String ?q2 "" ++ ?rest) =>
      exists (String q1 (v ++ String q2 "")); split;
      [ exists (a1 ++ a2 ++ a3 ++ a4 ++ a5 ++ a6 ++ a7), rest;
        rewrite !append_assoc; simpl; rewrite !append_assoc; reflexivity
      | apply (@quotedRe_intro v); unfold quotedLiteral;
        exists q1, q2; repeat split; assumption ]
  end.
Qed.

Lemma addLiterals_first (m : string) :
  hasMatch quotedRe m -> addLiterals [] m <> [].
Proof.
  intros H. apply matchAll_first in H. destruct H as [q [qs [E _]]].
  unfold addLiterals. rewrite E. cbn [fold_left].
  apply fold_nonempty; [| apply add_nonempty].
  intros a x _. apply add_nonempty.
Qed.

Lemma literals_empty (suffix content : string) :
  fold_left addLiterals (orEmpty (matchAll (aliasRe suffix) content)) [] = []
  <-> ~ hasMatch (aliasRe suffix) content.
Proof.
  split.
  - intros E H. apply matchAll_first in H. destruct H as [m [ms [Em Lm]]].
    rewrite Em in E. cbn [fold_left] in E. revert E.
    apply fold_nonempty; [apply addLiterals_grows|].
    apply addLiterals_first. now apply aliasRe_literal with suffix.
  - intros H. apply matchAll_empty in H. now rewrite H.
Qed.

Lemma exports_empty (content : string) :
  fold_left addExport (orEmpty (matchAll exportRe content)) [] = []
  <-> ~ hasMatch exportRe content.
Proof.
  split.
  - intros E H. apply matchAll_first in H. destruct H as [m [ms [Em Lm]]].
    rewrite Em in E. cbn [fold_left] in E. revert E.
    apply fold_nonempty; [apply addExport_nonempty|].
    unfold addExport.
    destruct (search exportNameRe m) as [[t c] |] eqn:S;
      [apply add_nonempty|].
    exfalso. revert S. apply search_complete. exists m.
    split; [apply occursIn_refl|].
    now apply (@same_language exportRe exportNameRe).
  - intros H. apply matchAll_empty in H. now rewrite H.
Qed.

Lemma tokens_empty (content : string) :
  fold_left addStr (orEmpty (matchAll tokenRe content)) [] = []
  <-> ~ hasMatch tokenRe content.
Proof.
  rewrite <- matchAll_empty. split.
  - intros E. destruct (orEmpty (matchAll tokenRe content)) as [| m ms];
      [reflexivity|].
    exfalso. revert E. cbn [fold_left].
    apply fold_nonempty; [| apply add_nonempty].
    intros a x _. apply add_nonempty.
  - intros E. now rewrite E.
Qed.

End AnalyzerComplete.

(** X5: a set of the fact sheet is empty exactly when no part of the
    text is in the language of its pattern; without an import statement
    there is no dependency. *)
Theorem empty_fields_mean_no_match :
  forall content : string,
    exists a : Analyzer.analysis,
      Analyzer.analyzeText content = Ok a
      /\ (Analyzer.exports a = []
          <-> ~ RegexLanguage.hasMatch Analyzer.exportRe content)
      /\ (Analyzer.variants a = []
          <-> ~ RegexLanguage.hasMatch Analyzer.variantRe content)
      /\ (Analyzer.sizes a = []
          <-> ~ RegexLanguage.hasMatch Analyzer.sizeRe content)
      /\ (Analyzer.tokenUsage a = []
          <-> ~ RegexLanguage.hasMatch Analyzer.tokenRe content)
      /\ (~ RegexLanguage.hasMatch Analyzer.importRe content ->
          Analyzer.dependencies a = []).
Proof.
  intros content. eexists. split; [apply AnalyzerFacts.analyzeText_returns|].
  cbn [Analyzer.exports Analyzer.variants Analyzer.sizes Analyzer.tokenUsage
       Analyzer.dependencies].
  split; [apply AnalyzerComplete.exports_empty|].
  split; [apply AnalyzerComplete.literals_empty|].
  split; [apply AnalyzerComplete.literals_empty|].
  split; [apply AnalyzerComplete.tokens_empty|].
  intros H. apply RegexComplete.matchAll_empty in H.
  unfold AnalyzerSpec.dependenciesOf, AnalyzerSpec.importMatches.
  now rewrite H.
Qed.

(** ** The validation script *)

Module StructureFacts.
Import Registry StructureValidator RegistrySpec.

Lemma dirs_loop (fs : files) (dirs : list string) :
  forall st,
    fold_left (checkDir fs) dirs st
    = (fst st && forallb (fun d => negb (dirMissing fs d)) dirs,
       (snd st ++ map (fun d => if dirMissing fs d
                                then ErrorMissingDirectory d
                                else LogDirectoryExists d) dirs)%list).
Proof.
  induction dirs as [| d dirs IH]; intros [v c]; cbn [fold_left forallb map].
  - cbn [fst snd]. now rewrite andb_true_r, app_nil_r.
  - rewrite IH. unfold checkDir, dirMissing.
    destruct (negb (existsSync fs [d])); cbn [fst snd negb];
      rewrite <- app_assoc; cbn [app andb].
    + now rewrite andb_false_r.
    + reflexivity.
Qed.

Lemma files_loop (fs : files) (l : list (list string)) :
  forall st,
    fold_left (checkFile fs) l st
    = (fst st && forallb (fun f => negb (fileBad fs f)) l,
       (snd st ++ map (fun f =>
                         if negb (existsSync fs f) then ErrorMissingFile f
                         else match readJson fs f with
                              | Ok _ => LogValidJson f
                              | Throw e => ErrorInvalidJson f e
                              end) l)%list).
Proof.
  induction l as [| f l IH]; intros [v c]; cbn [fold_left forallb map].
  - cbn [fst snd]. now rewrite andb_true_r, app_nil_r.
  - rewrite IH. unfold checkFile, fileBad.
    destruct (negb (existsSync fs f)); cbn [fst snd negb orb];
      [| destruct (readJson fs f)]; cbn [fst snd negb];
      rewrite <- app_assoc; cbn [app andb];
      rewrite ?andb_false_r; reflexivity.
Qed.

Lemma defects_of_map (A : Type) (line : A -> event) (bad : A -> bool)
      (l : list A) :
  (forall x, isDefect (line x) = bad x) ->
  List.length (filter isDefect (map line l)) = List.length (filter bad l).
Proof.
  intros H. induction l as [| x l IH]; [reflexivity|].
  cbn [map filter]. rewrite H. destruct (bad x); simpl; now rewrite IH.
Qed.

(** The verdict of the structure check. *)
Lemma structure_verdict_iff (fs : files) :
  fst (validateRegistryStructure fs) = true
  <-> (forall dir, In dir requiredDirs -> dirMissing fs dir = false)
      /\ (forall file, In file requiredFiles -> fileBad fs file = false).
Proof.
  unfold validateRegistryStructure. rewrite dirs_loop, files_loop.
  cbn [fst snd].
  rewrite !andb_true_l, andb_true_iff, !forallb_forall.
  split; intros [H1 H2]; split; intros x Hx.
  - specialize (H1 x Hx). now apply negb_true_iff in H1.
  - specialize (H2 x Hx). now apply negb_true_iff in H2.
  - apply negb_true_iff. now apply H1.
  - apply negb_true_iff. now apply H2.
Qed.

End StructureFacts.

(** X6: the structure check passes exactly when the five directories
    exist and the five documents exist and parse; it always prints
    eleven lines, and it prints one defect for each directory that is
    missing and each document that is missing or malformed. *)
Theorem structure_check_reports_every_defect :
  forall fs : Registry.files,
    let run := StructureValidator.validateRegistryStructure fs in
    (fst run = true
     <-> (forall dir, In dir StructureValidator.requiredDirs ->
                      RegistrySpec.dirMissing fs dir = false)
         /\ (forall file, In file StructureValidator.requiredFiles ->
                          RegistrySpec.fileBad fs file = false))
    /\ List.length (snd run) = 11
    /\ List.length (filter StructureValidator.isDefect (snd run))
       = List.length (filter (RegistrySpec.dirMissing fs)
                             StructureValidator.requiredDirs)
         + List.length (filter (RegistrySpec.fileBad fs)
                               StructureValidator.requiredFiles).
Proof.
  intros fs run. subst run. split; [apply StructureFacts.structure_verdict_iff|].
  unfold StructureValidator.validateRegistryStructure.
  rewrite StructureFacts.dirs_loop, StructureFacts.files_loop.
  cbn [fst snd]. split.
  - rewrite !length_app, !length_map. reflexivity.
  - rewrite !filter_app, !length_app. cbn [filter StructureValidator.isDefect].
    cbn [List.length Nat.add].
    rewrite (StructureFacts.defects_of_map _ (RegistrySpec.dirMissing fs)).
    + rewrite (StructureFacts.defects_of_map _ (RegistrySpec.fileBad fs));
        [reflexivity|].
      intros f. unfold RegistrySpec.fileBad.
      destruct (negb (Registry.existsSync fs f)); [reflexivity|].
      destruct (Registry.readJson fs f); reflexivity.
    + intros d. destruct (RegistrySpec.dirMissing fs d); reflexivity.
Qed.

Module ConsoleFacts.
Import ConsoleSpec.

Section Lines.
Variable A : Type.
Variables bad ok : A -> bool.

Lemma noneAfter_app (a b : list A) :
  noneAfter bad ok a -> noneAfter bad ok b ->
  (forall e, In e a -> bad e = true -> forall x, In x b -> ok x = false) ->
  noneAfter bad ok (a ++ b).
Proof.
  intros Ha Hb Hab l1 e l2 x E He Hx.
  apply app_eq_app in E. destruct E as [l [[E1 E2] | [E1 E2]]].
  - destruct l as [| e' l].
    + rewrite app_nil_r in E1. subst l1. simpl in E2. subst b.
      now apply (Hb [] e l2 x).
    + inversion E2; subst e' l2. apply in_app_or in Hx.
      destruct Hx as [Hx | Hx].
      * now apply (Ha l1 e l x).
      * apply (Hab e); [| exact He | exact Hx].
        rewrite E1. apply in_or_app. right. now left.
  - subst l1. apply (Hb l e l2 x); assumption.
Qed.

Lemma noneAfter_clean (l : list A) :
  (forall e, In e l -> bad e = false) -> noneAfter bad ok l.
Proof.
  intros H l1 e l2 x E He _. rewrite (H e) in He; [discriminate|].
  rewrite E. apply in_or_app. right. now left.
Qed.

Lemma noneAfter_quiet (l : list A) :
  (forall x, In x l -> ok x = false) -> noneAfter bad ok l.
Proof.
  intros H l1 e l2 x E _ Hx. apply H. rewrite E.
  apply in_or_app. right. now right.
Qed.

Lemma filter_nil (f : A -> bool) (l : list A) :
  filter f l = [] <-> forall x, In x l -> f x = false.
Proof.
  induction l as [| y l IH]; simpl.
  - split; [intros _ x [] | reflexivity].
  - destruct (f y) eqn:E; split.
    + discriminate.
    + intros H. rewrite (H y) in E; [discriminate | now left].
    + intros H x [<- | Hx]; [exact E | now apply IH].
    + intros H. apply IH. intros x Hx. apply H. now right.
Qed.

End Lines.
End ConsoleFacts.

Module ComponentsFacts.
Import Json Validator ValidatorSpec ValidatorLines ConsoleSpec ConsoleFacts.
Import RegistrySpec.
Local Open Scope string_scope.

(** The fields loop on a record that is an object without an own
    [hasOwnProperty] and whose name can be printed. *)
Lemma fields_loop (c : json) (fields : list string) (n : string) :
  c <> JNull ->
  hasOwnProperty c "hasOwnProperty" = false ->
  nameOrUnknown c = Ok n ->
  forall st,
    forEachState
      (fun st field =>
         match checkField c st field with
         | Ok st' => (st', Ok tt)
         | Throw e => (st, Throw e)
         end) fields st
    = ((fst st && forallb (hasOwnProperty c) fields,
        (snd st ++ map (ErrorMissingField n)
                       (filter (fun f => negb (hasOwnProperty c f)) fields))%list),
       Ok tt).
Proof.
  intros Hn Hs Hname. induction fields as [| f fields IH]; intros [v l];
    cbn [forEachState forallb filter map fst snd].
  - now rewrite andb_true_r, app_nil_r.
  - unfold checkField at 1. rewrite Hs, Hname. cbn [bind].
    destruct c as [| b | x | s | a | m]; try (now destruct Hn);
      (destruct (hasOwnProperty _ f) eqn:Ef; rewrite IH;
       cbn [fst snd negb andb report map];
       [reflexivity
       | rewrite andb_false_r, <- app_assoc; reflexivity]).
Qed.

(** When the name cannot be printed, the loop throws at the first
    missing field, before it prints anything. *)
Lemma fields_unnamed (c : json) (fields : list string) (e : js_error) :
  c <> JNull ->
  hasOwnProperty c "hasOwnProperty" = false ->
  nameOrUnknown c = Throw e ->
  forall st,
    forEachState
      (fun st field =>
         match checkField c st field with
         | Ok st' => (st', Ok tt)
         | Throw e => (st, Throw e)
         end) fields st
    = (st, if forallb (hasOwnProperty c) fields then Ok tt else Throw e).
Proof.
  intros Hn Hs Hname. induction fields as [| f fields IH]; intros st;
    cbn [forEachState forallb].
  - reflexivity.
  - unfold checkField at 1. rewrite Hs, Hname. cbn [bind].
    destruct c as [| b | x | s | a | m]; try (now destruct Hn);
      (destruct (hasOwnProperty _ f) eqn:Ef; cbn [andb];
       [apply IH | reflexivity]).
Qed.

(** On [null] and on a record with an own [hasOwnProperty] the fields
    loop throws at once. *)
Lemma fields_throw (c : json) (st : state) :
  c = JNull \/ hasOwnProperty c "hasOwnProperty" = true ->
  exists e, checkFields c st = (st, Throw e).
Proof.
  intros H. unfold checkFields, requiredFields. cbn [forEachState].
  unfold checkField at 1. destruct H as [-> | H].
  - eexists. reflexivity.
  - rewrite H. destruct c; try discriminate H. eexists. reflexivity.
Qed.

(** One record: what is added to the console accounts for the verdict,
    and a line of validity is added only under a true verdict. *)
Lemma checkComponent_step (existsSync : list string -> bool) (st : state)
      (c : json) :
  forall st' r,
    checkComponent existsSync st c = (st', r) ->
    exists added,
      snd st' = (snd st ++ added)%list
      /\ (r = Ok tt -> fst st' = fst st && clean added)
      /\ (fst st = false -> fst st' = false)
      /\ (forall x, In x added -> isValidLine x = true ->
                    r = Ok tt /\ fst st' = true)
      /\ (r = Ok tt -> fst st' = true -> intact existsSync c = true).
Proof.
  intros st' r H. unfold checkComponent in H.
  destruct (match c with JNull => true | _ => false end
            || hasOwnProperty c "hasOwnProperty") eqn:Ebad.
  - assert (Hb : c = JNull \/ hasOwnProperty c "hasOwnProperty" = true).
    { destruct c; simpl in Ebad; try (now left); now right. }
    destruct (@fields_throw c st Hb) as [e He]. rewrite He in H.
    inversion H; subst st' r. exists []. rewrite app_nil_r.
    repeat split; try discriminate; try tauto;
      match goal with H : In _ [] |- _ => destruct H end.
  - apply orb_false_iff in Ebad. destruct Ebad as [Hnull Hown].
    assert (Hn : c <> JNull) by (intros ->; discriminate Hnull).
    unfold checkFields in H.
    destruct (nameOrUnknown c) as [shown | e] eqn:Eshown;
      [| rewrite (@fields_unnamed c requiredFields e Hn Hown Eshown) in H;
         assert (Hthrow : exists e', (st', r) = (st, Throw e'));
         [ destruct (forallb (hasOwnProperty c) requiredFields);
           [| now exists e];
           destruct c as [| b | x | s | a | m]; try (now eexists; symmetry; exact H);
           unfold nameOrUnknown in Eshown;
           destruct (assoc m "name") as [[| b | x | name | a | m'] |];
           try (now eexists; symmetry; exact H);
           cbn [truthy] in Eshown;
           destruct (negb (String.eqb name "")); discriminate Eshown
         | destruct Hthrow as [e' He']; injection He' as -> ->;
           exists []; rewrite app_nil_r;
           split; [reflexivity|]; split; [discriminate|];
           split; [tauto|]; split; [intros x []| discriminate] ] ].
    rewrite (@fields_loop c requiredFields shown Hn Hown Eshown) in H.
    set (missing := map (ErrorMissingField shown)
                        (filter (fun f => negb (hasOwnProperty c f))
                                requiredFields)) in *.
    assert (Hmiss : clean missing = forallb (hasOwnProperty c) requiredFields).
    { subst missing. unfold clean. generalize requiredFields.
      induction l as [| f l IH]; [reflexivity|]. cbn [filter forallb].
      destruct (hasOwnProperty c f); cbn [negb map forallb isDefect andb];
        [exact IH | reflexivity]. }
    assert (Hquiet : forall x, In x missing -> isValidLine x = false).
    { subst missing. intros x Hx. apply in_map_iff in Hx.
      destruct Hx as [f [<- _]]. reflexivity. }
    destruct c as [| b | x | s | a | m]; try (now destruct Hn);
      try (inversion H; subst st' r; exists missing; cbn [fst snd];
           split; [reflexivity|]; split; [discriminate|];
           split; [intros E; rewrite E; reflexivity|];
           split; [| discriminate];
           intros y Hy Hv; rewrite (Hquiet y Hy) in Hv; discriminate Hv).
    destruct (assoc m "name") as [[| b | x | name | a | m'] |] eqn:En;
      try (inversion H; subst st' r; exists missing; cbn [fst snd];
           split; [reflexivity|]; split; [discriminate|];
           split; [intros E; rewrite E; reflexivity|];
           split; [| discriminate];
           intros y Hy Hv; rewrite (Hquiet y Hy) in Hv; discriminate Hv).
    unfold intact. rewrite En, Hown. unfold templateOf. cbn [app] in H.
    rewrite <- Hmiss in H |- *. clear Hmiss. clearbody missing.
    destruct st as [v l]. cbn [fst snd] in *.
    destruct (existsSync ["components"; name]);
      destruct (existsSync ["components"; name; "component.tsx.template"]);
      destruct (existsSync ["components"; name; "component.json"]);
      destruct v; destruct (clean missing) eqn:Ec;
      unfold report in H; cbn [negb fst snd andb] in H;
      injection H as <- <-; cbn [fst snd];
      eexists; (split; [rewrite <- ?app_assoc; reflexivity|]);
      unfold clean in *; rewrite ?forallb_app, ?Ec;
      cbn [forallb isDefect negb andb app];
      (split; [reflexivity|]); (split; [try discriminate; reflexivity|]);
      (split; [| try discriminate; reflexivity]);
      intros y Hy Hv; try (split; reflexivity);
      repeat (apply in_app_or in Hy; destruct Hy as [Hy | Hy]);
      try (rewrite (Hquiet y Hy) in Hv; discriminate Hv);
      repeat (destruct Hy as [<- | Hy]; try discriminate Hv);
      try (now destruct Hy).
Qed.

Lemma clean_defects (l : list event) :
  clean l = true <-> filter isDefect l = [].
Proof.
  unfold clean. rewrite forallb_forall, filter_nil. split; intros H x Hx.
  - apply negb_true_iff. now apply H.
  - apply negb_true_iff. now apply H.
Qed.

Lemma clean_app (a b : list event) : clean (a ++ b) = clean a && clean b.
Proof. apply forallb_app. Qed.

(** The loop over the records. *)
Lemma components_loop_run (existsSync : list string -> bool) (items : list json) :
  forall st st' r,
    forEachState (checkComponent existsSync) items st = (st', r) ->
    exists added,
      snd st' = (snd st ++ added)%list
      /\ (r = Ok tt -> fst st' = fst st && clean added)
      /\ (fst st = false -> fst st' = false)
      /\ (forall x, In x added -> isValidLine x = true -> fst st = true)
      /\ noneAfter isDefect isValidLine added
      /\ (r = Ok tt -> fst st' = true ->
          forallb (intact existsSync) items = true).
Proof.
  induction items as [| c items IH]; intros st st' r H; cbn [forEachState] in H.
  - injection H as <- <-. exists []. rewrite app_nil_r.
    repeat split; try tauto.
    + now rewrite andb_true_r.
    + intros x [].
    + apply noneAfter_quiet. intros x [].
  - destruct (checkComponent existsSync st c) as [st1 r1] eqn:E1.
    destruct (checkComponent_step _ _ _ E1)
      as [a1 [Hc1 [Hv1 [Hm1 [Hl1 Hi1]]]]].
    assert (Hq1 : noneAfter isDefect isValidLine a1).
    { destruct (existsb isValidLine a1) eqn:Ex.
      - apply existsb_exists in Ex. destruct Ex as [x [Hx Hvx]].
        destruct (Hl1 x Hx Hvx) as [Hr Hs]. specialize (Hv1 Hr).
        rewrite Hs in Hv1. symmetry in Hv1. apply andb_true_iff in Hv1.
        destruct Hv1 as [_ Hcl]. apply noneAfter_clean.
        intros e He. unfold clean in Hcl. rewrite forallb_forall in Hcl.
        apply negb_true_iff. now apply Hcl.
      - apply noneAfter_quiet. intros x Hx.
        destruct (isValidLine x) eqn:Ev; [| reflexivity].
        assert (existsb isValidLine a1 = true) as C
            by (apply existsb_exists; now exists x).
        congruence. }
    destruct r1 as [[] | e].
    + destruct (IH _ _ _ H) as [a2 [Hc2 [Hv2 [Hm2 [Hl2 [Hq2 Hi2]]]]]].
      specialize (Hv1 eq_refl).
      exists (a1 ++ a2)%list. split; [| split; [| split; [| split; [| split]]]].
      * now rewrite Hc2, Hc1, app_assoc.
      * intros Hr. rewrite (Hv2 Hr), Hv1, clean_app. now rewrite andb_assoc.
      * intros Hf. apply Hm2, Hm1, Hf.
      * intros x Hx Hvx. apply in_app_or in Hx.
        assert (fst st1 = true) as Hs1.
        { destruct Hx as [Hx | Hx];
            [now destruct (Hl1 x Hx Hvx) | now apply (Hl2 x)]. }
        destruct (fst st); [reflexivity|].
        rewrite Hm1 in Hs1; [discriminate | reflexivity].
      * apply noneAfter_app; [exact Hq1 | exact Hq2 |].
        intros e He Hd x Hx. destruct (isValidLine x) eqn:Ev; [| reflexivity].
        pose proof (Hl2 x Hx Ev) as Hs1. rewrite Hv1 in Hs1.
        apply andb_true_iff in Hs1. destruct Hs1 as [_ Hcl].
        unfold clean in Hcl. rewrite forallb_forall in Hcl.
        specialize (Hcl e He). rewrite Hd in Hcl. discriminate Hcl.
      * intros Hr Hs. cbn [forallb].
        assert (fst st1 = true) as Hs1.
        { destruct (fst st1) eqn:Es; [reflexivity|].
          rewrite Hm2 in Hs; [discriminate | reflexivity]. }
        rewrite (Hi1 eq_refl Hs1). now apply Hi2.
    + injection H as <- <-. exists a1.
      repeat split; try assumption; try discriminate.
      intros x Hx Hvx. now destruct (Hl1 x Hx Hvx).
Qed.

(** The loop over intact records. *)
Lemma components_loop_intact (existsSync : list string -> bool) (items : list json) :
  forallb (intact existsSync) items = true ->
  forall st, exists st',
    forEachState (checkComponent existsSync) items st = (st', Ok tt)
    /\ fst st' = fst st.
Proof.
  induction items as [| c items IH]; intros H st; cbn [forEachState].
  - now exists st.
  - cbn [forallb] in H. apply andb_true_iff in H. destruct H as [Hc Hrest].
    destruct (ValidatorFacts.checkComponent_intact existsSync c st Hc)
      as [name [_ E]].
    rewrite E.
    match goal with
    | |- context [forEachState _ items ?s] =>
        destruct (IH Hrest s) as [st' [Hrun Hf]]
    end.
    exists st'. split; [exact Hrun | exact Hf].
Qed.

Lemma run_cases (existsSync : list string -> bool)
      (apiFile : option (result json)) :
  (exists items st' r added,
      apiFile <> None
      /\ (forall doc, apiFile = Some (Ok doc) ->
                      recordsOf "components" doc = Some items)
      /\ (exists doc, apiFile = Some (Ok doc))
      /\ forEachState (checkComponent existsSync) items (true, [LogValidating])
         = (st', r)
      /\ snd st' = ([LogValidating] ++ added)%list
      /\ validateComponents existsSync apiFile
         = match r with
           | Ok _ => (fst st', (snd st' ++ [LogTotal (List.length items)])%list)
           | Throw e => (false, (snd st' ++ [ErrorValidating e])%list)
           end)
  \/ ((forall doc, apiFile = Some (Ok doc) ->
                   recordsOf "components" doc = None)
      /\ exists e,
           isDefect e = true
           /\ validateComponents existsSync apiFile = (false, [LogValidating; e])).
Proof.
  unfold validateComponents, recordsOf.
  destruct apiFile as [[doc | e] |].
  - destruct (get (Some doc) "components") as [field | e] eqn:Eg.
    + destruct (if truthy field then field else Some doc)
        as [[| b | x | s | items | m] |] eqn:Ec;
        try (right; split;
             [ intros d Hd; injection Hd as <-; rewrite Eg, Ec; reflexivity
             | eexists; split; [| reflexivity]; reflexivity ]).
      left.
      destruct (forEachState (checkComponent existsSync) items
                             (true, [LogValidating])) as [st' r] eqn:El.
      destruct (components_loop_run _ _ _ El) as [added [Hc _]].
      exists items, st', r, added.
      split; [discriminate|].
      split; [intros d Hd; injection Hd as <-; now rewrite Eg, Ec|].
      split; [now exists doc|].
      split; [exact El|].
      split; [exact Hc|].
      reflexivity.
    + right. split.
      * intros d Hd. injection Hd as <-. now rewrite Eg.
      * eexists. split; [| reflexivity]. reflexivity.
  - right. split; [discriminate|].
    eexists. split; [| reflexivity]. reflexivity.
  - right. split; [discriminate|].
    eexists. split; [| reflexivity]. reflexivity.
Qed.

(** The verdict of [validateComponents]. *)
Lemma components_verdict_iff (existsSync : list string -> bool)
      (apiFile : option (result json)) :
  let run := validateComponents existsSync apiFile in
  (fst run = true
   <-> exists doc items,
         apiFile = Some (Ok doc)
         /\ recordsOf "components" doc = Some items
         /\ forallb (intact existsSync) items = true)
  /\ (fst run = true <-> defects run = []).
Proof.
  cbv zeta. unfold defects.
  destruct (run_cases existsSync apiFile)
    as [[items [st' [r [added [Hsome [Hrec [[doc Hdoc] [Hloop [Hc Hrun]]]]]]]]]
       | [Hnone [e [He Hrun]]]].
  - destruct (components_loop_run _ _ _ Hloop)
      as [added' [Hc' [Hv [_ [_ [_ Hi]]]]]].
    cbn [fst snd] in *. rewrite Hc in Hc'.
    apply app_inv_head in Hc'. subst added'.
    rewrite Hrun. destruct r as [[] | e]; cbn [fst snd].
    + specialize (Hv eq_refl). rewrite andb_true_l in Hv. split.
      * split.
        -- intros Hs. exists doc, items. repeat split;
             [exact Hdoc | now apply Hrec | now apply Hi].
        -- intros [d [its [Hd [Hr Hall]]]].
           rewrite (Hrec d Hd) in Hr. injection Hr as <-.
           destruct (components_loop_intact _ _ Hall
                       (true, [LogValidating])) as [st2 [E2 F2]].
           rewrite Hloop in E2. injection E2 as <-. exact F2.
      * rewrite Hv, Hc, <- app_assoc, !filter_app.
        cbn [filter isDefect app]. rewrite app_nil_r.
        apply clean_defects.
    + split; split; try discriminate.
      * intros [d [its [Hd [Hr Hall]]]].
        rewrite (Hrec d Hd) in Hr. injection Hr as <-.
        destruct (components_loop_intact _ _ Hall
                    (true, [LogValidating])) as [st2 [E2 F2]].
        rewrite Hloop in E2. discriminate E2.
      * rewrite filter_app. cbn [filter isDefect].
        intros H. apply app_eq_nil in H. destruct H as [_ H]. discriminate H.
  - rewrite Hrun. cbn [fst snd filter isDefect]. rewrite He.
    split; split; try discriminate.
    intros [d [its [Hd [Hr _]]]]. rewrite (Hnone d Hd) in Hr. discriminate Hr.
Qed.


End ComponentsFacts.

(** X7: [validateComponents] answers true exactly when the API document
    exists, parses and holds an array of records each of which is
    intact: an object that has no own property [hasOwnProperty], has a
    string name and the seven fields, and whose directory, template
    and metadata exist.  (On a record with an own [hasOwnProperty] the
    call [component.hasOwnProperty(field)] throws and the answer is
    false.)  Its answer is true exactly when it prints no defect. *)
Theorem components_verdict :
  forall (existsSync : list string -> bool)
         (apiFile : option (result Json.json)),
    let run := Validator.validateComponents existsSync apiFile in
    (fst run = true
     <-> exists doc items,
           apiFile = Some (Ok doc)
           /\ RegistrySpec.recordsOf "components" doc = Some items
           /\ forallb (ValidatorSpec.intact existsSync) items = true)
    /\ (fst run = true <-> Validator.defects run = []).
Proof.
  intros existsSync apiFile run. subst run.
  destruct (ComponentsFacts.components_verdict_iff existsSync apiFile)
    as [Hintact Hdefects].
  split; [exact Hintact | exact Hdefects].
Qed.

(** X8: after the first defect that [validateComponents] prints, it
    reports no record as valid any more, whatever the state of that
    record. *)
Theorem no_valid_line_after_a_defect :
  forall (existsSync : list string -> bool)
         (apiFile : option (result Json.json)),
    ConsoleSpec.noneAfter Validator.isDefect ValidatorLines.isValidLine
      (snd (Validator.validateComponents existsSync apiFile)).
Proof.
  intros existsSync apiFile.
  destruct (ComponentsFacts.run_cases existsSync apiFile)
    as [[items [st' [r [added [Hsome [Hrec [[doc Hdoc] [Hloop [Hc Hrun]]]]]]]]]
       | [Hnone [e [He Hrun]]]].
  - destruct (ComponentsFacts.components_loop_run _ _ _ Hloop)
      as [added' [Hc' [_ [_ [_ [Hq _]]]]]].
    cbn [fst snd] in *. rewrite Hc in Hc'.
    apply app_inv_head in Hc'. subst added'.
    rewrite Hrun.
    assert (forall last : Validator.event,
               ValidatorLines.isValidLine last = false ->
               ConsoleSpec.noneAfter Validator.isDefect
                 ValidatorLines.isValidLine (snd st' ++ [last])) as Hend.
    { intros last Hl. rewrite Hc.
      apply ConsoleFacts.noneAfter_app.
      - apply ConsoleFacts.noneAfter_app; [| exact Hq |].
        + apply ConsoleFacts.noneAfter_clean. intros x [<- | []]. reflexivity.
        + intros x [<- | []]. discriminate.
      - apply ConsoleFacts.noneAfter_quiet. intros x [<- | []]. exact Hl.
      - intros _ _ _ x [<- | []]. exact Hl. }
    destruct r as [[] | e]; cbn [snd]; now apply Hend.
  - rewrite Hrun. cbn [snd].
    apply ConsoleFacts.noneAfter_quiet. intros x [<- | [<- | []]].
    + reflexivity.
    + destruct e; try reflexivity. discriminate He.
Qed.

Module TemplatesFacts.
Import Json Registry JsConvert TemplateValidator TemplateLines RegistrySpec.
Import ConsoleFacts.
Local Open Scope string_scope.

Lemma template_clean_defects (l : list event) :
  clean l = true <-> filter isDefect l = [].
Proof.
  unfold clean. rewrite forallb_forall, filter_nil. split; intros H x Hx.
  - apply negb_true_iff. now apply H.
  - apply negb_true_iff. now apply H.
Qed.

Lemma template_clean_app (a b : list event) : clean (a ++ b) = clean a && clean b.
Proof. apply forallb_app. Qed.

(** The fields loop: what it adds to the console accounts for the
    verdict. *)
Lemma checkFields_run (c : json) (fields : list string) :
  forall st st' r,
    checkFields c fields st = (st', r) ->
    exists added,
      snd st' = (snd st ++ added)%list
      /\ (fst st = false -> fst st' = false)
      /\ (r = Ok tt ->
          fst st' = fst st && clean added
          /\ clean added = forallb (hasOwnProperty c) fields
          /\ (fields <> [] ->
              c <> JNull /\ hasOwnProperty c "hasOwnProperty" = false)).
Proof.
  induction fields as [| f fields IH]; intros st st' r H; cbn [checkFields] in H.
  - injection H as <- <-. exists []. rewrite app_nil_r.
    repeat split; try tauto. now rewrite andb_true_r.
  - destruct (checkField c st f) as [st1 | e] eqn:E1.
    + destruct (IH _ _ _ H) as [a2 [Hc2 [Hm2 Hr2]]].
      unfold checkField in E1.
      destruct c as [| b | x | s | a | m]; try discriminate E1;
        (destruct (hasOwnProperty _ "hasOwnProperty") eqn:Eo;
         [discriminate E1|];
         destruct (hasOwnProperty _ f) eqn:Ef;
         [ injection E1 as <-; exists a2;
           split; [exact Hc2|]; split; [exact Hm2|];
           intros Hr; destruct (Hr2 Hr) as [Hv [Hcl _]];
           cbn [forallb]; rewrite Ef;
           repeat split; try assumption; discriminate
         | destruct (nameOrUnknown _) as [n | e] eqn:En;
           [| discriminate E1];
           cbn [bind] in E1; injection E1 as <-;
           exists (ErrorMissingField n f :: a2);
           split; [rewrite Hc2; unfold report; cbn [snd];
                   now rewrite <- app_assoc|];
           split; [intros _; apply Hm2; reflexivity|];
           intros Hr; destruct (Hr2 Hr) as [Hv [Hcl _]];
           cbn [forallb]; rewrite Ef;
           unfold clean; cbn [forallb isDefect negb andb];
           rewrite Hv; cbn [report fst andb];
           rewrite andb_false_r;
           repeat split; try assumption; discriminate ]).
    + injection H as <- <-. exists []. rewrite app_nil_r.
      repeat split; try tauto; discriminate.
Qed.

Lemma template_fields_present (c : json) (fields : list string) (st : state) :
  c <> JNull ->
  hasOwnProperty c "hasOwnProperty" = false ->
  forallb (hasOwnProperty c) fields = true ->
  checkFields c fields st = (st, Ok tt).
Proof.
  intros Hn Ho. induction fields as [| f fields IH]; intros H;
    cbn [checkFields]; [reflexivity|].
  cbn [forallb] in H. apply andb_true_iff in H. destruct H as [Hf Hrest].
  unfold checkField. rewrite Ho, Hf.
  destruct c; try (now destruct Hn); now apply IH.
Qed.

(** One record. *)
Lemma checkTemplate_step (fs : files) (st : state) (c : json) :
  forall st' r,
    checkTemplate fs st c = (st', r) ->
    exists added,
      snd st' = (snd st ++ added)%list
      /\ (r = Ok tt -> fst st' = fst st && clean added)
      /\ (fst st = false -> fst st' = false)
      /\ (r = Ok tt -> fst st' = true -> intactTemplate fs c = true).
Proof.
  intros st' r H. unfold checkTemplate in H.
  destruct (checkFields c requiredFields st) as [st1 r1] eqn:E1.
  destruct (checkFields_run _ _ _ E1) as [a1 [Hc1 [Hm1 Hr1]]].
  destruct r1 as [[] | e].
  - destruct (Hr1 eq_refl) as [Hv1 [Hcl1 Hobj]].
    destruct Hobj as [Hn Ho]; [discriminate|].
    destruct c as [| b | x | s | a | m]; try (now destruct Hn);
      try (injection H as <- <-; exists a1;
           split; [exact Hc1|]; split; [discriminate|];
           split; [exact Hm1 | discriminate]).
    destruct (assoc m "name") as [[| b | x | name | a | m'] |] eqn:En;
      try (injection H as <- <-; exists a1;
           split; [exact Hc1|]; split; [discriminate|];
           split; [exact Hm1 | discriminate]).
    unfold intactTemplate, fileBad. rewrite En, Ho, <- Hcl1. cbn [app] in H.
    clear Hcl1 Hr1 E1.
    destruct st as [v l], st1 as [v1 l1]. cbn [fst snd] in *. subst l1 v1.
    destruct (existsSync fs ["templates"; name]);
      destruct (existsSync fs ["templates"; name; "colors.json"]);
      destruct (existsSync fs ["templates"; name; "metadata.json"]);
      destruct (readJson fs ["templates"; name; "colors.json"]);
      destruct v; destruct (clean a1) eqn:Ec;
      unfold report in H; cbn [negb fst snd andb] in H;
      injection H as <- <-; cbn [fst snd];
      eexists; (split; [rewrite <- ?app_assoc; reflexivity|]);
      unfold clean in *; rewrite ?forallb_app, ?Ec;
      cbn [forallb isDefect negb andb orb app];
      (split; [reflexivity|]); (split; [try discriminate; reflexivity|]);
      try discriminate; reflexivity.
  - injection H as <- <-. exists a1.
    split; [exact Hc1|]. split; [discriminate|]. split; [exact Hm1 | discriminate].
Qed.

(** An intact record passes, and is reported valid if none failed
    before it. *)
Lemma checkTemplate_intact (fs : files) (st : state) (c : json) :
  intactTemplate fs c = true ->
  exists name,
    checkTemplate fs st c
    = ((fst st, (snd st ++ if fst st then [LogValid name] else [])%list),
       Ok tt).
Proof.
  unfold intactTemplate, fileBad.
  destruct c as [| b | x | s | a | m]; try discriminate.
  destruct (assoc m "name") as [[| b | x | name | a | m'] |] eqn:En;
    try discriminate.
  intros H. repeat (apply andb_true_iff in H; destruct H as [H ?]).
  apply negb_true_iff in H.
  exists name. unfold checkTemplate.
  rewrite template_fields_present; [| discriminate | assumption | assumption].
  rewrite En. cbn [app].
  match goal with H : negb (_ || _) = true |- _ =>
    apply negb_true_iff, orb_false_iff in H; destruct H as [Hc Hj] end.
  apply negb_false_iff in Hc.
  repeat match goal with H : existsSync _ _ = true |- _ => rewrite H; clear H end.
  destruct (readJson fs ["templates"; name; "colors.json"]); [| discriminate].
  cbn [negb]. destruct st as [[|] l]; cbn [fst snd]; [reflexivity|].
  now rewrite app_nil_r.
Qed.

Lemma templates_loop_run (fs : files) (items : list json) :
  forall st st' r,
    forEach fs items st = (st', r) ->
    exists added,
      snd st' = (snd st ++ added)%list
      /\ (r = Ok tt -> fst st' = fst st && clean added)
      /\ (fst st = false -> fst st' = false)
      /\ (r = Ok tt -> fst st' = true ->
          forallb (intactTemplate fs) items = true).
Proof.
  induction items as [| c items IH]; intros st st' r H; cbn [forEach] in H.
  - injection H as <- <-. exists []. rewrite app_nil_r.
    repeat split; try tauto. now rewrite andb_true_r.
  - destruct (checkTemplate fs st c) as [st1 r1] eqn:E1.
    destruct (checkTemplate_step _ _ _ E1) as [a1 [Hc1 [Hv1 [Hm1 Hi1]]]].
    destruct r1 as [[] | e].
    + destruct (IH _ _ _ H) as [a2 [Hc2 [Hv2 [Hm2 Hi2]]]].
      specialize (Hv1 eq_refl).
      exists (a1 ++ a2)%list. split; [| split; [| split]].
      * now rewrite Hc2, Hc1, app_assoc.
      * intros Hr. rewrite (Hv2 Hr), Hv1, template_clean_app. now rewrite andb_assoc.
      * intros Hf. apply Hm2, Hm1, Hf.
      * intros Hr Hs. cbn [forallb].
        assert (fst st1 = true) as Hs1.
        { destruct (fst st1) eqn:Es; [reflexivity|].
          rewrite Hm2 in Hs; [discriminate | reflexivity]. }
        rewrite (Hi1 eq_refl Hs1). now apply Hi2.
    + injection H as <- <-. exists a1.
      repeat split; try assumption; discriminate.
Qed.

Lemma templates_loop_intact (fs : files) (items : list json) :
  forallb (intactTemplate fs) items = true ->
  forall st, exists st',
    forEach fs items st = (st', Ok tt) /\ fst st' = fst st.
Proof.
  induction items as [| c items IH]; intros H st; cbn [forEach].
  - now exists st.
  - cbn [forallb] in H. apply andb_true_iff in H. destruct H as [Hc Hrest].
    destruct (checkTemplate_intact fs st c Hc) as [name E].
    rewrite E.
    match goal with
    | |- context [forEach fs items ?s] =>
        destruct (IH Hrest s) as [st' [Hrun Hf]]
    end.
    exists st'. split; [exact Hrun | exact Hf].
Qed.

(** The verdict of [validateTemplates]. *)
Lemma templates_verdict_iff (fs : files) :
  let run := validateTemplates fs in
  (fst run = true
   <-> exists items,
         recordsAt fs "templates" ["api"; "templates.json"] = Some items
         /\ forallb (intactTemplate fs) items = true)
  /\ (fst run = true <-> filter isDefect (snd run) = []).
Proof.
  cbv zeta. unfold validateTemplates, recordsAt, recordsOf.
  destruct (existsSync fs ["api"; "templates.json"]); cbn [negb];
    [| split; split; try discriminate; intros [items [H _]]; discriminate H].
  destruct (readJson fs ["api"; "templates.json"]) as [doc | e];
    [| split; split; try discriminate; intros [items [H _]]; discriminate H].
  destruct (get (Some doc) "templates") as [field | e];
    [| split; split; try discriminate; intros [items [H _]]; discriminate H].
  destruct (if truthy field then field else Some doc)
    as [[| b | x | s | items | m] |];
    try (split; split; try discriminate; intros [items [H _]]; discriminate H).
  destruct (forEach fs items (true, [LogValidating])) as [st' r] eqn:El.
  destruct (templates_loop_run _ _ _ El) as [added [Hc [Hv [_ Hi]]]].
  cbn [fst snd] in *. destruct r as [[] | e]; cbn [fst snd].
  - specialize (Hv eq_refl). rewrite andb_true_l in Hv. split.
    + split.
      * intros Hs. exists items. split; [reflexivity | now apply Hi].
      * intros [its [Hr Hall]]. injection Hr as <-.
        destruct (templates_loop_intact _ _ Hall (true, [LogValidating]))
          as [st2 [E2 F2]].
        rewrite El in E2. injection E2 as <-. exact F2.
    + rewrite Hv, Hc, <- app_assoc, !filter_app.
      cbn [filter isDefect app]. rewrite app_nil_r. apply template_clean_defects.
  - split; split; try discriminate.
    + intros [its [Hr Hall]]. injection Hr as <-.
      destruct (templates_loop_intact _ _ Hall (true, [LogValidating]))
        as [st2 [E2 F2]].
      rewrite El in E2. discriminate E2.
    + rewrite filter_app. cbn [filter isDefect].
      intros H. apply app_eq_nil in H. destruct H as [_ H]. discriminate H.
Qed.

End TemplatesFacts.

(** X9: [validateTemplates] answers true exactly when the templates
    document exists, parses and holds an array of records each of which
    is intact: an object that has no own property [hasOwnProperty], has
    a string name and the four fields, and whose directory exists with
    a well-formed [colors.json] and a [metadata.json].  (On a record
    with an own [hasOwnProperty] the call
    [template.hasOwnProperty(field)] throws and the answer is false.)
    Its answer is true exactly when it prints no defect. *)
Theorem templates_verdict :
  forall fs : Registry.files,
    let run := TemplateValidator.validateTemplates fs in
    (fst run = true
     <-> exists items,
           RegistrySpec.recordsAt fs "templates" ["api"; "templates.json"]
           = Some items
           /\ forallb (RegistrySpec.intactTemplate fs) items = true)
    /\ (fst run = true
        <-> filter TemplateValidator.isDefect (snd run) = []).
Proof.
  intros fs run. subst run.
  destruct (TemplatesFacts.templates_verdict_iff fs) as [Hintact Hdefects].
  split; [exact Hintact | exact Hdefects].
Qed.

Module DependencyFacts.
Import Json Registry JsConvert DependencyValidator DependencySpec RegistrySpec.
Local Open Scope string_scope.

Lemma sameValueZero_eq (a b : value) : sameValueZero a b = true -> a = b.
Proof.
  destruct a as [[| x | x | x | x | x] |], b as [[| y | y | y | y | y] |];
    simpl; try discriminate; try reflexivity; intros H.
  - apply Bool.eqb_prop in H. now subst.
  - apply String.eqb_eq in H. now subst.
  - apply String.eqb_eq in H. now subst.
Qed.

Lemma value_add_In (l : list value) (v x : value) :
  In x (add l v) <-> In x l \/ x = v.
Proof.
  unfold add. destruct (existsb (sameValueZero v) l) eqn:E.
  - split; [now left | intros [H | ->]; [exact H|]].
    apply existsb_exists in E. destruct E as [y [Hy Hs]].
    apply sameValueZero_eq in Hs. now subst.
  - rewrite in_app_iff. simpl. intuition congruence.
Qed.

Lemma values_fold_In (vs : list value) :
  forall acc x, In x (fold_left add vs acc) <-> In x acc \/ In x vs.
Proof.
  induction vs as [| v vs IH]; intros acc x; cbn [fold_left].
  - simpl. tauto.
  - rewrite IH, value_add_In. simpl. intuition congruence.
Qed.

Lemma listable_split (c : json) :
  listable c = visitable c && forallb printable (dependenciesOfRecord c).
Proof.
  unfold listable, visitable, dependenciesOfRecord.
  destruct c as [| b | x | s | a | m]; try reflexivity.
  destruct (assoc m "dependencies") as [[| b | x | s | deps | m'] |];
    try reflexivity.
  apply andb_comm.
Qed.

(** One record of the loop. *)
Lemma visit_run (st : collections) (c : json) :
  if visitable c
  then exists st',
         visit st c = Ok st'
         /\ allDependencies st'
            = fold_left add (map Some (dependenciesOfRecord c))
                        (allDependencies st)
  else exists e, visit st c = Throw e.
Proof.
  unfold visitable, visit, dependenciesOfRecord.
  destruct c as [| b | x | s | a | m]; cbn [get bind elements];
    try (eexists; reflexivity).
  destruct (assoc m "dependencies") as [[| b | x | s | deps | m'] |];
    cbn [bind elements]; try (eexists; reflexivity).
  destruct (assoc m "requiredProviders") as [[| b | x | s | ps | m'] |];
    cbn [truthy bind elements negb];
    try (eexists; split; reflexivity); try (eexists; reflexivity).
  - destruct b; cbn [bind elements negb]; eexists; try split; reflexivity.
  - destruct (negb (String.eqb x "0") && negb (String.eqb x "NaN"));
      cbn [bind elements negb]; eexists; try split; reflexivity.
  - destruct (negb (String.eqb s "")); cbn [bind elements negb];
      eexists; try split; reflexivity.
Qed.

Lemma visits_run (items : list json) :
  forall st,
    if forallb visitable items
    then exists st',
           forEachM visit items st = Ok st'
           /\ forall x,
                In x (allDependencies st')
                <-> In x (allDependencies st)
                    \/ exists c d,
                         In c items /\ In d (dependenciesOfRecord c)
                         /\ x = Some d
    else exists e, forEachM visit items st = Throw e.
Proof.
  induction items as [| c items IH]; intros st; cbn [forallb forEachM].
  - exists st. split; [reflexivity|]. intros x. split; [now left|].
    intros [H | [c [d [[] _]]]]. exact H.
  - pose proof (visit_run st c) as Hv. destruct (visitable c); cbn [andb].
    + destruct Hv as [st1 [E1 A1]]. rewrite E1. cbn [bind].
      specialize (IH st1). destruct (forallb visitable items).
      * destruct IH as [st' [E' A']]. exists st'. split; [exact E'|].
        intros x. rewrite A', A1, values_fold_In, in_map_iff. split.
        -- intros [[H | [d [<- Hd]]] | [c' [d [Hc [Hd ->]]]]].
           ++ now left.
           ++ right. exists c, d. repeat split; [now left | exact Hd].
           ++ right. exists c', d. repeat split; [now right | exact Hd].
        -- intros [H | [c' [d [[<- | Hc] [Hd ->]]]]].
           ++ left. now left.
           ++ left. right. now exists d.
           ++ right. now exists c', d.
      * exact IH.
    + destruct Hv as [e E]. rewrite E. now exists e.
Qed.

Lemma mapM_run (A B : Type) (f : A -> result B) (l : list A) :
  match Json.mapM f l with
  | Ok ys =>
      List.length ys = List.length l
      /\ (forall x, In x l -> exists y, f x = Ok y)
      /\ (forall y, In y ys <-> exists x, In x l /\ f x = Ok y)
  | Throw _ => exists x e, In x l /\ f x = Throw e
  end.
Proof.
  induction l as [| x l IH]; cbn [Json.mapM].
  - split; [reflexivity|]. split; [intros x []|].
    intros y. split; [intros [] | intros [x [[] _]]].
  - destruct (f x) as [y |e] eqn:E; cbn [bind].
    + destruct (Json.mapM f l) as [ys | e]; cbn [bind].
      * destruct IH as [Hl [Ha Hi]]. repeat split.
        -- simpl. now rewrite Hl.
        -- intros x' [<- | Hx]; [now exists y | now apply Ha].
        -- intros [<- | Hy]; [exists x; split; [now left | exact E]|].
           apply Hi in Hy. destruct Hy as [x' [Hx Hf]].
           exists x'. split; [now right | exact Hf].
        -- intros [x' [[<- | Hx] Hf]].
           ++ left. congruence.
           ++ right. apply Hi. now exists x'.
      * destruct IH as [x' [e' [Hx Hf]]]. exists x', e'.
        split; [now right | exact Hf].
    + exists x, e. split; [now left | exact E].
Qed.

Lemma listed_app (a b : list event) :
  listed (a ++ b) = (listed a ++ listed b)%list.
Proof. apply flat_map_app. Qed.

Lemma listed_map (l : list string) : listed (map LogDependency l) = l.
Proof.
  induction l as [| d l IH]; [reflexivity|]. simpl. now rewrite IH.
Qed.

(** The run of [validateDependencies] on a tree. *)
Lemma run (fs : files) :
  match recordsAt fs "components" ["api"; "components.json"] with
  | Some items =>
      if forallb listable items
      then exists n k listing,
             validateDependencies fs
             = (true,
                ([LogValidating; LogUnique n; LogProviderComponents k]
                   ++ map LogDependency listing)%list)
             /\ List.length listing = n
             /\ StronglySorted (fun a b => String.leb a b = true) listing
             /\ forall d,
                  In d listing
                  <-> exists c v,
                        In c items /\ In v (dependenciesOfRecord c)
                        /\ toText v = Ok d
      else fst (validateDependencies fs) = false
           /\ listed (snd (validateDependencies fs)) = []
  | None =>
      fst (validateDependencies fs) = false
      /\ listed (snd (validateDependencies fs)) = []
  end.
Proof.
  unfold recordsAt, recordsOf, validateDependencies.
  destruct (existsSync fs ["api"; "components.json"]); cbn [negb];
    [| split; reflexivity].
  destruct (readJson fs ["api"; "components.json"]) as [doc | e];
    [| split; reflexivity].
  unfold tryBlock.
  destruct (get (Some doc) "components") as [field | e];
    [| split; reflexivity].
  destruct (if truthy field then field else Some doc)
    as [[| b | x | s | items | m] |]; cbn [elements];
    try (split; reflexivity).
  pose proof (visits_run items {| allDependencies := []; graphKeys := [] |})
    as Hloop.
  assert (Hsplit : forallb listable items
                   = forallb visitable items
                     && forallb (fun c => forallb printable
                                            (dependenciesOfRecord c)) items).
  { clear. induction items as [| c items IH]; [reflexivity|].
    cbn [forallb]. rewrite IH, listable_split.
    destruct (visitable c), (forallb visitable items),
      (forallb printable (dependenciesOfRecord c)); reflexivity. }
  rewrite Hsplit. destruct (forallb visitable items); cbn [andb].
  - destruct Hloop as [st [E A]]. rewrite E. cbn [allDependencies] in A.
    pose proof (mapM_run toString (allDependencies st)) as Hm.
    destruct (Json.mapM toString (allDependencies st)) as [texts | e].
    + destruct Hm as [Hlen [Hall Hin]].
      assert (forallb (fun c => forallb printable (dependenciesOfRecord c))
                      items = true) as Hp.
      { apply forallb_forall. intros c Hc. apply forallb_forall. intros d Hd.
        destruct (Hall (Some d)) as [y Hy].
        - apply A. right. now exists c, d.
        - unfold printable. simpl in Hy. now rewrite Hy. }
      rewrite Hp.
      exists (List.length (allDependencies st)),
             (List.length (graphKeys st)), (Index.sort texts).
      split; [reflexivity|]. split; [| split].
      * rewrite <- Hlen. symmetry. apply Permutation_length.
        apply StringSort.Permuted_sort.
      * apply sort_ascending.
      * intros d. rewrite sort_In, Hin. split.
        -- intros [x [Hx Hf]]. apply A in Hx.
           destruct Hx as [[] | [c [v [Hc [Hv ->]]]]]. now exists c, v.
        -- intros [c [v [Hc [Hv Hf]]]]. exists (Some v). split; [| exact Hf].
           apply A. right. now exists c, v.
    + destruct Hm as [x [e' [Hx Hf]]].
      assert (forallb (fun c => forallb printable (dependenciesOfRecord c))
                      items = false) as Hp.
      { apply A in Hx. destruct Hx as [[] | [c [v [Hc [Hv ->]]]]].
        destruct (forallb (fun c => forallb printable (dependenciesOfRecord c))
                          items) eqn:Ef; [| reflexivity].
        rewrite forallb_forall in Ef. specialize (Ef c Hc).
        rewrite forallb_forall in Ef. specialize (Ef v Hv).
        unfold printable in Ef. simpl in Hf. rewrite Hf in Ef.
        discriminate Ef. }
      rewrite Hp. split; reflexivity.
  - destruct Hloop as [e E]. rewrite E. split; reflexivity.
Qed.

End DependencyFacts.

(** X10: [validateDependencies] answers true exactly when the components
    document exists, parses and holds an array of records whose
    dependencies are arrays of printable values and whose required
    providers, when given, are arrays; nothing else of the tree
    matters.  The dependencies it lists are in ascending order; under a
    true answer they are the texts of the dependencies of the records,
    and as many as the count it printed. *)
Theorem dependencies_listing :
  forall fs : Registry.files,
    let run := DependencyValidator.validateDependencies fs in
    (fst run = true
     <-> exists items,
           RegistrySpec.recordsAt fs "components" ["api"; "components.json"]
           = Some items
           /\ forallb RegistrySpec.listable items = true)
    /\ StronglySorted (fun a b => String.leb a b = true)
                      (DependencySpec.listed (snd run))
    /\ (fst run = true ->
        exists n,
          In (DependencyValidator.LogUnique n) (snd run)
          /\ List.length (DependencySpec.listed (snd run)) = n)
    /\ (forall items,
          RegistrySpec.recordsAt fs "components" ["api"; "components.json"]
          = Some items ->
          fst run = true ->
          forall d,
            In d (DependencySpec.listed (snd run))
            <-> exists c v,
                  In c items
                  /\ In v (DependencySpec.dependenciesOfRecord c)
                  /\ JsConvert.toText v = Ok d).
Proof.
  intros fs run. subst run. pose proof (DependencyFacts.run fs) as H.
  destruct (RegistrySpec.recordsAt fs "components" ["api"; "components.json"])
    as [items |].
  - destruct (forallb RegistrySpec.listable items) eqn:El.
    + destruct H as [n [k [listing [E [Hlen [Hs Hin]]]]]]. rewrite E.
      cbn [fst snd]. rewrite DependencyFacts.listed_app.
      cbn [DependencySpec.listed flat_map app].
      rewrite DependencyFacts.listed_map.
      split; [| split; [| split]].
      * split; [intros _; now exists items | reflexivity].
      * exact Hs.
      * intros _. exists n. split; [| exact Hlen]. right. now left.
      * intros its Hi _. injection Hi as <-. exact Hin.
    + destruct H as [Hf Hl]. rewrite Hf, Hl.
      split; [| split; [| split]]; try discriminate.
      * split; [discriminate|]. intros [its [Hi Ha]].
        injection Hi as <-. congruence.
      * constructor.
  - destruct H as [Hf Hl]. rewrite Hf, Hl.
    split; [| split; [| split]]; try discriminate.
    + split; [discriminate|]. intros [its [Hi _]]. discriminate Hi.
    + constructor.
Qed.

Module MainFacts.
Import Json Registry RegistrySpec ValidationMain.

Lemma components_at (fs : files) :
  fst (Validator.validateComponents (existsSync fs) (componentsFile fs)) = true
  <-> exists items,
        recordsAt fs "components" ["api"; "components.json"] = Some items
        /\ forallb (ValidatorSpec.intact (existsSync fs)) items = true.
Proof.
  rewrite (proj1 (ComponentsFacts.components_verdict_iff (existsSync fs) (componentsFile fs))).
  unfold componentsFile, recordsAt.
  destruct (existsSync fs ["api"; "components.json"]).
  - destruct (readJson fs ["api"; "components.json"]) as [doc | e]; split.
    + intros [d [items [Hd [Hr Hi]]]]. injection Hd as <-. now exists items.
    + intros [items [Hr Hi]]. now exists doc, items.
    + intros [d [items [Hd _]]]. discriminate Hd.
    + intros [items [Hr _]]. discriminate Hr.
  - split.
    + intros [d [items [Hd _]]]. discriminate Hd.
    + intros [items [Hr _]]. discriminate Hr.
Qed.

Lemma dependencies_at (fs : files) :
  fst (DependencyValidator.validateDependencies fs) = true
  <-> exists items,
        recordsAt fs "components" ["api"; "components.json"] = Some items
        /\ forallb listable items = true.
Proof.
  pose proof (DependencyFacts.run fs) as H.
  destruct (recordsAt fs "components" ["api"; "components.json"]) as [items |].
  - destruct (forallb listable items) eqn:El.
    + destruct H as [n [k [listing [E _]]]]. rewrite E.
      split; [intros _; now exists items | reflexivity].
    + destruct H as [Hf _]. rewrite Hf. split; [discriminate|].
      intros [its [Hi Ha]]. injection Hi as <-. congruence.
  - destruct H as [Hf _]. rewrite Hf. split; [discriminate|].
    intros [its [Hi _]]. discriminate Hi.
Qed.

Lemma exit_of (v1 v2 v3 v4 : bool) :
  Nat.eqb (andAssign (andAssign (andAssign (andAssign 1 v1) v2) v3) v4) 0
  = negb (v1 && v2 && v3 && v4).
Proof. destruct v1, v2, v3, v4; reflexivity. Qed.

(** The exit code is the conjunction of the four verdicts. *)
Lemma exit_code (fs : files) (now : string) :
  let run := main fs now in
  (snd run = 0
   <-> fst (StructureValidator.validateRegistryStructure fs) = true
       /\ fst (Validator.validateComponents (existsSync fs) (componentsFile fs))
          = true
       /\ fst (TemplateValidator.validateTemplates fs) = true
       /\ fst (DependencyValidator.validateDependencies fs) = true)
  /\ ((snd run = 0 /\ last (fst run) Banner = Passed)
      \/ (snd run = 1 /\ last (fst run) Banner = Failed)).
Proof.
  cbv zeta. unfold main.
  destruct (StructureValidator.validateRegistryStructure fs) as [v1 c1].
  destruct (Validator.validateComponents (existsSync fs) (componentsFile fs))
    as [v2 c2].
  destruct (TemplateValidator.validateTemplates fs) as [v3 c3].
  destruct (DependencyValidator.validateDependencies fs) as [v4 c4].
  destruct (Reporter.generateRegistryReport fs now) as [c5 report].
  cbn [fst snd]. rewrite exit_of.
  destruct v1, v2, v3, v4; cbn [andb negb fst snd];
    rewrite last_last; (split; [| (now left) || (now right)]);
    split; try discriminate; try tauto;
    intros [H1 [H2 [H3 H4]]]; discriminate.
Qed.

End MainFacts.

(** X11: the validation script exits with 0 exactly when the tree is
    intact: the five directories exist, the five documents exist and
    parse, every component record and every template record is intact
    and every component record can be listed; otherwise it exits with
    1.  What the report prints, or whether it fails, does not matter;
    the last line tells the outcome. *)
Theorem validation_exit_code :
  forall (fs : Registry.files) (now : string),
    let run := ValidationMain.main fs now in
    (snd run = 0 <-> RegistrySpec.registryIntact fs)
    /\ ((snd run = 0 /\ last (fst run) ValidationMain.Banner
                        = ValidationMain.Passed)
        \/ (snd run = 1 /\ last (fst run) ValidationMain.Banner
                           = ValidationMain.Failed)).
Proof.
  intros fs now run. subst run.
  destruct (MainFacts.exit_code fs now) as [Hexit Hlast].
  split; [| exact Hlast].
  rewrite Hexit, StructureFacts.structure_verdict_iff, MainFacts.components_at,
    (proj1 (TemplatesFacts.templates_verdict_iff fs)), MainFacts.dependencies_at.
  unfold RegistrySpec.registryIntact. split.
  - intros [[Hd Hf] [[items [Hr Hi]] [Ht [items' [Hr' Hl]]]]].
    rewrite Hr in Hr'. injection Hr' as <-.
    repeat split; try assumption. now exists items.
  - intros [Hd [Hf [[items [Hr [Hi Hl]]] Ht]]].
    repeat split; try assumption; now exists items.
Qed.

Module ReportFacts.
Import Json Registry JsConvert Reporter IndexDocument ReportSpec.
Local Open Scope string_scope.

Lemma join_entries (l : list Synthesizer.entry) :
  joinWith ", " (map entryJson l) = Ok (join ", " (map entryText l)).
Proof.
  unfold joinWith.
  assert (H : Json.mapM elementText (map entryJson l)
              = Ok (map entryText l)).
  { induction l as [| e l IH]; [reflexivity|].
    cbn [map Json.mapM]. rewrite IH. destruct e; reflexivity. }
  now rewrite H.
Qed.

End ReportFacts.

(** X12: on a tree that holds the index document of a build, the report
    is generated without failure and prints the version and the four
    counts of that build, as the number of dependencies the total that
    the index publishes, and the categories joined by commas. *)
Theorem report_of_a_built_index :
  forall (fs : Registry.files) (now : string) (cfg : config)
         (comps : list Synthesizer.component)
         (temps : list Templates.template) (provs : list Builder.provider)
         (toks : list Builder.token),
    let idx := Index.buildRegistryIndex cfg comps temps provs toks in
    ReportSpec.holdsIndex fs idx ->
    exists r,
      Reporter.generateRegistryReport fs now
      = ([Reporter.LogGenerating; Reporter.LogReport;
          Reporter.LogVersion (Config.version cfg);
          Reporter.LogComponents (Json.decimal (List.length comps));
          Reporter.LogTemplates (Json.decimal (List.length temps));
          Reporter.LogProviders (Json.decimal (List.length provs));
          Reporter.LogTokens (Json.decimal (List.length toks));
          Reporter.LogDependencies
            (Json.decimal (Index.totalDependencies (Index.i_stats idx)));
          Reporter.LogCategories
            (Json.join ", " (map ReportSpec.entryText (Index.categories idx)))],
         Some r)
      /\ Reporter.timestamp r = now.
Proof.
  intros fs now cfg comps temps provs toks idx H.
  unfold ReportSpec.holdsIndex in H.
  unfold Reporter.generateRegistryReport. rewrite H.
  unfold Reporter.makeReport, IndexDocument.indexJson.
  cbn [Json.get Json.assoc String.eqb Ascii.eqb Bool.eqb bind
       Reporter.lengthOf].
  unfold Reporter.printReport, Reporter.line, Reporter.stat.
  cbn [Reporter.version Reporter.stats Reporter.categories
       Reporter.dependencies JsConvert.toString JsConvert.toText
       Json.get Json.assoc String.eqb Ascii.eqb Bool.eqb bind
       Reporter.joinCategories IndexDocument.count app].
  rewrite ReportFacts.join_entries. cbn [app].
  subst idx. cbn [Index.buildRegistryIndex Index.version Index.i_stats
                  Index.components Index.templates Index.providers
                  Index.tokens Index.totalDependencies Index.dependencies
                  Index.categories].
  rewrite length_map.
  assert (L : List.length (Index.sort (Index.allDependencies comps))
              = List.length (Index.allDependencies comps)).
  { symmetry. apply Permutation_length. apply StringSort.Permuted_sort. }
  rewrite L. eexists. split; reflexivity.
Qed.

(** The report of the index of a build of three components in three
    categories, with two dependencies, one template, one provider and
    two token files. *)
Lemma report_of_a_built_index_witness :
  exists r,
    Reporter.generateRegistryReport
      (ReportSpec.onlyIndex ReportSample.index) "2024-01-01T00:00:00.000Z"
    = ([Reporter.LogGenerating; Reporter.LogReport;
        Reporter.LogVersion "1.0.0";
        Reporter.LogComponents "3"; Reporter.LogTemplates "1";
        Reporter.LogProviders "1"; Reporter.LogTokens "2";
        Reporter.LogDependencies "2";
        Reporter.LogCategories "forms, layout, feedback"],
       Some r)
    /\ Reporter.timestamp r = "2024-01-01T00:00:00.000Z".
Proof.
  destruct (@report_of_a_built_index
              (ReportSpec.onlyIndex ReportSample.index)
              "2024-01-01T00:00:00.000Z" sampleConfig
              ReportSample.components ReportSample.templates
              ReportSample.providers ReportSample.tokens)
    as [r [Hrun Hstamp]].
  - reflexivity.
  - exists r. split; [| exact Hstamp].
    rewrite Hrun. vm_compute. reflexivity.
Defined.

Module TemplateRun.
Import JsString Json Templates TemplateSpec TemplateRunSpec TemplateFacts.
Local Open Scope string_scope.

(** The loop as the sum of its steps. *)
Lemma loop_steps (cfg : config) (dirs : list (string * result json)) :
  forall w ts,
    exists c,
      fold_left (processTemplate cfg) dirs (w, ts)
      = ({| console := (console w ++ c)%list;
            disk := (disk w ++ loopFiles cfg dirs)%list |},
         (ts ++ loopRecords cfg dirs)%list).
Proof.
  unfold loopFiles, loopRecords.
  induction dirs as [| d dirs IH]; intros w ts; cbn [fold_left flat_map].
  - exists []. rewrite !app_nil_r. now destruct w.
  - rewrite processTemplate_frame.
    destruct (IH (plus w (fst (step cfg d))) (ts ++ snd (step cfg d))%list)
      as [c Hc].
    rewrite Hc. exists (console (fst (step cfg d)) ++ c)%list.
    unfold plus. cbn [console disk]. now rewrite <- !app_assoc.
Qed.

(** A directory whose step writes nothing and adds no record does not
    change what the build returns and writes. *)
Lemma skipped (cfg : config) (before after : list (string * result json))
      (dir : string * result json) (lines : list event) (w : world) :
  step cfg dir = ({| console := lines; disk := [] |}, []) ->
  let run :=
    buildTemplateRegistry cfg (Some (before ++ dir :: after)%list) w in
  let reference :=
    buildTemplateRegistry cfg (Some (before ++ after)%list) w in
  snd run = snd reference
  /\ disk (fst run) = disk (fst reference)
  /\ exists c1 c2,
       console (fst reference) = (c1 ++ c2)%list
       /\ console (fst run) = (c1 ++ lines ++ c2)%list.
Proof.
  intros Hstep run reference. subst run reference.
  rewrite !build_finish, !fold_left_app. cbn [fold_left].
  destruct (fold_left (processTemplate cfg) before (emit LogBuilding w, []))
    as [wb tb].
  rewrite processTemplate_frame, Hstep. cbn [fst snd]. rewrite app_nil_r.
  rewrite (fold_frame cfg after _ tb), (fold_frame cfg after wb tb).
  destruct (fold_left (processTemplate cfg) after (empty, [])) as [wa ta].
  rewrite (finish_frame cfg _ (tb ++ snd (wa, ta))).
  rewrite (finish_frame cfg (plus wb _)).
  destruct (finish cfg (empty, (tb ++ snd (wa, ta))%list)) as [wf rf].
  unfold plus. cbn [fst snd console disk]. rewrite app_nil_r.
  split; [reflexivity|]. split; [reflexivity|].
  exists (console wb), (console wa ++ console wf)%list.
  split; [now rewrite app_assoc | now rewrite <- !app_assoc].
Qed.

Lemma step_throw (cfg : config) (n : string) (e : js_error) :
  step cfg (n, Throw e)
  = ({| console := [LogProcessing n; ErrorProcessing n e]; disk := [] |}, []).
Proof. reflexivity. Qed.

Lemma step_null (cfg : config) (n : string) :
  step cfg (n, Ok JNull)
  = ({| console := [LogProcessing n; ErrorProcessing n (TypeError "tokens")];
        disk := [] |}, []).
Proof. reflexivity. Qed.



Lemma personalityOf_run (t : template) :
  if undescribed (personality t)
  then exists e, personalityOf t = Throw e
  else exists p, personalityOf t = Ok p.
Proof.
  unfold personalityOf, undescribed, nullish, printableMember.
  destruct (personality t) as [[| b | x | s | l | m] |];
    cbn [get bind orb JsConvert.toString];
    try (eexists; reflexivity).
  destruct (JsConvert.toString (assoc m "mood")) as [mo | e1]; cbn [bind andb negb];
    [| now exists e1].
  destruct (JsConvert.toString (assoc m "spacing")) as [sp | e2];
    cbn [bind andb negb]; [| now exists e2].
  destruct (JsConvert.toString (assoc m "roundness")) as [ro | e3];
    cbn [bind andb negb]; [| now exists e3].
  eexists. reflexivity.
Qed.

Lemma buildApi_run (cfg : config) (ts : list template) :
  if existsb (fun t => undescribed (personality t)) ts
  then exists e, buildApi cfg ts = Throw e
  else exists a, buildApi cfg ts = Ok a /\ api_templates a = ts.
Proof.
  unfold buildApi.
  assert (H : if existsb (fun t => undescribed (personality t)) ts
              then exists e, mapM personalityOf ts = Throw e
              else exists ps, mapM personalityOf ts = Ok ps).
  { induction ts as [| t ts IH]; cbn [existsb mapM]; [now exists []|].
    pose proof (personalityOf_run t) as Hp.
    destruct (undescribed (personality t)); cbn [orb].
    - destruct Hp as [e ->]. now exists e.
    - destruct Hp as [p ->]. cbn [bind].
      destruct (existsb (fun t => undescribed (personality t)) ts).
      + destruct IH as [e ->]. now exists e.
      + destruct IH as [ps ->]. eexists. reflexivity. }
  destruct (existsb (fun t => undescribed (personality t)) ts).
  - destruct H as [e ->]. now exists e.
  - destruct H as [ps ->]. eexists. split; reflexivity.
Qed.

(** The build from the records and the files of its loop. *)
Lemma build_run (cfg : config) (dirs : list (string * result json))
      (w : world) :
  let run := buildTemplateRegistry cfg (Some dirs) w in
  if existsb (fun t => undescribed (personality t)) (loopRecords cfg dirs)
  then (exists e, snd run = Throw e)
       /\ disk (fst run) = (disk w ++ loopFiles cfg dirs)%list
  else exists a,
         snd run = Ok (loopRecords cfg dirs, Some a)
         /\ api_templates a = loopRecords cfg dirs
         /\ disk (fst run)
            = (disk w ++ loopFiles cfg dirs
                 ++ [(["api"; "templates.json"],
                      serialize "  " "" (apiJson a))])%list.
Proof.
  cbv zeta. rewrite build_finish.
  destruct (loop_steps cfg dirs (emit LogBuilding w) []) as [c Hc].
  rewrite Hc. cbn [app]. unfold finish.
  pose proof (buildApi_run cfg (loopRecords cfg dirs)) as Ha.
  destruct (existsb (fun t => undescribed (personality t)) (loopRecords cfg dirs)).
  - destruct Ha as [e ->]. cbn [fst snd disk emit]. split; [now exists e|].
    reflexivity.
  - destruct Ha as [a [-> Hts]].
    cbn [writeFileSync stringify2 option_map fst snd disk emit console].
    exists a. split; [reflexivity|]. split; [exact Hts|].
    now rewrite <- app_assoc.
Qed.

End TemplateRun.

(** C10: for definitions whose token groups name files, the templates
    API document that a build leaves at [api/templates.json] holds the
    templates that were processed to a record, in the order of their
    directories, and its [stats.tokenTypes] lists the types of the token files of the first
    of them, and is empty when no template was processed; for the two
    templates below, of which only the second has a [spacing] group,
    the document has [colors] alone there, although the file of the
    [spacing] group was written and the record of the second template
    lists it. *)
Theorem C10_token_types_of_first_template :
  (forall (cfg : config) (dirs : list (string * result Json.json))
          (w : Templates.world),
      TemplateRunSpec.plainGroups dirs = true ->
      let run := Templates.buildTemplateRegistry cfg (Some dirs) w in
      match snd run with
      | Ok (ts, _) =>
          ts = TemplateRunSpec.loopRecords cfg dirs
          /\ exists doc stats : Json.json,
            WrittenSpec.lastWrite ["api"; "templates.json"]
                                  (Templates.disk (fst run))
            = Some (Json.serialize "  " "" doc)
            /\ Json.get (Some doc) "templates"
               = Ok (Some (Json.JArr (map Templates.templateJson ts)))
            /\ Json.get (Some doc) "stats" = Ok (Some stats)
            /\ Json.get (Some stats) "tokenTypes"
               = Ok (Some (Json.JArr
                             (map Json.JStr
                                  match ts with
                                  | t0 :: _ =>
                                      map Templates.tf_type
                                          (Templates.tokenFiles t0)
                                  | [] => []
                                  end)))
      | Throw _ => True
      end)
  /\ (let run :=
        Templates.buildTemplateRegistry sampleConfig
          (Some [("canopy", Ok (paletteTemplate "canopy" []));
                 ("dusk",
                   Ok (paletteTemplate "dusk"
                         [("spacing", Json.JObj [("md", Json.JNum "16")])]))])
          TemplateSpec.empty in
      exists (t1 t2 : Templates.template) (a : Templates.api)
             (stats : Json.json),
        snd run = Ok ([t1; t2], Some a)
        /\ WrittenSpec.lastWrite ["api"; "templates.json"]
                                 (Templates.disk (fst run))
           = Some (Json.serialize "  " "" (Templates.apiJson a))
        /\ Json.get (Some (Templates.apiJson a)) "stats" = Ok (Some stats)
        /\ Json.get (Some stats) "tokenTypes"
           = Ok (Some (Json.JArr [Json.JStr "colors"]))
        /\ In "spacing" (map Templates.tf_type (Templates.tokenFiles t2))
        /\ WrittenSpec.lastWrite ["templates"; "dusk"; "spacing.json"]
                                 (Templates.disk (fst run))
           = Some (Json.serialize "  " ""
                     (Json.JObj [("md", Json.JNum "16")]))).
Proof.
  split.
  - intros cfg dirs w _. cbv zeta. rewrite TemplateFacts.build_finish.
    destruct (TemplateRun.loop_steps cfg dirs
                (Templates.emit Templates.LogBuilding w) []) as [c Hc].
    rewrite Hc. cbn [app].
    set (w1 := {| Templates.console := _; Templates.disk := _ |}).
    set (ts := TemplateRunSpec.loopRecords cfg dirs).
    unfold TemplateSpec.finish.
    destruct (Templates.buildApi cfg ts) as [a | e] eqn:Ea; [| exact I].
    cbn [Templates.writeFileSync Json.stringify2 option_map fst snd
         Templates.emit Templates.disk].
    unfold Templates.buildApi in Ea.
    destruct (Json.mapM Templates.personalityOf ts) as [ps | e];
      [| discriminate Ea].
    cbn [bind] in Ea. injection Ea as <-.
    split; [reflexivity|].
    eexists. eexists. split; [apply lastWrite_last|].
    split; [reflexivity|]. split; reflexivity.
  - cbv zeta. eexists. eexists. eexists. eexists.
    split; [vm_compute; reflexivity|].
    split; [vm_compute; reflexivity|].
    split; [vm_compute; reflexivity|].
    split; [vm_compute; reflexivity|].
    split; [vm_compute; tauto|].
    vm_compute. reflexivity.
Qed.


(** X13: a template directory whose definition cannot be read or parsed,
    or is the JSON value [null], is reported with one error and left
    out: nothing is written for it, and the build returns and writes
    what it does without that directory. *)
Theorem unreadable_template_is_skipped :
  forall (cfg : config) (before after : list (string * result Json.json))
         (templateName : string) (e : js_error) (w : Templates.world),
    let reference :=
      Templates.buildTemplateRegistry cfg (Some (before ++ after)) w in
    (let run :=
       Templates.buildTemplateRegistry cfg
         (Some (before ++ (templateName, Throw e) :: after)) w in
     snd run = snd reference
     /\ Templates.disk (fst run) = Templates.disk (fst reference)
     /\ exists c1 c2,
          Templates.console (fst reference) = c1 ++ c2
          /\ Templates.console (fst run)
             = c1 ++ [Templates.LogProcessing templateName;
                      Templates.ErrorProcessing templateName e] ++ c2)
    /\ (let run :=
          Templates.buildTemplateRegistry cfg
            (Some (before ++ (templateName, Ok Json.JNull) :: after)) w in
        snd run = snd reference
        /\ Templates.disk (fst run) = Templates.disk (fst reference)
        /\ exists c1 c2,
             Templates.console (fst reference) = c1 ++ c2
             /\ Templates.console (fst run)
                = c1 ++ [Templates.LogProcessing templateName;
                         Templates.ErrorProcessing templateName
                           (TypeError "tokens")] ++ c2).
Proof.
  intros cfg before after n e w reference. subst reference. split.
  - apply TemplateRun.skipped. apply TemplateRun.step_throw.
  - apply TemplateRun.skipped. apply TemplateRun.step_null.
Qed.



Module PublishedFacts.
Import JsString Json Templates TemplateSpec TemplateRunSpec Registry.
Import RegistrySpec PublishedSpec.
Local Open Scope string_scope.

Lemma truthy_key (m : list (string * json)) (k : string) :
  truthy (assoc m k) = true -> In k (map fst m).
Proof.
  induction m as [| [k' v] m IH]; simpl; [discriminate|].
  destruct (String.eqb k k') eqn:E.
  - apply String.eqb_eq in E. subst. now left.
  - intros H. right. now apply IH.
Qed.

(** A record of a step has its colors and its metadata among the files
    of that step. *)
Lemma step_files (cfg : config) (n : string) (parsed : result json)
      (t : template) :
  In t (snd (step cfg (n, parsed))) ->
  (exists text,
      In (["templates"; n; "colors.json"], text)
         (disk (fst (step cfg (n, parsed)))))
  /\ (exists text,
        In (["templates"; n; "metadata.json"], text)
           (disk (fst (step cfg (n, parsed))))).
Proof.
  unfold step, processTemplate.
  destruct (tryBlock cfg n parsed empty) as [w' [[t' |] | e]] eqn:E;
    cbn [fst snd app In]; try tauto.
  intros _. apply TemplateRecords.tryBlock_success in E.
  destruct E as [doc [m [_ [_ [Hc [Hd _]]]]]]. rewrite Hd. cbn [disk empty app].
  split.
  - exists (serialize "  " "" (valueOf m "colors")). apply in_or_app. left.
    apply in_map_iff. exists "colors". split; [reflexivity|].
    now apply truthy_key.
  - eexists. apply in_or_app. right. now left.
Qed.

(** The JSON of a record that carries the four fields is intact in a
    tree where its directory and its two files exist. *)
Lemma template_record_intact (fs : files) (n : string) (t : template) :
  selfNamed n t ->
  existsSync fs ["templates"; n] = true ->
  existsSync fs ["templates"; n; "colors.json"] = true ->
  (exists doc, readJson fs ["templates"; n; "colors.json"] = Ok doc) ->
  existsSync fs ["templates"; n; "metadata.json"] = true ->
  intactTemplate fs (templateJson t) = true.
Proof.
  intros [Hn [Hd [He Hv]]] H1 H2 [doc H3] H4.
  unfold intactTemplate, fileBad, templateJson. rewrite Hn.
  destruct (displayName t) as [dn |]; [| now destruct Hd].
  destruct (description t) as [de |]; [| now destruct He].
  destruct (version t) as [ve |]; [| now destruct Hv].
  cbn [object assoc String.eqb Ascii.eqb Bool.eqb].
  rewrite H1, H2, H3, H4.
  destruct (author t), (personality t), (preview t); reflexivity.
Qed.

End PublishedFacts.

(** X15: after a template build that published its API, a tree that
    holds what the build wrote passes [validateTemplates] without a
    defect, provided every record carries the name of its own directory
    and a display name, a description and a version. *)
Theorem built_templates_validate :
  forall (cfg : config) (dirs : list (string * result Json.json))
         (w : Templates.world) (ts : list Templates.template)
         (a : Templates.api) (fs : Registry.files),
    let run := Templates.buildTemplateRegistry cfg (Some dirs) w in
    snd run = Ok (ts, Some a) ->
    PublishedSpec.holdsBuild fs (map fst dirs) (Templates.disk (fst run)) a ->
    (forall n parsed t,
        In (n, parsed) dirs ->
        In t (snd (TemplateSpec.step cfg (n, parsed))) ->
        PublishedSpec.selfNamed n t) ->
    Registry.existsSync fs ["api"; "templates.json"] = true ->
    fst (TemplateValidator.validateTemplates fs) = true
    /\ filter TemplateValidator.isDefect
              (snd (TemplateValidator.validateTemplates fs)) = [].
Proof.
  intros cfg dirs w ts a fs run Hrun [Hfiles [Hdirs Hapi]] Hself Hex.
  subst run.
  pose proof (TemplateRun.build_run cfg dirs w) as Hb. cbv zeta in Hb.
  destruct (existsb _ (TemplateRunSpec.loopRecords cfg dirs)).
  { destruct Hb as [[e He] _]. rewrite He in Hrun. discriminate Hrun. }
  destruct Hb as [a' [Hs [Hts Hd]]]. rewrite Hs in Hrun.
  injection Hrun as <- <-.
  assert (Hv : fst (TemplateValidator.validateTemplates fs) = true).
  { apply (proj1 (TemplatesFacts.templates_verdict_iff fs)).
    exists (map Templates.templateJson (TemplateRunSpec.loopRecords cfg dirs)).
    split.
    - unfold RegistrySpec.recordsAt, RegistrySpec.recordsOf.
      rewrite Hex, Hapi. unfold Templates.apiJson.
      cbn [Json.get Json.assoc String.eqb Ascii.eqb Bool.eqb Json.truthy].
      now rewrite Hts.
    - apply forallb_forall. intros j Hj. apply in_map_iff in Hj.
      destruct Hj as [t [<- Ht]].
      unfold TemplateRunSpec.loopRecords in Ht. apply in_flat_map in Ht.
      destruct Ht as [[n parsed] [Hdir Hstep]].
      destruct (PublishedFacts.step_files _ _ _ _ Hstep)
        as [[tc Hc] [tm Hm]].
      assert (Hin : forall path text,
                 In (path, text)
                    (Templates.disk (fst (TemplateSpec.step cfg (n, parsed)))) ->
                 Registry.existsSync fs path = true
                 /\ exists doc, Registry.readJson fs path = Ok doc).
      { intros path text Hp. apply (Hfiles path text). rewrite Hd.
        apply in_or_app. right. apply in_or_app. left.
        unfold TemplateRunSpec.loopFiles. apply in_flat_map.
        now exists (n, parsed). }
      apply (@PublishedFacts.template_record_intact fs n t).
      + now apply (Hself n parsed).
      + apply Hdirs. apply in_map_iff. now exists (n, parsed).
      + now destruct (Hin _ _ Hc).
      + now destruct (Hin _ _ Hc).
      + now destruct (Hin _ _ Hm). }
  split; [exact Hv|]. now apply (proj2 (TemplatesFacts.templates_verdict_iff fs)).
Qed.

(** The build of one palette and the validation of its tree. *)
Lemma built_templates_validate_witness :
  fst (TemplateValidator.validateTemplates PublishedSpec.duskTree) = true
  /\ filter TemplateValidator.isDefect
            (snd (TemplateValidator.validateTemplates PublishedSpec.duskTree))
     = [].
Proof.
  eassert (snd (Templates.buildTemplateRegistry sampleConfig
                  (Some PublishedSpec.duskDirs) TemplateSpec.empty)
           = Ok ([_], Some _)) as E by (vm_compute; reflexivity).
  apply (@built_templates_validate sampleConfig PublishedSpec.duskDirs
           TemplateSpec.empty _ _ PublishedSpec.duskTree E).
  - split; [| split].
    + intros path text H. vm_compute in H.
      repeat (destruct H as [H | H];
              [injection H as <- <-; split;
               [vm_compute; reflexivity | eexists; vm_compute; reflexivity]|]).
      destruct H.
    + intros n [<- | []]. vm_compute. reflexivity.
    + vm_compute. reflexivity.
  - intros n parsed t [H | []] Ht. injection H as <- <-.
    vm_compute in Ht. destruct Ht as [<- | []].
    repeat split; discriminate.
  - vm_compute. reflexivity.
Defined.

(** ** The conversion to a template *)

Module ReplaceFacts.
Import JsString Regex Replace ReplaceSpec RegexLanguage StringFacts.
Local Open Scope string_scope.

Lemma matchHere_Lit (p s : string) :
  matchHere (Lit p) s
  = match strip p s with
    | Some s' => Some (s', [])
    | None => None
    end.
Proof. unfold matchHere. cbn [rmatch]. now destruct (strip p s). Qed.

Lemma strip_prefix (p s : string) :
  String.prefix p s = false -> strip p s = None.
Proof.
  revert s. induction p as [| a p IH]; intros s H.
  - destruct s; discriminate H.
  - destruct s as [| b s]; [reflexivity|]. simpl in *.
    destruct (ascii_dec a b) as [-> | N].
    + rewrite Ascii.eqb_refl. now apply IH.
    + apply Ascii.eqb_neq in N. now rewrite N.
Qed.

Lemma prefix_strip (p s : string) :
  String.prefix p s = true -> exists s', strip p s = Some s'.
Proof.
  intros H. destruct (prefix_split _ _ H) as [rest ->].
  exists rest. apply strip_of_append.
Qed.

Lemma drop_append (u s : string) : drop (String.length u) (u ++ s) = s.
Proof. induction u as [| a u IH]; simpl; [now destruct s | exact IH]. Qed.

Lemma strip_empty (p : string) : p <> "" -> strip p "" = None.
Proof. destruct p; [intros H; now destruct H | reflexivity]. Qed.

(** Replacing a text by itself changes nothing. *)
Lemma replaceAll_same (p s : string) :
  p <> "" -> forall k, replaceAll (Lit p) p s k = drop k s.
Proof.
  intros Hp. induction s as [| c t IH]; intros k.
  - destruct k; cbn [replaceAll drop]; [| reflexivity].
    now rewrite matchHere_Lit, strip_empty.
  - destruct k as [| k]; cbn [replaceAll drop]; [| apply IH].
    rewrite matchHere_Lit.
    destruct (strip p (String c t)) as [s' |] eqn:E.
    + pose proof (strip_append _ _ E) as Hs. rewrite Hs, consumed_append.
      destruct p as [| a p']; [now destruct Hp|].
      cbn [String.length]. rewrite IH.
      simpl in Hs. injection Hs as -> ->. simpl. now rewrite drop_append.
    + now rewrite IH.
Qed.

(** Without an occurrence nothing is replaced. *)
Lemma replaceAll_absent (p rep s : string) :
  p <> "" -> includes s p = false -> replaceAll (Lit p) rep s 0 = s.
Proof.
  intros Hp. induction s as [| c t IH]; cbn [includes replaceAll]; intros H.
  - now rewrite matchHere_Lit, strip_empty.
  - apply orb_false_iff in H. destruct H as [Hx Ht].
    rewrite matchHere_Lit, (strip_prefix _ _ Hx). now rewrite IH.
Qed.

Lemma replaceAll_length (p rep s : string) :
  p <> "" -> String.length rep <= String.length p ->
  forall k,
    String.length (replaceAll (Lit p) rep s k) <= String.length s - k.
Proof.
  intros Hp shorter. induction s as [| c t IH]; intros k.
  - destruct k; cbn [replaceAll]; [| simpl; lia].
    rewrite matchHere_Lit, strip_empty by exact Hp. simpl. lia.
  - destruct k as [| k]; cbn [replaceAll].
    + rewrite matchHere_Lit.
      destruct (strip p (String c t)) as [s' |] eqn:E.
      * pose proof (strip_append _ _ E) as Hs. rewrite Hs, consumed_append.
        assert (String.length (String c t) = String.length p + String.length s')
          as L by (rewrite Hs; apply length_append).
        rewrite <- Hs. destruct p as [| a p']; [now destruct Hp|].
        cbn [String.length] in *.
        rewrite length_append. specialize (IH (String.length p')). lia.
      * cbn [String.length]. specialize (IH 0). lia.
    + cbn [String.length]. specialize (IH k). lia.
Qed.

(** Every occurrence makes the text shorter. *)
Lemma replaceAll_shorter (p rep s : string) :
  String.length rep < String.length p ->
  includes s p = true ->
  String.length (replaceAll (Lit p) rep s 0) < String.length s.
Proof.
  intros strictly.
  assert (Hp : p <> "") by (intros ->; simpl in strictly; lia).
  induction s as [| c t IH]; cbn [includes replaceAll]; intros H.
  - destruct p; [now destruct Hp | simpl in H; discriminate H].
  - rewrite matchHere_Lit.
    destruct (strip p (String c t)) as [s' |] eqn:E.
    + pose proof (strip_append _ _ E) as Hs. rewrite Hs, consumed_append.
      assert (String.length (String c t) = String.length p + String.length s')
        as L by (rewrite Hs; apply length_append).
      rewrite <- Hs. destruct p as [| a p']; [now destruct Hp|].
      cbn [String.length] in *.
      rewrite length_append.
      pose proof (@replaceAll_length (String a p') rep t Hp
                    ltac:(simpl; lia) (String.length p')). lia.
    + apply orb_true_iff in H. destruct H as [H | H].
      * destruct (prefix_strip _ _ H) as [s' Hs]. congruence.
      * cbn [String.length]. specialize (IH H). lia.
Qed.

Lemma replaceAll_fixed (p rep s : string) :
  String.length rep < String.length p ->
  replaceAll (Lit p) rep s 0 = s <-> includes s p = false.
Proof.
  intros strictly. split.
  - intros H. destruct (includes s p) eqn:E; [| reflexivity].
    apply (@replaceAll_shorter p rep s strictly) in E. rewrite H in E. lia.
  - apply replaceAll_absent. intros ->. simpl in strictly. lia.
Qed.

Lemma stage_length (p rep s : string) :
  p <> "" -> String.length rep <= String.length p ->
  String.length (replaceAll (Lit p) rep s 0) <= String.length s.
Proof.
  intros Hp Hl. pose proof (@replaceAll_length p rep s Hp Hl 0). lia.
Qed.

End ReplaceFacts.

(** X16: the template written for a component is its source text,
    unchanged, exactly when the text has none of the three patterns
    that the conversion rewrites; it is never longer than the source.
    The same holds for a provider and its one pattern. *)
Theorem template_is_a_copy_unless_rewritten :
  forall content : string,
    (Replace.componentTemplate content = content
     <-> JsString.includes content "from './'" = false
         /\ JsString.includes content "../../constants/ui" = false
         /\ JsString.includes content "../../providers" = false)
    /\ String.length (Replace.componentTemplate content)
       <= String.length content
    /\ (Replace.providerTemplate content = content
        <-> JsString.includes content "../constants/ui" = false)
    /\ String.length (Replace.providerTemplate content)
       <= String.length content.
Proof.
  intros content. unfold Replace.componentTemplate, Replace.providerTemplate.
  cbv zeta.
  rewrite (@ReplaceFacts.replaceAll_same "from '../" content
             ltac:(discriminate) 0).
  cbn [ReplaceSpec.drop].
  set (c2 := Replace.replaceAll (Regex.Lit "from './'") "from './" content 0).
  set (c3 := Replace.replaceAll (Regex.Lit "../../constants/ui")
                                "./constants/ui" c2 0).
  assert (L2 : String.length c2 <= String.length content)
    by (apply ReplaceFacts.stage_length; [discriminate | simpl; lia]).
  assert (L3 : String.length c3 <= String.length c2)
    by (apply ReplaceFacts.stage_length; [discriminate | simpl; lia]).
  assert (L4 : String.length
                 (Replace.replaceAll (Regex.Lit "../../providers")
                                     "./providers" c3 0)
               <= String.length c3)
    by (apply ReplaceFacts.stage_length; [discriminate | simpl; lia]).
  assert (F2 : c2 = content <-> JsString.includes content "from './'" = false)
    by (apply ReplaceFacts.replaceAll_fixed; simpl; lia).
  assert (F3 : c3 = c2 <-> JsString.includes c2 "../../constants/ui" = false)
    by (apply ReplaceFacts.replaceAll_fixed; simpl; lia).
  assert (F4 : Replace.replaceAll (Regex.Lit "../../providers")
                                  "./providers" c3 0 = c3
               <-> JsString.includes c3 "../../providers" = false)
    by (apply ReplaceFacts.replaceAll_fixed; simpl; lia).
  split; [| split; [lia | split]].
  - split.
    + intros H.
      assert (HL : String.length
                     (Replace.replaceAll (Regex.Lit "../../providers")
                                         "./providers" c3 0)
                   = String.length content) by now rewrite H.
      assert (E2 : c2 = content).
      { apply F2. destruct (JsString.includes content "from './'") eqn:E;
          [| reflexivity].
        apply (@ReplaceFacts.replaceAll_shorter "from './'" "from './")
          in E; [| simpl; lia].
        change (String.length c2 < String.length content) in E. lia. }
      assert (E3 : c3 = c2).
      { apply F3. destruct (JsString.includes c2 "../../constants/ui") eqn:E;
          [| reflexivity].
        apply (@ReplaceFacts.replaceAll_shorter "../../constants/ui"
                 "./constants/ui") in E; [| simpl; lia].
        change (String.length c3 < String.length c2) in E.
        rewrite E2 in E. lia. }
      rewrite E3, E2 in H. rewrite E3, E2 in F4. rewrite E2 in F3.
      repeat split; [now apply F2 | apply F3; congruence | now apply F4].
    + intros [H2 [H3 H4]].
      assert (E2 : c2 = content) by now apply F2.
      assert (E3 : c3 = c2) by (apply F3; now rewrite E2).
      rewrite E3, E2. apply ReplaceFacts.replaceAll_absent;
        [discriminate | exact H4].
  - apply ReplaceFacts.replaceAll_fixed; simpl; lia.
  - apply ReplaceFacts.stage_length; [discriminate | simpl; lia].
Qed.

(** ** The build script *)

Module BuildFacts.
Import JsString Json Builder Build Registry BuildSpec RegistrySpec.
Local Open Scope string_scope.

(** The loop over the components: it never throws, it returns the
    records of the record builder, and every record has its directory
    and its two files in the tree. *)
Lemma component_loop (cfg : config) (dir : directory) (names : list string) :
  forall w comps,
    exists w' added,
      forEach (componentStep cfg dir) names (w, comps)
      = (w', Ok (comps ++ added)%list)
      /\ forEachM (Builder.componentStep cfg dir) names comps
         = Ok (comps ++ added)%list
      /\ (forall d, In d (made w) -> In d (made w'))
      /\ (forall f, In f (Build.disk w) -> In f (Build.disk w'))
      /\ Forall (fun c =>
                   exists n a,
                     In n names
                     /\ c = Synthesizer.createComponentMetadata cfg n a
                     /\ In ["components"; n] (made w')
                     /\ (exists text,
                           In (["components"; n; "component.tsx.template"],
                               text) (Build.disk w'))
                     /\ In (["components"; n; "component.json"],
                            pretty (componentJson c)) (Build.disk w'))
                added.
Proof.
  induction names as [| n names IH]; intros w comps;
    cbn [forEach forEachM].
  - exists w, []. rewrite app_nil_r. repeat split; auto.
  - unfold componentStep at 1. unfold Builder.componentStep at 1.
    destruct (lookupFile dir (n ++ ".tsx")) as [content |] eqn:E.
    + destruct (BuilderFacts.analyzeComponentFile_returns dir (n ++ ".tsx") n E)
        as [a [Ha _]].
      rewrite Ha. cbn [bind app].
      match goal with
      | |- context [forEach _ names (?w1, ?c1)] =>
          destruct (IH w1 c1) as [w' [added [H1 [H2 [H3 [H4 H5]]]]]]
      end.
      exists w', (Synthesizer.createComponentMetadata cfg n a :: added).
      rewrite H1, H2, <- !app_assoc. cbn [app].
      split; [reflexivity|]. split; [reflexivity|].
      split; [| split].
      * intros d Hd. apply H3. cbn [emit writeFileSync ensureDir made].
        apply in_or_app. now left.
      * intros f Hf. apply H4. cbn [emit writeFileSync ensureDir Build.disk].
        apply in_or_app. left. apply in_or_app. now left.
      * constructor.
        -- exists n, a. split; [now left|]. split; [reflexivity|].
           split; [| split].
           ++ apply H3. cbn [emit writeFileSync ensureDir made].
              apply in_or_app. right. now left.
           ++ eexists. apply H4.
              cbn [emit writeFileSync ensureDir Build.disk].
              apply in_or_app. left. apply in_or_app. right. now left.
           ++ apply H4. cbn [emit writeFileSync ensureDir Build.disk].
              apply in_or_app. right. now left.
        -- eapply Forall_impl; [| exact H5].
           intros c [n' [a' [Hn Hrest]]]. exists n', a'.
           split; [now right | exact Hrest].
    + cbn [bind].
      destruct (IH (ensureDir ["components"; n] w) comps)
        as [w' [added [H1 [H2 [H3 [H4 H5]]]]]].
      exists w', added. rewrite H1, H2.
      split; [reflexivity|]. split; [reflexivity|].
      split; [| split].
      * intros d Hd. apply H3. cbn [ensureDir made].
        apply in_or_app. now left.
      * intros f Hf. apply H4. exact Hf.
      * eapply Forall_impl; [| exact H5].
        intros c [n' [a' [Hn Hrest]]]. exists n', a'.
        split; [now right | exact Hrest].
Qed.

(** [buildComponentRegistry] on a source directory. *)
Lemma components_run (cfg : config) (dir : directory) (w : world) :
  exists w' comps,
    buildComponentRegistry cfg (Some dir) w = (w', Ok comps)
    /\ Builder.buildComponentRegistry cfg dir = Ok comps
    /\ (forall d, In d (made w) -> In d (made w'))
    /\ (forall f, In f (Build.disk w) -> In f (Build.disk w'))
    /\ In ["components"] (made w')
    /\ In (["api"; "components.json"], pretty (componentsApi cfg comps))
          (Build.disk w')
    /\ Forall (fun c =>
                 exists n a,
                   In n (stems dir)
                   /\ c = Synthesizer.createComponentMetadata cfg n a
                   /\ In ["components"; n] (made w')
                   /\ (exists text,
                         In (["components"; n; "component.tsx.template"],
                             text) (Build.disk w'))
                   /\ In (["components"; n; "component.json"],
                          pretty (componentJson c)) (Build.disk w'))
              comps.
Proof.
  unfold buildComponentRegistry, Builder.buildComponentRegistry.
  fold (stems dir).
  destruct (component_loop cfg dir (stems dir)
              (ensureDir ["components"] (emit LogBuildingComponents w)) [])
    as [w1 [added [H1 [H2 [H3 [H4 H5]]]]]].
  cbn [app] in H1, H2. rewrite H1, H2.
  eexists. exists added. split; [reflexivity|]. split; [reflexivity|].
  cbn [emit writeFileSync made Build.disk].
  split; [| split; [| split; [| split]]].
  - intros d Hd. apply H3. cbn [emit ensureDir made].
    apply in_or_app. now left.
  - intros f Hf. apply in_or_app. left. apply H4. exact Hf.
  - apply H3. cbn [emit ensureDir made]. apply in_or_app. right. now left.
  - apply in_or_app. right. now left.
  - eapply Forall_impl; [| exact H5].
    intros c [n [a [Hn [Hc [Hd [[text Ht] Hj]]]]]]. exists n, a.
    split; [exact Hn|]. split; [exact Hc|]. split; [exact Hd|].
    split; [exists text|]; apply in_or_app; now left.
Qed.

End BuildFacts.

Module BuiltComponents.
Import JsString Json Builder Build Registry BuildSpec RegistrySpec.
Local Open Scope string_scope.

Lemma lookupOr_text (table : list (string * string)) (key fallback : string) :
  key <> "constructor" ->
  Synthesizer.lookupOr table key fallback <> Synthesizer.ObjectFunction.
Proof.
  intros Hk. unfold Synthesizer.lookupOr.
  destruct (Synthesizer.ownEntry table key) as [e |] eqn:E.
  - clear Hk. induction table as [| [k v] table IH]; [discriminate E|].
    simpl in E. destruct (String.eqb key k).
    + injection E as <-. discriminate.
    + now apply IH.
  - unfold Synthesizer.inherited.
    destruct (String.eqb key "constructor") eqn:Ec.
    + apply String.eqb_eq in Ec. now destruct Hk.
    + destruct (String.eqb key "__proto__"); discriminate.
Qed.

Lemma entryValue_defined (e : Synthesizer.entry) :
  e <> Synthesizer.ObjectFunction -> exists v, entryValue e = Some v.
Proof. destruct e; intros H; [eexists; reflexivity | now destruct H | eexists; reflexivity]. Qed.

Lemma printable_strings (l : list string) :
  forallb printable (map JStr l) = true.
Proof. induction l as [| s l IH]; [reflexivity | exact IH]. Qed.

(** The JSON of every record can be listed. *)
Lemma record_listable (c : Synthesizer.component) :
  listable (componentJson c) = true.
Proof.
  unfold listable, componentJson.
  destruct (entryValue (Synthesizer.description c)),
    (entryValue (Synthesizer.category c));
    cbn [object assoc String.eqb Ascii.eqb Bool.eqb strings];
    now rewrite printable_strings.
Qed.

(** The JSON of the record of a plain name is intact in a tree where
    its directory and its two files exist. *)
Lemma component_record_intact (existsSync : list string -> bool) (cfg : config)
      (n : string) (a : Analyzer.analysis) :
  plainName n ->
  existsSync ["components"; n] = true ->
  existsSync ["components"; n; "component.tsx.template"] = true ->
  existsSync ["components"; n; "component.json"] = true ->
  ValidatorSpec.intact existsSync
    (componentJson (Synthesizer.createComponentMetadata cfg n a)) = true.
Proof.
  intros [Hl Hc] H1 H2 H3.
  unfold ValidatorSpec.intact, ValidatorSpec.templateOf, componentJson.
  cbn [Synthesizer.createComponentMetadata Synthesizer.name
       Synthesizer.description Synthesizer.category].
  rewrite Hl.
  destruct (entryValue_defined (@lookupOr_text Synthesizer.baseDescriptions n
              (Synthesizer.capitalize n ++ " component") Hc)) as [d ->].
  destruct (entryValue_defined (@lookupOr_text Synthesizer.baseCategories n
              "forms" Hc)) as [g ->].
  cbn [object assoc String.eqb Ascii.eqb Bool.eqb].
  rewrite H1, H2, H3. reflexivity.
Qed.

(** The two validators on the document of a build. *)
Lemma validators (cfg : config) (comps : list Synthesizer.component)
      (fs : files) :
  existsSync fs ["api"; "components.json"] = true ->
  readsComponents fs cfg comps ->
  Forall (fun c => ValidatorSpec.intact (existsSync fs) (componentJson c) = true)
         comps ->
  fst (Validator.validateComponents (existsSync fs) (componentsFile fs)) = true
  /\ fst (DependencyValidator.validateDependencies fs) = true.
Proof.
  intros Hex Hread Hall.
  assert (Hrec : recordsAt fs "components" ["api"; "components.json"]
                 = Some (map componentJson comps)).
  { unfold recordsAt, recordsOf. rewrite Hex, Hread. reflexivity. }
  split.
  - apply MainFacts.components_at. exists (map componentJson comps).
    split; [exact Hrec|]. apply forallb_forall. intros j Hj.
    apply in_map_iff in Hj. destruct Hj as [c [<- Hc]].
    rewrite Forall_forall in Hall. now apply Hall.
  - apply MainFacts.dependencies_at. exists (map componentJson comps).
    split; [exact Hrec|]. apply forallb_forall. intros j Hj.
    apply in_map_iff in Hj. destruct Hj as [c [<- Hc]].
    apply record_listable.
Qed.

End BuiltComponents.

(** X17: after a component build over source files with plain names (in
    lower case, and not the name [constructor]), a tree that holds what the
    build made and wrote passes [validateComponents] without a defect
    and passes [validateDependencies]. *)
Theorem built_components_validate :
  forall (cfg : config) (dir : Builder.directory) (w : Build.world)
         (fs : Registry.files),
    let run := Build.buildComponentRegistry cfg (Some dir) w in
    (forall n, In n (BuildSpec.stems dir) -> BuildSpec.plainName n) ->
    BuildSpec.holds fs (fst run) ->
    (forall comps, snd run = Ok comps ->
                   BuildSpec.readsComponents fs cfg comps) ->
    let validation :=
      Validator.validateComponents (Registry.existsSync fs)
                                   (Registry.componentsFile fs) in
    fst validation = true
    /\ Validator.defects validation = []
    /\ fst (DependencyValidator.validateDependencies fs) = true.
Proof.
  intros cfg dir w fs run Hplain [Hmade Hfiles] Hread validation.
  subst run validation.
  destruct (BuildFacts.components_run cfg dir w)
    as [w' [comps [Hrun [_ [_ [_ [_ [Hapi Hall]]]]]]]].
  rewrite Hrun in *. cbn [fst snd] in *.
  destruct (@BuiltComponents.validators cfg comps fs) as [Hv Hd].
  - now apply (Hfiles _ _ Hapi).
  - now apply Hread.
  - eapply Forall_impl; [| exact Hall].
    intros c [n [a [Hn [-> [Hdir [[text Ht] Hj]]]]]].
    apply BuiltComponents.component_record_intact.
    + now apply Hplain.
    + now apply Hmade.
    + now apply (Hfiles _ _ Ht).
    + now apply (Hfiles _ _ Hj).
  - split; [exact Hv|]. split; [| exact Hd].
    now apply (proj2 (ComponentsFacts.components_verdict_iff _ _)).
Qed.

(** The build of one component and the validation of its tree. *)
Lemma built_components_validate_witness :
  let run :=
    Build.buildComponentRegistry sampleConfig (Some BuildSpec.cardDir)
                                 BuildSpec.start in
  let fs :=
    BuildSpec.exactTree (fst run)
      (Build.componentsApi sampleConfig
         (match snd run with Ok comps => comps | Throw _ => [] end)) in
  let validation :=
    Validator.validateComponents (Registry.existsSync fs)
                                 (Registry.componentsFile fs) in
  fst validation = true
  /\ Validator.defects validation = []
  /\ fst (DependencyValidator.validateDependencies fs) = true.
Proof.
  intros run fs.
  apply (@built_components_validate sampleConfig BuildSpec.cardDir
           BuildSpec.start fs).
  - intros n [<- | []]. split; [reflexivity | discriminate].
  - split.
    + intros d H. vm_compute in H.
      repeat (destruct H as [<- | H]; [vm_compute; reflexivity|]).
      destruct H.
    + intros path text H. vm_compute in H.
      repeat (destruct H as [H | H];
              [injection H as <- <-; vm_compute; reflexivity|]).
      destruct H.
  - intros comps H. vm_compute in H. injection H as <-.
    vm_compute. reflexivity.
Defined.

Module BuildShape.
Import JsString Json Builder Build Registry BuildSpec RegistrySpec.
Local Open Scope string_scope.

(** What the loop over the components makes and where it writes. *)
Lemma component_loop_shape (cfg : config) (dir : directory)
      (names : list string) :
  forall w comps w' r,
    forEach (componentStep cfg dir) names (w, comps) = (w', r) ->
    made w' = (made w ++ map (fun n => ["components"; n]) names)%list
    /\ (forall f, In f (Build.disk w') ->
                  In f (Build.disk w) \/ List.length (fst f) = 3)
    /\ (forall n, In n names -> lookupFile dir (n ++ ".tsx") <> None ->
                  exists rs a,
                    r = Ok rs
                    /\ In (Synthesizer.createComponentMetadata cfg n a) rs).
Proof.
  induction names as [| n names IH]; intros w comps w' r H;
    cbn [forEach] in H.
  - injection H as <- <-. cbn [map]. rewrite app_nil_r.
    split; [reflexivity|]. split; [now left | intros n []].
  - unfold componentStep at 1 in H.
    destruct (lookupFile dir (n ++ ".tsx")) as [content |] eqn:E.
    + destruct (BuilderFacts.analyzeComponentFile_returns dir (n ++ ".tsx") n E)
        as [a [Ha _]].
      rewrite Ha in H. pose proof H as H0.
      apply IH in H. destruct H as [H1 [H2 H3]].
      cbn [emit writeFileSync ensureDir made Build.disk] in H1, H2.
      split; [| split].
      * rewrite H1, <- app_assoc. reflexivity.
      * intros f Hf. apply H2 in Hf. destruct Hf as [Hf | Hf]; [| now right].
        repeat (apply in_app_or in Hf; destruct Hf as [Hf | Hf]);
          [now left | | ]; destruct Hf as [<- | []]; right; reflexivity.
      * assert (Hgrow : forall rs0 w0 w1 r1 x,
                   forEach (componentStep cfg dir) names (w0, rs0) = (w1, r1) ->
                   In x rs0 -> exists rs, r1 = Ok rs /\ In x rs).
        { clear. induction names as [| m names IHn]; intros rs0 w0 w1 r1 x H Hx;
            cbn [forEach] in H.
          - injection H as <- <-. now exists rs0.
          - unfold componentStep at 1 in H.
            destruct (lookupFile dir (m ++ ".tsx")) as [content |] eqn:E.
            + destruct (BuilderFacts.analyzeComponentFile_returns
                          dir (m ++ ".tsx") m E) as [a [Ha _]].
              rewrite Ha in H. apply (IHn _ _ _ _ x) in H; [exact H|].
              apply in_or_app. now left.
            + now apply (IHn _ _ _ _ x) in H. }
        intros m [<- | Hm] Hl.
        -- destruct (Hgrow _ _ _ _
                       (Synthesizer.createComponentMetadata cfg n a) H0)
             as [rs [Hr Hin]]; [apply in_or_app; right; now left|].
           now exists rs, a.
        -- now apply H3.
    + apply IH in H. destruct H as [H1 [H2 H3]].
      cbn [ensureDir made Build.disk] in H1, H2.
      split; [| split].
      * rewrite H1, <- app_assoc. reflexivity.
      * exact H2.
      * intros m [<- | Hm] Hl; [now destruct Hl | now apply H3].
Qed.

End BuildShape.

Module CaseFacts.
Import JsString Json Builder Build Registry BuildSpec RegistrySpec.
Local Open Scope string_scope.

Lemma pathEqb_eq (p q : list string) :
  ValidatorSpec.pathEqb p q = true <-> p = q.
Proof.
  unfold ValidatorSpec.pathEqb.
  destruct (list_eq_dec string_dec p q); split; try tauto; discriminate.
Qed.

Lemma intact_directory (existsSync : list string -> bool)
      (c : Synthesizer.component) :
  ValidatorSpec.intact existsSync (componentJson c) = true ->
  existsSync ["components"; Synthesizer.name c] = true.
Proof.
  unfold ValidatorSpec.intact, componentJson.
  cbn [object assoc String.eqb Ascii.eqb Bool.eqb].
  intros H. repeat (apply andb_true_iff in H; destruct H as [H ?]).
  assumption.
Qed.

(** The directories and the paths of a component build from the start. *)
Lemma build_shape (cfg : config) (dir : directory) :
  exists w' comps,
    buildComponentRegistry cfg (Some dir) start = (w', Ok comps)
    /\ made w'
       = (["components"] :: map (fun n => ["components"; n]) (stems dir))
    /\ (forall f, In f (Build.disk w') ->
                  List.length (fst f) = 3
                  \/ fst f = ["api"; "components.json"])
    /\ In (["api"; "components.json"], pretty (componentsApi cfg comps))
          (Build.disk w')
    /\ (forall n, In n (stems dir) -> lookupFile dir (n ++ ".tsx") <> None ->
                  exists a,
                    In (Synthesizer.createComponentMetadata cfg n a) comps).
Proof.
  destruct (BuildFacts.components_run cfg dir start)
    as [w' [comps [Hrun [_ [_ [_ [_ [Hapi _]]]]]]]].
  exists w', comps. split; [exact Hrun|].
  unfold buildComponentRegistry in Hrun. fold (stems dir) in Hrun.
  destruct (forEach (componentStep cfg dir) (stems dir)
              (ensureDir ["components"] (emit LogBuildingComponents start), []))
    as [w1 r1] eqn:El.
  destruct (BuildShape.component_loop_shape _ _ _ _ _ El) as [H1 [H2 H3]].
  destruct r1 as [rs | e]; [| discriminate Hrun].
  injection Hrun as <- <-.
  cbn [emit writeFileSync made Build.disk]. split; [| split; [| split]].
  - rewrite H1. reflexivity.
  - intros f Hf. apply in_app_or in Hf. destruct Hf as [Hf | [<- | []]].
    + apply H2 in Hf. destruct Hf as [[] | Hf]. now left.
    + now right.
  - apply in_or_app. right. now left.
  - intros n Hn Hl. destruct (H3 n Hn Hl) as [rs' [a [Hr Hin]]].
    injection Hr as <-. now exists a.
Qed.

End CaseFacts.

(** X18: on a file system that tells names apart by their case, a
    component whose source file name is not in lower case fails the
    validation right after the build: the build makes the directory
    under the name of the file, the validation looks for it under the
    lower-case name of the record. *)
Theorem capital_name_fails_validation :
  forall (cfg : config) (dir : Builder.directory) (n : string),
    In n (BuildSpec.stems dir) ->
    Builder.lookupFile dir (n ++ ".tsx") <> None ->
    ~ In (JsString.toLowerCase n) (BuildSpec.stems dir) ->
    exists w comps,
      Build.buildComponentRegistry cfg (Some dir) BuildSpec.start
      = (w, Ok comps)
      /\ let fs := BuildSpec.exactTree w (Build.componentsApi cfg comps) in
         let validation :=
           Validator.validateComponents (Registry.existsSync fs)
                                        (Registry.componentsFile fs) in
         fst validation = false /\ Validator.defects validation <> [].
Proof.
  intros cfg dir n Hn Hl Hlow.
  destruct (CaseFacts.build_shape cfg dir)
    as [w [comps [Hrun [Hmade [Hdisk [Hapi Hrec]]]]]].
  exists w, comps. split; [exact Hrun|]. cbv zeta.
  destruct (Hrec n Hn Hl) as [a Ha].
  set (fs := BuildSpec.exactTree w (Build.componentsApi cfg comps)).
  assert (Hmiss : Registry.existsSync fs ["components"; JsString.toLowerCase n]
                  = false).
  { subst fs. cbn [BuildSpec.exactTree Registry.existsSync].
    apply orb_false_iff. split.
    - destruct (existsb _ (Build.made w)) eqn:E; [| reflexivity].
      apply existsb_exists in E. destruct E as [d [Hd He]].
      apply CaseFacts.pathEqb_eq in He. subst d. rewrite Hmade in Hd.
      destruct Hd as [Hd | Hd]; [discriminate Hd|].
      apply in_map_iff in Hd. destruct Hd as [m [Hm Hin]].
      injection Hm as ->. now destruct Hlow.
    - destruct (existsb _ (Build.disk w)) eqn:E; [| reflexivity].
      apply existsb_exists in E. destruct E as [f [Hf He]].
      apply CaseFacts.pathEqb_eq in He.
      destruct (Hdisk f Hf) as [H3 | H3]; rewrite <- He in H3;
        discriminate H3. }
  assert (Hv : fst (Validator.validateComponents (Registry.existsSync fs)
                      (Registry.componentsFile fs)) = false).
  { destruct (fst (Validator.validateComponents _ _)) eqn:E; [| reflexivity].
    apply MainFacts.components_at in E. destruct E as [items [Hr Hi]].
    unfold RegistrySpec.recordsAt, RegistrySpec.recordsOf in Hr.
    destruct (Registry.existsSync fs ["api"; "components.json"]);
      [| discriminate Hr].
    change (Registry.readJson fs ["api"; "components.json"])
      with (Ok (A:=Json.json) (Build.componentsApi cfg comps)) in Hr.
    injection Hr as <-.
    rewrite forallb_forall in Hi.
    specialize (Hi _ (in_map Build.componentJson _ _ Ha)).
    apply CaseFacts.intact_directory in Hi.
    cbn [Synthesizer.createComponentMetadata Synthesizer.name] in Hi.
    congruence. }
  split; [exact Hv|].
  intros Hd. apply (proj2 (ComponentsFacts.components_verdict_iff _ _)) in Hd. congruence.
Qed.

(** The build of [Card.tsx] and the validation of its tree. *)
Lemma capital_name_fails_validation_witness :
  exists w comps,
    Build.buildComponentRegistry sampleConfig (Some BuildSpec.capitalDir)
                                 BuildSpec.start
    = (w, Ok comps)
    /\ let fs := BuildSpec.exactTree w (Build.componentsApi sampleConfig comps) in
       let validation :=
         Validator.validateComponents (Registry.existsSync fs)
                                      (Registry.componentsFile fs) in
       fst validation = false /\ Validator.defects validation <> [].
Proof.
  apply (@capital_name_fails_validation sampleConfig BuildSpec.capitalDir
           "Card").
  - now left.
  - discriminate.
  - intros [H | []]. discriminate H.
Defined.

(** ** The complete build *)

Module PipelineFacts.
Import JsString Json Builder Build Registry BuildSpec RegistrySpec PipelineSpec.
Local Open Scope string_scope.

Lemma provider_loop (cfg : config) (dir : directory) (names : list string) :
  forall w provs,
    exists w' added,
      forEach (providerStep cfg dir) names (w, provs)
      = (w', Ok (provs ++ added)%list)
      /\ forEachM (Builder.providerStep cfg dir) names provs
         = Ok (provs ++ added)%list
      /\ made w' = made w
      /\ (forall f, In f (Build.disk w) -> In f (Build.disk w')).
Proof.
  induction names as [| n names IH]; intros w provs; cbn [forEach forEachM].
  - exists w, []. rewrite app_nil_r. repeat split; auto.
  - unfold providerStep at 1. unfold Builder.providerStep at 1.
    destruct (lookupFile dir n) as [content |] eqn:E.
    + destruct (BuilderFacts.analyzeComponentFile_returns dir n
                  (replaceFirst n ".tsx" "") E) as [a [Ha _]].
      rewrite Ha. cbn [bind].
      match goal with
      | |- context [forEach _ names (?w1, ?c1)] =>
          destruct (IH w1 c1) as [w' [added [H1 [H2 [H3 H4]]]]]
      end.
      eexists w', (_ :: added).
      rewrite H1, H2, <- !app_assoc. cbn [app].
      split; [reflexivity|]. split; [reflexivity|]. split; [exact H3|].
      intros f Hf. apply H4. cbn [emit writeFileSync Build.disk].
      apply in_or_app. left. apply in_or_app. now left.
    + cbn [bind]. destruct (IH w provs) as [w' [added [H1 [H2 [H3 H4]]]]].
      exists w', added. now rewrite H1, H2.
Qed.

(** [buildProviderRegistry] on a source directory. *)
Lemma providers_run (cfg : config) (dir : directory) (w : world) :
  exists w' provs,
    buildProviderRegistry cfg (Some dir) w = (w', Ok provs)
    /\ Builder.buildProviderRegistry cfg dir = Ok provs
    /\ made w' = (made w ++ [["providers"]])%list
    /\ (forall f, In f (Build.disk w) -> In f (Build.disk w'))
    /\ In (["api"; "providers.json"], pretty (providersApi cfg provs))
          (Build.disk w').
Proof.
  unfold buildProviderRegistry, Builder.buildProviderRegistry.
  destruct (provider_loop cfg dir (filter (isSource ".tsx") (readdirSync dir))
              (ensureDir ["providers"] (emit LogBuildingProviders w)) [])
    as [w1 [added [H1 [H2 [H3 H4]]]]].
  cbn [app] in H1, H2. rewrite H1, H2.
  eexists. exists added. split; [reflexivity|]. split; [reflexivity|].
  cbn [emit writeFileSync made Build.disk]. split; [| split].
  - rewrite H3. reflexivity.
  - intros f Hf. apply in_or_app. left. now apply H4.
  - apply in_or_app. right. now left.
Qed.

Lemma token_loop (cfg : config) (dir : directory) (names : list string) :
  forall w toks,
    exists w',
      fold_left (tokenStep cfg dir) names (w, toks)
      = (w', fold_left (Builder.tokenStep cfg dir) names toks)
      /\ made w' = made w
      /\ (forall f, In f (Build.disk w) -> In f (Build.disk w')).
Proof.
  induction names as [| n names IH]; intros w toks; cbn [fold_left].
  - exists w. repeat split; auto.
  - unfold tokenStep at 2. unfold Builder.tokenStep at 2.
    destruct (lookupFile dir n) as [content |].
    + match goal with
      | |- context [fold_left (tokenStep cfg dir) names (?w1, ?c1)] =>
          destruct (IH w1 c1) as [w' [H1 [H2 H3]]]
      end.
      exists w'. rewrite H1. split; [reflexivity|]. split; [exact H2|].
      intros f Hf. apply H3. cbn [emit writeFileSync Build.disk].
      apply in_or_app. now left.
    + apply IH.
Qed.

(** [buildTokenRegistry] on a source directory. *)
Lemma tokens_run (cfg : config) (dir : directory) (w : world) :
  exists w',
    buildTokenRegistry cfg (Some dir) w
    = (w', Ok (Builder.buildTokenRegistry cfg dir))
    /\ made w' = (made w ++ [["tokens"]])%list
    /\ (forall f, In f (Build.disk w) -> In f (Build.disk w'))
    /\ In (["api"; "tokens.json"],
           pretty (tokensApi cfg (Builder.buildTokenRegistry cfg dir)))
          (Build.disk w').
Proof.
  unfold buildTokenRegistry, Builder.buildTokenRegistry.
  destruct (token_loop cfg dir (filter (isSource ".ts") (readdirSync dir))
              (ensureDir ["tokens"] (emit LogBuildingTokens w)) [])
    as [w1 [H1 [H2 H3]]].
  rewrite H1. eexists. split; [reflexivity|].
  cbn [emit writeFileSync made Build.disk]. split; [| split].
  - rewrite H2. reflexivity.
  - intros f Hf. apply in_or_app. left. now apply H3.
  - apply in_or_app. right. now left.
Qed.

(** [buildTemplateRegistry] in the world of the build. *)
Lemma templates_run (cfg : config)
      (tdirs : option (list (string * result json))) (w : world) :
  let trun := Templates.buildTemplateRegistry cfg tdirs TemplateSpec.empty in
  exists w',
    buildTemplateRegistry cfg tdirs w
    = (w', match snd trun with
           | Ok (ts, _) => Ok ts
           | Throw e => Throw e
           end)
    /\ (forall d, In d (made w) -> In d (made w'))
    /\ (tdirs = None -> In ["templates"] (made w'))
    /\ Build.disk w' = (Build.disk w ++ Templates.disk (fst trun))%list.
Proof.
  cbv zeta. unfold buildTemplateRegistry.
  change {| Templates.console := []; Templates.disk := [] |}
    with TemplateSpec.empty.
  destruct (Templates.buildTemplateRegistry cfg tdirs TemplateSpec.empty)
    as [tw [[ts a] | e]]; cbn [fst snd];
    (eexists; split; [reflexivity|]; cbn [made Build.disk];
     split; [| split; [| reflexivity]];
     [ intros d Hd; destruct tdirs; [exact Hd | apply in_or_app; now left]
     | intros ->; apply in_or_app; right; now left ]).
Qed.

(** The complete build on sources whose three directories exist. *)
Lemma main_run (cfg : config) (cdir pdir kdir : directory)
      (tdirs : option (list (string * result json))) :
  let src := {| componentsDir := Some cdir; templateDirs := tdirs;
                providersDir := Some pdir; constantsDir := Some kdir |} in
  exists comps provs,
    Builder.buildComponentRegistry cfg cdir = Ok comps
    /\ Builder.buildProviderRegistry cfg pdir = Ok provs
    /\ match snd (templateRun cfg src) with
       | Ok (ts, _) =>
           exists w,
             main cfg src
             = (w, Ok (Index.buildRegistryIndex cfg comps ts provs
                         (Builder.buildTokenRegistry cfg kdir)))
             /\ In ["api"] (made w) /\ In ["components"] (made w)
             /\ In ["providers"] (made w) /\ In ["tokens"] (made w)
             /\ (tdirs = None -> In ["templates"] (made w))
             /\ (exists text, In (["api"; "index.json"], text) (Build.disk w))
             /\ In (["api"; "components.json"],
                    pretty (componentsApi cfg comps)) (Build.disk w)
             /\ (exists text,
                   In (["api"; "providers.json"], text) (Build.disk w))
             /\ (exists text, In (["api"; "tokens.json"], text) (Build.disk w))
             /\ (forall f, In f (Templates.disk (fst (templateRun cfg src))) ->
                           In f (Build.disk w))
             /\ Forall (placed cfg (stems cdir) w) comps
       | Throw e => exists w, main cfg src = (w, Throw e)
       end.
Proof.
  cbv zeta. unfold main, templateRun. cbn [componentsDir templateDirs
                                          providersDir constantsDir].
  set (w0 := ensureDir ["api"]
               {| console := [LogMain]; made := []; disk := [] |}).
  destruct (BuildFacts.components_run cfg cdir w0)
    as [w1 [comps [R1 [B1 [M1 [D1 [C1 [A1 P1]]]]]]]].
  rewrite R1. exists comps.
  destruct (templates_run cfg tdirs (emit LogBlank w1))
    as [w2 [R2 [M2 [T2 D2]]]]. cbv zeta in R2, D2. rewrite R2.
  destruct (providers_run cfg pdir (emit LogBlank w2))
    as [w3 [provs [R3 [B3 [M3 [D3 A3]]]]]].
  exists provs. split; [exact B1|]. split; [exact B3|].
  destruct (snd (Templates.buildTemplateRegistry cfg tdirs TemplateSpec.empty))
    as [[ts a] | e]; [| now exists w2].
  rewrite R3.
  destruct (tokens_run cfg kdir (emit LogBlank w3)) as [w4 [R4 [M4 [D4 A4]]]].
  rewrite R4. unfold buildRegistryIndex.
  eexists. split; [reflexivity|].
  cbn [emit writeFileSync made Build.disk] in *.
  assert (G12 : forall f, In f (Build.disk w1) -> In f (Build.disk w2)).
  { intros f Hf. rewrite D2. apply in_or_app. now left. }
  assert (Hm3 : forall d, In d (made w2) -> In d (made w4)).
  { intros d Hd. rewrite M4, M3. apply in_or_app. left. apply in_or_app.
    now left. }
  assert (Hd4 : forall f, In f (Build.disk w2) ->
                          In f (Build.disk w4 ++ [(["api"; "index.json"],
                                  pretty (IndexDocument.indexJson
                                    (Index.buildRegistryIndex cfg comps ts provs
                                       (Builder.buildTokenRegistry cfg kdir))))])%list).
  { intros f Hf. apply in_or_app. left. apply D4, D3, Hf. }
  split; [apply Hm3, M2, M1; subst w0; cbn [ensureDir made app]; now left|].
  split; [apply Hm3, M2, C1|].
  split; [rewrite M4, M3; apply in_or_app; left; apply in_or_app; right;
          now left|].
  split; [rewrite M4; apply in_or_app; right; now left|].
  split; [intros Hn; apply Hm3, (T2 Hn)|].
  split; [eexists; apply in_or_app; right; now left|].
  split; [apply Hd4, G12, A1|].
  split; [eexists; apply in_or_app; left; apply D4, A3|].
  split; [eexists; apply in_or_app; left; exact A4|].
  split; [intros f Hf; apply Hd4; rewrite D2; apply in_or_app; now right|].
  eapply Forall_impl; [| exact P1].
  intros c [n [x [Hn [Hc [H1 [[text H2] H3]]]]]].
  exists n, x. split; [exact Hn|]. split; [exact Hc|].
  split; [apply Hm3, M2, H1|].
  split; [exists text; apply Hd4, G12, H2 | apply Hd4, G12, H3].
Qed.

(** A build that returns had its three source directories. *)
Lemma main_ok_sources (cfg : config) (src : sources) (idx : Index.index) :
  snd (main cfg src) = Ok idx ->
  exists cdir pdir kdir,
    src = {| componentsDir := Some cdir; templateDirs := templateDirs src;
             providersDir := Some pdir; constantsDir := Some kdir |}.
Proof.
  destruct src as [[cdir |] tdirs [pdir |] [kdir |]];
    cbn [templateDirs]; intros H.
  - now exists cdir, pdir, kdir.
  - exfalso. revert H. unfold main.
    cbn [componentsDir templateDirs providersDir constantsDir].
    destruct (buildComponentRegistry cfg (Some cdir) _) as [w1 [comps | e]];
      [| discriminate].
    destruct (buildTemplateRegistry cfg tdirs _) as [w2 [ts | e]];
      [| discriminate].
    destruct (buildProviderRegistry cfg (Some pdir) _) as [w3 [provs | e]];
      [| discriminate].
    discriminate.
  - exfalso. revert H. unfold main.
    cbn [componentsDir templateDirs providersDir constantsDir].
    destruct (buildComponentRegistry cfg (Some cdir) _) as [w1 [comps | e]];
      [| discriminate].
    destruct (buildTemplateRegistry cfg tdirs _) as [w2 [ts | e]];
      discriminate.
  - exfalso. revert H. unfold main.
    cbn [componentsDir templateDirs providersDir constantsDir].
    destruct (buildComponentRegistry cfg (Some cdir) _) as [w1 [comps | e]];
      [| discriminate].
    destruct (buildTemplateRegistry cfg tdirs _) as [w2 [ts | e]];
      discriminate.
  - discriminate H.
  - discriminate H.
  - discriminate H.
  - discriminate H.
Qed.

(** An intact tree makes the validation script exit with 0. *)
Lemma exit_zero (fs : files) (now : string) :
  registryIntact fs -> snd (ValidationMain.main fs now) = 0.
Proof.
  intros [Hd [Hf [[items [Hr [Hi Hl]]] Ht]]].
  apply (proj1 (MainFacts.exit_code fs now)).
  rewrite StructureFacts.structure_verdict_iff, MainFacts.components_at,
    (proj1 (TemplatesFacts.templates_verdict_iff fs)),
    MainFacts.dependencies_at.
  repeat split; try assumption; now exists items.
Qed.

End PipelineFacts.

(** X19: a complete build whose component files have plain names and
    whose templates carry the names of their directories, a display
    name, a description and a version leaves a registry that passes the
    validation script: on a tree that keeps the build, the script exits
    with 0. *)
Theorem build_then_validate :
  forall (cfg : config) (src : Build.sources) (fs : Registry.files)
         (now : string),
    (exists idx, snd (Build.main cfg src) = Ok idx) ->
    Build.templateDirs src <> None ->
    (forall cdir n,
        Build.componentsDir src = Some cdir ->
        In n (BuildSpec.stems cdir) -> BuildSpec.plainName n) ->
    (forall tdirs n parsed t,
        Build.templateDirs src = Some tdirs ->
        In (n, parsed) tdirs ->
        In t (snd (TemplateSpec.step cfg (n, parsed))) ->
        PublishedSpec.selfNamed n t) ->
    PipelineSpec.keeps fs cfg src ->
    snd (ValidationMain.main fs now) = 0.
Proof.
  intros cfg src fs now [idx Hok] Htd Hplain Hself Hkeeps.
  destruct (PipelineFacts.main_ok_sources _ _ Hok) as [cdir [pdir [kdir Hsrc]]].
  destruct src as [cd td pd kd]. cbn [Build.templateDirs] in Hsrc.
  injection Hsrc as -> -> ->.
  cbn [Build.templateDirs Build.componentsDir] in Htd, Hplain, Hself.
  destruct td as [tdirs |]; [| exfalso; now apply Htd]. clear Htd.
  specialize (Hplain cdir). specialize (Hself tdirs).
  destruct Hkeeps as [[Hmade Hdisk] [Hdirs [Hparse [Hcolors [Hcomp Htemp]]]]].
  cbn [Build.templateDirs Build.componentsDir] in Hdirs, Hcomp.
  specialize (Hdirs tdirs eq_refl). destruct Hdirs as [Htop Hnames].
  unfold PipelineSpec.templateRun in Htemp. cbn [Build.templateDirs] in Htemp.
  pose proof (PipelineFacts.main_run cfg cdir pdir kdir (Some tdirs)) as Hrun.
  cbv zeta in Hrun. unfold PipelineSpec.templateRun in Hrun.
  cbn [Build.templateDirs] in Hrun.
  destruct Hrun as [comps [provs [Bc [Bp Hrun]]]].
  specialize (Hcomp cdir comps eq_refl Bc).
  pose proof (TemplateRun.build_run cfg tdirs TemplateSpec.empty) as Hb.
  cbv zeta in Hb.
  destruct (existsb _ (TemplateRunSpec.loopRecords cfg tdirs)).
  { destruct Hb as [[e He] _]. rewrite He in Hrun. destruct Hrun as [w Hw].
    rewrite Hw in Hok. discriminate Hok. }
  destruct Hb as [a [Hs [Hts Hd]]]. rewrite Hs in Hrun, Htemp.
  specialize (Htemp _ a eq_refl).
  destruct Hrun as [w [Hw [M1 [M2 [M3 [M4 [_ [[ti Hi] [Hc [[tp Hp] [[tk Hk]
                   [Htd Hplaced]]]]]]]]]]]].
  rewrite Hw in Hmade, Hdisk, Hparse, Hcolors. cbn [fst] in *.
  assert (Hapi : In (["api"; "templates.json"],
                     Json.serialize "  " "" (Templates.apiJson a))
                    (Build.disk w)).
  { apply Htd. rewrite Hd. apply in_or_app. right. apply in_or_app. right.
    now left. }
  apply PipelineFacts.exit_zero. unfold RegistrySpec.registryIntact.
  split; [| split; [| split]].
  - intros dir Hdir. unfold RegistrySpec.dirMissing. apply negb_false_iff.
    cbn in Hdir.
    destruct Hdir as [<- | [<- | [<- | [<- | [<- | []]]]]];
      try (now apply Hmade). exact Htop.
  - intros file Hfile. unfold RegistrySpec.fileBad.
    assert (exists text, In (file, text) (Build.disk w)) as [text Hin].
    { cbn in Hfile.
      destruct Hfile as [<- | [<- | [<- | [<- | [<- | []]]]]];
        eauto. }
    rewrite (Hdisk _ _ Hin). destruct (Hparse file text Hfile Hin) as [doc ->].
    reflexivity.
  - exists (map Build.componentJson comps). split; [| split].
    + unfold RegistrySpec.recordsAt, RegistrySpec.recordsOf.
      rewrite (Hdisk _ _ Hc), Hcomp. reflexivity.
    + apply forallb_forall. intros j Hj. apply in_map_iff in Hj.
      destruct Hj as [c [<- Hin]]. rewrite Forall_forall in Hplaced.
      destruct (Hplaced c Hin) as [n [x [Hn [-> [Hdir [[text Ht] Hjs]]]]]].
      apply BuiltComponents.component_record_intact.
      * now apply (Hplain n).
      * now apply Hmade.
      * now apply (Hdisk _ _ Ht).
      * now apply (Hdisk _ _ Hjs).
    + apply forallb_forall. intros j Hj. apply in_map_iff in Hj.
      destruct Hj as [c [<- Hin]]. apply BuiltComponents.record_listable.
  - exists (map Templates.templateJson (TemplateRunSpec.loopRecords cfg tdirs)).
    split.
    + unfold RegistrySpec.recordsAt, RegistrySpec.recordsOf.
      rewrite (Hdisk _ _ Hapi), Htemp.
      unfold Templates.apiJson.
      cbn [Json.get Json.assoc String.eqb Ascii.eqb Bool.eqb Json.truthy].
      now rewrite Hts.
    + apply forallb_forall. intros j Hj. apply in_map_iff in Hj.
      destruct Hj as [t [<- Ht]].
      unfold TemplateRunSpec.loopRecords in Ht. apply in_flat_map in Ht.
      destruct Ht as [[n parsed] [Hdir Hstep]].
      destruct (PublishedFacts.step_files _ _ _ _ Hstep)
        as [[tc Hcol] [tm Hm]].
      assert (Hin : forall f,
                 In f (Templates.disk (fst (TemplateSpec.step cfg (n, parsed)))) ->
                 In f (Build.disk w)).
      { intros f Hf. apply Htd. rewrite Hd. apply in_or_app. right.
        apply in_or_app. left.
        unfold TemplateRunSpec.loopFiles. apply in_flat_map.
        now exists (n, parsed). }
      apply (@PublishedFacts.template_record_intact fs n t).
      * now apply (Hself n parsed).
      * apply Hnames. apply in_map_iff. now exists (n, parsed).
      * apply (Hdisk _ tc). now apply Hin.
      * apply (Hcolors n tc). now apply Hin.
      * apply (Hdisk _ tm). now apply Hin.
Qed.

(** [evaluated X] replaces the closed term [X] by its value. *)
Ltac evaluated X :=
  let v := eval vm_compute in X in
  let E := fresh "E" in
  assert (E : X = v) by (vm_compute; reflexivity);
  rewrite E in *; clear E.

(** The build of a small registry and the validation of its tree. *)
Lemma build_then_validate_witness :
  snd (ValidationMain.main PipelineSpec.smallTree "2024-05-01T10:00:00.000Z")
  = 0.
Proof.
  apply (@build_then_validate sampleConfig PipelineSpec.smallSources
           PipelineSpec.smallTree "2024-05-01T10:00:00.000Z").
  - eexists. vm_compute. reflexivity.
  - discriminate.
  - intros cdir n H Hn. injection H as <-. destruct Hn as [<- | []].
    split; [reflexivity | discriminate].
  - intros tdirs n parsed t H Hd Ht. injection H as <-.
    destruct Hd as [Hd | []]. injection Hd as <- <-.
    match type of Ht with In _ ?X => evaluated X end.
    destruct Ht as [<- | []].
    repeat split; discriminate.
  - split; [split | split; [| split; [| split; [| split]]]].
    + intros d H.
      evaluated (Build.made
                   (fst (Build.main sampleConfig PipelineSpec.smallSources))).
      repeat (destruct H as [<- | H]; [vm_compute; reflexivity|]).
      destruct H.
    + intros path text H.
      evaluated (Build.disk
                   (fst (Build.main sampleConfig PipelineSpec.smallSources))).
      repeat (destruct H as [H | H];
              [injection H as <- <-; vm_compute; reflexivity|]).
      destruct H.
    + intros tdirs H. injection H as <-. split; [vm_compute; reflexivity|].
      intros n [<- | []]. vm_compute. reflexivity.
    + intros file text Hf _.
      repeat (destruct Hf as [<- | Hf];
              [eexists; vm_compute; reflexivity|]).
      destruct Hf.
    + intros n text H.
      evaluated (Build.disk
                   (fst (Build.main sampleConfig PipelineSpec.smallSources))).
      repeat (destruct H as [H | H];
              [first [discriminate H
                     | injection H as <- <-; eexists; vm_compute; reflexivity]|]).
      destruct H.
    + intros cdir comps H Hc. injection H as <-.
      evaluated (Builder.buildComponentRegistry sampleConfig BuildSpec.cardDir).
      injection Hc as <-. vm_compute. reflexivity.
    + intros ts a H.
      evaluated (snd (PipelineSpec.templateRun sampleConfig
                        PipelineSpec.smallSources)).
      injection H as <- <-. vm_compute. reflexivity.
Defined.

(** ** What makes the build fail, and what a build without templates
    leaves out *)

Module OutcomeFacts.
Import JsString Json Builder Build Registry BuildSpec RegistrySpec PipelineSpec.
Import OutcomeSpec.
Local Open Scope string_scope.

Lemma provider_loop_paths (cfg : config) (dir : directory)
      (names : list string) :
  forall w provs w' r,
    forEach (providerStep cfg dir) names (w, provs) = (w', r) ->
    forall f, In f (Build.disk w') ->
              In f (Build.disk w) \/ exists x, fst f = ["providers"; x].
Proof.
  induction names as [| n names IH]; intros w provs w' r H f Hf;
    cbn [forEach] in H.
  - injection H as <- <-. now left.
  - unfold providerStep at 1 in H.
    destruct (lookupFile dir n) as [content |].
    + destruct (Analyzer.analyzeComponentFile (lookupFile dir) n
                  (replaceFirst n ".tsx" "")) as [a | e].
      * apply (IH _ _ _ _ H) in Hf. destruct Hf as [Hf | Hf]; [| now right].
        cbn [emit writeFileSync Build.disk] in Hf.
        repeat (apply in_app_or in Hf; destruct Hf as [Hf | Hf]);
          [now left | |]; destruct Hf as [<- | []]; right; eexists;
          reflexivity.
      * injection H as <- <-. cbn [writeFileSync Build.disk] in Hf.
        apply in_app_or in Hf. destruct Hf as [Hf | [<- | []]]; [now left|].
        right. eexists. reflexivity.
    + now apply (IH _ _ _ _ H).
Qed.

Lemma token_loop_paths (cfg : config) (dir : directory) (names : list string) :
  forall w toks f,
    In f (Build.disk (fst (fold_left (tokenStep cfg dir) names (w, toks)))) ->
    In f (Build.disk w) \/ exists x, fst f = ["tokens"; x].
Proof.
  induction names as [| n names IH]; intros w toks f Hf; cbn [fold_left] in Hf.
  - now left.
  - unfold tokenStep at 2 in Hf.
    destruct (lookupFile dir n) as [content |].
    + apply IH in Hf. destruct Hf as [Hf | Hf]; [| now right].
      cbn [emit writeFileSync Build.disk] in Hf.
      apply in_app_or in Hf. destruct Hf as [Hf | [<- | []]]; [now left|].
      right. eexists. reflexivity.
    + now apply IH in Hf.
Qed.

Lemma components_unpublished (cfg : config) (dir : option directory)
      (w : world) :
  unpublished w -> unpublished (fst (buildComponentRegistry cfg dir w)).
Proof.
  intros Hw. unfold buildComponentRegistry.
  destruct dir as [dir |]; [| exact Hw].
  destruct (forEach (componentStep cfg dir) _ _) as [w1 r1] eqn:El.
  destruct (BuildShape.component_loop_shape _ _ _ _ _ El) as [_ [H2 _]].
  assert (H1 : unpublished w1).
  { intros f Hf. destruct (H2 f Hf) as [Hin | Hlen].
    - now apply Hw.
    - intros E. rewrite E in Hlen. discriminate Hlen. }
  destruct r1 as [rs | e]; cbn [fst]; [| exact H1].
  intros f Hf. cbn [emit writeFileSync Build.disk] in Hf.
  apply in_app_or in Hf. destruct Hf as [Hf | [<- | []]];
    [now apply H1 | discriminate].
Qed.

Lemma providers_unpublished (cfg : config) (dir : option directory)
      (w : world) :
  unpublished w -> unpublished (fst (buildProviderRegistry cfg dir w)).
Proof.
  intros Hw. unfold buildProviderRegistry.
  destruct dir as [dir |]; [| exact Hw].
  destruct (forEach (providerStep cfg dir) _ _) as [w1 r1] eqn:El.
  assert (H1 : unpublished w1).
  { intros f Hf. destruct (provider_loop_paths _ _ _ _ _ El f Hf) as [Hin | [x Hx]].
    - now apply Hw.
    - rewrite Hx. discriminate. }
  destruct r1 as [rs | e]; cbn [fst]; [| exact H1].
  intros f Hf. cbn [emit writeFileSync Build.disk] in Hf.
  apply in_app_or in Hf. destruct Hf as [Hf | [<- | []]];
    [now apply H1 | discriminate].
Qed.

Lemma tokens_unpublished (cfg : config) (dir : option directory) (w : world) :
  unpublished w -> unpublished (fst (buildTokenRegistry cfg dir w)).
Proof.
  intros Hw. unfold buildTokenRegistry.
  destruct dir as [dir |]; [| exact Hw].
  pose proof (token_loop_paths cfg dir (filter (isSource ".ts") (readdirSync dir))
                (ensureDir ["tokens"] (emit LogBuildingTokens w)) []) as Hl.
  destruct (fold_left (tokenStep cfg dir) _ _) as [w1 toks].
  cbn [fst] in *. intros f Hf. cbn [emit writeFileSync Build.disk] in Hf.
  apply in_app_or in Hf. destruct Hf as [Hf | [<- | []]]; [| discriminate].
  destruct (Hl f Hf) as [Hin | [x Hx]]; [now apply Hw|].
  rewrite Hx. discriminate.
Qed.

(** Without a templates directory the build never writes the templates
    document. *)
Lemma main_unpublished (cfg : config) (src : sources) :
  templateDirs src = None -> unpublished (fst (main cfg src)).
Proof.
  intros Hn. unfold main. rewrite Hn.
  set (w0 := ensureDir ["api"] _).
  assert (H0 : unpublished w0) by (intros f []).
  pose proof (components_unpublished cfg (componentsDir src) H0) as H1.
  destruct (buildComponentRegistry cfg (componentsDir src) w0)
    as [w1 [comps | e]]; cbn [fst] in *; [| exact H1].
  cbn [buildTemplateRegistry Templates.buildTemplateRegistry].
  match goal with
  | |- context [buildProviderRegistry cfg (providersDir src) ?w] =>
      assert (H2 : unpublished w);
      [| pose proof (providers_unpublished cfg (providersDir src) H2) as H3;
         destruct (buildProviderRegistry cfg (providersDir src) w)
           as [w3 [provs | e]]; cbn [fst] in *; [| exact H3] ]
  end.
  { intros f Hf. cbn [emit Build.disk Templates.disk Templates.emit] in Hf.
    rewrite app_nil_r in Hf. now apply H1. }
  pose proof (@tokens_unpublished cfg (constantsDir src) (emit LogBlank w3) H3)
    as H4.
  destruct (buildTokenRegistry cfg (constantsDir src) (emit LogBlank w3))
    as [w4 [toks | e]]; cbn [fst] in *; [| exact H4].
  intros f Hf.
  cbn [buildRegistryIndex emit writeFileSync Build.disk] in Hf.
  apply in_app_or in Hf. destruct Hf as [Hf | [<- | []]];
    [now apply H4 | discriminate].
Qed.

End OutcomeFacts.

(** ** When the build returns *)

Module IndexFacts.
Import JsString Json Builder Build Registry BuildSpec RegistrySpec PipelineSpec.
Import OutcomeSpec IndexSpec.
Local Open Scope string_scope.









End IndexFacts.



(** X21: a build without a templates directory creates the directory and
    goes on: with its three source directories it returns an index that
    counts no template, but it never writes [api/templates.json]; on a
    tree that has that document only if this build wrote it, the
    validation that follows exits with 1. *)
Theorem missing_templates_directory_fails_validation :
  forall (cfg : config) (src : Build.sources) (fs : Registry.files)
         (now : string),
    Build.templateDirs src = None ->
    (Registry.existsSync fs ["api"; "templates.json"] = true ->
     exists text,
       In (["api"; "templates.json"], text)
          (Build.disk (fst (Build.main cfg src)))) ->
    (Build.componentsDir src <> None ->
     Build.providersDir src <> None ->
     Build.constantsDir src <> None ->
     exists idx,
       snd (Build.main cfg src) = Ok idx
       /\ Index.templates (Index.i_stats idx) = 0
       /\ In ["templates"] (Build.made (fst (Build.main cfg src))))
    /\ (forall text,
           ~ In (["api"; "templates.json"], text)
                (Build.disk (fst (Build.main cfg src))))
    /\ snd (ValidationMain.main fs now) = 1.
Proof.
  intros cfg src fs now Hn Hfresh.
  assert (Hnever : forall text,
             ~ In (["api"; "templates.json"], text)
                  (Build.disk (fst (Build.main cfg src)))).
  { intros text Hin.
    now apply (OutcomeFacts.main_unpublished cfg src Hn _ Hin). }
  split; [| split; [exact Hnever|]].
  - intros Hc Hp Hk.
    destruct src as [[cdir |] tdirs [pdir |] [kdir |]];
      cbn [Build.componentsDir Build.providersDir Build.constantsDir
           Build.templateDirs] in *; try congruence.
    subst tdirs.
    pose proof (PipelineFacts.main_run cfg cdir pdir kdir None) as Hrun.
    cbv zeta in Hrun. destruct Hrun as [comps [provs [_ [_ Hrun]]]].
    unfold PipelineSpec.templateRun in Hrun.
    cbn [Build.templateDirs Templates.buildTemplateRegistry snd] in Hrun.
    destruct Hrun as [w [Hw [_ [_ [_ [_ [Ht _]]]]]]].
    rewrite Hw. eexists. split; [reflexivity|]. split; [reflexivity|].
    now apply Ht.
  - destruct (MainFacts.exit_code fs now) as [Hexit Hlast]. cbv zeta in *.
    destruct Hlast as [[H0 _] | [H1 _]]; [| exact H1].
    exfalso. apply (proj1 Hexit) in H0. destruct H0 as [Hs _].
    apply StructureFacts.structure_verdict_iff in Hs. destruct Hs as [_ Hf].
    specialize (Hf ["api"; "templates.json"]).
    assert (Hin : In ["api"; "templates.json"]
                     StructureValidator.requiredFiles).
    { right. right. now left. }
    specialize (Hf Hin). unfold RegistrySpec.fileBad in Hf.
    apply orb_false_iff in Hf. destruct Hf as [Hf _].
    apply negb_false_iff in Hf.
    destruct (Hfresh Hf) as [text Hx]. now apply (Hnever text).
Qed.

(** The build of a registry without templates and the validation of
    the tree it leaves. *)
Lemma missing_templates_directory_fails_validation_witness :
  (exists idx,
      snd (Build.main sampleConfig OutcomeSpec.bareSources) = Ok idx
      /\ Index.templates (Index.i_stats idx) = 0
      /\ In ["templates"]
            (Build.made (fst (Build.main sampleConfig OutcomeSpec.bareSources))))
  /\ snd (ValidationMain.main OutcomeSpec.bareTree "2024-05-01T10:00:00.000Z")
     = 1.
Proof.
  destruct (@missing_templates_directory_fails_validation
              sampleConfig OutcomeSpec.bareSources OutcomeSpec.bareTree
              "2024-05-01T10:00:00.000Z") as [H1 [_ H3]].
  - reflexivity.
  - assert (E : Registry.existsSync OutcomeSpec.bareTree
                  ["api"; "templates.json"] = false)
      by (vm_compute; reflexivity).
    rewrite E. discriminate.
  - split; [| exact H3]. apply H1; discriminate.
Defined.

(** ** Checksums and the files that are published *)

Module WrittenFacts.
Import JsString Json Builder Build Registry BuildSpec WrittenSpec.
Local Open Scope string_scope.

Lemma lastWrite_In (path : list string) (l : list (list string * string))
      (text : string) :
  lastWrite path l = Some text -> In (path, text) l.
Proof.
  induction l as [| [p t] l IH]; cbn [lastWrite fst snd]; [discriminate|].
  destruct (lastWrite path l) as [t' |].
  - intros H. right. now apply IH.
  - destruct (ValidatorSpec.pathEqb path p) eqn:E; [| discriminate].
    apply CaseFacts.pathEqb_eq in E. subst p.
    intros H. injection H as <-. now left.
Qed.

Lemma lastWrite_some (path : list string) (l : list (list string * string))
      (text : string) :
  In (path, text) l -> exists t, lastWrite path l = Some t.
Proof.
  induction l as [| [p t] l IH]; cbn [lastWrite fst snd In]; [intros []|].
  intros [H | H].
  - injection H as -> ->.
    destruct (lastWrite path l) as [t' |]; [now exists t'|].
    rewrite (proj2 (CaseFacts.pathEqb_eq path path) eq_refl). now exists text.
  - destruct (IH H) as [t' ->]. now exists t'.
Qed.

(** A path whose writes all wrote [text] holds [text]. *)
Lemma fileAt_written (w : world) (path : list string) (text : string) :
  In (path, text) (Build.disk w) ->
  (forall t, In (path, t) (Build.disk w) -> t = text) ->
  fileAt w path = Some text.
Proof.
  intros Hin Hall. unfold fileAt.
  destruct (lastWrite_some _ _ _ Hin) as [t Ht]. rewrite Ht.
  apply lastWrite_In in Ht. now rewrite (Hall t Ht).
Qed.

Lemma append_cancel_r (s : string) :
  forall a b : string, (a ++ s)%string = (b ++ s)%string -> a = b.
Proof.
  induction a as [| c a IH]; intros [| d b] H; cbn [append] in H.
  - reflexivity.
  - exfalso. apply (f_equal String.length) in H. cbn [String.length] in H.
    rewrite StringFacts.length_append in H. lia.
  - exfalso. apply (f_equal String.length) in H. cbn [String.length] in H.
    rewrite StringFacts.length_append in H. lia.
  - injection H as -> H. f_equal. now apply IH.
Qed.

Lemma NoDup_map_eq {A B : Type} (f : A -> B) (l : list A) (x y : A) :
  NoDup (map f l) -> In x l -> In y l -> f x = f y -> x = y.
Proof.
  induction l as [| a l IH]; cbn [map In]; [intros _ []|].
  intros Hn Hx Hy E. inversion Hn as [| ? ? Hnot Hn']; subst.
  destruct Hx as [-> | Hx], Hy as [-> | Hy].
  - reflexivity.
  - exfalso. apply Hnot. rewrite E. now apply in_map.
  - exfalso. apply Hnot. rewrite <- E. now apply in_map.
  - now apply IH.
Qed.


(** What the loop over the token files writes, and the records it
    adds. *)
Lemma token_loop_writes (cfg : config) (dir : directory)
      (files : list string) :
  forall w toks,
    exists w' added,
      fold_left (tokenStep cfg dir) files (w, toks)
      = (w', (toks ++ added)%list)
      /\ (forall f, In f (Build.disk w) -> In f (Build.disk w'))
      /\ (forall f, In f (Build.disk w') ->
            In f (Build.disk w)
            \/ exists file content,
                 In file files
                 /\ lookupFile dir file = Some content
                 /\ f = (["tokens";
                          replaceFirst file ".ts" "" ++ ".ts.template"],
                         content))
      /\ Forall (fun t =>
                   exists file content,
                     In file files
                     /\ lookupFile dir file = Some content
                     /\ t_name t = replaceFirst file ".ts" ""
                     /\ t_checksum t = MD5.md5hex content
                     /\ In (["tokens"; t_name t ++ ".ts.template"], content)
                           (Build.disk w'))
                added.
Proof.
  induction files as [| file files IH]; intros w toks; cbn [fold_left].
  - exists w, []. rewrite app_nil_r. split; [reflexivity|].
    split; [auto|]. split; [now left | constructor].
  - unfold tokenStep at 2.
    destruct (lookupFile dir file) as [content |] eqn:E.
    + match goal with
      | |- context [fold_left _ files (?w1, ?c1)] =>
          destruct (IH w1 c1) as [w' [added [H1 [H2 [H3 H4]]]]]
      end.
      eexists w', (_ :: added). rewrite H1, <- app_assoc. cbn [app].
      split; [reflexivity|].
      cbn [emit writeFileSync Build.disk] in H2, H3.
      split; [| split].
      * intros f Hf. apply H2. apply in_or_app. now left.
      * intros f Hf. apply H3 in Hf.
        destruct Hf as [Hf | [file' [content' [Hin Hrest]]]].
        -- apply in_app_or in Hf. destruct Hf as [Hf | [<- | []]];
             [now left|].
           right. exists file, content. split; [now left|]. now split.
        -- right. exists file', content'. split; [now right | exact Hrest].
      * constructor.
        -- exists file, content. cbn [t_name t_checksum].
           split; [now left|]. split; [exact E|].
           split; [reflexivity|]. split; [reflexivity|].
           apply H2. apply in_or_app. right. now left.
        -- eapply Forall_impl; [| exact H4].
           intros t [file' [content' [Hin Hrest]]]. exists file', content'.
           split; [now right | exact Hrest].
    + destruct (IH w toks) as [w' [added [H1 [H2 [H3 H4]]]]].
      exists w', added. rewrite H1. split; [reflexivity|].
      split; [exact H2|]. split.
      * intros f Hf. apply H3 in Hf.
        destruct Hf as [Hf | [file' [content' [Hin Hrest]]]]; [now left|].
        right. exists file', content'. split; [now right | exact Hrest].
      * eapply Forall_impl; [| exact H4].
        intros t [file' [content' [Hin Hrest]]]. exists file', content'.
        split; [now right | exact Hrest].
Qed.

End WrittenFacts.


(** X23: when no two token files give the same token name, the checksum
    of every token record is the MD5 of the file that the build leaves
    for it, which is the source text. *)
Theorem token_checksum_is_of_the_published_file :
  forall (cfg : config) (dir : Builder.directory),
    NoDup (WrittenSpec.tokenNames dir) ->
    let run := Build.buildTokenRegistry cfg (Some dir) BuildSpec.start in
    exists tokens,
      snd run = Ok tokens
      /\ Forall (fun t =>
                   exists file content,
                     Builder.lookupFile dir file = Some content
                     /\ Builder.t_name t = JsString.replaceFirst file ".ts" ""
                     /\ Builder.t_checksum t = MD5.md5hex content
                     /\ WrittenSpec.fileAt (fst run)
                          ["tokens"; (Builder.t_name t ++ ".ts.template")%string]
                        = Some content)
                tokens.
Proof.
  intros cfg dir Hnd. cbv zeta. unfold Build.buildTokenRegistry.
  unfold WrittenSpec.tokenNames in Hnd.
  set (files := filter (Builder.isSource ".ts") (Builder.readdirSync dir))
    in *.
  destruct (WrittenFacts.token_loop_writes cfg dir files
              (Build.ensureDir ["tokens"]
                 (Build.emit Build.LogBuildingTokens BuildSpec.start)) [])
    as [w1 [toks [H1 [_ [H3 H4]]]]].
  cbn [app] in H1. rewrite H1. exists toks. cbn [fst snd].
  split; [reflexivity|].
  cbn [Build.emit Build.writeFileSync Build.disk].
  eapply Forall_impl; [| exact H4].
  intros t [file [content [Hin [Hl [Hname [Hsum Hw]]]]]].
  exists file, content. split; [exact Hl|]. split; [exact Hname|].
  split; [exact Hsum|].
  apply WrittenFacts.fileAt_written.
  - cbn [Build.disk]. apply in_or_app. now left.
  - cbn [Build.disk]. intros text Hx. apply in_app_or in Hx.
    destruct Hx as [Hx | [Hx | []]]; [| discriminate Hx].
    apply H3 in Hx. destruct Hx as [[] | [file' [content' [Hin' [Hl' Hf]]]]].
    injection Hf as Hp ->. rewrite Hname in Hp.
    apply WrittenFacts.append_cancel_r in Hp.
    assert (file = file').
    { apply (@WrittenFacts.NoDup_map_eq _ _
               (fun file => JsString.replaceFirst file ".ts" "") files);
        assumption. }
    subst file'. rewrite Hl in Hl'. now injection Hl' as <-.
Qed.

(** The build of two token files. *)
Lemma token_checksum_is_of_the_published_file_witness :
  let run :=
    Build.buildTokenRegistry sampleConfig (Some WrittenSpec.tokenDir)
                             BuildSpec.start in
  exists tokens,
    snd run = Ok tokens
    /\ Forall (fun t =>
                 exists file content,
                   Builder.lookupFile WrittenSpec.tokenDir file = Some content
                   /\ Builder.t_name t = JsString.replaceFirst file ".ts" ""
                   /\ Builder.t_checksum t = MD5.md5hex content
                   /\ WrittenSpec.fileAt (fst run)
                        ["tokens"; (Builder.t_name t ++ ".ts.template")%string]
                      = Some content)
              tokens.
Proof.
  apply (@token_checksum_is_of_the_published_file sampleConfig
           WrittenSpec.tokenDir).
  vm_compute. repeat constructor; simpl; intuition discriminate.
Defined.

(** ** The names of the records *)

Module NamesFacts.
Import JsString Json Builder BuildSpec WrittenSpec NamesSpec.
Local Open Scope string_scope.

(** A file of the listing can be read. *)
Lemma lookup_listed (dir : directory) (file : string) :
  In file (readdirSync dir) -> exists content, lookupFile dir file = Some content.
Proof.
  unfold readdirSync.
  induction dir as [| [n text] dir IH]; cbn [map fst In lookupFile];
    [intros []|].
  intros H. destruct (String.eqb file n) eqn:E; [now exists text|].
  destruct H as [H | H]; [| now apply IH].
  subst n. now rewrite String.eqb_refl in E.
Qed.

Lemma component_names (cfg : config) (dir : directory) (names : list string) :
  forall acc,
    exists l,
      forEachM (componentStep cfg dir) names acc = Ok l
      /\ map Synthesizer.name l
         = (map Synthesizer.name acc
              ++ map toLowerCase (filter (hasSource dir) names))%list.
Proof.
  induction names as [| n names IH]; intros acc; cbn [forEachM filter].
  - exists acc. now rewrite app_nil_r.
  - unfold componentStep at 1, hasSource at 1.
    destruct (lookupFile dir (n ++ ".tsx")) as [content |] eqn:E.
    + destruct (BuilderFacts.analyzeComponentFile_returns dir (n ++ ".tsx") n E)
        as [a [Ha _]].
      rewrite Ha. cbn [bind].
      destruct (IH (acc ++ [Synthesizer.createComponentMetadata cfg n a])%list)
        as [l [H1 H2]].
      exists l. split; [exact H1|]. rewrite H2, map_app, <- app_assoc.
      reflexivity.
    + cbn [bind]. apply IH.
Qed.

Lemma provider_names (cfg : config) (dir : directory) (files : list string) :
  (forall file, In file files -> In file (readdirSync dir)) ->
  forall acc,
    exists l,
      forEachM (providerStep cfg dir) files acc = Ok l
      /\ map p_name l
         = (map p_name acc
              ++ map (fun file => toLowerCase (replaceFirst file ".tsx" ""))
                     files)%list.
Proof.
  induction files as [| file files IH]; intros Hin acc; cbn [forEachM map].
  - exists acc. now rewrite app_nil_r.
  - unfold providerStep at 1.
    destruct (lookup_listed dir file (Hin file (or_introl eq_refl)))
      as [content E].
    rewrite E.
    destruct (BuilderFacts.analyzeComponentFile_returns dir file
                (replaceFirst file ".tsx" "") E) as [a [Ha _]].
    rewrite Ha. cbn [bind].
    match goal with
    | |- context [forEachM _ files ?acc1] =>
        destruct (IH (fun f Hf => Hin f (or_intror Hf)) acc1) as [l [H1 H2]]
    end.
    exists l. split; [exact H1|]. rewrite H2, map_app, <- app_assoc.
    reflexivity.
Qed.

Lemma token_names (cfg : config) (dir : directory) (files : list string) :
  (forall file, In file files -> In file (readdirSync dir)) ->
  forall acc,
    map t_name (fold_left (tokenStep cfg dir) files acc)
    = (map t_name acc
         ++ map (fun file => replaceFirst file ".ts" "") files)%list.
Proof.
  induction files as [| file files IH]; intros Hin acc; cbn [fold_left map].
  - now rewrite app_nil_r.
  - rewrite (IH (fun f Hf => Hin f (or_intror Hf))).
    unfold tokenStep.
    destruct (lookup_listed dir file (Hin file (or_introl eq_refl)))
      as [content ->].
    rewrite map_app, <- app_assoc. reflexivity.
Qed.

End NamesFacts.

(** X24: the builders name their records after the files, one record per
    file and in the order of the listing, without looking at the names
    already given: a component after each file name without its first
    [.tsx], in lower case, whose source is found under that name with
    [.tsx]; a provider after each file name without its first [.tsx],
    in lower case; a token after each file name without its first
    [.ts].  Two files whose names so agree give two records of one
    name. *)
Theorem record_names_follow_the_files :
  forall (cfg : config) (dir : Builder.directory),
    (exists comps,
        Builder.buildComponentRegistry cfg dir = Ok comps
        /\ map Synthesizer.name comps
           = map JsString.toLowerCase
                 (filter (NamesSpec.hasSource dir) (BuildSpec.stems dir)))
    /\ (exists provs,
           Builder.buildProviderRegistry cfg dir = Ok provs
           /\ map Builder.p_name provs
              = map JsString.toLowerCase (NamesSpec.providerNames dir))
    /\ map Builder.t_name (Builder.buildTokenRegistry cfg dir)
       = WrittenSpec.tokenNames dir.
Proof.
  intros cfg dir. split; [| split].
  - destruct (NamesFacts.component_names cfg dir (BuildSpec.stems dir) [])
      as [l [H1 H2]].
    exists l. split; [exact H1 | exact H2].
  - destruct (@NamesFacts.provider_names cfg dir
                (filter (Builder.isSource ".tsx") (Builder.readdirSync dir)))
      with (acc := @nil Builder.provider) as [l [H1 H2]].
    + intros file Hf. apply filter_In in Hf. tauto.
    + exists l. split; [exact H1|]. rewrite H2. cbn [map app].
      unfold NamesSpec.providerNames. now rewrite map_map.
  - unfold Builder.buildTokenRegistry.
    rewrite NamesFacts.token_names.
    + reflexivity.
    + intros file Hf. apply filter_In in Hf. tauto.
Qed.
